(** * affy2vcf: container readers, genotype/intensity iterator and cluster models

    A shallow embedding of [affy2vcf.c] (gtc2vcf).  Byte streams are lists of
    bytes with a position, C integers are [Z] with their wrap-around written
    out, [error(...)] is the [Fatal] outcome and [return -1] is [Stop].
    Arithmetic on C [float] is kept behind an interface ([FloatArith],
    [FloatLibc]) with two interpretations: IEEE binary32 with
    round-to-nearest-even, and exact real arithmetic.

    Part I holds the definitions, Part II the lemmas and theorems. *)

From Stdlib Require Import String.
From Stdlib Require Import ZArith List Lia Bool.
From Stdlib.Strings Require Import Byte.
From Stdlib Require Import SpecFloat.
From Stdlib Require Import Reals Lra Psatz.
Import ListNotations.
Local Open Scope Z_scope.

(* ================================================================== *)
(** * Part I: definitions                                              *)
(* ================================================================== *)

(** ** Outcomes of a call *)

(** One constructor per [error(...)] message of the source. *)
Inductive error : Type :=
| FailedToRead              (* "Failed to read %ld bytes from stream" *)
| XdaBadMagic               (* "... magic number is %d while it should be 64" *)
| XdaBadVersion             (* "Unsupported XDA CEL file format version" *)
| XdaTrailingData           (* "XDA CEL reader did not reach the end of file" *)
| MimeTypeNotAllowed        (* "MIME type %ls not allowed" *)
| ProbeSetNameTooLong       (* "Probe Set Name %s is too long" *)
| ProbeSetNameMismatch      (* "Probe Set Name mismatch: %s %s" *)
| ExpectedColumns           (* "Expected %d columns but %d columns found ..." *)
| ExpectedMinusA            (* "Found Probe Set ID %s while a -A was expected" *)
| CannotReadIntensities     (* "Cannot read Probe Set %s intensities" *)
| SummaryEndedPrematurely   (* "Summary file ended prematurely" *)
| GenotypeMalformed.        (* "Genotype for Probe Set ID %s is malformed: %d" *)

(** [Ok a]: the call returns normally with [a].  [Stop]: [varitr_loop]
    returns -1.  [Fatal e]: [error] prints a message and exits.
    [Undefined]: the C code reads or writes outside an object, or converts a
    negative length to [size_t]; the embedding follows it no further. *)
Inductive result (A : Type) : Type :=
| Ok (a : A)
| Stop
| Fatal (e : error)
| Undefined.

Arguments Ok {A} a.
Arguments Stop {A}.
Arguments Fatal {A} e.
Arguments Undefined {A}.

Definition bind {A B : Type} (c : result A) (k : A -> result B) : result B :=
  match c with
  | Ok a => k a
  | Stop => Stop
  | Fatal e => Fatal e
  | Undefined => Undefined
  end.

Notation "x <- c ;; k" := (bind c (fun x => k))
  (at level 61, c at next level, right associativity).
Notation "' p <- c ;; k" := (bind c (fun x => let 'p := x in k))
  (at level 61, p pattern, c at next level, right associativity).

Definition is_fatal {A : Type} (r : result A) : bool :=
  match r with Fatal _ => true | _ => false end.

(** ** Bytes, C strings and machine integers *)

Definition u8 (b : byte) : Z := Z.of_N (Byte.to_N b).

Definition is_nul (b : byte) : bool := Byte.eqb b "000"%byte.

(** A string literal of the source as its bytes (without the terminator). *)
Definition cstr (s : string) : list byte := list_byte_of_string s.

Definition wrap32 (x : Z) : Z := x mod 2 ^ 32.

(** [(int32_t)u] for a [uint32_t] value [u]. *)
Definition to_int32 (u : Z) : Z := if u <? 2 ^ 31 then u else u - 2 ^ 32.

(** The byte order of the machine the program runs on. *)
Inductive byte_order : Type := LittleEndian | BigEndian.

(** The value of four or two bytes with the most significant first. *)
Definition be32 (b0 b1 b2 b3 : byte) : Z :=
  Z.lor (Z.shiftl (u8 b0) 24)
        (Z.lor (Z.shiftl (u8 b1) 16) (Z.lor (Z.shiftl (u8 b2) 8) (u8 b3))).

Definition be16 (b0 b1 : byte) : Z := Z.lor (Z.shiftl (u8 b0) 8) (u8 b1).

(** [*(uint32_t * )p] and [*(uint16_t * )p] where [p] points at the given
    bytes: the host's own byte order decides. *)
Definition load_uint32 (host : byte_order) (b0 b1 b2 b3 : byte) : Z :=
  match host with
  | BigEndian => be32 b0 b1 b2 b3
  | LittleEndian => be32 b3 b2 b1 b0
  end.

Definition load_uint16 (host : byte_order) (b0 b1 : byte) : Z :=
  match host with
  | BigEndian => be16 b0 b1
  | LittleEndian => be16 b1 b0
  end.

Definition bswap32 (v : Z) : Z :=
  Z.lor (Z.shiftl (Z.land v 255) 24)
        (Z.lor (Z.shiftl (Z.land (Z.shiftr v 8) 255) 16)
               (Z.lor (Z.shiftl (Z.land (Z.shiftr v 16) 255) 8)
                      (Z.land (Z.shiftr v 24) 255))).

Definition bswap16 (v : Z) : Z :=
  Z.lor (Z.shiftl (Z.land v 255) 8) (Z.land (Z.shiftr v 8) 255).

(** [ntohl], [ntohs] of <arpa/inet.h>: the identity on a big-endian host, a
    byte swap on a little-endian one. *)
Definition ntohl (host : byte_order) (v : Z) : Z :=
  match host with BigEndian => v | LittleEndian => bswap32 v end.

Definition ntohs (host : byte_order) (v : Z) : Z :=
  match host with BigEndian => v | LittleEndian => bswap16 v end.

(** Array update [a[i] = v]; the source never calls it out of range. *)
Fixpoint upd {A : Type} (i : nat) (v : A) (l : list A) : list A :=
  match l, i with
  | [], _ => []
  | _ :: t, O => v :: t
  | h :: t, S i' => h :: upd i' v t
  end.

(** ** READING ROUTINES *)

(** An [hFILE]: the bytes of the file and the current position. *)
Record hFILE : Type := mk_hFILE { contents : list byte; position : nat }.

Definition hopen (bs : list byte) : hFILE := mk_hFILE bs 0.

Definition remaining (fp : hFILE) : list byte := skipn (position fp) (contents fp).

(** [hseek(fp, pos, SEEK_SET)]; seeking past the end is allowed. *)
Definition hseek (fp : hFILE) (pos : Z) : hFILE := mk_hFILE (contents fp) (Z.to_nat pos).

(** [heof]: [hgetc(fp) == EOF], the byte is pushed back otherwise. *)
Definition heof (fp : hFILE) : bool :=
  match remaining fp with [] => true | _ => false end.

(** [hpeek(fp, buffer, nbytes)]: up to [nbytes] bytes, position unchanged. *)
Definition hpeek (fp : hFILE) (nbytes : nat) : list byte := firstn nbytes (remaining fp).

(** [read_bytes(fp, buffer, nbytes)] with a buffer. *)
Definition read_bytes (fp : hFILE) (nbytes : nat) : result (list byte * hFILE) :=
  let got := firstn nbytes (remaining fp) in
  if (length got <? nbytes)%nat then Fatal FailedToRead
  else Ok (got, mk_hFILE (contents fp) (position fp + nbytes)).

Section Reading.

Variable host : byte_order.

(** Four bytes stored into an [int32_t] or [uint32_t] object and used as they
    are (no [ntohl]): what [xda_cel_init] does with every header field. *)
Definition read_native32 (fp : hFILE) : result (Z * hFILE) :=
  '(bs, fp') <- read_bytes fp 4 ;;
  match bs with
  | [b0; b1; b2; b3] => Ok (load_uint32 host b0 b1 b2 b3, fp')
  | _ => Undefined
  end.

Definition read_long (fp : hFILE) : result (Z * hFILE) :=
  '(value, fp') <- read_native32 fp ;;
  Ok (ntohl host value, fp').

Definition read_short (fp : hFILE) : result (Z * hFILE) :=
  '(bs, fp') <- read_bytes fp 2 ;;
  match bs with
  | [b0; b1] => Ok (ntohs host (load_uint16 host b0 b1), fp')
  | _ => Undefined
  end.

(** [read_string8]: [None] is the NULL buffer of a zero length.  A negative
    length turns into a huge [size_t]. *)
Definition read_string8 (fp : hFILE) : result (Z * option (list byte) * hFILE) :=
  '(u, fp1) <- read_long fp ;;
  let len := to_int32 u in
  if len =? 0 then Ok (len, None, fp1)
  else if len <? 0 then Undefined
  else
    '(bs, fp2) <- read_bytes fp1 (Z.to_nat len) ;;
    Ok (len, Some bs, fp2).

Fixpoint read_wchars (n : nat) (fp : hFILE) : result (list Z * hFILE) :=
  match n with
  | O => Ok ([], fp)
  | S n' =>
      '(c, fp1) <- read_short fp ;;
      '(cs, fp2) <- read_wchars n' fp1 ;;
      Ok (c :: cs, fp2)
  end.

Definition read_string16 (fp : hFILE) : result (Z * option (list Z) * hFILE) :=
  '(u, fp1) <- read_long fp ;;
  let len := to_int32 u in
  if len =? 0 then Ok (len, None, fp1)
  else if len <? 0 then Undefined
  else
    '(cs, fp2) <- read_wchars (Z.to_nat len) fp1 ;;
    Ok (len, Some cs, fp2).

End Reading.

(** ** Arithmetic on C [float]

    The operations the source applies to [float] values.  A definition that
    uses them follows the source operation by operation; what a theorem proves
    of it holds under every interpretation. *)

Class FloatArith : Type := {
  float : Type;
  of_bits : Z -> float;     (* union { uint32_t u; float f; } convert *)
  fadd : float -> float -> float;
  fsub : float -> float -> float;
  fmul : float -> float -> float;
  fdiv : float -> float -> float;
  fneg : float -> float;
  f_0_2 : float;            (* 0.2f *)
  f_0_5 : float;            (* 0.5f *)
  f_1 : float;              (* the 1 added by [k++] *)
  f_2 : float;              (* 2.0f *)
  f_NAN : float             (* NAN *)
}.

(** <math.h> and [strtof]. *)
Class FloatLibc (FA : FloatArith) : Type := {
  logf : float -> float;
  expf : float -> float;
  atanf : float -> float;
  coshf : float -> float;
  strtof : list byte -> float;
  M_LN2 : float;            (* (float)M_LN2 *)
  M_LOG2E : float;          (* (float)M_LOG2E *)
  M_2_PI : float            (* (float)M_2_PI *)
}.

Declare Scope float_scope.
Delimit Scope float_scope with flt.
Infix "+" := fadd : float_scope.
Infix "-" := fsub : float_scope.
Infix "*" := fmul : float_scope.
Infix "/" := fdiv : float_scope.
Notation "- x" := (fneg x) : float_scope.

(** *** IEEE binary32, round to nearest even *)

Definition b32_of_bits (u : Z) : spec_float :=
  let s := Z.testbit u 31 in
  let e := Z.land (Z.shiftr u 23) 255 in
  let m := Z.land u (2 ^ 23 - 1) in
  if e =? 255 then (if m =? 0 then S754_infinity s else S754_nan)
  else if e =? 0 then
    match m with Zpos p => S754_finite s p (-149) | _ => S754_zero s end
  else
    match m + 2 ^ 23 with Zpos p => S754_finite s p (e - 150) | _ => S754_nan end.

#[export] Instance binary32 : FloatArith := {
  float := spec_float;
  of_bits := b32_of_bits;
  fadd := SFadd 24 128;
  fsub := SFsub 24 128;
  fmul := SFmul 24 128;
  fdiv := SFdiv 24 128;
  fneg := SFopp;
  f_0_2 := b32_of_bits 0x3E4CCCCD;
  f_0_5 := b32_of_bits 0x3F000000;
  f_1 := b32_of_bits 0x3F800000;
  f_2 := b32_of_bits 0x40000000;
  f_NAN := S754_nan
}.

(** *** Exact real arithmetic

    Every operation without rounding, the literals at their decimal value.
    The reals have no infinities and no NaN: those bit patterns, and NAN, are
    read as 0. *)

Definition R_of_bits (u : Z) : R :=
  let s := Z.testbit u 31 in
  let e := Z.land (Z.shiftr u 23) 255 in
  let m := Z.land u (2 ^ 23 - 1) in
  if e =? 255 then 0%R
  else
    let x := if e =? 0 then (IZR m * powerRZ 2 (-149))%R
             else (IZR (m + 2 ^ 23) * powerRZ 2 (e - 150))%R in
    if s then (- x)%R else x.

#[export] Instance exact_real : FloatArith := {
  float := R;
  of_bits := R_of_bits;
  fadd := Rplus;
  fsub := Rminus;
  fmul := Rmult;
  fdiv := Rdiv;
  fneg := Ropp;
  f_0_2 := (2 / 10)%R;
  f_0_5 := (5 / 10)%R;
  f_1 := 1%R;
  f_2 := 2%R;
  f_NAN := 0%R
}.

(** [strtol] and [strtof] on decimal notation. *)

Definition isspace (b : byte) : bool :=
  let n := u8 b in (n =? 32) || ((9 <=? n) && (n <=? 13)).

Definition digit_val (b : byte) : option Z :=
  let n := u8 b in if (48 <=? n) && (n <=? 57) then Some (n - 48) else None.

Fixpoint skip_space (s : list byte) : list byte :=
  match s with
  | c :: t => if isspace c then skip_space t else s
  | [] => []
  end.

Definition read_sign (s : list byte) : bool * list byte :=
  match s with
  | c :: t =>
      if Byte.eqb c "-"%byte then (true, t)
      else if Byte.eqb c "+"%byte then (false, t)
      else (false, s)
  | [] => (false, [])
  end.

Fixpoint read_digits (s : list byte) (acc : Z) (n : nat) : Z * nat * list byte :=
  match s with
  | c :: t =>
      match digit_val c with
      | Some d => read_digits t (10 * acc + d) (S n)
      | None => (acc, n, s)
      end
  | [] => (acc, n, [])
  end.

(** [(int)strtol(s, &tmp, 10)]: optional white space and sign, then digits;
    0 when there is no digit; the [long] result is clamped to its range and
    truncated to [int]. *)
Definition strtol (s : list byte) : Z :=
  let '(neg, s1) := read_sign (skip_space s) in
  let '(v, _, _) := read_digits s1 0 O in
  let l := if neg then Z.max (- 2 ^ 63) (- v) else Z.min (2 ^ 63 - 1) v in
  to_int32 (wrap32 l).

(** The decimal subset of [strtof]: optional white space and sign, digits and
    an optional fraction.  The result is the signed mantissa and the number of
    fraction digits.  Exponents, hexadecimal notation, "inf" and "nan" are
    left out. *)
Definition strtof_decimal (s : list byte) : Z * nat :=
  let '(neg, s1) := read_sign (skip_space s) in
  let '(i, _, s2) := read_digits s1 0 O in
  let '(m, d) :=
    match s2 with
    | c :: s3 =>
        if Byte.eqb c "."%byte then
          let '(m, d, _) := read_digits s3 i O in (m, d)
        else (i, O)
    | [] => (i, O)
    end in
  (if neg then - m else m, d).

Definition R_strtof (s : list byte) : R :=
  let '(m, d) := strtof_decimal s in (IZR m / IZR (10 ^ Z.of_nat d))%R.

#[export] Instance exact_real_libc : FloatLibc exact_real := {
  logf := ln;
  expf := exp;
  atanf := atan;
  coshf := cosh;
  strtof := R_strtof;
  M_LN2 := ln 2;
  M_LOG2E := (/ ln 2)%R;
  M_2_PI := (2 / PI)%R
}.

(** ** CEL FILE IMPLEMENTATION (XDA) *)

Module XDA.

(** [sizeof(Cell)], [sizeof(Entry)], [sizeof(SubGrid)]. *)
Definition sizeof_Cell : Z := 10.
Definition sizeof_Entry : Z := 4.
Definition sizeof_SubGrid : Z := 56.

(** The arrays are kept as the bytes [read_bytes] stored. *)
Record xda_cel_t : Type := mk_xda_cel {
  version : Z;
  num_rows : Z;
  num_cols : Z;
  num_cells : Z;
  n_header : Z;
  header : list byte;
  n_algorithm : Z;
  algorithm : list byte;
  n_parameters : Z;
  parameters : list byte;
  cell_margin : Z;
  num_outlier_cells : Z;
  num_masked_cells : Z;
  num_sub_grids : Z;
  cells : list byte;
  masked_entries : list byte;
  outlier_entries : list byte;
  sub_grids : list byte;
  fp : hFILE
}.

Section Reader.

Variable host : byte_order.

(** [read_bytes(fp, &field, sizeof(int32_t))] into an [int32_t] field. *)
Definition read_int32 (fp : hFILE) : result (Z * hFILE) :=
  '(u, fp') <- read_native32 host fp ;;
  Ok (to_int32 u, fp').

(** [read_bytes(fp, &field, sizeof(uint32_t))] into a [uint32_t] field. *)
Definition read_uint32 (fp : hFILE) : result (Z * hFILE) := read_native32 host fp.

(** A length, then [malloc(1 + n)] and [read_bytes] of [n] bytes. *)
Definition read_text (fp : hFILE) : result (Z * list byte * hFILE) :=
  '(n, fp1) <- read_int32 fp ;;
  if n <? 0 then Undefined
  else
    '(bs, fp2) <- read_bytes fp1 (Z.to_nat n) ;;
    Ok (n, bs, fp2).

(** [malloc(count * size)] and [read_bytes] of as many bytes. *)
Definition read_array (fp : hFILE) (count size : Z) : result (list byte * hFILE) :=
  if count <? 0 then Undefined else read_bytes fp (Z.to_nat (count * size)).

Definition xda_cel_init (fp0 : hFILE) (flags : Z) : result xda_cel_t :=
  '(magic, fp1) <- read_int32 fp0 ;;
  if negb (magic =? 64) then Fatal XdaBadMagic
  else
  '(version, fp2) <- read_int32 fp1 ;;
  if negb (version =? 4) then Fatal XdaBadVersion
  else
  '(num_rows, fp3) <- read_int32 fp2 ;;
  '(num_cols, fp4) <- read_int32 fp3 ;;
  '(num_cells, fp5) <- read_int32 fp4 ;;
  '(n_header, header, fp6) <- read_text fp5 ;;
  '(n_algorithm, algorithm, fp7) <- read_text fp6 ;;
  '(n_parameters, parameters, fp8) <- read_text fp7 ;;
  '(cell_margin, fp9) <- read_int32 fp8 ;;
  '(num_outlier_cells, fp10) <- read_uint32 fp9 ;;
  '(num_masked_cells, fp11) <- read_uint32 fp10 ;;
  '(num_sub_grids, fp12) <- read_int32 fp11 ;;
  let hdr cells masked outlier grids fp :=
    mk_xda_cel version num_rows num_cols num_cells n_header header
               n_algorithm algorithm n_parameters parameters cell_margin
               num_outlier_cells num_masked_cells num_sub_grids
               cells masked outlier grids fp in
  if negb (flags =? 0) then Ok (hdr [] [] [] [] fp12)
  else
  '(cells, fp13) <- read_array fp12 num_cells sizeof_Cell ;;
  '(masked_entries, fp14) <- read_array fp13 num_masked_cells sizeof_Entry ;;
  '(outlier_entries, fp15) <- read_array fp14 num_outlier_cells sizeof_Entry ;;
  '(sub_grids, fp16) <- read_array fp15 num_sub_grids sizeof_SubGrid ;;
  if negb (heof fp16) then Fatal XdaTrailingData
  else Ok (hdr cells masked_entries outlier_entries sub_grids fp16).

End Reader.

End XDA.

(** ** CHP FILE IMPLEMENTATION (AGCC) *)

Definition BYTE : Z := 0.
Definition UBYTE : Z := 1.
Definition SHORT : Z := 2.
Definition USHORT : Z := 3.
Definition INT : Z := 4.
Definition UINT : Z := 5.
Definition FLOAT : Z := 6.
Definition STRING : Z := 7.
Definition WSTRING : Z := 8.

(** A [wchar_t] string literal [L"..."]. *)
Definition wstr (s : string) : list Z := map u8 (list_byte_of_string s).

(** The characters of a [wchar_t] array up to its terminator. *)
Fixpoint wcs (s : list Z) : list Z :=
  match s with
  | c :: t => if c =? 0 then [] else c :: wcs t
  | [] => []
  end.

Definition list_Z_eqb (a b : list Z) : bool :=
  if list_eq_dec Z.eq_dec a b then true else false.

(** [wcscmp(a, b) == 0] and [wcsncmp(a, b, n) == 0]. *)
Definition wcs_eq (a b : list Z) : bool := list_Z_eqb (wcs a) (wcs b).
Definition wcsn_eq (a b : list Z) (n : nat) : bool :=
  list_Z_eqb (firstn n (wcs a)) (firstn n (wcs b)).

(** The struct [Parameter] of the source. *)
Record Param : Type := mk_Param {
  param_name : option (list Z);
  param_value : option (list byte);
  param_mime_type : option (list Z);
  n_value : Z;
  param_type : Z
}.

Record ColHeader : Type := mk_ColHeader {
  col_name : option (list Z);
  col_type : Z;
  size : Z
}.

(** [fp] is the container's stream, which the data set points to; [buffer]
    holds the row last read. *)
Record DataSet : Type := mk_DataSet {
  pos_first_element : Z;
  pos_next_data_set : Z;
  name : option (list Z);
  n_parameters : Z;
  parameters : list Param;
  n_cols : Z;
  col_headers : list ColHeader;
  n_rows : Z;
  fp : hFILE;
  n_buffer : Z;
  col_offsets : list Z;
  buffer : list byte
}.

Definition mime_types : list (list Z * Z) :=
  [ (wstr "text/x-calvin-integer-8", BYTE);
    (wstr "text/x-calvin-unsigned-integer-8", UBYTE);
    (wstr "text/x-calvin-integer-16", SHORT);
    (wstr "text/x-calvin-unsigned-integer-16", USHORT);
    (wstr "text/x-calvin-integer-32", INT);
    (wstr "text/x-calvin-unsigned-integer-32", UINT);
    (wstr "text/x-calvin-float", FLOAT);
    (wstr "text/ascii", STRING);
    (wstr "text/plain", WSTRING) ].

Fixpoint mime_lookup (m : list Z) (tbl : list (list Z * Z)) : option Z :=
  match tbl with
  | (s, t) :: tbl' => if wcs_eq m s then Some t else mime_lookup m tbl'
  | [] => None
  end.

(** The offsets and the row width of lines 490-495: [n_buffer] is a
    [uint32_t], so each addition wraps. *)
Fixpoint col_layout (cols : list ColHeader) (n_buffer : Z) : list Z * Z :=
  match cols with
  | [] => ([], n_buffer)
  | c :: cols' =>
      let '(offs, total) := col_layout cols' (wrap32 (n_buffer + size c)) in
      (n_buffer :: offs, total)
  end.

Section AGCC.

Variable host : byte_order.

(** [wcscmp] and [wcsncmp] dereference their arguments: a NULL name or MIME
    type (a zero length in the file) is outside C. *)
Definition agcc_read_parameters (fp0 : hFILE) (flags : Z) : result (Param * hFILE) :=
  '(_, name, fp1) <- read_string16 host fp0 ;;
  '(n_value, value, fp2) <- read_string8 host fp1 ;;
  '(_, mime_type, fp3) <- read_string16 host fp2 ;;
  match mime_type with
  | None => Undefined
  | Some m =>
      match mime_lookup m mime_types with
      | None => Fatal MimeTypeNotAllowed
      | Some type =>
          if negb (flags =? 0) then
            match name with
            | None => Undefined
            | Some nm =>
                if wcsn_eq nm (wstr "affymetrix-algorithm-param-apt-opt-cel") 38
                then Ok (mk_Param None None None 0 type, fp3)
                else Ok (mk_Param name value mime_type n_value type, fp3)
            end
          else Ok (mk_Param name value mime_type n_value type, fp3)
      end
  end.

Fixpoint read_parameters (n : nat) (fp0 : hFILE) (flags : Z)
  : result (list Param * hFILE) :=
  match n with
  | O => Ok ([], fp0)
  | S n' =>
      '(p, fp1) <- agcc_read_parameters fp0 flags ;;
      '(ps, fp2) <- read_parameters n' fp1 flags ;;
      Ok (p :: ps, fp2)
  end.

(** [(int8_t)b]. *)
Definition to_int8 (b : byte) : Z := if u8 b <? 128 then u8 b else u8 b - 256.

Fixpoint read_col_headers (n : nat) (fp0 : hFILE) : result (list ColHeader * hFILE) :=
  match n with
  | O => Ok ([], fp0)
  | S n' =>
      '(_, name, fp1) <- read_string16 host fp0 ;;
      '(bs, fp2) <- read_bytes fp1 1 ;;
      '(sz, fp3) <- read_long host fp2 ;;
      '(cs, fp4) <- read_col_headers n' fp3 ;;
      Ok (mk_ColHeader name (to_int8 (hd "000"%byte bs)) (to_int32 sz) :: cs, fp4)
  end.

Definition agcc_read_data_set (fp0 : hFILE) (flags : Z) : result DataSet :=
  '(pos_first_element, fp1) <- read_long host fp0 ;;
  '(pos_next_data_set, fp2) <- read_long host fp1 ;;
  '(_, name, fp3) <- read_string16 host fp2 ;;
  '(np, fp4) <- read_long host fp3 ;;
  let n_parameters := to_int32 np in
  '(parameters, fp5) <- read_parameters (Z.to_nat n_parameters) fp4 flags ;;
  '(n_cols, fp6) <- read_long host fp5 ;;
  '(col_headers, fp7) <- read_col_headers (Z.to_nat n_cols) fp6 ;;
  '(n_rows, fp8) <- read_long host fp7 ;;
  let '(col_offsets, n_buffer) := col_layout col_headers 0 in
  let fp9 := if negb (pos_next_data_set =? 0) then hseek fp8 pos_next_data_set else fp8 in
  Ok (mk_DataSet pos_first_element pos_next_data_set name n_parameters parameters
                 n_cols col_headers n_rows fp9 n_buffer col_offsets []).

End AGCC.

(** ** Genotype calls *)

Definition GT_NC : Z := -1.
Definition GT_AA : Z := 0.
Definition GT_AB : Z := 1.
Definition GT_BB : Z := 2.

(** ** CLUSTER MODELS, cluster adjustment and BAF/LRR *)

Module Clusters.

Section WithFloat.

Context {FA : FloatArith}.

Record cluster_t : Type := mk_cluster {
  xm : float;    (* delta mean of cluster *)
  xss : float;   (* delta variance of cluster *)
  k : float;     (* strength of mean (pseudo-observations) *)
  v : float;     (* strength of variance (pseudo-observations) *)
  ym : float;    (* size mean of cluster in other dimension *)
  yss : float;   (* size variance of cluster in other dimension *)
  xyss : float   (* covariance of cluster in both directions *)
}.

Record snp_t : Type := mk_snp {
  probe_set_id : list byte;
  copynumber : Z;
  aa : cluster_t;
  ab : cluster_t;
  bb : cluster_t
}.

(** Assignments to one field. *)
Definition set_xm (x : float) (c : cluster_t) : cluster_t :=
  mk_cluster x (xss c) (k c) (v c) (ym c) (yss c) (xyss c).
Definition set_k (x : float) (c : cluster_t) : cluster_t :=
  mk_cluster (xm c) (xss c) x (v c) (ym c) (yss c) (xyss c).
Definition set_ym (x : float) (c : cluster_t) : cluster_t :=
  mk_cluster (xm c) (xss c) (k c) (v c) x (yss c) (xyss c).

Definition on_aa (f : cluster_t -> cluster_t) (snp : snp_t) : snp_t :=
  mk_snp (probe_set_id snp) (copynumber snp) (f (aa snp)) (ab snp) (bb snp).
Definition on_ab (f : cluster_t -> cluster_t) (snp : snp_t) : snp_t :=
  mk_snp (probe_set_id snp) (copynumber snp) (aa snp) (f (ab snp)) (bb snp).
Definition on_bb (f : cluster_t -> cluster_t) (snp : snp_t) : snp_t :=
  mk_snp (probe_set_id snp) (copynumber snp) (aa snp) (ab snp) (f (bb snp)).

Local Open Scope float_scope.

(** [k++; xm += x[i]; ym += y[i];] *)
Definition add_observation (xi yi : float) (c : cluster_t) : cluster_t :=
  let c1 := set_k (k c + f_1) c in
  let c2 := set_xm (xm c1 + xi) c1 in
  set_ym (ym c2 + yi) c2.

(** The body of the loop: [switch (gts[i])]. *)
Definition adjust_sample (gt : Z) (xi yi : float) (snp : snp_t) : snp_t :=
  if (gt =? GT_AA)%Z then on_aa (add_observation xi yi) snp
  else if (gt =? GT_AB)%Z then on_ab (add_observation xi yi) snp
  else if (gt =? GT_BB)%Z then on_bb (add_observation xi yi) snp
  else snp.

(** [for (int i = 0; i < n; i++)], [todo] iterations left.  The arrays hold
    [n] entries; [nth] gives its default nowhere below [n]. *)
Fixpoint adjust_loop (todo i : nat) (gts : list Z) (x y : list float) (snp : snp_t)
  : snp_t :=
  match todo with
  | O => snp
  | S todo' =>
      adjust_loop todo' (S i) gts x y
        (adjust_sample (nth i gts GT_NC) (nth i x f_NAN) (nth i y f_NAN) snp)
  end.

Definition adjust_clusters (gts : list Z) (x y : list float) (n : nat) (snp : snp_t)
  : snp_t :=
  let s1 := on_aa (fun c => set_xm (xm c * f_0_2) c) snp in
  let s2 := on_ab (fun c => set_xm (xm c * f_0_2) c) s1 in
  let s3 := on_bb (fun c => set_xm (xm c * f_0_2) c) s2 in
  let s4 := on_aa (fun c => set_ym (ym c * f_0_2) c) s3 in
  let s5 := on_ab (fun c => set_ym (ym c * f_0_2) c) s4 in
  let s6 := on_bb (fun c => set_ym (ym c * f_0_2) c) s5 in
  let s7 := on_aa (set_k f_0_2) s6 in
  let s8 := on_ab (set_k f_0_2) s7 in
  let s9 := on_bb (set_k f_0_2) s8 in
  let t0 := adjust_loop n 0 gts x y s9 in
  let t1 := on_aa (fun c => set_xm (xm c / k c) c) t0 in
  let t2 := on_ab (fun c => set_xm (xm c / k c) c) t1 in
  let t3 := on_bb (fun c => set_xm (xm c / k c) c) t2 in
  let t4 := on_aa (fun c => set_ym (ym c / k c) c) t3 in
  let t5 := on_ab (fun c => set_ym (ym c / k c) c) t4 in
  on_bb (fun c => set_ym (ym c / k c) c) t5.

(** The values of the samples called [gt] among the [n] samples from [i] on,
    in sample order. *)
Definition called_from (gt : Z) (gts : list Z) (x : list float) (i n : nat)
  : list float :=
  map (fun j => nth j x f_NAN)
      (filter (fun j => (nth j gts GT_NC =? gt)%Z) (seq i n)).

Definition called (gt : Z) (gts : list Z) (x : list float) (n : nat) : list float :=
  called_from gt gts x 0 n.

(** [init + v1 + v2 + ...] and [init + 1 + 1 + ...], added from the left. *)
Definition add_all (init : float) (vs : list float) : float := fold_left fadd vs init.
Definition add_ones (init : float) (vs : list float) : float :=
  fold_left (fun acc _ => acc + f_1) vs init.

(** What the loop of [adjust_clusters] does to one cluster. *)
Definition cluster_after (gt : Z) (gts : list Z) (x y : list float) (i n : nat)
  (c c' : cluster_t) : Prop :=
  xm c' = add_all (xm c) (called_from gt gts x i n) /\
  ym c' = add_all (ym c) (called_from gt gts y i n) /\
  k c' = add_ones (k c) (called_from gt gts x i n) /\
  xss c' = xss c /\ v c' = v c /\ yss c' = yss c /\ xyss c' = xyss c.

(** The posterior means of a cluster: the prior mean scaled by 0.2 plus the
    values of the samples called [gt], over 0.2 plus one per such sample. *)
Definition posterior (gt : Z) (gts : list Z) (x y : list float) (n : nat)
  (prior post : cluster_t) : Prop :=
  xm post = add_all (xm prior * f_0_2) (called gt gts x n)
            / add_ones f_0_2 (called gt gts x n) /\
  ym post = add_all (ym prior * f_0_2) (called gt gts y n)
            / add_ones f_0_2 (called gt gts y n).

(** No sample below [n] is called [gt]. *)
Definition uncalled (gt : Z) (gts : list Z) (n : nat) : Prop :=
  forall i, (i < n)%nat -> nth i gts GT_NC <> gt.

(** The means of a cluster without supporting calls: the scaled prior over
    the prior weight. *)
Definition scaled_prior_only (prior post : cluster_t) : Prop :=
  xm post = xm prior * f_0_2 / f_0_2 /\ ym post = ym prior * f_0_2 / f_0_2.

(** The fields that [adjust_clusters] leaves alone. *)
Definition same_variances (c c' : cluster_t) : Prop :=
  xss c' = xss c /\ v c' = v c /\ yss c' = yss c /\ xyss c' = xyss c.

Section Projection.

Context {FL : FloatLibc FA}.

(** [get_baf_lrr] of gtc2vcf.h: the interpolation against the three cluster
    centres, writing [*baf] and [*lrr]. *)
Variable get_baf_lrr :
  float -> float -> float -> float -> float -> float -> float -> float -> float * float.

(** The six locals [aa_theta, ab_theta, bb_theta, aa_r, ab_r, bb_r]. *)
Record polar_t : Type := mk_polar {
  aa_theta : float;
  ab_theta : float;
  bb_theta : float;
  aa_r : float;
  ab_r : float;
  bb_r : float
}.

(** Lines 2201-2226: theta and r of the three clusters. *)
Definition cluster_polar (snp : snp_t) (is_birdseed : Z) : polar_t :=
  let c :=
    if negb (is_birdseed =? 0)%Z then
      mk_polar (atanf (ym (aa snp) / xm (aa snp)) * M_2_PI)
               (atanf (ym (ab snp) / xm (ab snp)) * M_2_PI)
               (atanf (ym (bb snp) / xm (bb snp)) * M_2_PI)
               (xm (aa snp) + ym (aa snp))
               (xm (ab snp) + ym (ab snp))
               (xm (bb snp) + ym (bb snp))
    else
      mk_polar (atanf (expf (- xm (aa snp) * M_LN2)) * M_2_PI)
               (atanf (expf (- xm (ab snp) * M_LN2)) * M_2_PI)
               (atanf (expf (- xm (bb snp) * M_LN2)) * M_2_PI)
               (expf (ym (aa snp) * M_LN2) * f_2 * coshf (xm (aa snp) * f_0_5 * M_LN2))
               (expf (ym (ab snp) * M_LN2) * f_2 * coshf (xm (ab snp) * f_0_5 * M_LN2))
               (expf (ym (bb snp) * M_LN2) * f_2 * coshf (xm (bb snp) * f_0_5 * M_LN2)) in
  (* handles chromosome Y SNPs *)
  if (copynumber snp =? 1)%Z then
    mk_polar (aa_theta c) ((aa_theta c + bb_theta c) * f_0_5) (bb_theta c)
             (aa_r c) ((aa_r c + bb_r c) * f_0_5) (bb_r c)
  else c.

(** What [get_baf_lrr] is called with, and returns, for sample [i]. *)
Definition sample_baf_lrr (norm_x norm_y : list float) (c : polar_t) (i : nat)
  : float * float :=
  let ilmn_theta := atanf (nth i norm_y f_NAN / nth i norm_x f_NAN) * M_2_PI in
  let ilmn_r := nth i norm_x f_NAN + nth i norm_y f_NAN in
  get_baf_lrr ilmn_theta ilmn_r (aa_theta c) (ab_theta c) (bb_theta c)
              (aa_r c) (ab_r c) (bb_r c).

(** [for (int i = 0; i < n; i++)], [todo] iterations left. *)
Fixpoint baf_lrr_loop (todo i : nat) (norm_x norm_y : list float) (c : polar_t)
  (baf lrr : list float) : list float * list float :=
  match todo with
  | O => (baf, lrr)
  | S todo' =>
      let '(b, l) := sample_baf_lrr norm_x norm_y c i in
      baf_lrr_loop todo' (S i) norm_x norm_y c (upd i b baf) (upd i l lrr)
  end.

(** The memory the call works on: the model behind [const snp_t *snp] and the
    two output arrays. *)
Record projection_memory : Type := mk_memory {
  snp_of : snp_t;
  baf_of : list float;
  lrr_of : list float
}.

Definition compute_baf_lrr (norm_x norm_y : list float) (n : nat) (is_birdseed : Z)
  (m : projection_memory) : projection_memory :=
  let centres := cluster_polar (snp_of m) is_birdseed in
  let '(baf, lrr) := baf_lrr_loop n 0 norm_x norm_y centres (baf_of m) (lrr_of m) in
  mk_memory (snp_of m) baf lrr.

End Projection.

End WithFloat.

End Clusters.

(** ** READER ITERATORS *)

Definition MAX_LENGTH_PROBE_SET_ID : Z := 17.

Definition list_byte_eqb (a b : list byte) : bool :=
  if list_eq_dec Byte.byte_eq_dec a b then true else false.

(** What [strncpy(dest, src, n); dest[n] = '\0';] leaves in [dest] as a C
    string: the bytes of [src] up to a NUL or up to [n].  [None] when the copy
    runs past the end of the object [src] points into. *)
Fixpoint c_strn (src : list byte) (n : nat) {struct n} : option (list byte) :=
  match n with
  | O => Some []
  | S n' =>
      match src with
      | [] => None
      | c :: src' =>
          if is_nul c then Some [] else option_map (cons c) (c_strn src' n')
      end
  end.

(** [strncmp(s1, s2, n) == 0] for a C string [s1] (given without its
    terminator) and bytes [s2].  [None] when the comparison runs past the end
    of [s2]. *)
Fixpoint strncmp (s1 s2 : list byte) (n : nat) {struct n} : option bool :=
  match n with
  | O => Some true
  | S n' =>
      match s2 with
      | [] => None
      | c2 :: t2 =>
          match s1 with
          | [] => Some (is_nul c2)
          | c1 :: t1 => if Byte.eqb c1 c2 then strncmp t1 t2 n' else Some false
          end
      end
  end.

(** [dest] is the iterator's [char probe_set_id[MAX_LENGTH_PROBE_SET_ID + 1]],
    given as the C string it holds: the bytes before the terminator. *)
Definition check_n_probe_set_id (dest src : list byte) (n : Z) : result (list byte) :=
  match dest with
  | [] =>
      if n >? MAX_LENGTH_PROBE_SET_ID then Fatal ProbeSetNameTooLong
      else match c_strn src (Z.to_nat n) with
           | Some s => Ok s
           | None => Undefined
           end
  | _ :: _ =>
      match strncmp dest src (Z.to_nat n) with
      | Some true => Ok dest
      | Some false => Fatal ProbeSetNameMismatch
      | None => Undefined
      end
  end.

Definition check_probe_set_id (dest src : list byte) : result (list byte) :=
  match dest with
  | [] =>
      if Z.of_nat (length src) >? MAX_LENGTH_PROBE_SET_ID
      then Fatal ProbeSetNameTooLong
      else Ok src
  | _ :: _ =>
      if list_byte_eqb dest src then Ok dest else Fatal ProbeSetNameMismatch
  end.

(** The table [gt] of [varitr_loop]. *)
Definition gt : list Z :=
  [-1; -1; -1; -1; -1; -1; GT_AA; GT_BB; GT_AB; -1; -1; GT_NC; -1; -1; -1; -1].

(** *** htslib: lines and fields *)

Definition is_newline (b : byte) : bool := Byte.eqb b "010"%byte.
Definition is_cr (b : byte) : bool := Byte.eqb b "013"%byte.
Definition TAB : byte := "009"%byte.

(** The bytes up to a newline, whether one was found, and how many bytes that
    takes from the stream. *)
Fixpoint read_line (s : list byte) : list byte * bool * nat :=
  match s with
  | [] => ([], false, O)
  | c :: t =>
      if is_newline c then ([], true, 1%nat)
      else let '(l, nl, n) := read_line t in (c :: l, nl, S n)
  end.

Definition strip_cr (l : list byte) : list byte :=
  match rev l with
  | c :: r => if is_cr c then rev r else l
  | [] => l
  end.

(** [hts_getline(fp, KS_SEP_LINE, &str)] on an uncompressed file: [None] at
    the end of the file (a negative return), else the line without its
    newline and carriage return (the return is its length). *)
Definition hts_getline (fp : hFILE) : option (list byte * hFILE) :=
  match remaining fp with
  | [] => None
  | s =>
      let '(l, nl, n) := read_line s in
      Some (if nl then strip_cr l else l, mk_hFILE (contents fp) (position fp + n))
  end.

(** [ksplit_core(s, delimiter, ...)]: the non-empty runs between delimiters in
    the C string [s], each with its offset in [s]. *)
Fixpoint ksplit_aux (s : list byte) (i : nat) (cur : option (nat * list byte))
  (delimiter : byte) : list (nat * list byte) :=
  let close rest :=
    match cur with
    | Some (start, field) => (start, rev field) :: rest
    | None => rest
    end in
  match s with
  | [] => close []
  | c :: t =>
      if is_nul c then close []
      else if Byte.eqb c delimiter then close (ksplit_aux t (S i) None delimiter)
      else
        match cur with
        | Some (start, field) => ksplit_aux t (S i) (Some (start, c :: field)) delimiter
        | None => ksplit_aux t (S i) (Some (i, [c])) delimiter
        end
  end.

Definition ksplit_core (s : list byte) (delimiter : byte) : list (nat * list byte) :=
  ksplit_aux s 0 None delimiter.

(** [&str.s[off[i]]] after the split. *)
Definition field (cols : list (nat * list byte)) (i : nat) : list byte :=
  snd (nth i cols (O, [])).

(** [for (int i = 1; i < 1 + nsmpl; i++) arr[i - 1] = f(i);] *)
Fixpoint fill {A : Type} (todo i : nat) (f : nat -> A) (arr : list A) : list A :=
  match todo with
  | O => arr
  | S todo' => fill todo' (S i) f (upd (i - 1) (f i) arr)
  end.

(** [str.s[off[0] + len - 2]] and [str.s[off[0] + len - 1]] for the first
    field [f0] at offset [off0]: with one character only, the first of the two
    is the tab before the field, or lies before the string. *)
Definition last_two (off0 : nat) (f0 : list byte) : result (byte * byte) :=
  match rev f0 with
  | c1 :: c2 :: _ => Ok (c2, c1)
  | [c1] => if (off0 =? 0)%nat then Undefined else Ok (TAB, c1)
  | [] => Undefined
  end.

(** *** Genotypes of a record ([process], lines 2338-2369) *)

Definition bcf_gt_missing : Z := 0.
Definition bcf_gt_unphased (idx : Z) : Z := Z.shiftl (idx + 1) 1.

(** [switch (varitr->gts[i])]: the two entries of [gt_arr] for a sample. *)
Definition genotype (allele_a_idx allele_b_idx g : Z) : result (Z * Z) :=
  if g =? GT_NC then Ok (bcf_gt_missing, bcf_gt_missing)
  else if g =? GT_AA then
    Ok (bcf_gt_unphased allele_a_idx, bcf_gt_unphased allele_a_idx)
  else if g =? GT_AB then
    Ok (bcf_gt_unphased (Z.min allele_a_idx allele_b_idx),
        bcf_gt_unphased (Z.max allele_a_idx allele_b_idx))
  else if g =? GT_BB then
    Ok (bcf_gt_unphased allele_b_idx, bcf_gt_unphased allele_b_idx)
  else Fatal GenotypeMalformed.

Fixpoint genotypes_loop (todo i : nat) (allele_a_idx allele_b_idx : Z)
  (gts gt_arr : list Z) : result (list Z) :=
  match todo with
  | O => Ok gt_arr
  | S todo' =>
      '(g0, g1) <- genotype allele_a_idx allele_b_idx (nth i gts GT_NC) ;;
      genotypes_loop todo' (S i) allele_a_idx allele_b_idx gts
                     (upd (2 * i + 1) g1 (upd (2 * i) g0 gt_arr))
  end.

(** *** The iterator *)

Section Iterator.

Variable host : byte_order.
Context {FA : FloatArith} {FL : FloatLibc FA}.

(** [data_sets] is NULL in text mode.  The arrays of [varitr_init_common]
    hold [nsmpl] entries each; [baf_arr] and [lrr_arr] are never used by the
    iterator and are left out. *)
Record varitr_t : Type := mk_varitr {
  nsmpl : nat;
  nrow : Z;
  data_sets : option (list DataSet);
  is_axiom : list Z;
  calls_fp : option hFILE;
  confidences_fp : option hFILE;
  summary_fp : option hFILE;
  probe_set_id : list byte;
  gts : list Z;
  conf_arr : list float;
  norm_x_arr : list float;
  norm_y_arr : list float;
  delta_arr : list float;
  size_arr : list float
}.

Definition set_nrow (n : Z) (v : varitr_t) : varitr_t :=
  mk_varitr (nsmpl v) n (data_sets v) (is_axiom v) (calls_fp v) (confidences_fp v)
            (summary_fp v) (probe_set_id v) (gts v) (conf_arr v) (norm_x_arr v)
            (norm_y_arr v) (delta_arr v) (size_arr v).

Definition set_calls_fp (f : option hFILE) (v : varitr_t) : varitr_t :=
  mk_varitr (nsmpl v) (nrow v) (data_sets v) (is_axiom v) f (confidences_fp v)
            (summary_fp v) (probe_set_id v) (gts v) (conf_arr v) (norm_x_arr v)
            (norm_y_arr v) (delta_arr v) (size_arr v).

Definition set_confidences_fp (f : option hFILE) (v : varitr_t) : varitr_t :=
  mk_varitr (nsmpl v) (nrow v) (data_sets v) (is_axiom v) (calls_fp v) f
            (summary_fp v) (probe_set_id v) (gts v) (conf_arr v) (norm_x_arr v)
            (norm_y_arr v) (delta_arr v) (size_arr v).

Definition set_summary_fp (f : option hFILE) (v : varitr_t) : varitr_t :=
  mk_varitr (nsmpl v) (nrow v) (data_sets v) (is_axiom v) (calls_fp v)
            (confidences_fp v) f (probe_set_id v) (gts v) (conf_arr v)
            (norm_x_arr v) (norm_y_arr v) (delta_arr v) (size_arr v).

Definition set_probe_set_id (id : list byte) (v : varitr_t) : varitr_t :=
  mk_varitr (nsmpl v) (nrow v) (data_sets v) (is_axiom v) (calls_fp v)
            (confidences_fp v) (summary_fp v) id (gts v) (conf_arr v)
            (norm_x_arr v) (norm_y_arr v) (delta_arr v) (size_arr v).

Definition set_gts (a : list Z) (v : varitr_t) : varitr_t :=
  mk_varitr (nsmpl v) (nrow v) (data_sets v) (is_axiom v) (calls_fp v)
            (confidences_fp v) (summary_fp v) (probe_set_id v) a (conf_arr v)
            (norm_x_arr v) (norm_y_arr v) (delta_arr v) (size_arr v).

Definition set_conf_arr (a : list float) (v : varitr_t) : varitr_t :=
  mk_varitr (nsmpl v) (nrow v) (data_sets v) (is_axiom v) (calls_fp v)
            (confidences_fp v) (summary_fp v) (probe_set_id v) (gts v) a
            (norm_x_arr v) (norm_y_arr v) (delta_arr v) (size_arr v).

(** The four intensity arrays at once. *)
Definition set_intensities (nx ny d s : list float) (v : varitr_t) : varitr_t :=
  mk_varitr (nsmpl v) (nrow v) (data_sets v) (is_axiom v) (calls_fp v)
            (confidences_fp v) (summary_fp v) (probe_set_id v) (gts v) (conf_arr v)
            nx ny d s.

(** **** Binary (CHP) mode *)

(** [data_set->col_offsets[c]]. *)
Definition col_offset (data_set : DataSet) (c : nat) : result Z :=
  match nth_error (col_offsets data_set) c with
  | Some o => Ok o
  | None => Undefined
  end.

(** [ntohl( *(uint32_t * )&buffer[off])]. *)
Definition buffer_long (buffer : list byte) (off : Z) : result Z :=
  match skipn (Z.to_nat off) buffer with
  | b0 :: b1 :: b2 :: b3 :: _ => Ok (ntohl host (load_uint32 host b0 b1 b2 b3))
  | _ => Undefined
  end.

(** [buffer[off]]. *)
Definition buffer_byte (buffer : list byte) (off : Z) : result byte :=
  match nth_error buffer (Z.to_nat off) with
  | Some b => Ok b
  | None => Undefined
  end.

Local Open Scope float_scope.

(** [float log2x = logf(x) * (float)M_LOG2E;] *)
Definition log2f (x : float) : float := logf x * M_LOG2E.

(** The body of [for (int i = 0; i < varitr->nsmpl; i++)], lines 1783-1824. *)
Definition cc_sample (i : nat) (dss : list DataSet) (v : varitr_t) : result varitr_t :=
  match nth_error dss i with
  | None => Undefined
  | Some data_set =>
      if (n_rows data_set <? nrow v)%Z then Stop
      else
      '(buffer, fp') <- read_bytes (fp data_set) (Z.to_nat (n_buffer data_set)) ;;
      let data_set' :=
        mk_DataSet (pos_first_element data_set) (pos_next_data_set data_set)
                   (name data_set) (n_parameters data_set) (parameters data_set)
                   (n_cols data_set) (col_headers data_set) (n_rows data_set)
                   fp' (n_buffer data_set) (col_offsets data_set) buffer in
      off0 <- col_offset data_set 0 ;;
      n <- buffer_long buffer off0 ;;
      id <- check_n_probe_set_id (probe_set_id v)
                                 (skipn (Z.to_nat (off0 + 4)) buffer) n ;;
      off1 <- col_offset data_set 1 ;;
      call <- buffer_byte buffer off1 ;;
      let g := nth (Z.to_nat (Z.land (u8 call) 15)) gt (-1)%Z in
      off2 <- col_offset data_set 2 ;;
      conf <- buffer_long buffer off2 ;;
      match nth_error (is_axiom v) i with
      | None => Undefined
      | Some axiom =>
          off3 <- col_offset data_set 3 ;;
          u3 <- buffer_long buffer off3 ;;
          off4 <- col_offset data_set 4 ;;
          u4 <- buffer_long buffer off4 ;;
          let '(norm_x, norm_y, delta, size) :=
            if negb (axiom =? 0)%Z then
              let delta := of_bits u3 in
              let size := of_bits u4 in
              (expf ((size + delta * f_0_5) * M_LN2),
               expf ((size - delta * f_0_5) * M_LN2),
               delta, size)
            else
              let norm_x := of_bits u3 in
              let norm_y := of_bits u4 in
              let log2x := log2f norm_x in
              let log2y := log2f norm_y in
              (norm_x, norm_y, log2x - log2y, (log2x + log2y) * f_0_5) in
          Ok (mk_varitr (nsmpl v) (nrow v) (Some (upd i data_set' dss)) (is_axiom v)
                        (calls_fp v) (confidences_fp v) (summary_fp v) id
                        (upd i g (gts v)) (upd i (of_bits conf) (conf_arr v))
                        (upd i norm_x (norm_x_arr v)) (upd i norm_y (norm_y_arr v))
                        (upd i delta (delta_arr v)) (upd i size (size_arr v)))
      end
  end.

Fixpoint cc_loop (todo i : nat) (v : varitr_t) : result varitr_t :=
  match todo with
  | O => Ok v
  | S todo' =>
      match data_sets v with
      | None => Undefined
      | Some dss =>
          v' <- cc_sample i dss v ;;
          cc_loop todo' (S i) v'
      end
  end.

(** **** Text mode *)

(** The calls and the confidences table: one line, one value per sample. *)
Definition read_table_line {A : Type} (fp0 : hFILE) (parse : list byte -> A)
  (arr : list A) (v : varitr_t) : result (hFILE * list A * list byte) :=
  match hts_getline fp0 with
  | None => Stop
  | Some (str, fp1) =>
      let cols := ksplit_core str TAB in
      if negb (length cols =? 1 + nsmpl v)%nat then Fatal ExpectedColumns
      else
        let arr' := fill (nsmpl v) 1 (fun i => parse (field cols i)) arr in
        id <- check_probe_set_id (probe_set_id v) (field cols 0) ;;
        Ok (fp1, arr', id)
  end.

(** The [do ... while] of lines 1860-1881: [fuel] bounds the number of lines
    read.  The result is the "-A" line that the loop leaves with, split, and
    the stream after it.  [buf] holds [MAX_LENGTH_PROBE_SET_ID] bytes. *)
Fixpoint summary_seek (fuel : nat) (fp0 : hFILE) (n : nat)
  : result (list (nat * list byte) * hFILE) :=
  match fuel with
  | O => Undefined
  | S fuel' =>
      match hts_getline fp0 with
      | None => Stop
      | Some (str, fp1) =>
          let cols := ksplit_core str TAB in
          if negb (length cols =? 1 + n)%nat then Fatal ExpectedColumns
          else
            match cols with
            | [] => Undefined
            | (off0, f0) :: _ =>
                let len := length f0 in
                '(c2, c1) <- last_two off0 f0 ;;
                if negb (Byte.eqb c2 "-"%byte) || negb (Byte.eqb c1 "A"%byte)
                then Fatal ExpectedMinusA
                else
                  let prefix := firstn (len - 2) f0 in
                  if (Z.of_nat len - 2 >? MAX_LENGTH_PROBE_SET_ID)%Z
                  then Fatal CannotReadIntensities
                  else
                    let buf := hpeek fp1 len in
                    let ret := length buf in
                    if (Z.of_nat ret >? MAX_LENGTH_PROBE_SET_ID)%Z then Undefined
                    else if (ret <? len)%nat then summary_seek fuel' fp1 n
                    else
                      match strncmp prefix buf (len - 2) with
                      | None => Undefined
                      | Some false => summary_seek fuel' fp1 n
                      | Some true =>
                          if negb (Byte.eqb (nth (len - 2) buf "000"%byte) "-"%byte)
                             || negb (Byte.eqb (nth (len - 1) buf "000"%byte) "B"%byte)
                          then summary_seek fuel' fp1 n
                          else Ok (cols, fp1)
                      end
            end
      end
  end.

(** Lines 1895-1901, [todo] samples left, [i] the column. *)
Fixpoint summary_b_loop (todo i : nat) (cols : list (nat * list byte))
  (nx ny d s : list float) : list float * list float * list float :=
  match todo with
  | O => (ny, d, s)
  | S todo' =>
      let ny' := upd (i - 1) (strtof (field cols i)) ny in
      let log2x := log2f (nth (i - 1) nx f_NAN) in
      let log2y := log2f (nth (i - 1) ny' f_NAN) in
      summary_b_loop todo' (S i) cols nx ny'
        (upd (i - 1) (log2x - log2y) d) (upd (i - 1) ((log2x + log2y) * f_0_5) s)
  end.

(** Lines 1858-1903.  A line is never empty of bytes, so reading as many
    lines as the stream has bytes left, and one more, is enough.  [hpeek]
    does not fail on the streams of this embedding, so the [ret < 0] after
    the loop never holds. *)
Definition read_summary (fp0 : hFILE) (v : varitr_t) : result varitr_t :=
  '(cols, fp1) <- summary_seek (S (length (remaining fp0))) fp0 (nsmpl v) ;;
  let nx := fill (nsmpl v) 1 (fun i => strtof (field cols i)) (norm_x_arr v) in
  match hts_getline fp1 with
  | None => Fatal SummaryEndedPrematurely
  | Some ([], _) => Fatal SummaryEndedPrematurely
  | Some (str, fp2) =>
      let cols := ksplit_core str TAB in
      if negb (length cols =? 1 + nsmpl v)%nat then Fatal ExpectedColumns
      else
        match cols with
        | [] => Undefined
        | (off0, f0) :: _ =>
            let len := length f0 in
            if (len <? 2)%nat && (off0 + len <? 2)%nat then Undefined
            else
              let id0 := if (len <? 2)%nat then f0 else firstn (len - 2) f0 in
              let '(ny, d, s) :=
                summary_b_loop (nsmpl v) 1 cols nx (norm_y_arr v)
                               (delta_arr v) (size_arr v) in
              id <- check_probe_set_id (probe_set_id v) id0 ;;
              Ok (set_probe_set_id id
                    (set_summary_fp (Some fp2) (set_intensities nx ny d s v)))
        end
  end.

Definition read_calls (v : varitr_t) : result varitr_t :=
  match calls_fp v with
  | None => Ok v
  | Some fp0 =>
      '(fp1, arr, id) <- read_table_line fp0 strtol (gts v) v ;;
      Ok (set_probe_set_id id (set_calls_fp (Some fp1) (set_gts arr v)))
  end.

Definition read_confidences (v : varitr_t) : result varitr_t :=
  match confidences_fp v with
  | None => Ok v
  | Some fp0 =>
      '(fp1, arr, id) <- read_table_line fp0 strtof (conf_arr v) v ;;
      Ok (set_probe_set_id id (set_confidences_fp (Some fp1) (set_conf_arr arr v)))
  end.

Definition read_intensities (v : varitr_t) : result varitr_t :=
  match summary_fp v with
  | None => Ok v
  | Some fp0 => read_summary fp0 v
  end.

(** [varitr_loop]: [Ok] is the return of 0, with the iterator as the call
    leaves it. *)
Definition varitr_loop (v0 : varitr_t) : result varitr_t :=
  let v := set_probe_set_id [] v0 in
  match data_sets v with
  | Some _ => cc_loop (nsmpl v) 0 (set_nrow (nrow v + 1)%Z v)
  | None =>
      v1 <- read_calls v ;;
      v2 <- read_confidences v1 ;;
      read_intensities v2
  end.

(** [process], lines 2338-2369: the genotypes are written when the calls come
    from CHP files or from a calls table. *)
Definition process_genotypes (v : varitr_t) (allele_a_idx allele_b_idx : Z)
  (gt_arr : list Z) : result (list Z) :=
  match data_sets v, calls_fp v with
  | None, None => Ok gt_arr
  | _, _ => genotypes_loop (nsmpl v) 0 allele_a_idx allele_b_idx (gts v) gt_arr
  end.

End Iterator.

(** ** Byte-level fixtures

    Encoders for the streams that the examples below decode. *)

Definition byte_of_Z (z : Z) : byte :=
  match Byte.of_N (Z.to_N (z mod 256)) with
  | Some b => b
  | None => "000"%byte
  end.

(** Most significant byte first, and least significant byte first. *)
Definition enc_be32 (z : Z) : list byte :=
  [byte_of_Z (z / 2 ^ 24); byte_of_Z (z / 2 ^ 16); byte_of_Z (z / 2 ^ 8); byte_of_Z z].

Definition enc_le32 (z : Z) : list byte := rev (enc_be32 z).

Definition enc_wstring (s : string) : list byte :=
  enc_be32 (Z.of_nat (length (cstr s)))
  ++ flat_map (fun c => ["000"%byte; c]) (cstr s).

Definition enc_string (s : list byte) (width : nat) : list byte :=
  enc_be32 (Z.of_nat (length s)) ++ s ++ repeat "000"%byte (width - length s).

(** The four bytes at offset [off] as a big-endian and as a host-order
    [int32_t]. *)
Definition native_int32_at (host : byte_order) (bs : list byte) (off : nat) : option Z :=
  match skipn off bs with
  | b0 :: b1 :: b2 :: b3 :: _ => Some (to_int32 (load_uint32 host b0 b1 b2 b3))
  | _ => None
  end.

Definition be_int32_at (bs : list byte) (off : nat) : option Z :=
  native_int32_at BigEndian bs off.

(** The next four (two) bytes of a stream, most significant first. *)
Definition read_be32 (fp : hFILE) : result (Z * hFILE) :=
  '(bs, fp') <- read_bytes fp 4 ;;
  match bs with
  | [b0; b1; b2; b3] => Ok (be32 b0 b1 b2 b3, fp')
  | _ => Undefined
  end.

Definition read_be16 (fp : hFILE) : result (Z * hFILE) :=
  '(bs, fp') <- read_bytes fp 2 ;;
  match bs with
  | [b0; b1] => Ok (be16 b0 b1, fp')
  | _ => Undefined
  end.

Definition buffer_be32 (buffer : list byte) (off : Z) : result Z :=
  match skipn (Z.to_nat off) buffer with
  | b0 :: b1 :: b2 :: b3 :: _ => Ok (be32 b0 b1 b2 b3)
  | _ => Undefined
  end.

(** An XDA header as a little-endian writer stores it: magic 64, version 4,
    2 rows, 3 columns, 6 cells, three empty texts, margin and counts 0. *)
Definition xda_le_header : list byte :=
  enc_le32 64 ++ enc_le32 4 ++ enc_le32 2 ++ enc_le32 3 ++ enc_le32 6
  ++ enc_le32 0 ++ enc_le32 0 ++ enc_le32 0
  ++ enc_le32 0 ++ enc_le32 0 ++ enc_le32 0 ++ enc_le32 0.

(** A data set "Genotype" without parameters, with the columns
    ProbeSetName (22 bytes) and Call (1 byte), and no rows. *)
Definition two_column_data_set : list byte :=
  enc_be32 0 ++ enc_be32 0 ++ enc_wstring "Genotype" ++ enc_be32 0
  ++ enc_be32 2
  ++ enc_wstring "ProbeSetName" ++ [byte_of_Z 7] ++ enc_be32 22
  ++ enc_wstring "Call" ++ [byte_of_Z 1] ++ enc_be32 1
  ++ enc_be32 0.

(** The widths of the columns, and the sum of a list of widths. *)
Definition widths (cols : list ColHeader) : list Z := map size cols.
Definition sum (l : list Z) : Z := fold_right Z.add 0 l.

(** What [xda_cel_init] makes of [xda_le_header] on a little-endian host,
    header only. *)
Definition xda_le_decoded : XDA.xda_cel_t :=
  XDA.mk_xda_cel 4 2 3 6 0 [] 0 [] 0 [] 0 0 0 0 [] [] [] []
                 (mk_hFILE xda_le_header 48).

Definition empty_data_set : DataSet :=
  mk_DataSet 0 0 None 0 [] 0 [] 0 (hopen []) 0 [] [].

(** What [agcc_read_data_set] makes of [two_column_data_set]. *)
Definition two_column_decoded : DataSet :=
  Eval vm_compute in
    match agcc_read_data_set LittleEndian (hopen two_column_data_set) 0 with
    | Ok data_set => data_set
    | _ => empty_data_set
    end.

(** Three columns whose widths add up to 2^32. *)
Definition wide_columns : list ColHeader :=
  [mk_ColHeader None 0 2147483647; mk_ColHeader None 0 2147483647;
   mk_ColHeader None 0 2].

(** ** Cluster fixtures *)

(** The sum of a list of reals. *)
Definition Rsum (l : list R) : R := fold_right Rplus 0%R l.

(** The closed form of the posterior means in exact arithmetic. *)
Definition exact_posterior (gt : Z) (gts : list Z) (x y : list R) (n : nat)
  (prior post : Clusters.cluster_t (FA := exact_real)) : Prop :=
  Clusters.xm post
  = ((Clusters.xm prior * (2 / 10) + Rsum (Clusters.called (FA := exact_real) gt gts x n))
     / (2 / 10 + INR (length (Clusters.called (FA := exact_real) gt gts x n))))%R /\
  Clusters.ym post
  = ((Clusters.ym prior * (2 / 10) + Rsum (Clusters.called (FA := exact_real) gt gts y n))
     / (2 / 10 + INR (length (Clusters.called (FA := exact_real) gt gts y n))))%R.

(** binary32 values: 8, 10 and 12. *)
Definition b32_8 : spec_float := b32_of_bits 0x41000000.
Definition b32_10 : spec_float := b32_of_bits 0x41200000.
Definition b32_12 : spec_float := b32_of_bits 0x41400000.

(** A cluster with both means at [m] and the other fields at 1. *)
Definition flat_cluster {FA : FloatArith} (m : float) : Clusters.cluster_t :=
  Clusters.mk_cluster m f_1 f_1 f_1 m f_1 f_1.

(** A diploid model with all six prior means at [m]. *)
Definition flat_snp {FA : FloatArith} (m : float) : Clusters.snp_t :=
  Clusters.mk_snp (cstr "AX-1") 2 (flat_cluster m) (flat_cluster m) (flat_cluster m).

(** A haploid model in exact arithmetic: AA at (1, 3), BB at (3, 1), and the
    AB cluster at the values NAN is read as. *)
Definition haploid_snp : Clusters.snp_t (FA := exact_real) :=
  Clusters.mk_snp (cstr "AX-Y") 1
    (Clusters.mk_cluster 1%R 1%R 1%R 1%R 3%R 1%R 0%R)
    (Clusters.mk_cluster f_NAN f_NAN f_NAN f_NAN f_NAN f_NAN f_NAN)
    (Clusters.mk_cluster 3%R 1%R 1%R 1%R 1%R 1%R 0%R).

(** ** Iterator fixtures *)

(** A row of a "Genotype" data set: the probe-set name in a column of 4 + 8
    bytes, the call byte, the confidence and the two intensities as float
    bits, and the forced call. *)
Definition genotype_offsets : list Z := [0; 12; 13; 17; 21; 25].

Definition genotype_row (id : string) (call conf a b : Z) : list byte :=
  enc_string (cstr id) 8 ++ [byte_of_Z call] ++ enc_be32 conf
  ++ enc_be32 a ++ enc_be32 b ++ [byte_of_Z call].

Definition genotype_data_set (rows : list (list byte)) : DataSet :=
  mk_DataSet 0 0 (Some (wstr "Genotype")) 0 [] 6 [] (Z.of_nat (length rows))
             (hopen (concat rows)) 26 genotype_offsets [].

(** A line of a text table: the fields, tabs between them, a newline. *)
Fixpoint tab_separated (fields : list string) : list byte :=
  match fields with
  | [] => []
  | [f] => cstr f
  | f :: fs => cstr f ++ [TAB] ++ tab_separated fs
  end.

Definition line (fields : list string) : list byte :=
  tab_separated fields ++ ["010"%byte].

Section IteratorFixtures.

Context {FA : FloatArith}.

(** The iterator as [varitr_init_cc] leaves it: one data set per sample, the
    arrays of [varitr_init_common] not yet written. *)
Definition cc_iterator (dss : list DataSet) (axioms : list Z) : varitr_t :=
  let n := length dss in
  mk_varitr n 0 (Some dss) axioms None None None []
            (repeat 0 n) (repeat f_NAN n) (repeat f_NAN n) (repeat f_NAN n)
            (repeat f_NAN n) (repeat f_NAN n).

(** The iterator as [varitr_init_txt] leaves it, the header lines read. *)
Definition txt_iterator (n : nat) (calls confidences summary : option (list byte))
  : varitr_t :=
  mk_varitr n 0 None [] (option_map hopen calls) (option_map hopen confidences)
            (option_map hopen summary) []
            (repeat 0 n) (repeat f_NAN n) (repeat f_NAN n) (repeat f_NAN n)
            (repeat f_NAN n) (repeat f_NAN n).

(** The arrays of [varitr_init_common] hold [nsmpl] entries each. *)
Definition arrays_allocated (v : varitr_t) : Prop :=
  length (gts v) = nsmpl v /\ length (conf_arr v) = nsmpl v /\
  length (norm_x_arr v) = nsmpl v /\ length (norm_y_arr v) = nsmpl v /\
  length (delta_arr v) = nsmpl v /\ length (size_arr v) = nsmpl v.

End IteratorFixtures.

(** One sample whose call byte is 0, a code that is none of 6, 7, 8, 11;
    confidence 0.5, signals 100 and 25. *)
Definition invalid_call_row : list byte :=
  genotype_row "AX-1" 0 0x3F000000 0x42C80000 0x41C80000.

(** One sample called AA with confidence 0.5 and signals 100 and 25. *)
Definition signal_row : list byte :=
  genotype_row "AX-1" 6 0x3F000000 0x42C80000 0x41C80000.

(** Two samples in lockstep: the first at probe set "AB", the second at "A". *)
Definition row_AB : list byte := genotype_row "AB" 6 0x3F000000 0x42C80000 0x41C80000.
Definition row_A : list byte := genotype_row "A" 6 0x3F000000 0x42C80000 0x41C80000.

(** A summary table where "p1-A" has no "p1-B": the next line is "p2-A". *)
Definition summary_unpaired : list byte :=
  line ["p1-A"; "100"]%string ++ line ["p2-A"; "7"]%string ++ line ["p2-B"; "25"]%string.

(** A summary table that ends after "p1-A". *)
Definition summary_truncated : list byte := line ["p1-A"; "100"]%string.

(** A summary table with one pair: signal A = 100, signal B = 25. *)
Definition summary_100_25 : list byte := line ["p1-A"; "100"]%string ++ line ["p1-B"; "25"]%string.

Section IteratorProperties.

Context {FA : FloatArith} {FL : FloatLibc FA}.

Local Open Scope float_scope.

(** Sample [i] holds the signals A and B and their transform: the contrast
    [log2 A - log2 B] and the size [(log2 A + log2 B) / 2]. *)
Definition signal_transform (v : varitr_t) (i : nat) : Prop :=
  let A := nth i (norm_x_arr v) f_NAN in
  let B := nth i (norm_y_arr v) f_NAN in
  nth i (delta_arr v) f_NAN = log2f A - log2f B /\
  nth i (size_arr v) f_NAN = (log2f A + log2f B) * f_0_5.

(** The identifier fits the iterator's buffer of
    [MAX_LENGTH_PROBE_SET_ID + 1] bytes together with its terminator. *)
Definition fits_buffer (id : list byte) : Prop :=
  (Z.of_nat (length id) <= MAX_LENGTH_PROBE_SET_ID)%Z.

(** Sample [j] has its entry in the call array and in the four intensity
    arrays. *)
Definition long_enough (v : varitr_t) (j : nat) : Prop :=
  (j < length (gts v))%nat /\ (j < length (norm_x_arr v))%nat /\
  (j < length (norm_y_arr v))%nat /\ (j < length (delta_arr v))%nat /\
  (j < length (size_arr v))%nat.

Definition same_lengths (v v' : varitr_t) : Prop :=
  length (gts v') = length (gts v) /\
  length (norm_x_arr v') = length (norm_x_arr v) /\
  length (norm_y_arr v') = length (norm_y_arr v) /\
  length (delta_arr v') = length (delta_arr v) /\
  length (size_arr v') = length (size_arr v).

Definition same_entries (v v' : varitr_t) (j : nat) : Prop :=
  nth j (gts v') GT_NC = nth j (gts v) GT_NC /\
  nth j (norm_x_arr v') f_NAN = nth j (norm_x_arr v) f_NAN /\
  nth j (norm_y_arr v') f_NAN = nth j (norm_y_arr v) f_NAN /\
  nth j (delta_arr v') f_NAN = nth j (delta_arr v) f_NAN /\
  nth j (size_arr v') f_NAN = nth j (size_arr v) f_NAN.

(** The call of sample [j] is one of the four calls, and in "Signal A/B"
    mode its intensities are transformed. *)
Definition sample_decoded (v v' : varitr_t) (j : nat) : Prop :=
  In (nth j (gts v') GT_NC) [GT_NC; GT_AA; GT_AB; GT_BB] /\
  (nth j (is_axiom v) 1%Z = 0%Z -> signal_transform v' j).

End IteratorProperties.

(** The iterator after a step over [summary_100_25]. *)
Definition summary_100_25_after {FA : FloatArith} {FL : FloatLibc FA} : varitr_t :=
  mk_varitr 1 0 None [] None None (Some (mk_hFILE summary_100_25 17))
            (cstr "p1") [0] [f_NAN]
            [strtof (cstr "100")] [strtof (cstr "25")]
            [fsub (log2f (strtof (cstr "100"))) (log2f (strtof (cstr "25")))]
            [fmul (fadd (log2f (strtof (cstr "100"))) (log2f (strtof (cstr "25"))))
                  f_0_5].


(** The first line of [summary_unpaired], as [hts_getline] returns it. *)
Definition unpaired_first_line : list byte := tab_separated ["p1-A"; "100"]%string.

(* ================================================================== *)
(** * Part I, continued: whole files, tables and models                *)
(* ================================================================== *)

(** ** Encoders of the AGCC strings

    What a writer of the format stores for a string of bytes and for a string
    of 16-bit characters: the length, then the characters, most significant
    byte first. *)

Definition enc_be16 (z : Z) : list byte := [byte_of_Z (z / 2 ^ 8); byte_of_Z z].

Definition enc_string8 (s : list byte) : list byte :=
  enc_be32 (Z.of_nat (length s)) ++ s.

Definition enc_string16 (s : list Z) : list byte :=
  enc_be32 (Z.of_nat (length s)) ++ flat_map enc_be16 s.

(** ** C strings *)

(** The C string that starts at the first byte of a buffer: the bytes before
    the first NUL. *)
Fixpoint c_string (s : list byte) : list byte :=
  match s with
  | [] => []
  | c :: t => if is_nul c then [] else c :: c_string t
  end.

(** [strrchr(s, c)] for a C string [s] (given without its terminator) and a
    character [c] other than NUL: the offset of the last [c]. *)
Fixpoint strrchr (s : list byte) (c : byte) : option nat :=
  match s with
  | [] => None
  | b :: t =>
      match strrchr t c with
      | Some i => Some (S i)
      | None => if Byte.eqb b c then Some O else None
      end
  end.

Definition SLASH : byte := "/"%byte.
Definition DOT : byte := "."%byte.
Definition QUOTE : byte := "034"%byte.
Definition HASH : byte := "#"%byte.

(** ** Outcomes of the initialisers

    The routines that open a whole file have error messages of their own. *)

Inductive init_error : Type :=
| AgccBadMagic          (* "AGCC CHP file %s magic number is %d while it should be 59" *)
| AgccBadVersion        (* "... Unsupported AGCC CHP file format version: %d" *)
| AgccTrailingData      (* "AGCC CHP reader did not reach the end of file %s ..." *)
| NotMultiDataType      (* "... does not contain multi data type analysis" *)
| NoMultiData           (* "... does not contain multi data" *)
| NoGenotypeData        (* "... does not contain genotype data" *)
| GenotypeFormat        (* "... does not contain genotype data in the expected format" *)
| IntensitiesFormat     (* "... does not contain intensities data in the expected format" *)
| EmptyFile             (* "Empty file: %s" *)
| MalformedFirstLine    (* "Malformed first line from ... file: %s" *)
| ModelsMissing         (* "Missing information in SNP models file: %s" *)
| ModelsMalformed       (* "Malformed SNP model file: %s" *)
| ModelMissingInformation (* "Missing information for probeset %s in SNP posterior models file" *)
| ReportMissing         (* "Missing information in report file: %s" *)
| ReportNoGenders.      (* "Second column not genders in file: %s" *)

(** [Reject e]: the initialiser prints its message [e] and exits.  [Run r]:
    it ends as [r] says, with the outcome of a reading routine or with its
    own return. *)
Inductive init_result (A : Type) : Type :=
| Reject (e : init_error)
| Run (r : result A).

Arguments Reject {A} e.
Arguments Run {A} r.

Definition init_bind {A B : Type} (c : init_result A) (k : A -> init_result B)
  : init_result B :=
  match c with
  | Reject e => Reject e
  | Run (Ok a) => k a
  | Run Stop => Run Stop
  | Run (Fatal e) => Run (Fatal e)
  | Run Undefined => Run Undefined
  end.

Notation "x <~ c ;; k" := (init_bind c (fun x => k))
  (at level 61, c at next level, right associativity).
Notation "' p <~ c ;; k" := (init_bind c (fun x => let 'p := x in k))
  (at level 61, p pattern, c at next level, right associativity).

(** ** CHP FILE IMPLEMENTATION (AGCC): the whole file *)

Module Header.

(** The struct [DataHeader]; [parents] holds [n_parents] headers. *)
#[warnings="-register-all"]
Inductive DataHeader : Type := mk_DataHeader {
  data_type_identifier : option (list byte);
  guid : option (list byte);
  datetime : option (list Z);
  locale : option (list Z);
  n_parameters : Z;
  parameters : list Param;
  n_parents : Z;
  parents : list DataHeader
}.

End Header.

Module Group.

Record DataGroup : Type := mk_DataGroup {
  pos_next_data_group : Z;
  pos_first_data_set : Z;
  num_data_sets : Z;
  name : option (list Z);
  data_sets : list DataSet
}.

End Group.

Module Agcc.

(** [fp] is the stream as [agcc_init] leaves it; [size] is its length. *)
Record agcc_t : Type := mk_agcc {
  fn : list byte;
  fp : hFILE;
  magic : Z;
  version : Z;
  num_data_groups : Z;
  pos_first_data_group : Z;
  data_header : Header.DataHeader;
  data_groups : list Group.DataGroup;
  size : Z;
  display_name : list byte
}.

End Agcc.

(** [hseek(fp, 0L, SEEK_END)]. *)
Definition hseek_end (fp : hFILE) : hFILE :=
  mk_hFILE (contents fp) (length (contents fp)).

(** [htell(fp)]. *)
Definition htell (fp : hFILE) : Z := Z.of_nat (position fp).

(** Lines 559-569: the file name without its directories, without ".chp" and
    then without the name of the algorithm. *)
Definition agcc_display_name (fn : list byte) : list byte :=
  let ptr :=
    match strrchr fn SLASH with
    | Some i => skipn (S i) fn
    | None => fn
    end in
  match strrchr ptr DOT with
  | Some i =>
      if list_byte_eqb (skipn (S i) ptr) (cstr "chp") then
        let display_name := firstn i ptr in
        match strrchr display_name DOT with
        | Some j =>
            let ext := skipn (S j) display_name in
            if list_byte_eqb ext (cstr "AxiomGT1")
               || list_byte_eqb ext (cstr "birdseed-v2")
               || list_byte_eqb ext (cstr "brlmm-p")
            then firstn j display_name
            else display_name
        | None => display_name
        end
      else ptr
  | None => ptr
  end.

Section AGCCFile.

Variable host : byte_order.

(** [for (int i = 0; i < n; i++) read(&items[i], fp);] *)
Fixpoint read_many {A : Type} (read : hFILE -> result (A * hFILE)) (n : nat)
  (fp0 : hFILE) : result (list A * hFILE) :=
  match n with
  | O => Ok ([], fp0)
  | S n' =>
      '(a, fp1) <- read fp0 ;;
      '(l, fp2) <- read_many read n' fp1 ;;
      Ok (a :: l, fp2)
  end.

(** [agcc_read_data_header] calls itself for every parent: [fuel] bounds the
    depth of the nesting. *)
Fixpoint agcc_read_data_header (fuel : nat) (fp0 : hFILE) (flags : Z) {struct fuel}
  : result (Header.DataHeader * hFILE) :=
  match fuel with
  | O => Undefined
  | S fuel' =>
      '(_, data_type_identifier, fp1) <- read_string8 host fp0 ;;
      '(_, guid, fp2) <- read_string8 host fp1 ;;
      '(_, datetime, fp3) <- read_string16 host fp2 ;;
      '(_, locale, fp4) <- read_string16 host fp3 ;;
      '(np, fp5) <- read_long host fp4 ;;
      let n_parameters := to_int32 np in
      '(parameters, fp6) <- read_parameters host (Z.to_nat n_parameters) fp5 flags ;;
      '(npa, fp7) <- read_long host fp6 ;;
      let n_parents := to_int32 npa in
      '(parents, fp8) <-
        read_many (fun fp => agcc_read_data_header fuel' fp flags)
                  (Z.to_nat n_parents) fp7 ;;
      Ok (Header.mk_DataHeader data_type_identifier guid datetime locale
                               n_parameters parameters n_parents parents, fp8)
  end.

(** The data sets of a group, one after the other: each is read where the
    one before left the stream. *)
Fixpoint read_data_sets (n : nat) (fp0 : hFILE) (flags : Z)
  : result (list DataSet * hFILE) :=
  match n with
  | O => Ok ([], fp0)
  | S n' =>
      data_set <- agcc_read_data_set host fp0 flags ;;
      '(l, fp1) <- read_data_sets n' (fp data_set) flags ;;
      Ok (data_set :: l, fp1)
  end.

Definition agcc_read_data_group (fp0 : hFILE) (flags : Z)
  : result (Group.DataGroup * hFILE) :=
  '(pos_next_data_group, fp1) <- read_long host fp0 ;;
  '(pos_first_data_set, fp2) <- read_long host fp1 ;;
  '(nds, fp3) <- read_long host fp2 ;;
  let num_data_sets := to_int32 nds in
  '(_, name, fp4) <- read_string16 host fp3 ;;
  let fp5 := hseek fp4 pos_first_data_set in
  '(data_sets, fp6) <- read_data_sets (Z.to_nat num_data_sets) fp5 flags ;;
  let fp7 :=
    if negb (pos_next_data_group =? 0) then hseek fp6 pos_next_data_group else fp6 in
  Ok (Group.mk_DataGroup pos_next_data_group pos_first_data_set num_data_sets
                         name data_sets, fp7).

(** A header takes at least one byte for each level of nesting, so as much
    fuel as the stream has bytes left, and one more, is enough. *)
Definition agcc_init (fn : list byte) (fp0 : hFILE) (flags : Z)
  : init_result Agcc.agcc_t :=
  '(m, fp1) <~ Run (read_bytes fp0 1) ;;
  let magic := u8 (hd "000"%byte m) in
  if negb (magic =? 59) then Reject AgccBadMagic
  else
  '(v, fp2) <~ Run (read_bytes fp1 1) ;;
  let version := u8 (hd "000"%byte v) in
  if negb (version =? 1) then Reject AgccBadVersion
  else
  '(ndg, fp3) <~ Run (read_long host fp2) ;;
  let num_data_groups := to_int32 ndg in
  '(pos_first_data_group, fp4) <~ Run (read_long host fp3) ;;
  '(data_header, fp5) <~
    Run (agcc_read_data_header (S (length (remaining fp4))) fp4 flags) ;;
  let fp6 := hseek fp5 pos_first_data_group in
  '(data_groups, fp7) <~
    Run (read_many (fun fp => agcc_read_data_group fp flags)
                   (Z.to_nat num_data_groups) fp6) ;;
  if negb (heof fp7) then Reject AgccTrailingData
  else
    let fp8 := hseek_end fp7 in
    Run (Ok (Agcc.mk_agcc fn fp8 magic version num_data_groups pos_first_data_group
                          data_header data_groups (htell fp8)
                          (agcc_display_name fn))).

End AGCCFile.

(** ** Printing a call *)

(** The tables [a] and [b] of [agcc_print_call]. *)
Definition print_call_a : list byte := cstr "......ABA..N....".
Definition print_call_b : list byte := cstr "......ABB..C....".

(** The two characters that [agcc_print_call] writes for the column at [s]. *)
Definition agcc_print_call (s : list byte) : result (list byte) :=
  match s with
  | [] => Undefined
  | s0 :: _ =>
      let c := Z.to_nat (Z.land (u8 s0) 15) in
      Ok [nth c print_call_a "000"%byte; nth c print_call_b "000"%byte]
  end.

(** ** ANNOT.CSV FILE IMPLEMENTATION *)

(** [unquote(str)] for a field [str] of a line: [None] is NULL.  The result
    starts one byte after [str]; the last quote, if it is not that first byte,
    ends it.  After an empty string there is nothing to point at. *)
Definition unquote (str : list byte) : result (option (list byte)) :=
  if list_byte_eqb str (QUOTE :: cstr "---" ++ [QUOTE]) then Ok None
  else
    match str with
    | [] => Undefined
    | _ :: t =>
        match strrchr str QUOTE with
        | Some (S i) => Ok (Some (firstn i t))
        | _ => Ok (Some t)
        end
    end.

(** ** htsFILE READING FUNCTIONS *)

(** The [while (str->s[0] == '#')] of [unheader]: [fuel] bounds the number
    of lines read.  What the buffer holds when the file ends among the lines
    that start with '#' is up to htslib; the embedding follows it no
    further. *)
Fixpoint skip_header (fuel : nat) (str : list byte) (fp : hFILE)
  : result (list byte * hFILE) :=
  match str with
  | c :: _ =>
      if Byte.eqb c HASH then
        match fuel with
        | O => Undefined
        | S fuel' =>
            match hts_getline fp with
            | Some (str', fp') => skip_header fuel' str' fp'
            | None => Undefined
            end
        end
      else Ok (str, fp)
  | [] => Ok (str, fp)
  end.

(** [unheader]: the first line that does not start with '#', and the stream
    after it.  [hts_getline(...) <= 0] holds at the end of the file and for
    an empty line.  A line takes at least one byte, so the bytes left bound
    the number of lines. *)
Definition unheader (fp : hFILE) : init_result (list byte * hFILE) :=
  match hts_getline fp with
  | None => Reject EmptyFile
  | Some ([], _) => Reject EmptyFile
  | Some (str, fp1) => Run (skip_header (length (remaining fp1)) str fp1)
  end.

(** ** REPORT.TXT FILE IMPLEMENTATION *)

(** [cel_files] and [genders] hold [n_samples] entries each. *)
Record report_t : Type := mk_report {
  cel_files : list (list byte);
  genders : list Z
}.

Definition n_samples (report : report_t) : nat := length (cel_files report).

(** The gender of a line: 1 for "male", 2 for "female", and the 0 that
    [hts_expand0] stores otherwise. *)
Definition report_gender (s : list byte) : Z :=
  if list_byte_eqb s (cstr "male") then 1
  else if list_byte_eqb s (cstr "female") then 2
  else 0.

(** The [while (hts_getline(...) > 0)] of [report_init]: it ends at the end
    of the file and at an empty line. *)
Fixpoint report_lines (fuel : nat) (fp : hFILE) (report : report_t)
  : init_result report_t :=
  match fuel with
  | O => Run Undefined
  | S fuel' =>
      match hts_getline fp with
      | None => Run (Ok report)
      | Some ([], _) => Run (Ok report)
      | Some (str, fp1) =>
          let cols := ksplit_core str TAB in
          if (length cols <? 2)%nat then Reject ReportMissing
          else
            report_lines fuel' fp1
              (mk_report (cel_files report ++ [field cols 0])
                         (genders report ++ [report_gender (field cols 1)]))
      end
  end.

Definition report_init (fp : hFILE) : init_result report_t :=
  '(str, fp1) <~ unheader fp ;;
  let cols := ksplit_core str TAB in
  if (length cols <? 2)%nat then Reject ReportMissing
  else if negb (list_byte_eqb (field cols 1) (cstr "computed_gender"))
  then Reject ReportNoGenders
  else report_lines (S (length (remaining fp1))) fp1 (mk_report [] []).

(** ** READER ITERATORS: initialisation *)

(** Lines 1701-1703: a sample name without its extension ".CEL". *)
Definition sample_name (s : list byte) : list byte :=
  match strrchr s DOT with
  | Some i => if list_byte_eqb (skipn (S i) s) (cstr "CEL") then firstn i s else s
  | None => s
  end.

Section IteratorInit.

Context {FA : FloatArith}.

(** [varitr_init_common]: the arrays hold [nsmpl] entries; their entries
    stand for the indeterminate values of [malloc]. *)
Definition varitr_init_common (v : varitr_t) : varitr_t :=
  let n := nsmpl v in
  mk_varitr n (nrow v) (data_sets v) (is_axiom v) (calls_fp v) (confidences_fp v)
            (summary_fp v) (probe_set_id v)
            (repeat 0 n) (repeat f_NAN n) (repeat f_NAN n) (repeat f_NAN n)
            (repeat f_NAN n) (repeat f_NAN n).

(** [wcscmp(data_set->col_headers[i].name, s) == 0]; a column that the data
    set does not have, or a NULL name, is outside C. *)
Definition col_name_is (data_set : DataSet) (i : nat) (s : string) : result bool :=
  match nth_error (col_headers data_set) i with
  | Some c =>
      match col_name c with
      | Some nm => Ok (wcs_eq nm (wstr s))
      | None => Undefined
      end
  | None => Undefined
  end.

(** [a || b] on two such comparisons: [b] is evaluated when [a] fails. *)
Definition either_name (data_set : DataSet) (i : nat) (s : string) (j : nat)
  (t : string) : result bool :=
  a <- col_name_is data_set i s ;;
  if a then Ok true else col_name_is data_set j t.

(** Lines 1658-1661: the four comparisons, from the left, up to the first
    name that differs. *)
Fixpoint names_differ (data_set : DataSet) (l : list (nat * string)) : result bool :=
  match l with
  | [] => Ok false
  | (i, s) :: l' =>
      a <- col_name_is data_set i s ;;
      if a then names_differ data_set l' else Ok true
  end.

(** The body of the loop of [varitr_init_cc] for one file: the data set
    "Genotype" with its stream at the first row, and [is_axiom]. *)
Definition varitr_init_cc_file (agcc : Agcc.agcc_t) : init_result (DataSet * Z) :=
  match Header.data_type_identifier (Agcc.data_header agcc) with
  | None => Run Undefined
  | Some id =>
  if negb (list_byte_eqb (c_string id) (cstr "affymetrix-multi-data-type-analysis"))
  then Reject NotMultiDataType
  else if Agcc.num_data_groups agcc =? 0 then Reject NoMultiData
  else
  match Agcc.data_groups agcc with
  | [] => Run Undefined
  | group :: _ =>
  match Group.name group with
  | None => Run Undefined
  | Some group_name =>
  if negb (wcs_eq group_name (wstr "MultiData")) then Reject NoMultiData
  else if Group.num_data_sets group =? 0 then Reject NoGenotypeData
  else
  match Group.data_sets group with
  | [] => Run Undefined
  | data_set :: _ =>
  match name data_set with
  | None => Run Undefined
  | Some set_name =>
  if negb (wcs_eq set_name (wstr "Genotype")) then Reject NoGenotypeData
  else
  differ <~ Run (names_differ data_set
                   [(0%nat, "ProbeSetName"); (1%nat, "Call"); (2%nat, "Confidence");
                    (5%nat, "Forced Call")]%string) ;;
  if differ then Reject GenotypeFormat
  else
  axiom <~ Run (either_name data_set 3 "Log Ratio" 4 "Strength") ;;
  is_axiom <~
    (if axiom then Run (Ok 1)
     else
       signal <~ Run (either_name data_set 3 "Signal A" 4 "Signal B") ;;
       if signal then Run (Ok 0) else Reject IntensitiesFormat) ;;
  Run (Ok (mk_DataSet (pos_first_element data_set) (pos_next_data_set data_set)
                      (name data_set) (n_parameters data_set) (parameters data_set)
                      (n_cols data_set) (col_headers data_set) (n_rows data_set)
                      (hseek (fp data_set) (pos_first_element data_set))
                      (n_buffer data_set) (col_offsets data_set) (buffer data_set),
           is_axiom))
  end end end end end.

(** The loop over the files: the data sets, [is_axiom], and the names given
    to [bcf_hdr_add_sample]. *)
Fixpoint varitr_init_cc_files (agcc : list Agcc.agcc_t)
  : init_result (list DataSet * list Z * list (list byte)) :=
  match agcc with
  | [] => Run (Ok ([], [], []))
  | a :: rest =>
      '(data_set, axiom) <~ varitr_init_cc_file a ;;
      '(dss, axioms, names) <~ varitr_init_cc_files rest ;;
      Run (Ok (data_set :: dss, axiom :: axioms, Agcc.display_name a :: names))
  end.

(** [varitr_init_cc(hdr, agcc, n)] with the [n] files in [agcc]: the iterator
    and the samples added to the header. *)
Definition varitr_init_cc (agcc : list Agcc.agcc_t)
  : init_result (varitr_t * list (list byte)) :=
  '(dss, axioms, names) <~ varitr_init_cc_files agcc ;;
  Run (Ok (varitr_init_common
             (mk_varitr (length agcc) 0 (Some dss) axioms None None None []
                        [] [] [] [] [] []),
           names)).

(** One table of [varitr_init_txt]: the stream after the header line and the
    sample names of that line.  With no column at all, [off[0]] is not set. *)
Definition txt_table (fp : hFILE) : init_result (hFILE * list (list byte)) :=
  '(str, fp1) <~ unheader fp ;;
  match ksplit_core str TAB with
  | [] => Run Undefined
  | (_, f0) :: cols =>
      if negb (list_byte_eqb f0 (cstr "probeset_id")) then Reject MalformedFirstLine
      else Run (Ok (fp1, map (fun c => sample_name (snd c)) cols))
  end.

(** [varitr_init_txt]: the tables are the files already opened, [None] for a
    NULL file name.  The samples come from the first table that is given. *)
Definition varitr_init_txt (calls_fn confidences_fn summary_fn : option hFILE)
  : init_result (varitr_t * list (list byte)) :=
  '(calls_fp, nsmpl1, samples1) <~
    match calls_fn with
    | Some fp =>
        '(fp1, names) <~ txt_table fp ;;
        Run (Ok (Some fp1, length names, names))
    | None => Run (Ok (None, O, []))
    end ;;
  '(confidences_fp, nsmpl2, samples2) <~
    match confidences_fn with
    | Some fp =>
        '(fp1, names) <~ txt_table fp ;;
        match calls_fp with
        | None => Run (Ok (Some fp1, length names, names))
        | Some _ => Run (Ok (Some fp1, nsmpl1, samples1))
        end
    | None => Run (Ok (None, nsmpl1, samples1))
    end ;;
  '(summary_fp, nsmpl3, samples3) <~
    match summary_fn with
    | Some fp =>
        '(fp1, names) <~ txt_table fp ;;
        match calls_fp, confidences_fp with
        | None, None => Run (Ok (Some fp1, length names, names))
        | _, _ => Run (Ok (Some fp1, nsmpl2, samples2))
        end
    | None => Run (Ok (None, nsmpl2, samples2))
    end ;;
  Run (Ok (varitr_init_common
             (mk_varitr nsmpl3 0 None [] calls_fp confidences_fp summary_fp []
                        [] [] [] [] [] []),
           samples3)).

End IteratorInit.

(** ** CLUSTER MODELS FILE IMPLEMENTATION: reading the models *)

Module Models.

Section WithFloat.

Context {FA : FloatArith} {FL : FloatLibc FA}.

(** [off] is the split of the field [s]: [&s[off[i]]] is its [i]-th part. *)
Definition brlmmp_cluster_init (off : list (nat * list byte)) : Clusters.cluster_t :=
  Clusters.mk_cluster
    (strtof (field off 0))     (* xm *)
    (strtof (field off 1))     (* xss *)
    (strtof (field off 2))     (* k *)
    (strtof (field off 3))     (* v *)
    (strtof (field off 4))     (* ym *)
    (strtof (field off 5))     (* yss *)
    (strtof (field off 6)).    (* xyss *)

Definition birdseed_cluster_init (off : list (nat * list byte)) : Clusters.cluster_t :=
  Clusters.mk_cluster
    (strtof (field off 0))     (* xm *)
    (strtof (field off 2))     (* xss *)
    (strtof (field off 5))     (* k *)
    (strtof (field off 5))     (* v *)
    (strtof (field off 1))     (* ym *)
    (strtof (field off 4))     (* yss *)
    (strtof (field off 3)).    (* xyss *)

(** The cluster whose seven fields are NAN. *)
Definition nan_cluster : Clusters.cluster_t :=
  Clusters.mk_cluster f_NAN f_NAN f_NAN f_NAN f_NAN f_NAN f_NAN.

(** [snps_0] is [snps[0]], the models whose copy number is not 2, and
    [snps_1] is [snps[1]], the diploid models; the hash tables that index
    them are left out. *)
Record models_t : Type := mk_models {
  is_birdseed : Z;
  snps_0 : list Clusters.snp_t;
  snps_1 : list Clusters.snp_t
}.

(** The separators and the number of parts of a cluster in the two kinds of
    models file. *)
Record dialect_t : Type := mk_dialect {
  sep1 : byte;
  sep2 : byte;
  sep3 : byte;
  exp_cols : nat
}.

Definition brlmmp : dialect_t := mk_dialect TAB ","%byte ":"%byte 7.
Definition birdseed : dialect_t := mk_dialect ";"%byte " "%byte "-"%byte 6.

(** [col_str[len - 2]] for the first field [col_str] at offset [off0]: with
    one character only, it is the separator before the field, or lies before
    the string. *)
Definition before_last (off0 : nat) (col_str : list byte) (sep : byte) : result byte :=
  match rev col_str with
  | _ :: c2 :: _ => Ok c2
  | [_] => if (off0 =? 0)%nat then Undefined else Ok sep
  | [] => Undefined
  end.

(** [&str.s[off1[i]]]; the entries of [off1] from [ncols1] on are not set by
    the split. *)
Definition column (cols : list (nat * list byte)) (i : nat) : result (list byte) :=
  match nth_error cols i with
  | Some c => Ok (snd c)
  | None => Undefined
  end.

(** A cluster from the field [col_str]. *)
Definition models_cluster (d : dialect_t) (birdseed_file : Z) (col_str : list byte)
  : init_result Clusters.cluster_t :=
  let off2 := ksplit_core col_str (sep2 d) in
  if (length off2 <? exp_cols d)%nat then Reject ModelMissingInformation
  else if negb (birdseed_file =? 0) then Run (Ok (birdseed_cluster_init off2))
  else Run (Ok (brlmmp_cluster_init off2)).

(** The body of the [do ... while] of [models_init] for the line [str]:
    [idx], which is [copynumber == 2], and the model. *)
Definition models_line (d : dialect_t) (birdseed_file : Z) (str : list byte)
  : init_result (bool * Clusters.snp_t) :=
  let cols1 := ksplit_core str (sep1 d) in
  match cols1 with
  | [] => Run Undefined
  | (off0, col_str) :: _ =>
      c2 <~ Run (before_last off0 col_str (sep1 d)) ;;
      let len := length col_str in
      let '(copynumber, id) :=
        if Byte.eqb c2 (sep3 d)
        then (strtol (skipn (len - 1) col_str), firstn (len - 2) col_str)
        else (2, col_str) in
      let idx := copynumber =? 2 in
      if Z.of_nat (length cols1) <? 4 - (2 - copynumber) * birdseed_file
      then Reject ModelMissingInformation
      else
        col1 <~ Run (column cols1 1) ;;
        first <~ models_cluster d birdseed_file col1 ;;
        col2 <~ Run (column cols1 2) ;;
        '(ab, col_last) <~
          (if negb (birdseed_file =? 0) && (copynumber =? 1)
           then Run (Ok (nan_cluster, col2))
           else
             ab <~ models_cluster d birdseed_file col2 ;;
             col3 <~ Run (column cols1 3) ;;
             Run (Ok (ab, col3))) ;;
        last <~ models_cluster d birdseed_file col_last ;;
        if negb (birdseed_file =? 0)
        then Run (Ok (idx, Clusters.mk_snp id copynumber first ab last))
        else Run (Ok (idx, Clusters.mk_snp id copynumber last ab first))
  end.

Definition add_snp (idx : bool) (snp : Clusters.snp_t) (models : models_t) : models_t :=
  if idx
  then mk_models (is_birdseed models) (snps_0 models) (snps_1 models ++ [snp])
  else mk_models (is_birdseed models) (snps_0 models ++ [snp]) (snps_1 models).

(** The [do ... while (hts_getline(...) > 0)]: [fuel] bounds the number of
    lines. *)
Fixpoint models_lines (fuel : nat) (d : dialect_t) (str : list byte) (fp : hFILE)
  (models : models_t) : init_result models_t :=
  match fuel with
  | O => Run Undefined
  | S fuel' =>
      '(idx, snp) <~ models_line d (is_birdseed models) str ;;
      let models' := add_snp idx snp models in
      match hts_getline fp with
      | None => Run (Ok models')
      | Some ([], _) => Run (Ok models')
      | Some (str', fp') => models_lines fuel' d str' fp' models'
      end
  end.

(** [models_init]: the header "id BB AB AA CV" announces the tab-separated
    kind; a first line without a tab is the first model of the other kind. *)
Definition models_init (fp : hFILE) : init_result models_t :=
  '(str, fp1) <~ unheader fp ;;
  if list_byte_eqb (c_string str) (tab_separated ["id"; "BB"; "AB"; "AA"; "CV"]%string)
  then
    match hts_getline fp1 with
    | None => Reject ModelsMissing
    | Some ([], _) => Reject ModelsMissing
    | Some (str', fp2) =>
        models_lines (S (length (remaining fp2))) brlmmp str' fp2 (mk_models 0 [] [])
    end
  else if negb (existsb (Byte.eqb TAB) (c_string str))
  then models_lines (S (length (remaining fp1))) birdseed str fp1 (mk_models 1 [] [])
  else Reject ModelsMalformed.

End WithFloat.

End Models.

(** ** Fixtures *)

(** A CEL file that a little-endian writer stores: the header
    [xda_le_header], whose cell count is 6, and six cells of ten bytes. *)
Definition xda_le_file : list byte := xda_le_header ++ repeat "000"%byte 60.

Definition xda_le_loaded : XDA.xda_cel_t :=
  XDA.mk_xda_cel 4 2 3 6 0 [] 0 [] 0 [] 0 0 0 0 (repeat "000"%byte 60) [] [] []
                 (mk_hFILE xda_le_file 108).

(** A parameter "affymetrix-algorithm-param-apt-opt-cel-1" of type
    "text/ascii" with the value "a.CEL". *)
Definition apt_opt_parameter : list byte :=
  enc_string16 (wstr "affymetrix-algorithm-param-apt-opt-cel-1")
  ++ enc_string8 (cstr "a.CEL") ++ enc_string16 (wstr "text/ascii").

(** A column header of a data set: name, type and width. *)
Definition enc_col (name : string) (type size : Z) : list byte :=
  enc_string16 (wstr name) ++ [byte_of_Z type] ++ enc_be32 size.

(** The header of a data set "Genotype" whose six columns have the widths of
    [genotype_row]; [c3] and [c4] name the two intensity columns. *)
Definition chp_data_set_header (first next : Z) (c3 c4 : string) (rows : Z)
  : list byte :=
  enc_be32 first ++ enc_be32 next ++ enc_string16 (wstr "Genotype") ++ enc_be32 0
  ++ enc_be32 6
  ++ enc_col "ProbeSetName" 7 12 ++ enc_col "Call" 1 1 ++ enc_col "Confidence" 6 4
  ++ enc_col c3 6 4 ++ enc_col c4 6 4 ++ enc_col "Forced Call" 1 1
  ++ enc_be32 rows.

(** A data header without parameters, with one parent that has none. *)
Definition chp_data_header : list byte :=
  enc_string8 (cstr "affymetrix-multi-data-type-analysis")
  ++ enc_string8 (cstr "0000-1") ++ enc_string16 (wstr "2020-05-26")
  ++ enc_string16 (wstr "en-US") ++ enc_be32 0 ++ enc_be32 1
  ++ (enc_string8 (cstr "affymetrix-calvin-intensity")
      ++ enc_string8 (cstr "0000-0") ++ enc_string16 (wstr "2020-05-25")
      ++ enc_string16 (wstr "en-US") ++ enc_be32 0 ++ enc_be32 0).

(** A CHP file with one data group "MultiData" that holds one data set
    "Genotype" and its rows. *)
Definition chp_file (c3 c4 : string) (rows : list (list byte)) : list byte :=
  let pos_group := Z.of_nat (10 + length chp_data_header) in
  let group_name := enc_string16 (wstr "MultiData") in
  let pos_set := pos_group + Z.of_nat (12 + length group_name) in
  let first := pos_set + Z.of_nat (length (chp_data_set_header 0 0 c3 c4 0)) in
  let next := first + Z.of_nat (length (concat rows)) in
  [byte_of_Z 59; byte_of_Z 1] ++ enc_be32 1 ++ enc_be32 pos_group
  ++ chp_data_header
  ++ enc_be32 0 ++ enc_be32 pos_set ++ enc_be32 1 ++ group_name
  ++ chp_data_set_header first next c3 c4 (Z.of_nat (length rows))
  ++ concat rows.

Definition chp_axiom : list byte := chp_file "Log Ratio" "Strength" [signal_row].

Definition chp_name : list byte := cstr "/data/plate1/s1.AxiomGT1.chp".

Definition empty_agcc : Agcc.agcc_t :=
  Agcc.mk_agcc [] (hopen []) 0 0 0 0
    (Header.mk_DataHeader None None None None 0 [] 0 []) [] 0 [].

(** What [agcc_init] makes of [chp_axiom]. *)
Definition chp_loaded : Agcc.agcc_t :=
  Eval vm_compute in
    match agcc_init LittleEndian chp_name (hopen chp_axiom) 0 with
    | Run (Ok agcc) => agcc
    | _ => empty_agcc
    end.

(** The bytes of a text file with the given lines, each ended by a newline. *)
Definition NL : byte := "010"%byte.

Definition text_lines (lines : list (list byte)) : list byte :=
  concat (map (fun l => l ++ [NL]) lines).

(** A line of a header: it starts with '#' and holds no newline. *)
Definition comment_line (c : list byte) : Prop :=
  hd_error c = Some HASH /\ ~ In NL c.

(** A calls table and a summary table for the samples "s1.CEL" and "s2.CEL". *)
Definition calls_table : list byte :=
  text_lines [cstr "#%chip_type=Axiom"]
  ++ line ["probeset_id"; "s1.CEL"; "s2.CEL"]%string
  ++ line ["AX-1"; "0"; "1"]%string.

Definition summary_table : list byte :=
  line ["probeset_id"; "s1.CEL"; "s2.CEL"]%string
  ++ line ["AX-1-A"; "100"; "7"]%string ++ line ["AX-1-B"; "25"; "9"]%string.

Section InitFixtures.

Context {FA : FloatArith} {FL : FloatLibc FA}.

Definition empty_iterator : varitr_t :=
  mk_varitr 0 0 None [] None None None [] [] [] [] [] [] [].

(** The iterator that [varitr_init_cc] makes of the file [chp_loaded], and
    the iterator after the first row. *)
Definition cc_initialised : varitr_t :=
  Eval vm_compute in
    match varitr_init_cc [chp_loaded] with
    | Run (Ok (v, _)) => v
    | _ => empty_iterator
    end.

Definition cc_first_row : varitr_t :=
  Eval vm_compute in
    match varitr_loop LittleEndian cc_initialised with
    | Ok v => v
    | _ => empty_iterator
    end.

(** The iterator that [varitr_init_txt] makes of the two tables, and the
    iterator after the first row. *)
Definition txt_initialised : varitr_t :=
  Eval vm_compute in
    match varitr_init_txt (Some (hopen calls_table)) None
                          (Some (hopen summary_table)) with
    | Run (Ok (v, _)) => v
    | _ => empty_iterator
    end.

Definition txt_first_row : varitr_t :=
  Eval vm_compute in
    match varitr_loop LittleEndian txt_initialised with
    | Ok v => v
    | _ => empty_iterator
    end.

End InitFixtures.

(** A confidences table for the same samples, and the iterator over the
    calls and the confidences. *)
Definition confidences_table : list byte :=
  line ["probeset_id"; "s1.CEL"; "s2.CEL"]%string
  ++ line ["AX-1"; "0.01"; "0.02"]%string.

Section InitFixtures2.

Context {FA : FloatArith} {FL : FloatLibc FA}.

Definition calls_confidences_initialised : varitr_t :=
  Eval vm_compute in
    match varitr_init_txt (Some (hopen calls_table))
                          (Some (hopen confidences_table)) None with
    | Run (Ok (v, _)) => v
    | _ => empty_iterator
    end.

Definition calls_confidences_first_row : varitr_t :=
  Eval vm_compute in
    match varitr_loop LittleEndian calls_confidences_initialised with
    | Ok v => v
    | _ => empty_iterator
    end.

End InitFixtures2.

(** The iterator after a line of a calls table that gives the call 3 to its
    one sample. *)
Definition call_3_row {FA : FloatArith} : varitr_t :=
  mk_varitr 1 0 None [] (Some (mk_hFILE (line ["AX-1"; "3"]%string) 7)) None None
            (cstr "AX-1") [3] [f_NAN] [f_NAN] [f_NAN] [f_NAN] [f_NAN].

(** A report with two samples, a blank line, and a third sample after it. *)
Definition report_lines_2 : list (list byte) :=
  [tab_separated ["s1.CEL"; "male"]%string; tab_separated ["s2.CEL"; "female"]%string].

Definition report_header : list byte :=
  tab_separated ["cel_files"; "computed_gender"]%string.

Definition report_after_blank : list byte :=
  tab_separated ["s3.CEL"; "unknown"]%string ++ [NL].

(** The fields of a line, with the separator [d] between them. *)
Fixpoint join (d : byte) (fields : list (list byte)) : list byte :=
  match fields with
  | [] => []
  | [f] => f
  | f :: fs => f ++ d :: join d fs
  end.

(** The fields with the offsets they have in the joined line that starts at
    offset [i]. *)
Fixpoint with_offsets (i : nat) (fields : list (list byte)) : list (nat * list byte) :=
  match fields with
  | [] => []
  | f :: fs => (i, f) :: with_offsets (i + length f + 1) fs
  end.

(** A field that a split by [d] returns as it is: not empty, without [d] and
    without NUL. *)
Definition plain_field (d : byte) (f : list byte) : Prop :=
  f <> [] /\ ~ In d f /\ ~ In "000"%byte f.

(** The header line of a tab-separated models file. *)
Definition models_header : list byte :=
  tab_separated ["id"; "BB"; "AB"; "AA"; "CV"]%string.

(** A semicolon-separated models file: a haploid and a diploid model. *)
Definition birdseed_models : list byte :=
  text_lines [cstr "#%affymetrix-algorithm-param-apt-opt-chip-type=GenomeWideSNP_6";
              cstr "SNP_A-1-1;1 2 3 4 5 6;7 8 9 10 11 12";
              cstr "SNP_A-20;1 2 3 4 5 6;2 3 4 5 6 7;7 8 9 10 11 12"].

(** ** Fixtures of the layouts *)

(** The four bytes at offset [off] as a host-order [uint32_t]. *)
Definition native_uint32_at (host : byte_order) (bs : list byte) (off : nat) : option Z :=
  match skipn off bs with
  | b0 :: b1 :: b2 :: b3 :: _ => Some (load_uint32 host b0 b1 b2 b3)
  | _ => None
  end.

(** An XDA header as a little-endian writer stores it, with the texts "H1",
    "Alg" and "p=1", a margin of 2, 1 outlier, 3 masked cells and no
    sub-grid. *)
Definition xda_le_texts : list byte :=
  enc_le32 64 ++ enc_le32 4 ++ enc_le32 2 ++ enc_le32 3 ++ enc_le32 6
  ++ enc_le32 2 ++ cstr "H1" ++ enc_le32 3 ++ cstr "Alg" ++ enc_le32 3 ++ cstr "p=1"
  ++ enc_le32 2 ++ enc_le32 1 ++ enc_le32 3 ++ enc_le32 0.

(** What [xda_cel_init] makes of it on a little-endian host, header only. *)
Definition xda_le_texts_decoded : XDA.xda_cel_t :=
  XDA.mk_xda_cel 4 2 3 6 2 (cstr "H1") 3 (cstr "Alg") 3 (cstr "p=1") 2 1 3 0
                 [] [] [] [] (mk_hFILE xda_le_texts 56).

(** A data set "Genotype" without parameters and rows, whose three columns
    are 2147483647, 2147483647 and 2 bytes wide: the widths add up to 2^32. *)
Definition wide_data_set : list byte :=
  enc_be32 0 ++ enc_be32 0 ++ enc_wstring "Genotype" ++ enc_be32 0
  ++ enc_be32 3
  ++ enc_wstring "ProbeSetName" ++ [byte_of_Z 7] ++ enc_be32 2147483647
  ++ enc_wstring "Call" ++ [byte_of_Z 7] ++ enc_be32 2147483647
  ++ enc_wstring "Confidence" ++ [byte_of_Z 1] ++ enc_be32 2
  ++ enc_be32 0.

(** What [agcc_read_data_set] makes of [wide_data_set]. *)
Definition wide_decoded : DataSet :=
  Eval vm_compute in
    match agcc_read_data_set LittleEndian (hopen wide_data_set) 0 with
    | Ok data_set => data_set
    | _ => empty_data_set
    end.

(** ** What a step reads *)

(** The row that the next step reads from a data set: the [n_buffer] bytes
    at the position of its stream. *)
Definition next_row (data_set : DataSet) : list byte :=
  firstn (Z.to_nat (n_buffer data_set)) (remaining (fp data_set)).

(** A data set with its stream at its first row. *)
Definition at_first_row (data_set : DataSet) : DataSet :=
  mk_DataSet (pos_first_element data_set) (pos_next_data_set data_set)
             (name data_set) (n_parameters data_set) (parameters data_set)
             (n_cols data_set) (col_headers data_set) (n_rows data_set)
             (hseek (fp data_set) (pos_first_element data_set))
             (n_buffer data_set) (col_offsets data_set) (buffer data_set).

(** The byte of column [c] of a row, and its four bytes as an integer, most
    significant byte first. *)
Definition row_byte (offsets : list Z) (row : list byte) (c : nat) : option byte :=
  match nth_error offsets c with
  | Some off => nth_error row (Z.to_nat off)
  | None => None
  end.

Definition row_be32 (offsets : list Z) (row : list byte) (c : nat) : option Z :=
  match nth_error offsets c with
  | Some off =>
      match skipn (Z.to_nat off) row with
      | b0 :: b1 :: b2 :: b3 :: _ => Some (be32 b0 b1 b2 b3)
      | _ => None
      end
  | None => None
  end.

Section Decoded.

Context {FA : FloatArith} {FL : FloatLibc FA}.

Local Open Scope float_scope.

(** Sample [j] of the iterator holds the call of the row: the entry of the
    table [gt] for the low four bits of the byte in column 1. *)
Definition row_call (offsets : list Z) (row : list byte) (v' : varitr_t) (j : nat)
  : Prop :=
  exists call,
    row_byte offsets row 1 = Some call /\
    nth j (gts v') GT_NC = nth (Z.to_nat (Z.land (u8 call) 15)) gt (-1)%Z.

(** Sample [j] holds the confidence of the row: the float whose bits are in
    column 2. *)
Definition row_confidence (offsets : list Z) (row : list byte) (v' : varitr_t)
  (j : nat) : Prop :=
  exists conf,
    row_be32 offsets row 2 = Some conf /\
    nth j (conf_arr v') f_NAN = of_bits conf.

(** Sample [j] holds the intensities of the row, whose columns 3 and 4 are
    the signals A and B ([axiom] is 0) or the contrast and the size. *)
Definition row_intensities (offsets : list Z) (row : list byte) (axiom : Z)
  (v' : varitr_t) (j : nat) : Prop :=
  exists a b,
    row_be32 offsets row 3 = Some a /\ row_be32 offsets row 4 = Some b /\
    (axiom = 0%Z ->
     nth j (norm_x_arr v') f_NAN = of_bits a /\
     nth j (norm_y_arr v') f_NAN = of_bits b /\
     nth j (delta_arr v') f_NAN = log2f (of_bits a) - log2f (of_bits b) /\
     nth j (size_arr v') f_NAN
     = (log2f (of_bits a) + log2f (of_bits b)) * f_0_5) /\
    (axiom <> 0%Z ->
     nth j (delta_arr v') f_NAN = of_bits a /\
     nth j (size_arr v') f_NAN = of_bits b /\
     nth j (norm_x_arr v') f_NAN
     = expf ((of_bits b + of_bits a * f_0_5) * M_LN2) /\
     nth j (norm_y_arr v') f_NAN
     = expf ((of_bits b - of_bits a * f_0_5) * M_LN2)).

(** Sample [j] holds the signals of the lines "-A" and "-B" of the summary
    table, split into [colsA] and [colsB], and their transform. *)
Definition summary_decoded (colsA colsB : list (nat * list byte)) (v' : varitr_t)
  (j : nat) : Prop :=
  let A := strtof (field colsA (S j)) in
  let B := strtof (field colsB (S j)) in
  nth j (norm_x_arr v') f_NAN = A /\
  nth j (norm_y_arr v') f_NAN = B /\
  nth j (delta_arr v') f_NAN = log2f A - log2f B /\
  nth j (size_arr v') f_NAN = (log2f A + log2f B) * f_0_5.

(** The entries of sample [j] are the same in [v] and [v']. *)
Definition sample_kept (v v' : varitr_t) (j : nat) : Prop :=
  same_entries v v' j /\ nth j (conf_arr v') f_NAN = nth j (conf_arr v) f_NAN.

End Decoded.

(** A second row, with the call AB and the signals 8 and 1, two CHP files in
    "Signal A/B" mode with one row each, and a summary table for two
    samples. *)
Definition signal_row_2 : list byte :=
  genotype_row "AX-1" 8 0x3F000000 0x41000000 0x3F800000.

Definition chp_signal_1 : list byte := chp_file "Signal A" "Signal B" [signal_row].
Definition chp_signal_2 : list byte := chp_file "Signal A" "Signal B" [signal_row_2].

Definition chp_signal_1_loaded : Agcc.agcc_t :=
  Eval vm_compute in
    match agcc_init LittleEndian (cstr "s1.birdseed-v2.chp") (hopen chp_signal_1) 0 with
    | Run (Ok agcc) => agcc
    | _ => empty_agcc
    end.

Definition chp_signal_2_loaded : Agcc.agcc_t :=
  Eval vm_compute in
    match agcc_init LittleEndian (cstr "s2.birdseed-v2.chp") (hopen chp_signal_2) 0 with
    | Run (Ok agcc) => agcc
    | _ => empty_agcc
    end.

Definition summary_two_samples : list byte :=
  line ["p1-A"; "100"; "8"]%string ++ line ["p1-B"; "25"; "1"]%string.

Section SignalFixtures.

Context {FA : FloatArith} {FL : FloatLibc FA}.

(** The iterator over the two files, and after its first step. *)
Definition signals_initialised : varitr_t :=
  Eval vm_compute in
    match varitr_init_cc [chp_signal_1_loaded; chp_signal_2_loaded] with
    | Run (Ok (v, _)) => v
    | _ => empty_iterator
    end.

Definition signals_first_row : varitr_t :=
  Eval vm_compute in
    match varitr_loop LittleEndian signals_initialised with
    | Ok v => v
    | _ => empty_iterator
    end.

(** The iterator over two data sets in "Signal A/B" mode, and over the
    summary table for two samples, after their first step. *)
Definition signal_rows_after : varitr_t :=
  mk_varitr 2 1
    (Some [mk_DataSet 0 0 (Some (wstr "Genotype")) 0 [] 6 [] 1
                      (mk_hFILE signal_row 26) 26 genotype_offsets signal_row;
           mk_DataSet 0 0 (Some (wstr "Genotype")) 0 [] 6 [] 1
                      (mk_hFILE signal_row_2 26) 26 genotype_offsets signal_row_2])
    [0; 0] None None None (cstr "AX-1") [GT_AA; GT_AB]
    [of_bits 0x3F000000; of_bits 0x3F000000]
    [of_bits 0x42C80000; of_bits 0x41000000]
    [of_bits 0x41C80000; of_bits 0x3F800000]
    [fsub (log2f (of_bits 0x42C80000)) (log2f (of_bits 0x41C80000));
     fsub (log2f (of_bits 0x41000000)) (log2f (of_bits 0x3F800000))]
    [fmul (fadd (log2f (of_bits 0x42C80000)) (log2f (of_bits 0x41C80000))) f_0_5;
     fmul (fadd (log2f (of_bits 0x41000000)) (log2f (of_bits 0x3F800000))) f_0_5].

Definition summary_two_samples_after : varitr_t :=
  mk_varitr 2 0 None [] None None (Some (mk_hFILE summary_two_samples 21))
    (cstr "p1") [0; 0] [f_NAN; f_NAN]
    [strtof (cstr "100"); strtof (cstr "8")]
    [strtof (cstr "25"); strtof (cstr "1")]
    [fsub (log2f (strtof (cstr "100"))) (log2f (strtof (cstr "25")));
     fsub (log2f (strtof (cstr "8"))) (log2f (strtof (cstr "1")))]
    [fmul (fadd (log2f (strtof (cstr "100"))) (log2f (strtof (cstr "25")))) f_0_5;
     fmul (fadd (log2f (strtof (cstr "8"))) (log2f (strtof (cstr "1")))) f_0_5].

End SignalFixtures.


(* ================================================================== *)
(** * Part II: lemmas and theorems                                      *)
(* ================================================================== *)

(** ** Machine integers and byte order *)

Lemma u8_range b : 0 <= u8 b < 256.
Proof. destruct b; vm_compute; split; congruence. Qed.

Lemma small_testbit lo n i : 0 <= lo < 2 ^ n -> n <= i -> Z.testbit lo i = false.
Proof.
  intros Hlo Hi.
  destruct (Z.eq_dec lo 0) as [->|Hne]; [apply Z.bits_0|].
  apply Z.bits_above_log2; [lia|].
  assert (Z.log2 lo < n) by (apply Z.log2_lt_pow2; lia). lia.
Qed.

Lemma lor_shiftl_add hi lo n :
  0 <= n -> 0 <= lo < 2 ^ n -> Z.lor (Z.shiftl hi n) lo = hi * 2 ^ n + lo.
Proof.
  intros Hn Hlo.
  rewrite <- (Z.shiftl_mul_pow2 hi n Hn), <- Z.add_lor_land.
  assert (Z.land (Z.shiftl hi n) lo = 0) as ->; [|lia].
  apply Z.bits_inj'; intros i Hi.
  rewrite Z.land_spec, Z.bits_0.
  destruct (Z.lt_ge_cases i n).
  - rewrite Z.shiftl_spec_low by assumption. reflexivity.
  - rewrite (small_testbit lo n i) by assumption. apply andb_false_r.
Qed.

Lemma be32_sum b0 b1 b2 b3 :
  be32 b0 b1 b2 b3 = u8 b0 * 2 ^ 24 + u8 b1 * 2 ^ 16 + u8 b2 * 2 ^ 8 + u8 b3.
Proof.
  unfold be32.
  pose proof (u8_range b0); pose proof (u8_range b1);
  pose proof (u8_range b2); pose proof (u8_range b3).
  rewrite (lor_shiftl_add (u8 b2) (u8 b3) 8) by lia.
  rewrite (lor_shiftl_add (u8 b1) _ 16) by lia.
  rewrite (lor_shiftl_add (u8 b0) _ 24) by lia.
  lia.
Qed.

Lemma be16_sum b0 b1 : be16 b0 b1 = u8 b0 * 2 ^ 8 + u8 b1.
Proof.
  unfold be16. pose proof (u8_range b1).
  rewrite (lor_shiftl_add (u8 b0) (u8 b1) 8) by lia. reflexivity.
Qed.

Lemma bswap32_be32 b0 b1 b2 b3 : bswap32 (be32 b3 b2 b1 b0) = be32 b0 b1 b2 b3.
Proof.
  rewrite !be32_sum. unfold bswap32.
  pose proof (u8_range b0); pose proof (u8_range b1);
  pose proof (u8_range b2); pose proof (u8_range b3).
  set (w := u8 b3 * 2 ^ 24 + u8 b2 * 2 ^ 16 + u8 b1 * 2 ^ 8 + u8 b0).
  change 255 with (Z.ones 8).
  rewrite !Z.land_ones, !Z.shiftr_div_pow2 by lia.
  assert (w mod 2 ^ 8 = u8 b0) as -> by (subst w; Z.div_mod_to_equations; lia).
  assert ((w / 2 ^ 8) mod 2 ^ 8 = u8 b1) as ->
    by (subst w; Z.div_mod_to_equations; lia).
  assert ((w / 2 ^ 16) mod 2 ^ 8 = u8 b2) as ->
    by (subst w; Z.div_mod_to_equations; lia).
  assert ((w / 2 ^ 24) mod 2 ^ 8 = u8 b3) as ->
    by (subst w; Z.div_mod_to_equations; lia).
  fold (be32 b0 b1 b2 b3). apply be32_sum.
Qed.

Lemma bswap16_be16 b0 b1 : bswap16 (be16 b1 b0) = be16 b0 b1.
Proof.
  rewrite !be16_sum. unfold bswap16.
  pose proof (u8_range b0); pose proof (u8_range b1).
  set (w := u8 b1 * 2 ^ 8 + u8 b0).
  change 255 with (Z.ones 8).
  rewrite !Z.land_ones, !Z.shiftr_div_pow2 by lia.
  assert (w mod 2 ^ 8 = u8 b0) as -> by (subst w; Z.div_mod_to_equations; lia).
  assert ((w / 2 ^ 8) mod 2 ^ 8 = u8 b1) as ->
    by (subst w; Z.div_mod_to_equations; lia).
  fold (be16 b0 b1). apply be16_sum.
Qed.

(** [ntohl] of a host-order load is the big-endian value, on either host. *)
Lemma ntohl_load host b0 b1 b2 b3 :
  ntohl host (load_uint32 host b0 b1 b2 b3) = be32 b0 b1 b2 b3.
Proof. destruct host; simpl; [apply bswap32_be32 | reflexivity]. Qed.

Lemma ntohs_load host b0 b1 : ntohs host (load_uint16 host b0 b1) = be16 b0 b1.
Proof. destruct host; simpl; [apply bswap16_be16 | reflexivity]. Qed.

(** ** Reading routines *)

Lemma read_long_be host fp : read_long host fp = read_be32 fp.
Proof.
  unfold read_long, read_native32, read_be32.
  destruct (read_bytes fp 4) as [[bs fp']| | |]; simpl; try reflexivity.
  destruct bs as [|b0 [|b1 [|b2 [|b3 [|]]]]]; simpl; try reflexivity.
  now rewrite ntohl_load.
Qed.

Lemma read_short_be host fp : read_short host fp = read_be16 fp.
Proof.
  unfold read_short, read_be16.
  destruct (read_bytes fp 2) as [[bs fp']| | |]; simpl; try reflexivity.
  destruct bs as [|b0 [|b1 [|]]]; simpl; try reflexivity.
  now rewrite ntohs_load.
Qed.

Lemma buffer_long_be host buffer off : buffer_long host buffer off = buffer_be32 buffer off.
Proof.
  unfold buffer_long, buffer_be32.
  destruct (skipn (Z.to_nat off) buffer) as [|b0 [|b1 [|b2 [|b3 l]]]]; try reflexivity.
  now rewrite ntohl_load.
Qed.

Lemma read_wchars_host host n fp : read_wchars host n fp = read_wchars BigEndian n fp.
Proof.
  revert fp; induction n as [|n IH]; intros fp; simpl; [reflexivity|].
  rewrite !read_short_be.
  destruct (read_be16 fp) as [[c fp1]| | |]; simpl; try reflexivity.
  now rewrite IH.
Qed.

Lemma read_string16_host host fp : read_string16 host fp = read_string16 BigEndian fp.
Proof.
  unfold read_string16. rewrite !read_long_be.
  destruct (read_be32 fp) as [[u fp1]| | |]; simpl; try reflexivity.
  now rewrite read_wchars_host.
Qed.

Lemma read_string8_host host fp : read_string8 host fp = read_string8 BigEndian fp.
Proof. unfold read_string8. now rewrite !read_long_be. Qed.

(** ** XDA header *)

Lemma remaining_advance bs pos n :
  remaining (mk_hFILE bs (pos + n)) = skipn n (remaining (mk_hFILE bs pos)).
Proof. unfold remaining; simpl. now rewrite skipn_skipn, Nat.add_comm. Qed.

Lemma read_bytes_ok fp n bs fp' :
  read_bytes fp n = Ok (bs, fp') ->
  bs = firstn n (remaining fp) /\ length bs = n /\
  remaining fp' = skipn n (remaining fp).
Proof.
  unfold read_bytes.
  destruct (length (firstn n (remaining fp)) <? n)%nat eqn:E; [discriminate|].
  intros H; injection H as <- <-.
  apply Nat.ltb_ge in E.
  pose proof (firstn_le_length n (remaining fp)).
  destruct fp as [c p]; simpl.
  repeat split; [lia | apply remaining_advance].
Qed.

Lemma native_int32_at_skipn host bs n off :
  native_int32_at host (skipn n bs) off = native_int32_at host bs (off + n).
Proof. unfold native_int32_at. now rewrite skipn_skipn. Qed.

Lemma read_int32_ok host fp v fp' :
  XDA.read_int32 host fp = Ok (v, fp') ->
  native_int32_at host (remaining fp) 0 = Some v /\
  remaining fp' = skipn 4 (remaining fp).
Proof.
  unfold XDA.read_int32, read_native32.
  destruct (read_bytes fp 4) as [[bs fp1]| | |] eqn:E; simpl; try discriminate.
  apply read_bytes_ok in E as (Hbs & Hlen & Hrem).
  destruct bs as [|b0 [|b1 [|b2 [|b3 [|]]]]]; simpl; try discriminate.
  intros H; injection H as <- <-. split; [|assumption].
  unfold native_int32_at; simpl.
  destruct (remaining fp) as [|c0 [|c1 [|c2 [|c3 l]]]]; simpl in Hbs; try discriminate.
  now injection Hbs as -> -> -> ->.
Qed.

Ltac split_pairs :=
  repeat match goal with
         | p : (_ * _)%type |- _ => destruct p
         end.

Ltac bind_ok H :=
  match type of H with
  | bind ?c _ = Ok _ =>
      let E := fresh "E" in
      destruct c eqn:E; simpl in H; try discriminate H; split_pairs
  | (if ?b then _ else _) = Ok _ =>
      let E := fresh "E" in
      destruct b eqn:E; simpl in H; try discriminate H
  end.

Lemma read_text_ok host fp n bs fp' :
  XDA.read_text host fp = Ok (n, bs, fp') ->
  native_int32_at host (remaining fp) 0 = Some n.
Proof.
  unfold XDA.read_text. intros H.
  destruct (XDA.read_int32 host fp) as [[m fp1]| | |] eqn:E; simpl in H;
    try discriminate H.
  apply read_int32_ok in E as [M _].
  destruct (m <? 0); [discriminate H|].
  destruct (read_bytes fp1 (Z.to_nat m)) as [[bs' fp2]| | |]; simpl in H;
    try discriminate H.
  now injection H as <- _ _.
Qed.

Lemma xda_header_fields host fp flags x :
  XDA.xda_cel_init host fp flags = Ok x ->
  native_int32_at host (remaining fp) 0 = Some 64 /\
  native_int32_at host (remaining fp) 4 = Some (XDA.version x) /\
  native_int32_at host (remaining fp) 8 = Some (XDA.num_rows x) /\
  native_int32_at host (remaining fp) 12 = Some (XDA.num_cols x) /\
  native_int32_at host (remaining fp) 16 = Some (XDA.num_cells x) /\
  native_int32_at host (remaining fp) 20 = Some (XDA.n_header x).
Proof.
  unfold XDA.xda_cel_init. intros H.
  destruct (XDA.read_int32 host fp) as [[magic fp1]| | |] eqn:E0; simpl in H;
    try discriminate H.
  destruct (magic =? 64) eqn:Em; simpl in H; [|discriminate H].
  apply Z.eqb_eq in Em; subst magic.
  destruct (XDA.read_int32 host fp1) as [[ver fp2]| | |] eqn:E1; simpl in H;
    try discriminate H.
  destruct (ver =? 4) eqn:Ev; simpl in H; [|discriminate H].
  destruct (XDA.read_int32 host fp2) as [[rows fp3]| | |] eqn:E2; simpl in H;
    try discriminate H.
  destruct (XDA.read_int32 host fp3) as [[cols fp4]| | |] eqn:E3; simpl in H;
    try discriminate H.
  destruct (XDA.read_int32 host fp4) as [[ncells fp5]| | |] eqn:E4; simpl in H;
    try discriminate H.
  destruct (XDA.read_text host fp5) as [[[nh hd] fp6]| | |] eqn:E5; simpl in H;
    try discriminate H.
  apply read_int32_ok in E0 as [M0 R0], E1 as [M1 R1], E2 as [M2 R2],
                         E3 as [M3 R3], E4 as [M4 R4].
  apply read_text_ok in E5 as M5.
  assert (XDA.version x = ver /\ XDA.num_rows x = rows /\ XDA.num_cols x = cols
          /\ XDA.num_cells x = ncells /\ XDA.n_header x = nh)
    as (-> & -> & -> & -> & ->).
  { repeat bind_ok H; injection H as <-; simpl; repeat split; reflexivity. }
  rewrite R4, R3, R2, R1, R0 in M5.
  rewrite R3, R2, R1, R0 in M4.
  rewrite R2, R1, R0 in M3.
  rewrite R1, R0 in M2.
  rewrite R0 in M1.
  rewrite !native_int32_at_skipn in *.
  simpl in *. repeat split; assumption.
Qed.

(** C3, as stated, fails.  The field values, decoded most significant byte
    first, do not hold of the XDA reader: a header written least significant byte first
    is accepted on a little-endian host, with 2 rows where the big-endian
    reading of the same bytes is 33554432, and the same stream is refused on a
    big-endian host. *)
Lemma xda_header_big_endian_counterexample :
  XDA.xda_cel_init LittleEndian (hopen xda_le_header) 1 = Ok xda_le_decoded /\
  XDA.num_rows xda_le_decoded = 2 /\
  be_int32_at xda_le_header 8 = Some 33554432 /\
  XDA.xda_cel_init BigEndian (hopen xda_le_header) 1 = Fatal XdaBadMagic /\
  ~ (forall host fp flags x,
       XDA.xda_cel_init host fp flags = Ok x ->
       be_int32_at (remaining fp) 8 = Some (XDA.num_rows x)).
Proof.
  assert (E : XDA.xda_cel_init LittleEndian (hopen xda_le_header) 1
              = Ok xda_le_decoded) by (vm_compute; reflexivity).
  split; [exact E|].
  split; [reflexivity|].
  split; [vm_compute; reflexivity|].
  split; [vm_compute; reflexivity|].
  intros H. specialize (H _ _ _ _ E). vm_compute in H. discriminate H.
Qed.

(** ** AGCC data sets *)

Lemma agcc_read_parameters_host host fp flags :
  agcc_read_parameters host fp flags = agcc_read_parameters BigEndian fp flags.
Proof.
  unfold agcc_read_parameters.
  rewrite (read_string16_host host fp).
  destruct (read_string16 BigEndian fp) as [[[n nm] fp1]| | |]; simpl; try reflexivity.
  rewrite (read_string8_host host fp1).
  destruct (read_string8 BigEndian fp1) as [[[nv vl] fp2]| | |]; simpl; try reflexivity.
  now rewrite (read_string16_host host fp2).
Qed.

Lemma read_parameters_host host n fp flags :
  read_parameters host n fp flags = read_parameters BigEndian n fp flags.
Proof.
  revert fp; induction n as [|n IH]; intros fp; simpl; [reflexivity|].
  rewrite (agcc_read_parameters_host host).
  destruct (agcc_read_parameters BigEndian fp flags) as [[p fp1]| | |]; simpl;
    try reflexivity.
  now rewrite IH.
Qed.

Lemma read_col_headers_host host n fp :
  read_col_headers host n fp = read_col_headers BigEndian n fp.
Proof.
  revert fp; induction n as [|n IH]; intros fp; simpl; [reflexivity|].
  rewrite (read_string16_host host).
  destruct (read_string16 BigEndian fp) as [[[l nm] fp1]| | |]; simpl; try reflexivity.
  destruct (read_bytes fp1 1) as [[bs fp2]| | |]; simpl; try reflexivity.
  rewrite !read_long_be.
  destruct (read_be32 fp2) as [[sz fp3]| | |]; simpl; try reflexivity.
  now rewrite IH.
Qed.

Lemma agcc_read_data_set_host host fp flags :
  agcc_read_data_set host fp flags = agcc_read_data_set BigEndian fp flags.
Proof.
  unfold agcc_read_data_set. rewrite !read_long_be.
  destruct (read_be32 fp) as [[a fp1]| | |]; simpl; try reflexivity.
  rewrite !read_long_be.
  destruct (read_be32 fp1) as [[b fp2]| | |]; simpl; try reflexivity.
  rewrite (read_string16_host host).
  destruct (read_string16 BigEndian fp2) as [[[l nm] fp3]| | |]; simpl; try reflexivity.
  rewrite !read_long_be.
  destruct (read_be32 fp3) as [[np fp4]| | |]; simpl; try reflexivity.
  rewrite (read_parameters_host host).
  destruct (read_parameters BigEndian _ fp4 flags) as [[ps fp5]| | |]; simpl;
    try reflexivity.
  rewrite !read_long_be.
  destruct (read_be32 fp5) as [[nc fp6]| | |]; simpl; try reflexivity.
  rewrite (read_col_headers_host host).
  destruct (read_col_headers BigEndian _ fp6) as [[cs fp7]| | |]; simpl;
    try reflexivity.
  now rewrite !read_long_be.
Qed.

Lemma read_native32_ok host fp v fp' :
  read_native32 host fp = Ok (v, fp') ->
  native_uint32_at host (remaining fp) 0 = Some v /\
  remaining fp' = skipn 4 (remaining fp).
Proof.
  unfold read_native32.
  destruct (read_bytes fp 4) as [[bs fp1]| | |] eqn:E; simpl; try discriminate.
  apply read_bytes_ok in E as (Hbs & Hlen & Hrem).
  destruct bs as [|b0 [|b1 [|b2 [|b3 [|]]]]]; simpl; try discriminate.
  intros H; injection H as <- <-. split; [|assumption].
  unfold native_uint32_at; simpl.
  destruct (remaining fp) as [|c0 [|c1 [|c2 [|c3 l]]]]; simpl in Hbs; try discriminate.
  now injection Hbs as -> -> -> ->.
Qed.

Lemma native_uint32_at_skipn host bs n off :
  native_uint32_at host (skipn n bs) off = native_uint32_at host bs (off + n).
Proof. unfold native_uint32_at. now rewrite skipn_skipn. Qed.

(** A text of the XDA header: its length in host order, then its bytes. *)
Lemma read_text_layout host fp n bs fp' :
  XDA.read_text host fp = Ok (n, bs, fp') ->
  native_int32_at host (remaining fp) 0 = Some n /\
  bs = firstn (Z.to_nat n) (skipn 4 (remaining fp)) /\
  remaining fp' = skipn (Z.to_nat n + 4) (remaining fp).
Proof.
  unfold XDA.read_text. intros H.
  destruct (XDA.read_int32 host fp) as [[m fp1]| | |] eqn:E; simpl in H;
    try discriminate H.
  apply read_int32_ok in E as [M R].
  destruct (m <? 0); [discriminate H|].
  destruct (read_bytes fp1 (Z.to_nat m)) as [[bs' fp2]| | |] eqn:E2; simpl in H;
    try discriminate H.
  injection H as <- <- <-.
  apply read_bytes_ok in E2 as (Hbs & _ & Hrem).
  rewrite R in Hbs, Hrem. rewrite skipn_skipn in Hrem.
  repeat split; assumption.
Qed.

(** The twelve fields and the three texts of the XDA header, each at the
    offset that the texts before it give it, in the byte order of the host. *)
Lemma xda_header_layout host fp flags x :
  XDA.xda_cel_init host fp flags = Ok x ->
  let bs := remaining fp in
  let nh := Z.to_nat (XDA.n_header x) in
  let na := Z.to_nat (XDA.n_algorithm x) in
  let np := Z.to_nat (XDA.n_parameters x) in
  XDA.header x = firstn nh (skipn 24 bs) /\
  native_int32_at host bs (24 + nh) = Some (XDA.n_algorithm x) /\
  XDA.algorithm x = firstn na (skipn (28 + nh) bs) /\
  native_int32_at host bs (28 + nh + na) = Some (XDA.n_parameters x) /\
  XDA.parameters x = firstn np (skipn (32 + nh + na) bs) /\
  native_int32_at host bs (32 + nh + na + np) = Some (XDA.cell_margin x) /\
  native_uint32_at host bs (36 + nh + na + np) = Some (XDA.num_outlier_cells x) /\
  native_uint32_at host bs (40 + nh + na + np) = Some (XDA.num_masked_cells x) /\
  native_int32_at host bs (44 + nh + na + np) = Some (XDA.num_sub_grids x).
Proof.
  unfold XDA.xda_cel_init. intros H.
  destruct (XDA.read_int32 host fp) as [[magic fp1]| | |] eqn:E0; simpl in H;
    try discriminate H.
  destruct (magic =? 64) eqn:Em; simpl in H; [|discriminate H].
  destruct (XDA.read_int32 host fp1) as [[ver fp2]| | |] eqn:E1; simpl in H;
    try discriminate H.
  destruct (ver =? 4) eqn:Ev; simpl in H; [|discriminate H].
  destruct (XDA.read_int32 host fp2) as [[rows fp3]| | |] eqn:E2; simpl in H;
    try discriminate H.
  destruct (XDA.read_int32 host fp3) as [[cols fp4]| | |] eqn:E3; simpl in H;
    try discriminate H.
  destruct (XDA.read_int32 host fp4) as [[ncells fp5]| | |] eqn:E4; simpl in H;
    try discriminate H.
  destruct (XDA.read_text host fp5) as [[[nh hd] fp6]| | |] eqn:E5; simpl in H;
    try discriminate H.
  destruct (XDA.read_text host fp6) as [[[na al] fp7]| | |] eqn:E6; simpl in H;
    try discriminate H.
  destruct (XDA.read_text host fp7) as [[[np pa] fp8]| | |] eqn:E7; simpl in H;
    try discriminate H.
  destruct (XDA.read_int32 host fp8) as [[margin fp9]| | |] eqn:E8; simpl in H;
    try discriminate H.
  destruct (XDA.read_uint32 host fp9) as [[nout fp10]| | |] eqn:E9; simpl in H;
    try discriminate H.
  destruct (XDA.read_uint32 host fp10) as [[nmask fp11]| | |] eqn:E10; simpl in H;
    try discriminate H.
  destruct (XDA.read_int32 host fp11) as [[ngrids fp12]| | |] eqn:E11; simpl in H;
    try discriminate H.
  apply read_int32_ok in E0 as [_ R0], E1 as [_ R1], E2 as [_ R2],
                         E3 as [_ R3], E4 as [_ R4], E8 as [M8 R8], E11 as [M11 _].
  apply read_text_layout in E5 as (_ & T5 & R5), E6 as (M6 & T6 & R6),
                            E7 as (M7 & T7 & R7).
  apply read_native32_ok in E9 as [M9 R9], E10 as [M10 R10].
  assert (XDA.n_header x = nh /\ XDA.header x = hd /\ XDA.n_algorithm x = na
          /\ XDA.algorithm x = al /\ XDA.n_parameters x = np
          /\ XDA.parameters x = pa /\ XDA.cell_margin x = margin
          /\ XDA.num_outlier_cells x = nout /\ XDA.num_masked_cells x = nmask
          /\ XDA.num_sub_grids x = ngrids)
    as (-> & -> & -> & -> & -> & -> & -> & -> & -> & ->).
  { repeat bind_ok H; injection H as <-; simpl; repeat split; reflexivity. }
  clear H.
  rewrite R4, R3, R2, R1, R0, !skipn_skipn in R5, T5. cbn [Nat.add] in R5, T5.
  rewrite R5 in R6, T6, M6. repeat rewrite skipn_skipn in R6, T6.
  rewrite R6 in R7, T7, M7. repeat rewrite skipn_skipn in R7, T7.
  rewrite R7 in R8, M8. repeat rewrite skipn_skipn in R8.
  rewrite R8 in R9, M9. repeat rewrite skipn_skipn in R9.
  rewrite R9 in R10, M10. repeat rewrite skipn_skipn in R10.
  rewrite R10 in M11.
  rewrite !native_int32_at_skipn in *. rewrite !native_uint32_at_skipn in *.
  cbn zeta.
  repeat match goal with
         | |- _ /\ _ => split
         end;
    match goal with
    | |- hd = _ => exact T5
    | |- al = _ => rewrite T6; do 2 f_equal; lia
    | |- pa = _ => rewrite T7; do 2 f_equal; lia
    | |- native_int32_at _ _ _ = Some na => rewrite <- M6; f_equal; lia
    | |- native_int32_at _ _ _ = Some np => rewrite <- M7; f_equal; lia
    | |- native_int32_at _ _ _ = Some margin => rewrite <- M8; f_equal; lia
    | |- native_uint32_at _ _ _ = Some nout => rewrite <- M9; f_equal; lia
    | |- native_uint32_at _ _ _ = Some nmask => rewrite <- M10; f_equal; lia
    | |- native_int32_at _ _ _ = Some ngrids => rewrite <- M11; f_equal; lia
    end.
Qed.

Lemma native_uint32_le b0 b1 b2 b3 rest :
  native_uint32_at LittleEndian (b0 :: b1 :: b2 :: b3 :: rest) 0
  = Some (u8 b0 + u8 b1 * 2 ^ 8 + u8 b2 * 2 ^ 16 + u8 b3 * 2 ^ 24).
Proof. unfold native_uint32_at. cbn [skipn load_uint32]. rewrite be32_sum. f_equal. lia. Qed.

(** C3 (amended).  On either host, the scalars read through [read_long] and
    [ntohs], the fields taken from a row buffer, and with them the whole AGCC
    data-set header, are decoded most significant byte first.  The header
    fields of the XDA reader are not: [xda_cel_init] takes them in the byte
    order of the host, so a stream it accepts holds, in host order, 64, the
    version, the rows, the columns, the cell count, the length of each of the
    three texts before its bytes, the margin and the three counts, each at
    the offset that the texts before it give it; and four bytes in the order
    of a little-endian host are the integer with the least significant byte
    first. *)
Theorem scalars_big_endian_xda_header_host_order (host : byte_order) :
  (forall fp, read_long host fp = read_be32 fp) /\
  (forall fp, read_short host fp = read_be16 fp) /\
  (forall fp, read_string8 host fp = read_string8 BigEndian fp) /\
  (forall fp, read_string16 host fp = read_string16 BigEndian fp) /\
  (forall buffer off, buffer_long host buffer off = buffer_be32 buffer off) /\
  (forall fp flags,
     agcc_read_data_set host fp flags = agcc_read_data_set BigEndian fp flags) /\
  (forall fp flags x,
     XDA.xda_cel_init host fp flags = Ok x ->
     let bs := remaining fp in
     let nh := Z.to_nat (XDA.n_header x) in
     let na := Z.to_nat (XDA.n_algorithm x) in
     let np := Z.to_nat (XDA.n_parameters x) in
     native_int32_at host bs 0 = Some 64 /\
     native_int32_at host bs 4 = Some (XDA.version x) /\
     native_int32_at host bs 8 = Some (XDA.num_rows x) /\
     native_int32_at host bs 12 = Some (XDA.num_cols x) /\
     native_int32_at host bs 16 = Some (XDA.num_cells x) /\
     native_int32_at host bs 20 = Some (XDA.n_header x) /\
     XDA.header x = firstn nh (skipn 24 bs) /\
     native_int32_at host bs (24 + nh) = Some (XDA.n_algorithm x) /\
     XDA.algorithm x = firstn na (skipn (28 + nh) bs) /\
     native_int32_at host bs (28 + nh + na) = Some (XDA.n_parameters x) /\
     XDA.parameters x = firstn np (skipn (32 + nh + na) bs) /\
     native_int32_at host bs (32 + nh + na + np) = Some (XDA.cell_margin x) /\
     native_uint32_at host bs (36 + nh + na + np) = Some (XDA.num_outlier_cells x) /\
     native_uint32_at host bs (40 + nh + na + np) = Some (XDA.num_masked_cells x) /\
     native_int32_at host bs (44 + nh + na + np) = Some (XDA.num_sub_grids x)) /\
  (forall b0 b1 b2 b3 rest,
     native_uint32_at LittleEndian (b0 :: b1 :: b2 :: b3 :: rest) 0
     = Some (u8 b0 + u8 b1 * 2 ^ 8 + u8 b2 * 2 ^ 16 + u8 b3 * 2 ^ 24) /\
     native_int32_at LittleEndian (b0 :: b1 :: b2 :: b3 :: rest) 0
     = Some (to_int32 (u8 b0 + u8 b1 * 2 ^ 8 + u8 b2 * 2 ^ 16 + u8 b3 * 2 ^ 24))).
Proof.
  split; [intros; apply read_long_be|].
  split; [intros; apply read_short_be|].
  split; [intros; apply read_string8_host|].
  split; [intros; apply read_string16_host|].
  split; [intros; apply buffer_long_be|].
  split; [intros; apply agcc_read_data_set_host|].
  split.
  - intros fp flags x H bs nh na np.
    pose proof (xda_header_fields _ _ _ _ H) as (F0 & F1 & F2 & F3 & F4 & F5).
    pose proof (xda_header_layout _ _ _ _ H) as L. cbn zeta in L.
    repeat (split; [assumption|]). exact L.
  - intros b0 b1 b2 b3 rest. split; [apply native_uint32_le|].
    unfold native_int32_at. cbn [skipn load_uint32]. rewrite be32_sum.
    do 2 f_equal. lia.
Qed.

Lemma scalars_big_endian_xda_header_host_order_witness :
  XDA.xda_cel_init LittleEndian (hopen xda_le_texts) 1 = Ok xda_le_texts_decoded /\
  native_int32_at LittleEndian xda_le_texts 8 = Some 2 /\
  native_int32_at LittleEndian xda_le_texts 26 = Some 3 /\
  XDA.algorithm xda_le_texts_decoded = firstn 3 (skipn 30 xda_le_texts) /\
  native_uint32_at LittleEndian xda_le_texts 48 = Some 3.
Proof.
  assert (E : XDA.xda_cel_init LittleEndian (hopen xda_le_texts) 1
              = Ok xda_le_texts_decoded) by (vm_compute; reflexivity).
  split; [exact E|].
  destruct (scalars_big_endian_xda_header_host_order LittleEndian)
    as (_ & _ & _ & _ & _ & _ & H & _).
  destruct (H _ _ _ E)
    as (_ & _ & Hrows & _ & _ & _ & _ & Halg & Htxt & _ & _ & _ & _ & Hmask & _).
  split; [exact Hrows|]. split; [exact Halg|]. split; [exact Htxt|exact Hmask].
Defined.

(** Sums of column widths. *)

Lemma wrap32_add_l a b : wrap32 (wrap32 a + b) = wrap32 (a + b).
Proof. unfold wrap32. apply Zplus_mod_idemp_l. Qed.

Lemma wrap32_small a : 0 <= a < 2 ^ 32 -> wrap32 a = a.
Proof. intros H. unfold wrap32. apply Z.mod_small. assumption. Qed.

Lemma col_layout_spec cols : forall m,
  let '(offs, total) := col_layout cols (wrap32 m) in
  length offs = length cols /\
  total = wrap32 (m + sum (widths cols)) /\
  forall i, (i < length cols)%nat ->
            nth i offs 0 = wrap32 (m + sum (firstn i (widths cols))).
Proof.
  induction cols as [|c cols IH]; intros m; simpl.
  - repeat split; [f_equal; lia | intros i Hi; lia].
  - rewrite wrap32_add_l. specialize (IH (m + size c)).
    destruct (col_layout cols (wrap32 (m + size c))) as [offs total].
    destruct IH as (Hlen & Htot & Hnth). repeat split.
    + simpl. now rewrite Hlen.
    + rewrite Htot. f_equal. lia.
    + intros [|i] Hi; simpl.
      * f_equal. lia.
      * rewrite Hnth by lia. f_equal. lia.
Qed.

Lemma sum_firstn_bounds w :
  (forall s, In s w -> 0 <= s) ->
  forall i, 0 <= sum (firstn i w) <= sum w.
Proof.
  induction w as [|a w IH]; intros Hpos i.
  - rewrite firstn_nil. simpl. lia.
  - assert (0 <= a) by (apply Hpos; now left).
    assert (Hw : forall s, In s w -> 0 <= s) by (intros s Hs; apply Hpos; now right).
    destruct i as [|i]; simpl.
    + specialize (IH Hw O). rewrite firstn_0 in IH. simpl in IH. lia.
    + specialize (IH Hw i). lia.
Qed.

Lemma read_col_headers_length host n : forall fp cs fp',
  read_col_headers host n fp = Ok (cs, fp') -> length cs = n.
Proof.
  induction n as [|n IH]; intros fp cs fp' H; simpl in H.
  - now injection H as <- _.
  - repeat bind_ok H. injection H as <- _. simpl. f_equal. eapply IH; eassumption.
Qed.

(** C8 (amended).  After [agcc_read_data_set] has parsed the column table of a data set,
    there is one offset per column header, as many as the column count read
    from the file; the row width and the offsets are the sum of all widths and
    the sums of the widths of the columns before, reduced modulo 2^32 since
    they are kept in [uint32_t] objects; and where no width is negative and
    the widths add up to less than 2^32, they are these sums themselves (0
    for the first column, and a row width of 0 without columns). *)
Theorem data_set_row_layout host fp flags data_set :
  agcc_read_data_set host fp flags = Ok data_set ->
  let w := widths (col_headers data_set) in
  length (col_headers data_set) = Z.to_nat (n_cols data_set) /\
  length (col_offsets data_set) = length (col_headers data_set) /\
  n_buffer data_set = wrap32 (sum w) /\
  (forall i, (i < length w)%nat ->
             nth i (col_offsets data_set) 0 = wrap32 (sum (firstn i w))) /\
  ((forall s, In s w -> 0 <= s) -> sum w < 2 ^ 32 ->
   n_buffer data_set = sum w /\
   forall i, (i < length w)%nat ->
             nth i (col_offsets data_set) 0 = sum (firstn i w)).
Proof.
  unfold agcc_read_data_set. intros H.
  repeat bind_ok H.
  pose proof (col_layout_spec l0 0) as L.
  change (wrap32 0) with 0 in L.
  destruct (col_layout l0 0) as [offs total].
  injection H as <-. simpl.
  destruct L as (Hlen & Htot & Hnth). simpl in Htot, Hnth.
  assert (Hl : length (widths l0) = length l0) by apply length_map.
  split; [eapply read_col_headers_length; eassumption|].
  split; [assumption|]. split; [assumption|].
  split; [intros i Hi; apply Hnth; lia|].
  intros Hpos Hsum.
  pose proof (sum_firstn_bounds _ Hpos) as B.
  split.
  - rewrite Htot. apply wrap32_small. specialize (B O). rewrite firstn_0 in B.
    simpl in B. lia.
  - intros i Hi. rewrite Hnth by lia. apply wrap32_small. specialize (B i). lia.
Qed.

Lemma data_set_row_layout_witness :
  agcc_read_data_set LittleEndian (hopen two_column_data_set) 0
  = Ok two_column_decoded /\
  n_buffer two_column_decoded = 22 + 1 /\
  nth 0 (col_offsets two_column_decoded) 0 = 0 /\
  nth 1 (col_offsets two_column_decoded) 0 = 22.
Proof.
  assert (E : agcc_read_data_set LittleEndian (hopen two_column_data_set) 0
              = Ok two_column_decoded) by (vm_compute; reflexivity).
  split; [exact E|].
  destruct (data_set_row_layout _ _ _ _ E) as (_ & _ & _ & _ & H).
  destruct H as [Hw Hoff].
  - intros s Hs. vm_compute in Hs. intuition (subst; lia).
  - vm_compute. reflexivity.
  - split; [exact Hw|]. split.
    + exact (Hoff 0%nat ltac:(vm_compute; lia)).
    + exact (Hoff 1%nat ltac:(vm_compute; lia)).
Defined.

(** C8, as stated, fails.  The widths of the columns are taken from the file
    unchecked and added up in a [uint32_t]: a data set with three columns of
    2147483647, 2147483647 and 2 bytes is parsed without an error, and its
    recorded row width is 0 where the widths add up to 2^32. *)
Lemma data_set_row_layout_counterexample :
  agcc_read_data_set LittleEndian (hopen wide_data_set) 0 = Ok wide_decoded /\
  widths (col_headers wide_decoded) = [2147483647; 2147483647; 2] /\
  sum (widths (col_headers wide_decoded)) = 2 ^ 32 /\
  n_buffer wide_decoded = 0 /\
  ~ (forall host fp flags data_set,
       agcc_read_data_set host fp flags = Ok data_set ->
       n_buffer data_set = sum (widths (col_headers data_set))).
Proof.
  assert (E : agcc_read_data_set LittleEndian (hopen wide_data_set) 0
              = Ok wide_decoded) by (vm_compute; reflexivity).
  split; [exact E|].
  split; [vm_compute; reflexivity|].
  split; [vm_compute; reflexivity|].
  split; [reflexivity|].
  intros H. specialize (H _ _ _ _ E). vm_compute in H. discriminate H.
Qed.

(** Beyond 2^32 the row width wraps: three columns of 2147483647, 2147483647
    and 2 bytes are laid out in a row of 0 bytes. *)
Lemma col_layout_wraps :
  col_layout wide_columns 0 = ([0; 2147483647; 4294967294], 0) /\
  sum (widths wide_columns) = 2 ^ 32.
Proof. split; vm_compute; reflexivity. Qed.

(** ** Cluster adjustment *)

Section AdjustClusters.

Context {FA : FloatArith}.
Import Clusters.

Lemma called_from_S gt gts (x : list float) i n :
  called_from gt gts x i (S n)
  = if nth i gts GT_NC =? gt
    then nth i x f_NAN :: called_from gt gts x (S i) n
    else called_from gt gts x (S i) n.
Proof.
  unfold called_from. simpl.
  destruct (nth i gts GT_NC =? gt); reflexivity.
Qed.

Lemma cluster_after_refl gt gts x y i c : cluster_after gt gts x y i 0 c c.
Proof. unfold cluster_after, called_from; simpl. repeat split. Qed.

(** A sample called [gt] is added to the cluster of [gt]. *)
Lemma cluster_after_hit gt gts x y i n c c' :
  nth i gts GT_NC = gt ->
  cluster_after gt gts x y (S i) n
                (add_observation (nth i x f_NAN) (nth i y f_NAN) c) c' ->
  cluster_after gt gts x y i (S n) c c'.
Proof.
  unfold cluster_after. intros Hg H.
  rewrite !called_from_S, Hg, Z.eqb_refl. simpl in *. exact H.
Qed.

(** A sample with another call leaves the cluster of [gt] as it is. *)
Lemma cluster_after_miss gt gts x y i n c c' :
  nth i gts GT_NC <> gt ->
  cluster_after gt gts x y (S i) n c c' ->
  cluster_after gt gts x y i (S n) c c'.
Proof.
  unfold cluster_after. intros Hg H.
  apply Z.eqb_neq in Hg. rewrite !called_from_S, Hg. exact H.
Qed.

Lemma adjust_loop_spec n : forall i gts x y snp,
  let snp' := adjust_loop n i gts x y snp in
  probe_set_id snp' = probe_set_id snp /\
  copynumber snp' = copynumber snp /\
  cluster_after GT_AA gts x y i n (aa snp) (aa snp') /\
  cluster_after GT_AB gts x y i n (ab snp) (ab snp') /\
  cluster_after GT_BB gts x y i n (bb snp) (bb snp').
Proof.
  induction n as [|n IH]; intros i gts x y snp; simpl.
  - repeat split; apply cluster_after_refl.
  - specialize (IH (S i) gts x y
                   (adjust_sample (nth i gts GT_NC) (nth i x f_NAN) (nth i y f_NAN) snp)).
    simpl in IH. destruct IH as (Hid & Hcn & Haa & Hab & Hbb).
    unfold adjust_sample in *.
    destruct (nth i gts GT_NC =? GT_AA) eqn:Ea;
      [|destruct (nth i gts GT_NC =? GT_AB) eqn:Eb;
        [|destruct (nth i gts GT_NC =? GT_BB) eqn:Ec]];
      rewrite ?Z.eqb_eq, ?Z.eqb_neq in *; simpl in *;
      (split; [exact Hid|]); (split; [exact Hcn|]).
    + split; [|split]; [apply cluster_after_hit | apply cluster_after_miss
                        | apply cluster_after_miss]; try assumption;
        rewrite Ea; discriminate.
    + split; [|split]; [apply cluster_after_miss | apply cluster_after_hit
                        | apply cluster_after_miss]; try assumption;
        rewrite Eb; discriminate.
    + split; [|split]; [apply cluster_after_miss | apply cluster_after_miss
                        | apply cluster_after_hit]; assumption.
    + split; [|split]; apply cluster_after_miss; assumption.
Qed.

(** The whole of [adjust_clusters], cluster by cluster. *)
Lemma adjust_clusters_spec gts x y n snp :
  let snp' := adjust_clusters gts x y n snp in
  probe_set_id snp' = probe_set_id snp /\
  copynumber snp' = copynumber snp /\
  (posterior GT_AA gts x y n (aa snp) (aa snp') /\
   k (aa snp') = add_ones f_0_2 (called GT_AA gts x n) /\
   same_variances (aa snp) (aa snp')) /\
  (posterior GT_AB gts x y n (ab snp) (ab snp') /\
   k (ab snp') = add_ones f_0_2 (called GT_AB gts x n) /\
   same_variances (ab snp) (ab snp')) /\
  (posterior GT_BB gts x y n (bb snp) (bb snp') /\
   k (bb snp') = add_ones f_0_2 (called GT_BB gts x n) /\
   same_variances (bb snp) (bb snp')).
Proof.
  unfold adjust_clusters.
  set (s9 := on_bb (set_k f_0_2) _).
  destruct (adjust_loop_spec n 0 gts x y s9) as (Hid & Hcn & Haa & Hab & Hbb).
  set (t0 := adjust_loop n 0 gts x y s9) in *.
  unfold cluster_after in Haa, Hab, Hbb.
  destruct Haa as (A1 & A2 & A3 & A4 & A5 & A6 & A7).
  destruct Hab as (B1 & B2 & B3 & B4 & B5 & B6 & B7).
  destruct Hbb as (C1 & C2 & C3 & C4 & C5 & C6 & C7).
  assert (Hcnt : forall gt, add_ones f_0_2 (called_from gt gts y 0 n)
                            = add_ones f_0_2 (called_from gt gts x 0 n)).
  { intros gt. unfold add_ones, called_from.
    generalize (filter (fun j => nth j gts GT_NC =? gt) (seq 0 n)) f_0_2.
    intros l; induction l as [|a l IHl]; intros a0; simpl; [reflexivity|apply IHl]. }
  unfold posterior, same_variances, called. simpl.
  rewrite !Hcnt.
  rewrite A1, A2, A3, A4, A5, A6, A7, B1, B2, B3, B4, B5, B6, B7,
          C1, C2, C3, C4, C5, C6, C7.
  rewrite Hid, Hcn. subst s9. simpl.
  repeat split; reflexivity.
Qed.

End AdjustClusters.

(** The literal [0.2f] is the binary32 value nearest to 1/5. *)
Lemma binary32_literal_0_2 :
  f_0_2 (FloatArith := binary32)
  = SFdiv 24 128 (b32_of_bits 0x3F800000) (b32_of_bits 0x40A00000).
Proof. vm_compute. reflexivity. Qed.

Section AdjustClustersFacts.

Import Clusters.

Lemma add_all_exact (l : list R) : forall init : R,
  add_all (FA := exact_real) init l = (init + Rsum l)%R.
Proof.
  unfold add_all. induction l as [|a l IH]; intros init; simpl.
  - lra.
  - rewrite IH. lra.
Qed.

Lemma add_ones_exact (l : list R) : forall init : R,
  add_ones (FA := exact_real) init l = (init + INR (length l))%R.
Proof.
  unfold add_ones. induction l as [|a l IH]; intros init.
  - simpl. lra.
  - cbn [fold_left length]. rewrite IH, S_INR. simpl. lra.
Qed.

Lemma posterior_exact gt gts x y n prior post :
  posterior (FA := exact_real) gt gts x y n prior post ->
  exact_posterior gt gts x y n prior post.
Proof.
  unfold posterior, exact_posterior. intros [Hx Hy].
  rewrite Hx, Hy, !add_all_exact, !add_ones_exact. split; reflexivity.
Qed.

Lemma filter_none {A : Type} (f : A -> bool) (l : list A) :
  (forall a, In a l -> f a = false) -> filter f l = [].
Proof.
  induction l as [|a l IH]; intros H; simpl; [reflexivity|].
  rewrite (H a) by now left. apply IH. intros b Hb. apply H. now right.
Qed.

Lemma called_uncalled {FA : FloatArith} gt gts (x : list float) n :
  uncalled gt gts n -> called gt gts x n = [].
Proof.
  unfold uncalled, called, called_from. intros H.
  rewrite filter_none; [reflexivity|].
  intros j Hj. apply in_seq in Hj. apply Z.eqb_neq, H. lia.
Qed.

Lemma posterior_uncalled {FA : FloatArith} gt gts x y n prior post :
  uncalled gt gts n ->
  posterior gt gts x y n prior post -> scaled_prior_only prior post.
Proof.
  unfold posterior, scaled_prior_only. intros U [Hx Hy].
  rewrite (called_uncalled gt gts x n U) in Hx.
  rewrite (called_uncalled gt gts y n U) in Hy. exact (conj Hx Hy).
Qed.

(** C5.  Cluster adjustment leaves in each of the three clusters, for each of
    the two dimensions, the prior mean times 0.2 plus the values of the
    samples called in that cluster, over 0.2 plus the number of these
    samples: under every interpretation of the float operations, with the
    additions made from the left in sample order; in exact arithmetic as the
    closed form.  A cluster without supporting calls ends with its prior mean
    times 0.2 over 0.2.  A prior mean of 10 with two AA observations 8 and 12
    gives 10, in binary32 as in exact arithmetic. *)
Theorem adjust_clusters_posterior_mean :
  (forall (FA : FloatArith) gts x y n snp,
     let snp' := adjust_clusters gts x y n snp in
     posterior GT_AA gts x y n (aa snp) (aa snp') /\
     posterior GT_AB gts x y n (ab snp) (ab snp') /\
     posterior GT_BB gts x y n (bb snp) (bb snp')) /\
  (forall gts x y n snp,
     let snp' := adjust_clusters (FA := exact_real) gts x y n snp in
     exact_posterior GT_AA gts x y n (aa snp) (aa snp') /\
     exact_posterior GT_AB gts x y n (ab snp) (ab snp') /\
     exact_posterior GT_BB gts x y n (bb snp) (bb snp')) /\
  (forall (FA : FloatArith) gts x y n snp,
     let snp' := adjust_clusters gts x y n snp in
     (uncalled GT_AA gts n -> scaled_prior_only (aa snp) (aa snp')) /\
     (uncalled GT_AB gts n -> scaled_prior_only (ab snp) (ab snp')) /\
     (uncalled GT_BB gts n -> scaled_prior_only (bb snp) (bb snp'))) /\
  xm (aa (adjust_clusters (FA := binary32) [GT_AA; GT_AA] [b32_8; b32_12]
                          [b32_8; b32_12] 2 (flat_snp (FA := binary32) b32_10))) = b32_10 /\
  xm (aa (adjust_clusters (FA := exact_real) [GT_AA; GT_AA] [8; 12]%R
                          [8; 12]%R 2 (flat_snp (FA := exact_real) 10%R))) = 10%R.
Proof.
  split; [|split; [|split; [|split]]].
  - intros FA gts x y n snp.
    destruct (adjust_clusters_spec gts x y n snp)
      as (_ & _ & (Ha & _) & (Hb & _) & (Hc & _)).
    exact (conj Ha (conj Hb Hc)).
  - intros gts x y n snp.
    destruct (adjust_clusters_spec (FA := exact_real) gts x y n snp)
      as (_ & _ & (Ha & _) & (Hb & _) & (Hc & _)).
    split; [|split]; apply posterior_exact; assumption.
  - intros FA gts x y n snp.
    destruct (adjust_clusters_spec gts x y n snp)
      as (_ & _ & (Ha & _) & (Hb & _) & (Hc & _)).
    split; [|split]; intros U; eapply posterior_uncalled; eassumption.
  - vm_compute. reflexivity.
  - destruct (adjust_clusters_spec (FA := exact_real) [GT_AA; GT_AA] [8; 12]%R
                                   [8; 12]%R 2 (flat_snp (FA := exact_real) 10%R))
      as (_ & _ & (Ha & _) & _).
    apply posterior_exact in Ha. destruct Ha as [Hx _].
    rewrite Hx. unfold called, called_from; simpl. lra.
Qed.

Lemma adjust_clusters_posterior_mean_witness :
  uncalled GT_AB [GT_AA; GT_AA] 2 /\
  scaled_prior_only (FA := binary32)
    (ab (flat_snp (FA := binary32) b32_10))
    (ab (adjust_clusters (FA := binary32) [GT_AA; GT_AA] [b32_8; b32_12]
                         [b32_8; b32_12] 2 (flat_snp (FA := binary32) b32_10))).
Proof.
  assert (U : uncalled GT_AB [GT_AA; GT_AA] 2).
  { intros i Hi. destruct i as [|[|i]]; simpl; [discriminate|discriminate|lia]. }
  split; [exact U|].
  destruct adjust_clusters_posterior_mean as (_ & _ & H & _).
  exact (proj1 (proj2 (H binary32 [GT_AA; GT_AA] [b32_8; b32_12]
                         [b32_8; b32_12] 2%nat (flat_snp (FA := binary32) b32_10))) U).
Defined.

(** C10.  Cluster adjustment returns the model it was given with new values in
    the fields [xm], [ym] and [k] of the three clusters only: the probe-set
    identifier, the copy number and, in every cluster, [xss], [v], [yss] and
    [xyss] are as before.  [k] becomes 0.2 plus one for every sample called in
    the cluster, whatever it held: any other model ends with the same [k].
    In exact arithmetic that is 0.2 plus the number of these samples. *)
Theorem adjust_clusters_frame :
  (forall (FA : FloatArith) gts x y n snp,
     let snp' := adjust_clusters gts x y n snp in
     probe_set_id snp' = probe_set_id snp /\
     copynumber snp' = copynumber snp /\
     same_variances (aa snp) (aa snp') /\
     same_variances (ab snp) (ab snp') /\
     same_variances (bb snp) (bb snp') /\
     k (aa snp') = add_ones f_0_2 (called GT_AA gts x n) /\
     k (ab snp') = add_ones f_0_2 (called GT_AB gts x n) /\
     k (bb snp') = add_ones f_0_2 (called GT_BB gts x n) /\
     (forall other,
        let other' := adjust_clusters gts x y n other in
        k (aa other') = k (aa snp') /\ k (ab other') = k (ab snp') /\
        k (bb other') = k (bb snp'))) /\
  (forall gts x y n snp,
     let snp' := adjust_clusters (FA := exact_real) gts x y n snp in
     k (aa snp') = (2 / 10 + INR (length (called (FA := exact_real) GT_AA gts x n)))%R /\
     k (ab snp') = (2 / 10 + INR (length (called (FA := exact_real) GT_AB gts x n)))%R /\
     k (bb snp') = (2 / 10 + INR (length (called (FA := exact_real) GT_BB gts x n)))%R).
Proof.
  split.
  - intros FA gts x y n snp.
    destruct (adjust_clusters_spec gts x y n snp)
      as (Hid & Hcn & (_ & Ka & Va) & (_ & Kb & Vb) & (_ & Kc & Vc)).
    repeat split; try assumption; try apply Va; try apply Vb; try apply Vc.
    all: destruct (adjust_clusters_spec gts x y n other)
        as (_ & _ & (_ & Ka' & _) & (_ & Kb' & _) & (_ & Kc' & _)).
    all: simpl in *; congruence.
  - intros gts x y n snp.
    destruct (adjust_clusters_spec (FA := exact_real) gts x y n snp)
      as (_ & _ & (_ & Ka & _) & (_ & Kb & _) & (_ & Kc & _)).
    cbv zeta. rewrite Ka, Kb, Kc, !add_ones_exact. repeat split; reflexivity.
Qed.

End AdjustClustersFacts.

(** ** Arrays *)

Lemma length_upd {A : Type} (l : list A) : forall i v, length (upd i v l) = length l.
Proof.
  induction l as [|h t IH]; intros [|i] v; simpl; try reflexivity.
  now rewrite IH.
Qed.

Lemma nth_upd {A : Type} (l : list A) : forall i j v d,
  nth j (upd i v l) d
  = if ((j =? i) && (i <? length l))%nat then v else nth j l d.
Proof.
  induction l as [|h t IH]; intros [|i] [|j] v d; simpl; try reflexivity.
  - now destruct (j =? i)%nat.
  - rewrite IH. reflexivity.
Qed.

Lemma nth_upd_same {A : Type} (l : list A) i v d :
  (i < length l)%nat -> nth i (upd i v l) d = v.
Proof.
  intros H. rewrite nth_upd, Nat.eqb_refl.
  apply Nat.ltb_lt in H. now rewrite H.
Qed.

Lemma nth_upd_other {A : Type} (l : list A) i j v d :
  j <> i -> nth j (upd i v l) d = nth j l d.
Proof.
  intros H. rewrite nth_upd. apply Nat.eqb_neq in H. now rewrite H.
Qed.

(** Case analysis on the comparisons of natural numbers in the goal. *)
Ltac nat_cases :=
  repeat match goal with
         | |- context [(?a <=? ?b)%nat] => destruct (Nat.leb_spec a b)
         | |- context [(?a <? ?b)%nat] => destruct (Nat.ltb_spec a b)
         | |- context [(?a =? ?b)%nat] => destruct (Nat.eqb_spec a b)
         end.

Lemma length_fill {A : Type} (f : nat -> A) todo : forall i arr,
  length (fill todo i f arr) = length arr.
Proof.
  induction todo as [|todo IH]; intros i arr; simpl; [reflexivity|].
  rewrite IH. apply length_upd.
Qed.

(** ** Projection *)

Section ProjectionFacts.

Context {FA : FloatArith} {FL : FloatLibc FA}.
Import Clusters.

Variable get_baf_lrr :
  float -> float -> float -> float -> float -> float -> float -> float -> float * float.

Local Open Scope float_scope.

Lemma cluster_polar_haploid snp is_birdseed :
  copynumber snp = 1%Z ->
  let c := cluster_polar snp is_birdseed in
  ab_theta c = (aa_theta c + bb_theta c) * f_0_5 /\
  ab_r c = (aa_r c + bb_r c) * f_0_5.
Proof.
  intros H. unfold cluster_polar. rewrite H.
  destruct (negb (is_birdseed =? 0)%Z); simpl; split; reflexivity.
Qed.

Lemma baf_lrr_loop_spec norm_x norm_y centres todo : forall i baf lrr,
  let '(baf', lrr') := baf_lrr_loop get_baf_lrr todo i norm_x norm_y centres baf lrr in
  length baf' = length baf /\ length lrr' = length lrr /\
  (forall j d,
     nth j baf' d
     = if ((i <=? j) && (j <? i + todo) && (j <? length baf))%nat
       then fst (sample_baf_lrr get_baf_lrr norm_x norm_y centres j) else nth j baf d) /\
  (forall j d,
     nth j lrr' d
     = if ((i <=? j) && (j <? i + todo) && (j <? length lrr))%nat
       then snd (sample_baf_lrr get_baf_lrr norm_x norm_y centres j) else nth j lrr d).
Proof.
  induction todo as [|todo IH]; intros i baf lrr; simpl.
  - split; [reflexivity|]. split; [reflexivity|].
    split; intros j d; nat_cases; simpl; try reflexivity; exfalso; lia.
  - destruct (sample_baf_lrr get_baf_lrr norm_x norm_y centres i) as [b l] eqn:Eg.
    specialize (IH (S i) (upd i b baf) (upd i l lrr)).
    destruct (baf_lrr_loop get_baf_lrr todo (S i) norm_x norm_y centres
                           (upd i b baf) (upd i l lrr)) as [baf' lrr'].
    destruct IH as (Lb & Ll & Nb & Nl). rewrite length_upd in *.
    split; [assumption|]. split; [assumption|]. split; intros j d.
    + rewrite Nb, nth_upd.
      nat_cases; subst; rewrite ?Eg; simpl; try reflexivity; exfalso; lia.
    + rewrite Nl, nth_upd.
      nat_cases; subst; rewrite ?Eg; simpl; try reflexivity; exfalso; lia.
Qed.

(** A second run over the arrays of the first changes nothing. *)
Lemma baf_lrr_loop_idempotent norm_x norm_y centres n baf lrr :
  let '(baf', lrr') := baf_lrr_loop get_baf_lrr n 0 norm_x norm_y centres baf lrr in
  baf_lrr_loop get_baf_lrr n 0 norm_x norm_y centres baf' lrr' = (baf', lrr').
Proof.
  pose proof (baf_lrr_loop_spec norm_x norm_y centres n 0 baf lrr) as H1.
  destruct (baf_lrr_loop get_baf_lrr n 0 norm_x norm_y centres baf lrr)
    as [baf' lrr'].
  destruct H1 as (Lb & Ll & Nb & Nl).
  pose proof (baf_lrr_loop_spec norm_x norm_y centres n 0 baf' lrr') as H2.
  destruct (baf_lrr_loop get_baf_lrr n 0 norm_x norm_y centres baf' lrr')
    as [baf'' lrr''].
  destruct H2 as (Lb' & Ll' & Nb' & Nl').
  f_equal.
  - apply (nth_ext _ _ f_NAN f_NAN); [congruence|].
    intros j _. rewrite Nb', Nb, Lb.
    destruct ((0 <=? j) && (j <? 0 + n) && (j <? length baf))%nat; reflexivity.
  - apply (nth_ext _ _ f_NAN f_NAN); [congruence|].
    intros j _. rewrite Nl', Nl, Ll.
    destruct ((0 <=? j) && (j <? 0 + n) && (j <? length lrr))%nat; reflexivity.
Qed.

Lemma compute_baf_lrr_spec norm_x norm_y n is_birdseed m :
  let m' := compute_baf_lrr get_baf_lrr norm_x norm_y n is_birdseed m in
  snp_of m' = snp_of m /\
  compute_baf_lrr get_baf_lrr norm_x norm_y n is_birdseed m' = m' /\
  (forall i, (i < n)%nat -> (i < length (baf_of m))%nat ->
     nth i (baf_of m') f_NAN
     = fst (sample_baf_lrr get_baf_lrr norm_x norm_y (cluster_polar (snp_of m) is_birdseed) i)) /\
  (forall i, (i < n)%nat -> (i < length (lrr_of m))%nat ->
     nth i (lrr_of m') f_NAN
     = snd (sample_baf_lrr get_baf_lrr norm_x norm_y (cluster_polar (snp_of m) is_birdseed) i)).
Proof.
  unfold compute_baf_lrr.
  pose proof (baf_lrr_loop_idempotent norm_x norm_y
                (cluster_polar (snp_of m) is_birdseed) n (baf_of m) (lrr_of m)) as Hi.
  pose proof (baf_lrr_loop_spec norm_x norm_y
                (cluster_polar (snp_of m) is_birdseed) n 0 (baf_of m) (lrr_of m)) as Hs.
  destruct (baf_lrr_loop get_baf_lrr n 0 norm_x norm_y
                         (cluster_polar (snp_of m) is_birdseed) (baf_of m) (lrr_of m))
    as [baf' lrr'].
  destruct Hs as (_ & _ & Nb & Nl). simpl.
  split; [reflexivity|]. split; [now rewrite Hi|].
  split; intros i Hn Hl.
  - rewrite Nb. apply Nat.ltb_lt in Hn, Hl. simpl. now rewrite Hn, Hl.
  - rewrite Nl. apply Nat.ltb_lt in Hn, Hl. simpl. now rewrite Hn, Hl.
Qed.

End ProjectionFacts.

Section ProjectionClaim.

Import Clusters.
Local Open Scope float_scope.

(** C6.  For a haploid probe set (copy number 1), and so for one without a
    heterozygous cluster, the projection takes theta and r of the AA and of
    the BB cluster from the means of the model, by the formulas of its
    dialect, and as the AB centre the midpoint of the two, in theta and in r:
    half their sum under every interpretation of the float operations, their
    sum over 2 in exact arithmetic.  The AB cluster of the model plays no
    part.  The outputs of a sample are what [get_baf_lrr] returns for the
    theta and r of the sample against these centres.  The call leaves the
    model as it is, and a second call on the memory the first one left writes
    the same outputs. *)
Theorem haploid_ab_midpoint_projection :
  (forall (FA : FloatArith) (FL : FloatLibc FA) get_baf_lrr norm_x norm_y n
          is_birdseed m,
     copynumber (snp_of m) = 1%Z ->
     let snp := snp_of m in
     let c := cluster_polar snp is_birdseed in
     let m' := compute_baf_lrr get_baf_lrr norm_x norm_y n is_birdseed m in
     (is_birdseed <> 0%Z ->
      aa_theta c = atanf (ym (aa snp) / xm (aa snp)) * M_2_PI /\
      bb_theta c = atanf (ym (bb snp) / xm (bb snp)) * M_2_PI /\
      aa_r c = xm (aa snp) + ym (aa snp) /\
      bb_r c = xm (bb snp) + ym (bb snp)) /\
     (is_birdseed = 0%Z ->
      aa_theta c = atanf (expf (- xm (aa snp) * M_LN2)) * M_2_PI /\
      bb_theta c = atanf (expf (- xm (bb snp) * M_LN2)) * M_2_PI /\
      aa_r c = expf (ym (aa snp) * M_LN2) * f_2
               * coshf (xm (aa snp) * f_0_5 * M_LN2) /\
      bb_r c = expf (ym (bb snp) * M_LN2) * f_2
               * coshf (xm (bb snp) * f_0_5 * M_LN2)) /\
     ab_theta c = (aa_theta c + bb_theta c) * f_0_5 /\
     ab_r c = (aa_r c + bb_r c) * f_0_5 /\
     (forall ab',
        cluster_polar (mk_snp (probe_set_id snp) 1 (aa snp) ab' (bb snp))
                      is_birdseed = c) /\
     snp_of m' = snp_of m /\
     compute_baf_lrr get_baf_lrr norm_x norm_y n is_birdseed m' = m' /\
     (forall i, (i < n)%nat -> (i < length (baf_of m))%nat ->
        nth i (baf_of m') f_NAN
        = fst (get_baf_lrr
                 (atanf (nth i norm_y f_NAN / nth i norm_x f_NAN) * M_2_PI)
                 (nth i norm_x f_NAN + nth i norm_y f_NAN)
                 (aa_theta c) (ab_theta c) (bb_theta c)
                 (aa_r c) (ab_r c) (bb_r c))) /\
     (forall i, (i < n)%nat -> (i < length (lrr_of m))%nat ->
        nth i (lrr_of m') f_NAN
        = snd (get_baf_lrr
                 (atanf (nth i norm_y f_NAN / nth i norm_x f_NAN) * M_2_PI)
                 (nth i norm_x f_NAN + nth i norm_y f_NAN)
                 (aa_theta c) (ab_theta c) (bb_theta c)
                 (aa_r c) (ab_r c) (bb_r c)))) /\
  (forall (snp : snp_t (FA := exact_real)) is_birdseed,
     copynumber snp = 1%Z ->
     let c := cluster_polar (FL := exact_real_libc) snp is_birdseed in
     ab_theta c = ((aa_theta c + bb_theta c) / 2)%R /\
     ab_r c = ((aa_r c + bb_r c) / 2)%R /\
     (is_birdseed <> 0%Z ->
      ab_theta c = ((atan (ym (aa snp) / xm (aa snp)) * (2 / PI)
                     + atan (ym (bb snp) / xm (bb snp)) * (2 / PI)) / 2)%R /\
      ab_r c = ((xm (aa snp) + ym (aa snp) + (xm (bb snp) + ym (bb snp))) / 2)%R)).
Proof.
  split.
  - intros FA FL get_baf_lrr norm_x norm_y n is_birdseed m H snp c m'.
    destruct (compute_baf_lrr_spec get_baf_lrr norm_x norm_y n is_birdseed m)
      as (Hs & Hi & Hb & Hl).
    subst c snp. unfold cluster_polar. rewrite H. cbn [Z.eqb Pos.eqb].
    split; [|split].
    + intros Hne. destruct (Z.eqb_spec is_birdseed 0) as [C|_]; [contradiction|].
      cbn [negb aa_theta bb_theta aa_r bb_r]. repeat split; reflexivity.
    + intros ->. cbn [Z.eqb negb aa_theta bb_theta aa_r bb_r].
      repeat split; reflexivity.
    + split; [destruct (negb (is_birdseed =? 0)%Z); reflexivity|].
      split; [destruct (negb (is_birdseed =? 0)%Z); reflexivity|].
      split; [intros ab'; cbn [copynumber aa bb Z.eqb Pos.eqb];
              destruct (negb (is_birdseed =? 0)%Z); reflexivity|].
      split; [exact Hs|]. split; [exact Hi|].
      unfold cluster_polar, sample_baf_lrr in Hb, Hl. rewrite H in Hb, Hl.
      cbn [Z.eqb Pos.eqb] in Hb, Hl.
      split; [exact Hb|exact Hl].
  - intros snp is_birdseed H c.
    destruct (cluster_polar_haploid (FL := exact_real_libc) snp is_birdseed H) as [Ht Hr].
    fold c in Ht, Hr.
    split; [rewrite Ht; simpl; lra|]. split; [rewrite Hr; simpl; lra|].
    intros Hne. subst c. unfold cluster_polar. rewrite H. cbn [Z.eqb Pos.eqb].
    destruct (Z.eqb_spec is_birdseed 0) as [C|_]; [contradiction|].
    cbn [negb aa_theta ab_theta bb_theta aa_r ab_r bb_r].
    split; simpl; lra.
Qed.

Lemma haploid_ab_midpoint_projection_witness :
  copynumber haploid_snp = 1%Z /\
  ab_r (cluster_polar (FL := exact_real_libc) haploid_snp 1) = 4%R.
Proof.
  split; [reflexivity|].
  destruct (proj2 haploid_ab_midpoint_projection haploid_snp 1%Z eq_refl)
    as (_ & _ & H).
  destruct (H ltac:(discriminate)) as [_ Hr].
  rewrite Hr. cbn [haploid_snp aa bb xm ym]. lra.
Defined.

End ProjectionClaim.

(** ** The iterator on concrete input *)

Section IteratorExamples.

Context {FA : FloatArith} {FL : FloatLibc FA}.

Lemma invalid_call_step host :
  varitr_loop host (cc_iterator [genotype_data_set [invalid_call_row]] [0])
  = Ok (mk_varitr 1 1
          (Some [mk_DataSet 0 0 (Some (wstr "Genotype")) 0 [] 6 [] 1
                            (mk_hFILE invalid_call_row 26) 26 genotype_offsets
                            invalid_call_row])
          [0] None None None (cstr "AX-1") [GT_NC] [of_bits 0x3F000000]
          [of_bits 0x42C80000] [of_bits 0x41C80000]
          [fsub (log2f (of_bits 0x42C80000)) (log2f (of_bits 0x41C80000))]
          [fmul (fadd (log2f (of_bits 0x42C80000)) (log2f (of_bits 0x41C80000)))
                f_0_5]).
Proof. destruct host; vm_compute; reflexivity. Qed.

Lemma signal_row_step host :
  varitr_loop host (cc_iterator [genotype_data_set [signal_row]] [0])
  = Ok (mk_varitr 1 1
          (Some [mk_DataSet 0 0 (Some (wstr "Genotype")) 0 [] 6 [] 1
                            (mk_hFILE signal_row 26) 26 genotype_offsets
                            signal_row])
          [0] None None None (cstr "AX-1") [GT_AA] [of_bits 0x3F000000]
          [of_bits 0x42C80000] [of_bits 0x41C80000]
          [fsub (log2f (of_bits 0x42C80000)) (log2f (of_bits 0x41C80000))]
          [fmul (fadd (log2f (of_bits 0x42C80000)) (log2f (of_bits 0x41C80000)))
                f_0_5]).
Proof. destruct host; vm_compute; reflexivity. Qed.

Lemma prefix_step host :
  varitr_loop host (cc_iterator [genotype_data_set [row_AB]; genotype_data_set [row_A]]
                                [0; 0])
  = Ok (mk_varitr 2 1
          (Some [mk_DataSet 0 0 (Some (wstr "Genotype")) 0 [] 6 [] 1
                            (mk_hFILE row_AB 26) 26 genotype_offsets row_AB;
                 mk_DataSet 0 0 (Some (wstr "Genotype")) 0 [] 6 [] 1
                            (mk_hFILE row_A 26) 26 genotype_offsets row_A])
          [0; 0] None None None (cstr "AB") [GT_AA; GT_AA]
          [of_bits 0x3F000000; of_bits 0x3F000000]
          [of_bits 0x42C80000; of_bits 0x42C80000]
          [of_bits 0x41C80000; of_bits 0x41C80000]
          [fsub (log2f (of_bits 0x42C80000)) (log2f (of_bits 0x41C80000));
           fsub (log2f (of_bits 0x42C80000)) (log2f (of_bits 0x41C80000))]
          [fmul (fadd (log2f (of_bits 0x42C80000)) (log2f (of_bits 0x41C80000)))
                f_0_5;
           fmul (fadd (log2f (of_bits 0x42C80000)) (log2f (of_bits 0x41C80000)))
                f_0_5]).
Proof. destruct host; vm_compute; reflexivity. Qed.

Lemma summary_unpaired_step host :
  varitr_loop host (txt_iterator 1 None None (Some summary_unpaired))
  = Ok (mk_varitr 1 0 None [] None None (Some (mk_hFILE summary_unpaired 24))
          (cstr "p2") [0] [f_NAN]
          [strtof (cstr "7")] [strtof (cstr "25")]
          [fsub (log2f (strtof (cstr "7"))) (log2f (strtof (cstr "25")))]
          [fmul (fadd (log2f (strtof (cstr "7"))) (log2f (strtof (cstr "25"))))
                f_0_5]).
Proof. vm_compute; reflexivity. Qed.

Lemma summary_truncated_step host :
  varitr_loop host (txt_iterator 1 None None (Some summary_truncated)) = Stop.
Proof. vm_compute; reflexivity. Qed.

Lemma summary_100_25_step host :
  varitr_loop host (txt_iterator 1 None None (Some summary_100_25))
  = Ok summary_100_25_after.
Proof. vm_compute; reflexivity. Qed.

End IteratorExamples.

(** ** Call codes *)

Lemma byte_eqb_refl (c : byte) : Byte.eqb c c = true.
Proof. destruct c; reflexivity. Qed.

(** C1 (code defect).  The table [gt] gives -1 for every call code other than
    6, 7, 8 and 11, and -1 is [GT_NC]: [process] takes each of these twelve
    codes for a no-call and writes a missing genotype, its branch for a
    malformed genotype is never reached from a CHP file.  A sample whose call
    byte is 0 goes through [varitr_loop] and comes out of [process] as
    missing. *)
Theorem invalid_call_code_emitted_as_missing :
  Forall (fun code =>
            nth code gt (-1) = GT_NC /\
            forall allele_a_idx allele_b_idx,
              genotype allele_a_idx allele_b_idx (nth code gt (-1))
              = Ok (bcf_gt_missing, bcf_gt_missing))
         [0; 1; 2; 3; 4; 5; 9; 10; 12; 13; 14; 15]%nat /\
  (forall (FA : FloatArith) (FL : FloatLibc FA) host,
     exists v',
       varitr_loop host (cc_iterator [genotype_data_set [invalid_call_row]] [0])
       = Ok v' /\
       gts v' = [GT_NC] /\
       process_genotypes v' 0 1 [2; 4] = Ok [bcf_gt_missing; bcf_gt_missing]).
Proof.
  split.
  - repeat constructor.
  - intros FA FL host. eexists. split; [apply invalid_call_step|].
    split; reflexivity.
Qed.

(** ** Probe-set identifiers *)

Lemma strncmp_prefix (a b rest : list byte) :
  strncmp (a ++ b) (a ++ rest) (length a) = Some true.
Proof.
  induction a as [|c a IH]; simpl; [reflexivity|].
  now rewrite byte_eqb_refl.
Qed.

(** C7 (code defect).  In binary mode the identifier of a later sample is
    compared with the reference over its own length only ([strncmp] with [n]):
    whatever begins the reference is accepted, where the text tables compare
    the whole strings.  With the first sample at probe set "AB" and the second
    at "A", the step completes, with "AB" as its identifier. *)
Theorem prefix_identifier_accepted :
  (forall c a b rest,
     check_n_probe_set_id (c :: a ++ b) (c :: a ++ rest)
                          (Z.of_nat (length (c :: a)))
     = Ok (c :: a ++ b)) /\
  check_probe_set_id (cstr "AB") (cstr "A") = Fatal ProbeSetNameMismatch /\
  (forall (FA : FloatArith) (FL : FloatLibc FA) host,
     exists v',
       varitr_loop host
         (cc_iterator [genotype_data_set [row_AB]; genotype_data_set [row_A]] [0; 0])
       = Ok v' /\
       probe_set_id v' = cstr "AB" /\
       c_strn (skipn 4 row_AB) 2 = Some (cstr "AB") /\
       c_strn (skipn 4 row_A) 1 = Some (cstr "A")).
Proof.
  split; [|split].
  - intros c a b rest. unfold check_n_probe_set_id.
    rewrite Nat2Z.id.
    change (c :: a ++ b) with ((c :: a) ++ b).
    change (c :: a ++ rest) with ((c :: a) ++ rest).
    now rewrite strncmp_prefix.
  - reflexivity.
  - intros FA FL host. eexists. split; [apply prefix_step|].
    repeat split; reflexivity.
Qed.

(** ** Summary lines without their companion *)

(** C2, as stated, fails.  With "p1-A" followed by "p2-A" and "p2-B", the step
    is not fatal: it returns with the identifier "p2" and the "p2-A" signal,
    the line "p1-A" dropped.  With "p1-A" the last line of the table, the step
    is the end of the iteration, not an error. *)
Lemma unpaired_summary_line_counterexample :
  is_fatal (varitr_loop (FA := exact_real) LittleEndian
              (txt_iterator 1 None None (Some summary_unpaired))) = false /\
  (exists v',
     varitr_loop (FA := exact_real) LittleEndian
       (txt_iterator 1 None None (Some summary_unpaired)) = Ok v' /\
     probe_set_id v' = cstr "p2" /\
     norm_x_arr v' = [strtof (cstr "7")]) /\
  varitr_loop (FA := exact_real) LittleEndian
    (txt_iterator 1 None None (Some summary_truncated)) = Stop.
Proof.
  split; [|split].
  - now rewrite summary_unpaired_step.
  - eexists. split; [apply summary_unpaired_step|]. split; reflexivity.
  - apply summary_truncated_step.
Qed.

(** ** The binary loop *)

Lemma gt_range (call : byte) :
  In (nth (Z.to_nat (Z.land (u8 call) 15)) gt (-1)) [GT_NC; GT_AA; GT_AB; GT_BB].
Proof. destruct call; vm_compute; tauto. Qed.

Section BinaryLoop.

Variable host : byte_order.
Context {FA : FloatArith} {FL : FloatLibc FA}.

Local Open Scope float_scope.

(** What a successful pass of the loop body for sample [i] leaves. *)
Lemma cc_sample_ok i dss v v' :
  cc_sample host i dss v = Ok v' ->
  exists data_set buffer off0 n g conf nx ny d s,
    nth_error dss i = Some data_set /\
    col_offset data_set 0 = Ok off0 /\
    buffer_long host buffer off0 = Ok n /\
    check_n_probe_set_id (probe_set_id v)
      (skipn (Z.to_nat (off0 + 4)) buffer) n = Ok (probe_set_id v') /\
    In g [GT_NC; GT_AA; GT_AB; GT_BB] /\
    (nth i (is_axiom v) 1%Z = 0%Z ->
     d = log2f nx - log2f ny /\ s = (log2f nx + log2f ny) * f_0_5) /\
    nsmpl v' = nsmpl v /\ nrow v' = nrow v /\ is_axiom v' = is_axiom v /\
    (exists dss', data_sets v' = Some dss' /\ length dss' = length dss) /\
    gts v' = upd i g (gts v) /\
    conf_arr v' = upd i conf (conf_arr v) /\
    norm_x_arr v' = upd i nx (norm_x_arr v) /\
    norm_y_arr v' = upd i ny (norm_y_arr v) /\
    delta_arr v' = upd i d (delta_arr v) /\
    size_arr v' = upd i s (size_arr v).
Proof.
  unfold cc_sample. intros H.
  destruct (nth_error dss i) as [data_set|] eqn:Eds; [|discriminate H].
  destruct (n_rows data_set <? nrow v)%Z; [discriminate H|].
  destruct (read_bytes (fp data_set) (Z.to_nat (n_buffer data_set)))
    as [[buffer fp']| | |] eqn:Erd; simpl in H; try discriminate H.
  destruct (col_offset data_set 0) as [off0| | |] eqn:E0; simpl in H;
    try discriminate H.
  destruct (buffer_long host buffer off0) as [n| | |] eqn:En; simpl in H;
    try discriminate H.
  destruct (check_n_probe_set_id (probe_set_id v)
              (skipn (Z.to_nat (off0 + 4)) buffer) n) as [id| | |] eqn:Eid;
    simpl in H; try discriminate H.
  destruct (col_offset data_set 1) as [off1| | |] eqn:E1; simpl in H;
    try discriminate H.
  destruct (buffer_byte buffer off1) as [call| | |] eqn:Ecall; simpl in H;
    try discriminate H.
  destruct (col_offset data_set 2) as [off2| | |] eqn:E2; simpl in H;
    try discriminate H.
  destruct (buffer_long host buffer off2) as [conf| | |] eqn:Econf; simpl in H;
    try discriminate H.
  destruct (nth_error (is_axiom v) i) as [axiom|] eqn:Eax; [|discriminate H].
  destruct (col_offset data_set 3) as [off3| | |] eqn:E3; simpl in H;
    try discriminate H.
  destruct (buffer_long host buffer off3) as [u3| | |] eqn:Eu3; simpl in H;
    try discriminate H.
  destruct (col_offset data_set 4) as [off4| | |] eqn:E4; simpl in H;
    try discriminate H.
  destruct (buffer_long host buffer off4) as [u4| | |] eqn:Eu4; simpl in H;
    try discriminate H.
  assert (Hax : nth i (is_axiom v) 1%Z = axiom).
  { apply nth_error_nth. exact Eax. }
  destruct (negb (axiom =? 0)%Z) eqn:Eneg; injection H as <-; simpl.
  - exists data_set, buffer, off0, n,
      (nth (Z.to_nat (Z.land (u8 call) 15)) gt (-1)%Z), (of_bits conf),
      (expf ((of_bits u4 + of_bits u3 * f_0_5) * M_LN2)),
      (expf ((of_bits u4 - of_bits u3 * f_0_5) * M_LN2)),
      (of_bits u3), (of_bits u4).
    repeat (split; [first [reflexivity | assumption | apply gt_range]|]).
    split.
    + intros Hz. rewrite Hax in Hz. rewrite Hz in Eneg. discriminate Eneg.
    + repeat (split; [reflexivity|]).
      split; [|repeat split].
      eexists; split; [reflexivity|apply length_upd].
  - exists data_set, buffer, off0, n,
      (nth (Z.to_nat (Z.land (u8 call) 15)) gt (-1)%Z), (of_bits conf),
      (of_bits u3), (of_bits u4),
      (log2f (of_bits u3) - log2f (of_bits u4)),
      ((log2f (of_bits u3) + log2f (of_bits u4)) * f_0_5).
    repeat (split; [first [reflexivity | assumption | apply gt_range]|]).
    split.
    + intros _. split; reflexivity.
    + repeat (split; [reflexivity|]).
      split; [|repeat split].
      eexists; split; [reflexivity|apply length_upd].
Qed.

Lemma c_strn_length n : forall src s, c_strn src n = Some s -> (length s <= n)%nat.
Proof.
  induction n as [|n IH]; intros src s H; simpl in H.
  - injection H as <-. simpl. lia.
  - destruct src as [|c src]; [discriminate H|].
    destruct (is_nul c).
    + injection H as <-. simpl. lia.
    + destruct (c_strn src n) as [s'|] eqn:E; [|discriminate H].
      injection H as <-. apply IH in E. simpl. lia.
Qed.

Lemma check_n_probe_set_id_fits dest src n id :
  check_n_probe_set_id dest src n = Ok id -> fits_buffer dest -> fits_buffer id.
Proof.
  unfold check_n_probe_set_id, fits_buffer, MAX_LENGTH_PROBE_SET_ID.
  destruct dest as [|c dest].
  - destruct (Z.gtb_spec n 17) as [E|E]; [discriminate|].
    destruct (c_strn src (Z.to_nat n)) as [s|] eqn:Es; [|discriminate].
    intros H _. injection H as <-. apply c_strn_length in Es. lia.
  - destruct (strncmp (c :: dest) src (Z.to_nat n)) as [[|]|]; try discriminate.
    intros H F. now injection H as <-.
Qed.

Lemma check_probe_set_id_fits dest src id :
  check_probe_set_id dest src = Ok id -> fits_buffer dest -> fits_buffer id.
Proof.
  unfold check_probe_set_id, fits_buffer.
  destruct dest as [|c dest].
  - destruct (Z.gtb_spec (Z.of_nat (length src)) MAX_LENGTH_PROBE_SET_ID) as [E|E];
      [discriminate|].
    intros H _. injection H as <-. exact E.
  - destruct (list_byte_eqb (c :: dest) src); [|discriminate].
    intros H F. now injection H as <-.
Qed.

Lemma cc_sample_frame i dss v v' :
  cc_sample host i dss v = Ok v' ->
  nsmpl v' = nsmpl v /\ is_axiom v' = is_axiom v /\
  (exists dss', data_sets v' = Some dss') /\
  same_lengths v v' /\
  (forall j, j <> i -> same_entries v v' j) /\
  (long_enough v i -> sample_decoded v v' i) /\
  (fits_buffer (probe_set_id v) -> fits_buffer (probe_set_id v')).
Proof.
  intros H. apply cc_sample_ok in H.
  destruct H as (data_set & buffer & off0 & n & g & conf & nx & ny & d & s & H).
  destruct H as (_ & _ & _ & Hid & Hg & Hax & Hn & _ & Ha & (dss' & Hd & _)
                 & Eg & _ & Ex & Ey & Ed & Es).
  split; [assumption|]. split; [assumption|].
  split; [exists dss'; assumption|].
  split; [|split; [|split]].
  - unfold same_lengths. rewrite Eg, Ex, Ey, Ed, Es, !length_upd.
    repeat split; reflexivity.
  - intros j Hj. unfold same_entries. rewrite Eg, Ex, Ey, Ed, Es.
    rewrite !nth_upd_other by assumption. repeat split; reflexivity.
  - intros (Lg & Lx & Ly & Ld & Ls). unfold sample_decoded, signal_transform.
    rewrite Eg, Ex, Ey, Ed, Es. rewrite !nth_upd_same by assumption.
    split; [assumption|]. exact Hax.
  - eapply check_n_probe_set_id_fits. eassumption.
Qed.

Lemma cc_loop_spec todo : forall i v v',
  cc_loop host todo i v = Ok v' ->
  nsmpl v' = nsmpl v /\ is_axiom v' = is_axiom v /\
  same_lengths v v' /\
  (forall j, (j < i)%nat -> same_entries v v' j) /\
  (forall j, (i <= j < i + todo)%nat -> long_enough v j -> sample_decoded v v' j) /\
  (fits_buffer (probe_set_id v) -> fits_buffer (probe_set_id v')).
Proof.
  induction todo as [|todo IH]; intros i v v' H; simpl in H.
  - injection H as <-.
    split; [reflexivity|]. split; [reflexivity|].
    split; [unfold same_lengths; repeat split; reflexivity|].
    split; [intros j _; unfold same_entries; repeat split; reflexivity|].
    split; [intros j Hj; lia | tauto].
  - destruct (data_sets v) as [dss|]; [|discriminate H].
    destruct (cc_sample host i dss v) as [v1| | |] eqn:E1; simpl in H;
      try discriminate H.
    apply cc_sample_frame in E1.
    destruct E1 as (N1 & A1 & _ & L1 & S1 & D1 & F1).
    apply IH in H. destruct H as (N2 & A2 & L2 & S2 & D2 & F2).
    unfold same_lengths, same_entries, long_enough, sample_decoded,
      signal_transform in *.
    destruct L1 as (L1g & L1x & L1y & L1d & L1s).
    destruct L2 as (L2g & L2x & L2y & L2d & L2s).
    split; [congruence|]. split; [congruence|].
    split; [repeat split; congruence|].
    split; [|split].
    + intros j Hj.
      destruct (S1 j ltac:(lia)) as (a1 & a2 & a3 & a4 & a5).
      destruct (S2 j ltac:(lia)) as (b1 & b2 & b3 & b4 & b5).
      repeat split; congruence.
    + intros j Hj Hl.
      destruct (Nat.eq_dec j i) as [->|Hne].
      * destruct (S2 i ltac:(lia)) as (b1 & b2 & b3 & b4 & b5).
        destruct (D1 Hl) as [G T].
        rewrite b1, b2, b3, b4, b5. split; assumption.
      * destruct (D2 j ltac:(lia)) as [G T].
        { rewrite L1g, L1x, L1y, L1d, L1s. exact Hl. }
        split; [assumption|]. rewrite A1 in T. exact T.
    + tauto.
Qed.

End BinaryLoop.

(** ** The text tables *)

Lemma read_line_consumed s :
  let '(l, nl, n) := read_line s in (n <= length s)%nat /\ (s <> [] -> (0 < n)%nat).
Proof.
  induction s as [|c s IH]; simpl.
  - split; [lia|congruence].
  - destruct (is_newline c).
    + split; [lia|intros _; lia].
    + destruct (read_line s) as [[l nl] n]. destruct IH as [IH _].
      split; [lia|intros _; lia].
Qed.

(** A line takes at least one byte from the stream. *)
Lemma hts_getline_shrinks fp str fp1 :
  hts_getline fp = Some (str, fp1) ->
  (length (remaining fp1) < length (remaining fp))%nat.
Proof.
  destruct fp as [bs pos]. unfold hts_getline.
  destruct (remaining (mk_hFILE bs pos)) as [|c s] eqn:E; [discriminate|].
  pose proof (read_line_consumed (c :: s)) as H.
  destruct (read_line (c :: s)) as [[l nl] n].
  destruct H as [Hle Hpos]. specialize (Hpos ltac:(discriminate)).
  intros Heq. injection Heq as _ <-. cbn [contents position].
  rewrite remaining_advance, E, length_skipn. lia.
Qed.

Lemma hts_getline_eof fp : remaining fp = [] -> hts_getline fp = None.
Proof. unfold hts_getline. now intros ->. Qed.

(** The search for a paired "-A" line needs no more fuel than the stream has
    bytes, plus one. *)
Lemma summary_seek_fuel fuel : forall fuel' fp n,
  (length (remaining fp) < fuel)%nat -> (length (remaining fp) < fuel')%nat ->
  summary_seek fuel fp n = summary_seek fuel' fp n.
Proof.
  induction fuel as [|fuel IH]; intros fuel' fp n Hf Hf'; [lia|].
  destruct fuel' as [|fuel']; [lia|].
  simpl.
  destruct (hts_getline fp) as [[str fp1]|] eqn:E; [|reflexivity].
  apply hts_getline_shrinks in E.
  rewrite (IH fuel' fp1 n) by lia. reflexivity.
Qed.

Section TextTables.

Variable host : byte_order.
Context {FA : FloatArith} {FL : FloatLibc FA}.

Local Open Scope float_scope.

Lemma summary_b_loop_spec cols nx todo : forall i0 ny d s,
  let '(ny', d', s') := summary_b_loop todo (S i0) cols nx ny d s in
  (length ny' = length ny /\ length d' = length d /\ length s' = length s) /\
  (forall j, (j < i0)%nat ->
     nth j ny' f_NAN = nth j ny f_NAN /\ nth j d' f_NAN = nth j d f_NAN /\
     nth j s' f_NAN = nth j s f_NAN) /\
  (forall j, (i0 <= j < i0 + todo)%nat ->
     (j < length ny)%nat -> (j < length d)%nat -> (j < length s)%nat ->
     nth j d' f_NAN = log2f (nth j nx f_NAN) - log2f (nth j ny' f_NAN) /\
     nth j s' f_NAN = (log2f (nth j nx f_NAN) + log2f (nth j ny' f_NAN)) * f_0_5).
Proof.
  induction todo as [|todo IH]; intros i0 ny d s.
  - simpl. split; [repeat split; reflexivity|].
    split; [intros j _; repeat split; reflexivity|]. intros j Hj. lia.
  - cbn [summary_b_loop Nat.sub]. rewrite !Nat.sub_0_r.
    set (ny1 := upd i0 (strtof (field cols (S i0))) ny).
    set (d1 := upd i0 _ d). set (s1 := upd i0 _ s).
    specialize (IH (S i0) ny1 d1 s1).
    destruct (summary_b_loop todo (S (S i0)) cols nx ny1 d1 s1) as [[ny' d'] s'].
    destruct IH as ((Ly & Ld & Ls) & Hlow & Hin).
    subst ny1 d1 s1. rewrite !length_upd in *.
    split; [repeat split; assumption|]. split.
    + intros j Hj. destruct (Hlow j ltac:(lia)) as (a & b & c).
      rewrite a, b, c, !nth_upd_other by lia. repeat split; reflexivity.
    + intros j Hj Hy Hd Hs.
      destruct (Nat.eq_dec j i0) as [->|Hne].
      * destruct (Hlow i0 ltac:(lia)) as (a & b & c).
        rewrite a, b, c, !nth_upd_same by assumption. split; reflexivity.
      * apply Hin; lia.
Qed.

Lemma read_summary_ok fp0 v v' :
  read_summary fp0 v = Ok v' ->
  nsmpl v' = nsmpl v /\
  (forall j, (j < nsmpl v)%nat -> long_enough v j -> signal_transform v' j) /\
  (fits_buffer (probe_set_id v) -> fits_buffer (probe_set_id v')).
Proof.
  unfold read_summary. intros H.
  destruct (summary_seek _ fp0 (nsmpl v)) as [[cols fp1]| | |]; simpl in H;
    try discriminate H.
  destruct (hts_getline fp1) as [[[|c str] fp2]|]; try discriminate H.
  destruct (negb _); [discriminate H|].
  destruct (ksplit_core (c :: str) TAB) as [|[off0 f0] rest] eqn:Ek;
    [discriminate H|].
  destruct ((length f0 <? 2)%nat && (off0 + length f0 <? 2)%nat);
    [discriminate H|].
  set (nx := fill (nsmpl v) 1 _ (norm_x_arr v)) in H.
  pose proof (summary_b_loop_spec ((off0, f0) :: rest) nx (nsmpl v) 0
                (norm_y_arr v) (delta_arr v) (size_arr v)) as S.
  destruct (summary_b_loop (nsmpl v) 1 ((off0, f0) :: rest) nx (norm_y_arr v)
                           (delta_arr v) (size_arr v)) as [[ny d] s].
  destruct S as (_ & _ & Hin).
  destruct (check_probe_set_id (probe_set_id v) _) as [id| | |] eqn:Eid;
    simpl in H; try discriminate H.
  injection H as <-. simpl.
  split; [reflexivity|]. split.
  - intros j Hj (_ & _ & Ly & Ld & Ls). unfold signal_transform. simpl.
    apply Hin; [lia|assumption..].
  - eapply check_probe_set_id_fits. eassumption.
Qed.

Lemma read_table_line_fits {A : Type} fp0 (parse : list byte -> A) arr v fp1 arr' id :
  read_table_line fp0 parse arr v = Ok (fp1, arr', id) ->
  fits_buffer (probe_set_id v) -> fits_buffer id.
Proof.
  unfold read_table_line.
  destruct (hts_getline fp0) as [[str fp]|]; [|discriminate].
  destruct (negb _); [discriminate|].
  destruct (check_probe_set_id (probe_set_id v) _) as [id'| | |] eqn:E; simpl;
    try discriminate.
  intros H. injection H as _ _ <-. eapply check_probe_set_id_fits. eassumption.
Qed.

(** The calls and the confidences leave the intensity arrays, the summary
    stream and the number of samples as they are. *)
Lemma read_calls_ok v v' :
  read_calls v = Ok v' ->
  nsmpl v' = nsmpl v /\ summary_fp v' = summary_fp v /\
  confidences_fp v' = confidences_fp v /\
  (forall j, long_enough v j -> long_enough v' j) /\
  (fits_buffer (probe_set_id v) -> fits_buffer (probe_set_id v')).
Proof.
  unfold read_calls.
  destruct (calls_fp v) as [fp0|].
  - destruct (read_table_line fp0 strtol (gts v) v) as [[[fp1 arr] id]| | |] eqn:E;
      simpl; try discriminate.
    intros H. injection H as <-. simpl.
    assert (Hlen : length arr = length (gts v)).
    { unfold read_table_line in E.
      destruct (hts_getline fp0) as [[str fp]|]; [|discriminate E].
      destruct (negb _); [discriminate E|].
      destruct (check_probe_set_id _ _); simpl in E; try discriminate E.
      injection E as _ <- _. apply length_fill. }
    split; [reflexivity|]. split; [reflexivity|]. split; [reflexivity|]. split.
    + intros j (Lg & L). unfold long_enough. simpl. rewrite Hlen. tauto.
    + eapply read_table_line_fits. eassumption.
  - intros H. injection H as <-.
    split; [reflexivity|]. split; [reflexivity|]. split; [reflexivity|]. tauto.
Qed.

Lemma read_confidences_ok v v' :
  read_confidences v = Ok v' ->
  nsmpl v' = nsmpl v /\ summary_fp v' = summary_fp v /\
  (forall j, long_enough v j -> long_enough v' j) /\
  (fits_buffer (probe_set_id v) -> fits_buffer (probe_set_id v')).
Proof.
  unfold read_confidences.
  destruct (confidences_fp v) as [fp0|].
  - destruct (read_table_line fp0 strtof (conf_arr v) v) as [[[fp1 arr] id]| | |] eqn:E;
      simpl; try discriminate.
    intros H. injection H as <-. simpl.
    split; [reflexivity|]. split; [reflexivity|]. split; [tauto|].
    eapply read_table_line_fits. eassumption.
  - intros H. injection H as <-.
    split; [reflexivity|]. split; [reflexivity|]. tauto.
Qed.

End TextTables.

(** ** A step of the iterator *)

Lemma varitr_loop_ok (host : byte_order) {FA : FloatArith} {FL : FloatLibc FA}
  (v v' : varitr_t) :
  varitr_loop host v = Ok v' ->
  nsmpl v' = nsmpl v /\
  fits_buffer (probe_set_id v') /\
  (data_sets v <> None ->
   forall j, (j < nsmpl v)%nat -> long_enough v j -> sample_decoded v v' j) /\
  (data_sets v = None -> summary_fp v <> None ->
   forall j, (j < nsmpl v)%nat -> long_enough v j -> signal_transform v' j).
Proof.
  assert (F0 : fits_buffer []) by (unfold fits_buffer, MAX_LENGTH_PROBE_SET_ID; simpl; lia).
  unfold varitr_loop. cbn [data_sets set_probe_set_id nsmpl nrow].
  destruct (data_sets v) as [dss|] eqn:Ed.
  - intros H. apply cc_loop_spec in H. cbn in H.
    destruct H as (Hn & _ & _ & _ & Hdec & Hfit).
    split; [assumption|]. split; [apply Hfit, F0|]. split.
    + intros _ j Hj Hl. apply (Hdec j); [lia|exact Hl].
    + intros C. discriminate C.
  - intros H.
    destruct (read_calls (set_probe_set_id [] v)) as [v1| | |] eqn:E1; simpl in H;
      try discriminate H.
    destruct (read_confidences v1) as [v2| | |] eqn:E2; simpl in H;
      try discriminate H.
    apply read_calls_ok in E1. destruct E1 as (N1 & S1 & _ & L1 & F1).
    apply read_confidences_ok in E2. destruct E2 as (N2 & S2 & L2 & F2).
    cbn in N1, S1, F1.
    unfold read_intensities in H.
    destruct (summary_fp v2) as [fp0|] eqn:Es.
    + apply read_summary_ok in H. destruct H as (N3 & T & F3).
      split; [congruence|]. split; [auto|]. split; [congruence|].
      intros _ _ j Hj Hl. apply T; [lia|]. apply L2, L1. exact Hl.
    + injection H as <-.
      split; [congruence|]. split; [auto|]. split; [congruence|].
      intros _ C. exfalso. apply C. congruence.
Qed.

(** From CHP files no call reaches the "malformed" branch of [process]. *)
Lemma chp_genotype_never_malformed (host : byte_order) {FA : FloatArith}
  {FL : FloatLibc FA} (v v' : varitr_t) allele_a_idx allele_b_idx j :
  varitr_loop host v = Ok v' -> data_sets v <> None ->
  (j < nsmpl v)%nat -> long_enough v j ->
  is_fatal (genotype allele_a_idx allele_b_idx (nth j (gts v') GT_NC)) = false.
Proof.
  intros H Hd Hj Hl. apply varitr_loop_ok in H.
  destruct H as (_ & _ & Hb & _).
  destruct (Hb Hd j Hj Hl) as [Hin _].
  simpl in Hin. destruct Hin as [<-|[<-|[<-|[<-|[]]]]]; reflexivity.
Qed.

(** ** Signals in exact arithmetic *)

Local Open Scope R_scope.

Lemma ln2_pos : 0 < ln 2.
Proof. rewrite <- ln_1. apply ln_increasing; lra. Qed.

Lemma ln_100 : ln 100 = 2 * ln 2 + 2 * ln 5.
Proof.
  replace 100 with ((2 * 2) * (5 * 5)) by lra.
  rewrite !ln_mult by lra. lra.
Qed.

Lemma ln_25 : ln 25 = 2 * ln 5.
Proof. replace 25 with (5 * 5) by lra. rewrite ln_mult by lra. lra. Qed.

Lemma ln_pow_lt (a b : Z) (m n : nat) :
  (0 < a)%Z -> (0 < b)%Z -> (a ^ Z.of_nat m < b ^ Z.of_nat n)%Z ->
  INR m * ln (IZR a) < INR n * ln (IZR b).
Proof.
  intros Ha Hb H.
  rewrite <- !ln_pow by (apply IZR_lt; assumption).
  rewrite !pow_IZR. apply ln_increasing.
  - apply IZR_lt. apply Z.pow_pos_nonneg; lia.
  - apply IZR_lt. exact H.
Qed.

(** 339/146 < log2 5 < 137/59, from 2^339 < 5^146 and 5^59 < 2^137. *)
Lemma log2_5_bounds : 339 * ln 2 < 146 * ln 5 /\ 59 * ln 5 < 137 * ln 2.
Proof.
  split.
  - pose proof (ln_pow_lt 2 5 339 146 eq_refl eq_refl eq_refl) as H.
    rewrite !INR_IZR_INZ in H. simpl in H. exact H.
  - pose proof (ln_pow_lt 5 2 59 137 eq_refl eq_refl eq_refl) as H.
    rewrite !INR_IZR_INZ in H. simpl in H. exact H.
Qed.

Lemma delta_100_25 : ln 100 * / ln 2 - ln 25 * / ln 2 = 2.
Proof. pose proof ln2_pos. rewrite ln_100, ln_25. field. lra. Qed.

Lemma size_100_25 :
  let size := (ln 100 * / ln 2 + ln 25 * / ln 2) * (5 / 10) in
  size = ln (100 * 25) / ln 2 / 2 /\ 56438 / 10000 < size < 56441 / 10000.
Proof.
  intros size. subst size.
  pose proof ln2_pos as P. destruct log2_5_bounds as [A B].
  split.
  - rewrite ln_mult by lra. field. lra.
  - rewrite ln_100, ln_25.
    set (q := ln 5 / ln 2).
    assert (Hq : ln 5 = q * ln 2) by (unfold q; field; lra).
    replace ((2 * ln 2 + 2 * ln 5) * / ln 2 + 2 * ln 5 * / ln 2) with (2 + 4 * q)
      by (unfold q; field; lra).
    rewrite Hq in A, B.
    assert (339 < 146 * q) by nra.
    assert (59 * q < 137) by nra.
    lra.
Qed.

Lemma R_strtof_100 : R_strtof (cstr "100") = 100.
Proof.
  unfold R_strtof.
  replace (strtof_decimal (cstr "100")) with (100%Z, 0%nat) by (vm_compute; reflexivity).
  simpl. lra.
Qed.

Lemma R_strtof_25 : R_strtof (cstr "25") = 25.
Proof.
  unfold R_strtof.
  replace (strtof_decimal (cstr "25")) with (25%Z, 0%nat) by (vm_compute; reflexivity).
  simpl. lra.
Qed.

Lemma R_of_bits_100 : R_of_bits 0x42C80000 = 100.
Proof.
  unfold R_of_bits.
  replace (Z.testbit 0x42C80000 31) with false by (vm_compute; reflexivity).
  replace (Z.land (Z.shiftr 0x42C80000 23) 255) with 133%Z by (vm_compute; reflexivity).
  replace (Z.land 0x42C80000 (2 ^ 23 - 1)) with 4718592%Z by (vm_compute; reflexivity).
  simpl. lra.
Qed.

Lemma R_of_bits_25 : R_of_bits 0x41C80000 = 25.
Proof.
  unfold R_of_bits.
  replace (Z.testbit 0x41C80000 31) with false by (vm_compute; reflexivity).
  replace (Z.land (Z.shiftr 0x41C80000 23) 255) with 131%Z by (vm_compute; reflexivity).
  replace (Z.land 0x41C80000 (2 ^ 23 - 1)) with 4718592%Z by (vm_compute; reflexivity).
  simpl. lra.
Qed.

(** The text summary with signals 100 and 25, and the CHP row with the same
    signals, in exact arithmetic. *)
Lemma exact_summary_100_25 :
  exists v' size,
    varitr_loop (FA := exact_real) LittleEndian
      (txt_iterator 1 None None (Some summary_100_25)) = Ok v' /\
    norm_x_arr v' = [100] /\ norm_y_arr v' = [25] /\
    delta_arr v' = [2] /\ size_arr v' = [size] /\
    size = ln (100 * 25) / ln 2 / 2 /\ 56438 / 10000 < size < 56441 / 10000.
Proof.
  eexists. exists ((ln 100 * / ln 2 + ln 25 * / ln 2) * (5 / 10)).
  split; [apply summary_100_25_step|].
  unfold summary_100_25_after.
  cbn [norm_x_arr norm_y_arr delta_arr size_arr].
  unfold log2f.
  cbn [strtof logf fsub fadd fmul f_0_5 M_LOG2E exact_real exact_real_libc].
  rewrite R_strtof_100, R_strtof_25, delta_100_25.
  repeat (split; [reflexivity|]). apply size_100_25.
Qed.

Lemma exact_row_100_25 :
  exists v' size,
    varitr_loop (FA := exact_real) LittleEndian
      (cc_iterator [genotype_data_set [signal_row]] [0%Z]) = Ok v' /\
    norm_x_arr v' = [100] /\ norm_y_arr v' = [25] /\
    delta_arr v' = [2] /\ size_arr v' = [size] /\
    size = ln (100 * 25) / ln 2 / 2 /\ 56438 / 10000 < size < 56441 / 10000.
Proof.
  eexists. exists ((ln 100 * / ln 2 + ln 25 * / ln 2) * (5 / 10)).
  split; [apply signal_row_step|].
  cbn [norm_x_arr norm_y_arr delta_arr size_arr].
  unfold log2f.
  cbn [of_bits logf fsub fadd fmul f_0_5 M_LOG2E exact_real exact_real_libc].
  rewrite R_of_bits_100, R_of_bits_25, delta_100_25.
  repeat (split; [reflexivity|]). apply size_100_25.
Qed.

Local Close Scope R_scope.

(** ** Signals A and B *)

(** C4, as stated, fails in its example: for A = 100 and B = 25 the size
    [(log2 A + log2 B) / 2] that the iterator computes from the summary table
    is above 5 in exact arithmetic, more than 1 away from 3.3219. *)
Lemma signal_size_example_counterexample :
  exists v',
    varitr_loop (FA := exact_real) LittleEndian
      (txt_iterator 1 None None (Some summary_100_25)) = Ok v' /\
    norm_x_arr v' = [100%R] /\ norm_y_arr v' = [25%R] /\
    (5 < nth 0 (size_arr v') 0%R)%R /\
    ~ (Rabs (nth 0 (size_arr v') 0%R - 33219 / 10000) < 1)%R.
Proof.
  destruct exact_summary_100_25 as (v' & size & E & Hx & Hy & _ & Hs & _ & Hb).
  exists v'. rewrite Hs. cbn [nth].
  repeat (split; [assumption|]). split; [lra|].
  intros H. apply Rabs_def2 in H. lra.
Qed.

(** ** The length of probe-set identifiers *)



Lemma list_byte_eqb_eq a b : list_byte_eqb a b = true -> a = b.
Proof.
  unfold list_byte_eqb. destruct (list_eq_dec byte_eq_dec a b); [trivial|discriminate].
Qed.


Lemma last_two_suffix off0 prefix c2 c1 :
  last_two off0 (prefix ++ [c2; c1]) = Ok (c2, c1).
Proof. unfold last_two. rewrite rev_app_distr. reflexivity. Qed.

Lemma firstn_prefix (prefix : list byte) c2 c1 :
  firstn (length (prefix ++ [c2; c1]) - 2) (prefix ++ [c2; c1]) = prefix.
Proof.
  rewrite length_app. simpl length.
  replace (length prefix + 2 - 2)%nat with (length prefix + 0)%nat by lia.
  rewrite firstn_app_2. simpl. apply app_nil_r.
Qed.



(** ** Dropping an unpaired "-A" line *)

Lemma strncmp_full (a : list byte) : forall buf,
  (length a <= length buf)%nat ->
  exists b, strncmp a buf (length a) = Some b /\
            (b = true -> firstn (length a) buf = a).
Proof.
  induction a as [|c a IH]; intros buf L; simpl.
  - exists true. split; reflexivity.
  - destruct buf as [|c2 buf]; simpl in L; [lia|].
    destruct (Byte.eqb c c2) eqn:E.
    + apply byte_dec_bl in E. subst c2.
      destruct (IH buf ltac:(lia)) as (b & Hb & Hf).
      exists b. split; [assumption|]. intros Ht. simpl. now rewrite (Hf Ht).
    + exists false. split; [reflexivity|discriminate].
Qed.

Lemma two_more (p : list byte) : forall buf x y,
  length buf = (length p + 2)%nat -> firstn (length p) buf = p ->
  nth (length p) buf "000"%byte = x -> nth (length p + 1) buf "000"%byte = y ->
  buf = p ++ [x; y].
Proof.
  induction p as [|c p IH]; intros buf x y L F X Y.
  - destruct buf as [|a [|b [|]]]; simpl in *; try discriminate. now subst.
  - destruct buf as [|a buf]; simpl in *; [discriminate|].
    injection F as -> F. f_equal. apply IH; [lia|assumption..].
Qed.

Section DropUnpaired.

Context {FA : FloatArith} {FL : FloatLibc FA}.

Lemma summary_seek_drop fuel fp0 n str fp1 off0 prefix rest :
  hts_getline fp0 = Some (str, fp1) ->
  ksplit_core str TAB = (off0, prefix ++ cstr "-A") :: rest ->
  length rest = n ->
  (length prefix + 2 <= 17)%nat ->
  hpeek fp1 (length prefix + 2) <> prefix ++ cstr "-B" ->
  summary_seek (S fuel) fp0 n = summary_seek fuel fp1 n.
Proof.
  intros Hg Hk Hr Hl Hp.
  cbn [summary_seek]. rewrite Hg, Hk.
  cbn [length]. rewrite Hr, Nat.eqb_refl. cbn [negb].
  change (cstr "-A") with ["-"%byte; "A"%byte].
  rewrite last_two_suffix. cbn [bind].
  rewrite !byte_eqb_refl. cbn [negb orb].
  rewrite firstn_prefix, length_app. cbn [length].
  set (len := (length prefix + 2)%nat).
  replace (len - 2)%nat with (length prefix) by (unfold len; lia).
  replace (len - 1)%nat with (length prefix + 1)%nat by (unfold len; lia).
  unfold MAX_LENGTH_PROBE_SET_ID.
  destruct (Z.gtb_spec (Z.of_nat len - 2) 17) as [G|_]; [unfold len in G; lia|].
  pose proof (firstn_le_length len (remaining fp1)) as Hle.
  fold (hpeek fp1 len) in Hle.
  destruct (Z.gtb_spec (Z.of_nat (length (hpeek fp1 len))) 17) as [G|_];
    [unfold len in *; lia|].
  destruct (Nat.ltb_spec (length (hpeek fp1 len)) len) as [_|Hge]; [reflexivity|].
  destruct (strncmp_full prefix (hpeek fp1 len) ltac:(unfold len in *; lia))
    as (b & Hb & Hf).
  rewrite Hb. destruct b; [|reflexivity].
  destruct (Byte.eqb (nth (length prefix) (hpeek fp1 len) "000"%byte) "-"%byte)
    eqn:E1; [|reflexivity].
  destruct (Byte.eqb (nth (length prefix + 1) (hpeek fp1 len) "000"%byte) "B"%byte)
    eqn:E2; [|reflexivity].
  exfalso. apply Hp. apply byte_dec_bl in E1, E2.
  apply two_more; [unfold len in *; lia | apply Hf; reflexivity | assumption..].
Qed.

(** C2 (amended).  In text mode, when the first field of the current summary
    line is a prefix of up to 15 bytes followed by "-A" and the bytes after
    the line are not that prefix followed by "-B", the reader drops the line
    and goes on as if it had started with the next one.  So the step is the
    end of the iteration, without an error, when no line follows, and it is
    fatal when the column count fits and the first field of the next line
    does not end in "-A"; otherwise the next line is tested in the same
    way. *)
Theorem unpaired_summary_line_dropped (v : varitr_t) fp0 str fp1 off0 prefix rest :
  hts_getline fp0 = Some (str, fp1) ->
  ksplit_core str TAB = (off0, prefix ++ cstr "-A") :: rest ->
  length rest = nsmpl v ->
  (length prefix + 2 <= 17)%nat ->
  hpeek fp1 (length prefix + 2) <> prefix ++ cstr "-B" ->
  read_summary fp0 v = read_summary fp1 v /\
  (remaining fp1 = [] -> read_summary fp0 v = Stop) /\
  (forall str' fp2 off0' p c2 c1 rest',
     hts_getline fp1 = Some (str', fp2) ->
     ksplit_core str' TAB = (off0', p ++ [c2; c1]) :: rest' ->
     length rest' = nsmpl v ->
     (c2, c1) <> ("-"%byte, "A"%byte) ->
     read_summary fp0 v = Fatal ExpectedMinusA).
Proof.
  intros Hg Hk Hr Hl Hp.
  assert (E : read_summary fp0 v = read_summary fp1 v).
  { unfold read_summary.
    rewrite (summary_seek_drop _ _ _ _ _ _ _ _ Hg Hk Hr Hl Hp).
    apply hts_getline_shrinks in Hg.
    rewrite (summary_seek_fuel (length (remaining fp0))
               (S (length (remaining fp1))) fp1) by lia.
    reflexivity. }
  split; [exact E|]. split.
  - intros He. rewrite E. unfold read_summary. rewrite He. cbn [length summary_seek].
    now rewrite (hts_getline_eof fp1 He).
  - intros str' fp2 off0' p c2 c1 rest' Hg' Hk' Hr' Hne.
    rewrite E. unfold read_summary. cbn [summary_seek]. rewrite Hg', Hk'.
    cbn [length]. rewrite Hr', Nat.eqb_refl. cbn [negb].
    rewrite last_two_suffix. cbn [bind].
    destruct (Byte.eqb c2 "-"%byte) eqn:E2; [|reflexivity].
    destruct (Byte.eqb c1 "A"%byte) eqn:E1; [|reflexivity].
    apply byte_dec_bl in E1, E2. subst. contradiction.
Qed.

End DropUnpaired.

Lemma unpaired_summary_line_dropped_witness :
  hts_getline (hopen summary_unpaired)
  = Some (unpaired_first_line, mk_hFILE summary_unpaired 9) /\
  ksplit_core unpaired_first_line TAB
  = [(0%nat, cstr "p1" ++ cstr "-A"); (5%nat, cstr "100")] /\
  hpeek (mk_hFILE summary_unpaired 9) 4 <> cstr "p1" ++ cstr "-B" /\
  read_summary (FA := exact_real) (hopen summary_unpaired)
    (txt_iterator 1 None None (Some summary_unpaired))
  = read_summary (FA := exact_real) (mk_hFILE summary_unpaired 9)
      (txt_iterator 1 None None (Some summary_unpaired)).
Proof.
  assert (G : hts_getline (hopen summary_unpaired)
              = Some (unpaired_first_line, mk_hFILE summary_unpaired 9))
    by reflexivity.
  assert (K : ksplit_core unpaired_first_line TAB
              = [(0%nat, cstr "p1" ++ cstr "-A"); (5%nat, cstr "100")])
    by reflexivity.
  assert (P : hpeek (mk_hFILE summary_unpaired 9) (length (cstr "p1") + 2)
              <> cstr "p1" ++ cstr "-B")
    by (vm_compute; discriminate).
  split; [exact G|]. split; [exact K|]. split; [exact P|].
  refine (proj1 (unpaired_summary_line_dropped (FA := exact_real)
                   (txt_iterator 1 None None (Some summary_unpaired))
                   _ _ _ _ _ _ G K _ _ P)).
  - reflexivity.
  - simpl. lia.
Defined.

(* ================================================================== *)
(** * Part II, continued: whole files, tables and models               *)
(* ================================================================== *)

(** ** Reading routines: what a writer stores is read back *)

Lemma u8_byte_of_Z z : u8 (byte_of_Z z) = z mod 256.
Proof.
  unfold u8, byte_of_Z.
  pose proof (Z.mod_pos_bound z 256 ltac:(lia)) as B.
  destruct (Byte.of_N (Z.to_N (z mod 256))) as [b|] eqn:E.
  - apply Byte.to_of_N in E. rewrite E. lia.
  - apply Byte.of_N_None_iff in E. lia.
Qed.

Lemma be32_enc z :
  0 <= z < 2 ^ 32 ->
  be32 (byte_of_Z (z / 2 ^ 24)) (byte_of_Z (z / 2 ^ 16)) (byte_of_Z (z / 2 ^ 8))
       (byte_of_Z z) = z.
Proof.
  intros Hz. rewrite be32_sum, !u8_byte_of_Z.
  change (2 ^ 24) with 16777216. change (2 ^ 16) with 65536.
  change (2 ^ 8) with 256. change (2 ^ 32) with 4294967296 in Hz.
  Z.div_mod_to_equations. lia.
Qed.

Lemma be16_enc z :
  0 <= z < 2 ^ 16 -> be16 (byte_of_Z (z / 2 ^ 8)) (byte_of_Z z) = z.
Proof.
  intros Hz. rewrite be16_sum, !u8_byte_of_Z.
  change (2 ^ 8) with 256. change (2 ^ 16) with 65536 in Hz.
  Z.div_mod_to_equations. lia.
Qed.

(** Reading the bytes [s] that the stream holds at its position. *)
Lemma read_bytes_at bs pos pre s rest :
  bs = pre ++ s ++ rest -> pos = length pre ->
  read_bytes (mk_hFILE bs pos) (length s) = Ok (s, mk_hFILE bs (pos + length s)).
Proof.
  intros -> ->. unfold read_bytes, remaining; simpl.
  rewrite skipn_app, skipn_all, Nat.sub_diag; simpl.
  rewrite firstn_app, firstn_all, Nat.sub_diag; simpl. rewrite app_nil_r.
  now rewrite Nat.ltb_irrefl.
Qed.

Lemma read_long_at host bs pos pre z rest :
  0 <= z < 2 ^ 32 -> bs = pre ++ enc_be32 z ++ rest -> pos = length pre ->
  read_long host (mk_hFILE bs pos) = Ok (z, mk_hFILE bs (pos + 4)).
Proof.
  intros Hz Hbs Hpos. rewrite read_long_be. unfold read_be32.
  change 4%nat with (length (enc_be32 z)) at 1.
  rewrite (read_bytes_at bs pos pre (enc_be32 z) rest Hbs Hpos). simpl.
  now rewrite be32_enc.
Qed.

Lemma read_short_at host bs pos pre z rest :
  0 <= z < 2 ^ 16 -> bs = pre ++ enc_be16 z ++ rest -> pos = length pre ->
  read_short host (mk_hFILE bs pos) = Ok (z, mk_hFILE bs (pos + 2)).
Proof.
  intros Hz Hbs Hpos. rewrite read_short_be. unfold read_be16.
  change 2%nat with (length (enc_be16 z)) at 1.
  rewrite (read_bytes_at bs pos pre (enc_be16 z) rest Hbs Hpos). simpl.
  now rewrite be16_enc.
Qed.

Lemma read_wchars_at host cs : forall bs pos pre rest,
  Forall (fun c => 0 <= c < 2 ^ 16) cs ->
  bs = pre ++ flat_map enc_be16 cs ++ rest -> pos = length pre ->
  read_wchars host (length cs) (mk_hFILE bs pos)
  = Ok (cs, mk_hFILE bs (pos + 2 * length cs)).
Proof.
  induction cs as [|c cs IH]; intros bs pos pre rest Hcs Hbs Hpos.
  - simpl. now rewrite Nat.add_0_r.
  - inversion Hcs as [|? ? Hc Hcs']; subst.
    cbn [length read_wchars flat_map].
    rewrite (read_short_at host _ _ pre c (flat_map enc_be16 cs ++ rest) Hc)
      by (now rewrite <- ?app_assoc).
    cbn [bind].
    rewrite (IH _ _ (pre ++ enc_be16 c) rest Hcs')
      by (rewrite <- ?app_assoc; try reflexivity; rewrite length_app; reflexivity).
    cbn [bind]. do 2 f_equal. f_equal. lia.
Qed.

(** X1.  A string of bytes that a writer stores as its length (four bytes,
    most significant first) and its bytes is read back by [read_string8] on
    every host, and the stream is left just after it; the empty string is
    read back as NULL. *)
Theorem read_string8_round_trip (host : byte_order) (pre s rest : list byte) :
  Z.of_nat (length s) < 2 ^ 31 ->
  read_string8 host (mk_hFILE (pre ++ enc_string8 s ++ rest) (length pre))
  = Ok (Z.of_nat (length s),
        match s with [] => None | _ => Some s end,
        mk_hFILE (pre ++ enc_string8 s ++ rest) (length pre + 4 + length s)).
Proof.
  intros Hlen. unfold read_string8, enc_string8.
  rewrite (read_long_at host _ _ pre (Z.of_nat (length s)) (s ++ rest))
    by (rewrite <- ?app_assoc; try reflexivity; lia).
  cbn [bind].
  assert (E : to_int32 (Z.of_nat (length s)) = Z.of_nat (length s)).
  { unfold to_int32. destruct (Z.ltb_spec (Z.of_nat (length s)) (2 ^ 31)); lia. }
  rewrite E.
  destruct s as [|c s].
  - simpl. now rewrite Nat.add_0_r.
  - destruct (Z.eqb_spec (Z.of_nat (length (c :: s))) 0) as [C|_];
      [simpl in C; lia|].
    destruct (Z.ltb_spec (Z.of_nat (length (c :: s))) 0) as [C|_]; [lia|].
    rewrite Nat2Z.id.
    rewrite (read_bytes_at _ _ (pre ++ enc_be32 (Z.of_nat (length (c :: s))))
               (c :: s) rest)
      by (rewrite <- ?app_assoc; try reflexivity; rewrite length_app; reflexivity).
    reflexivity.
Qed.

Lemma read_string8_round_trip_witness :
  read_string8 LittleEndian (mk_hFILE ([byte_of_Z 7] ++ enc_string8 (cstr "guid") ++ []) 1)
  = Ok (4, Some (cstr "guid"),
        mk_hFILE ([byte_of_Z 7] ++ enc_string8 (cstr "guid") ++ []) 9).
Proof.
  apply (read_string8_round_trip LittleEndian [byte_of_Z 7] (cstr "guid") []).
  simpl. lia.
Defined.

(** X2.  A string of 16-bit characters that a writer stores as its length and
    two bytes for each character, most significant first, is read back by
    [read_string16] on every host; the empty string is read back as NULL. *)
Theorem read_string16_round_trip (host : byte_order) (pre : list byte)
  (s : list Z) (rest : list byte) :
  Z.of_nat (length s) < 2 ^ 31 ->
  Forall (fun c => 0 <= c < 2 ^ 16) s ->
  read_string16 host (mk_hFILE (pre ++ enc_string16 s ++ rest) (length pre))
  = Ok (Z.of_nat (length s),
        match s with [] => None | _ => Some s end,
        mk_hFILE (pre ++ enc_string16 s ++ rest) (length pre + 4 + 2 * length s)).
Proof.
  intros Hlen Hs. unfold read_string16, enc_string16.
  rewrite (read_long_at host _ _ pre (Z.of_nat (length s))
             (flat_map enc_be16 s ++ rest))
    by (rewrite <- ?app_assoc; try reflexivity; lia).
  cbn [bind].
  assert (E : to_int32 (Z.of_nat (length s)) = Z.of_nat (length s)).
  { unfold to_int32. destruct (Z.ltb_spec (Z.of_nat (length s)) (2 ^ 31)); lia. }
  rewrite E.
  destruct s as [|c s].
  - simpl. now rewrite Nat.add_0_r.
  - destruct (Z.eqb_spec (Z.of_nat (length (c :: s))) 0) as [C|_];
      [simpl in C; lia|].
    destruct (Z.ltb_spec (Z.of_nat (length (c :: s))) 0) as [C|_]; [lia|].
    rewrite Nat2Z.id.
    rewrite (read_wchars_at host (c :: s) _ _
               (pre ++ enc_be32 (Z.of_nat (length (c :: s)))) rest Hs)
      by (rewrite <- ?app_assoc; try reflexivity; rewrite length_app; reflexivity).
    reflexivity.
Qed.

Lemma read_string16_round_trip_witness :
  read_string16 LittleEndian (mk_hFILE ([] ++ enc_string16 (wstr "Call") ++ []) 0)
  = Ok (4, Some (wstr "Call"),
        mk_hFILE ([] ++ enc_string16 (wstr "Call") ++ []) 12).
Proof.
  apply (read_string16_round_trip LittleEndian [] (wstr "Call") []).
  - simpl. lia.
  - apply Forall_forall. intros c Hc. simpl in Hc.
    repeat (destruct Hc as [<-|Hc]; [vm_compute; split; [discriminate|reflexivity]|]).
    destruct Hc.
Defined.

(** X3.  When the stream ends before the bytes that the length announces,
    [read_string8] stops the program with "Failed to read ... bytes". *)
Theorem read_string8_truncated (host : byte_order) (pre payload : list byte)
  (len : Z) :
  0 < len < 2 ^ 31 -> Z.of_nat (length payload) < len ->
  read_string8 host (mk_hFILE (pre ++ enc_be32 len ++ payload) (length pre))
  = Fatal FailedToRead.
Proof.
  intros Hlen Hshort. unfold read_string8.
  rewrite (read_long_at host _ _ pre len payload) by (try reflexivity; lia).
  cbn [bind].
  assert (E : to_int32 len = len).
  { unfold to_int32. destruct (Z.ltb_spec len (2 ^ 31)); lia. }
  rewrite E.
  destruct (Z.eqb_spec len 0) as [C|_]; [lia|].
  destruct (Z.ltb_spec len 0) as [C|_]; [lia|].
  unfold read_bytes, remaining. cbn [contents position].
  rewrite app_assoc.
  rewrite skipn_app, skipn_all2 by (rewrite length_app; simpl; lia).
  replace (length pre + 4 - length (pre ++ enc_be32 len))%nat with 0%nat
    by (rewrite length_app; simpl; lia).
  cbn [skipn app].
  assert (L : (length (firstn (Z.to_nat len) payload) <? Z.to_nat len)%nat = true).
  { apply Nat.ltb_lt. rewrite length_firstn. lia. }
  now rewrite L.
Qed.

Lemma read_string8_truncated_witness :
  read_string8 BigEndian (mk_hFILE ([] ++ enc_be32 5 ++ cstr "gui") 0)
  = Fatal FailedToRead.
Proof.
  apply (read_string8_truncated BigEndian [] (cstr "gui") 5); simpl; lia.
Defined.

(** X4.  Reading [n + m] bytes is reading [n] bytes and then [m] bytes: the
    same bytes, the same position, and the same failure when the stream is
    too short. *)
Theorem read_bytes_split (fp : hFILE) (n m : nat) :
  read_bytes fp (n + m)
  = ('(a, fp1) <- read_bytes fp n ;;
     '(b, fp2) <- read_bytes fp1 m ;;
     Ok (a ++ b, fp2)).
Proof.
  destruct fp as [bs pos]. unfold read_bytes at 1 2.
  cbn [contents position]. set (r := remaining (mk_hFILE bs pos)).
  rewrite !length_firstn.
  destruct (Nat.ltb_spec (Nat.min n (length r)) n) as [Hn|Hn].
  - destruct (Nat.ltb_spec (Nat.min (n + m) (length r)) (n + m)) as [_|C];
      [reflexivity|lia].
  - cbn [bind]. unfold read_bytes. cbn [contents position].
    rewrite remaining_advance. fold r. rewrite length_firstn, length_skipn.
    destruct (Nat.ltb_spec (Nat.min m (length r - n)) m) as [Hm|Hm].
    + destruct (Nat.ltb_spec (Nat.min (n + m) (length r)) (n + m)) as [_|C];
        [reflexivity|lia].
    + destruct (Nat.ltb_spec (Nat.min (n + m) (length r)) (n + m)) as [C|_];
        [lia|].
      cbn [bind]. rewrite Nat.add_assoc. do 2 f_equal.
      rewrite <- (firstn_skipn n r) at 1.
      rewrite firstn_app, length_firstn.
      replace (n + m - Nat.min n (length r))%nat with m by lia.
      rewrite firstn_firstn. f_equal. f_equal. lia.
Qed.

(** ** XDA CEL files: the size of the file *)

Lemma read_bytes_length fp n bs fp' :
  read_bytes fp n = Ok (bs, fp') ->
  length (remaining fp) = (n + length (remaining fp'))%nat /\ length bs = n.
Proof.
  intros H. apply read_bytes_ok in H as (Hbs & Hlen & Hrem).
  pose proof Hlen as L. rewrite Hbs, length_firstn in L.
  rewrite Hrem, length_skipn. lia.
Qed.

Lemma read_native32_length host fp v fp' :
  read_native32 host fp = Ok (v, fp') ->
  length (remaining fp) = (4 + length (remaining fp'))%nat /\ 0 <= v < 2 ^ 32.
Proof.
  unfold read_native32. intros H.
  destruct (read_bytes fp 4) as [[bs fp1]| | |] eqn:E; simpl in H;
    try discriminate H.
  apply read_bytes_length in E as [E _].
  destruct bs as [|b0 [|b1 [|b2 [|b3 [|]]]]]; try discriminate H.
  injection H as <- <-. split; [exact E|].
  pose proof (u8_range b0); pose proof (u8_range b1);
    pose proof (u8_range b2); pose proof (u8_range b3).
  destruct host; simpl; rewrite be32_sum; lia.
Qed.

Lemma read_int32_length host fp v fp' :
  XDA.read_int32 host fp = Ok (v, fp') ->
  length (remaining fp) = (4 + length (remaining fp'))%nat.
Proof.
  unfold XDA.read_int32. intros H.
  destruct (read_native32 host fp) as [[u fp1]| | |] eqn:E; simpl in H;
    try discriminate H.
  injection H as _ <-. now apply read_native32_length in E.
Qed.

Lemma read_text_length host fp n bs fp' :
  XDA.read_text host fp = Ok (n, bs, fp') ->
  0 <= n /\ Z.of_nat (length bs) = n /\
  Z.of_nat (length (remaining fp)) = 4 + n + Z.of_nat (length (remaining fp')).
Proof.
  unfold XDA.read_text. intros H.
  destruct (XDA.read_int32 host fp) as [[m fp1]| | |] eqn:E; simpl in H;
    try discriminate H.
  apply read_int32_length in E.
  destruct (Z.ltb_spec m 0) as [|Hm]; [discriminate H|].
  destruct (read_bytes fp1 (Z.to_nat m)) as [[bs' fp2]| | |] eqn:E2; simpl in H;
    try discriminate H.
  injection H as <- <- <-. apply read_bytes_length in E2 as [E2 L]. lia.
Qed.

Lemma read_array_length fp count size bs fp' :
  0 <= size -> XDA.read_array fp count size = Ok (bs, fp') ->
  0 <= count /\ Z.of_nat (length bs) = count * size /\
  Z.of_nat (length (remaining fp)) = count * size + Z.of_nat (length (remaining fp')).
Proof.
  unfold XDA.read_array. intros Hs H.
  destruct (Z.ltb_spec count 0) as [|Hc]; [discriminate H|].
  apply read_bytes_length in H as [E L]. nia.
Qed.

Lemma heof_remaining fp : heof fp = true -> length (remaining fp) = 0%nat.
Proof. unfold heof. destruct (remaining fp); [reflexivity|discriminate]. Qed.

(** X5.  When [xda_cel_init] loads a file in full, the bytes from the start of
    the stream to its end are exactly those that the header announces: the
    48 bytes of the twelve fixed fields, the three strings, and the four
    arrays of cells, masked entries, outlier entries and sub-grids. *)
Theorem xda_cel_init_file_size (host : byte_order) (fp0 : hFILE) (x : XDA.xda_cel_t) :
  XDA.xda_cel_init host fp0 0 = Ok x ->
  Z.of_nat (length (remaining fp0))
  = 48 + XDA.n_header x + XDA.n_algorithm x + XDA.n_parameters x
    + XDA.sizeof_Cell * XDA.num_cells x
    + XDA.sizeof_Entry * XDA.num_masked_cells x
    + XDA.sizeof_Entry * XDA.num_outlier_cells x
    + XDA.sizeof_SubGrid * XDA.num_sub_grids x.
Proof.
  unfold XDA.xda_cel_init. intros H.
  repeat bind_ok H.
  injection H as <-. cbn [XDA.n_header XDA.n_algorithm XDA.n_parameters
    XDA.num_cells XDA.num_masked_cells XDA.num_outlier_cells XDA.num_sub_grids].
  repeat match goal with
  | E : XDA.read_int32 _ _ = Ok _ |- _ => apply read_int32_length in E
  | E : XDA.read_uint32 _ _ = Ok _ |- _ => apply read_native32_length in E as [E _]
  | E : XDA.read_text _ _ = Ok _ |- _ => apply read_text_length in E as (_ & _ & E)
  | E : XDA.read_array _ _ _ = Ok _ |- _ =>
      apply read_array_length in E as (_ & _ & E); [|discriminate]
  | E : negb (heof _) = false |- _ => apply negb_false_iff, heof_remaining in E
  end.
  unfold XDA.sizeof_Cell, XDA.sizeof_Entry, XDA.sizeof_SubGrid in *. lia.
Qed.

Lemma xda_cel_init_file_size_witness :
  Z.of_nat (length (remaining (hopen xda_le_file)))
  = 48 + XDA.n_header xda_le_loaded + XDA.n_algorithm xda_le_loaded
    + XDA.n_parameters xda_le_loaded
    + XDA.sizeof_Cell * XDA.num_cells xda_le_loaded
    + XDA.sizeof_Entry * XDA.num_masked_cells xda_le_loaded
    + XDA.sizeof_Entry * XDA.num_outlier_cells xda_le_loaded
    + XDA.sizeof_SubGrid * XDA.num_sub_grids xda_le_loaded.
Proof.
  apply (xda_cel_init_file_size LittleEndian (hopen xda_le_file) xda_le_loaded).
  vm_compute. reflexivity.
Defined.

(** X6.  Loading the header only gives the header fields of a full load, and
    leaves the stream where the cells begin. *)
Theorem xda_cel_init_header_only (host : byte_order) (fp0 : hFILE) (flags : Z)
  (x : XDA.xda_cel_t) :
  flags <> 0 ->
  XDA.xda_cel_init host fp0 0 = Ok x ->
  exists fp12,
    XDA.xda_cel_init host fp0 flags
    = Ok (XDA.mk_xda_cel (XDA.version x) (XDA.num_rows x) (XDA.num_cols x)
            (XDA.num_cells x) (XDA.n_header x) (XDA.header x)
            (XDA.n_algorithm x) (XDA.algorithm x) (XDA.n_parameters x)
            (XDA.parameters x) (XDA.cell_margin x) (XDA.num_outlier_cells x)
            (XDA.num_masked_cells x) (XDA.num_sub_grids x) [] [] [] [] fp12) /\
    Z.of_nat (length (remaining fp0))
    = 48 + XDA.n_header x + XDA.n_algorithm x + XDA.n_parameters x
      + Z.of_nat (length (remaining fp12)).
Proof.
  intros Hflags H. unfold XDA.xda_cel_init in *.
  repeat bind_ok H. injection H as <-.
  repeat (cbn [bind];
          match goal with E : ?c = _ |- context [?c] => rewrite E end).
  cbn [bind]. destruct (Z.eqb_spec flags 0) as [C|_]; [contradiction|].
  cbn [negb]. eexists. split; [reflexivity|].
  cbn [XDA.n_header XDA.n_algorithm XDA.n_parameters].
  repeat match goal with
  | E : XDA.read_int32 _ _ = Ok _ |- _ => apply read_int32_length in E
  | E : XDA.read_uint32 _ _ = Ok _ |- _ => apply read_native32_length in E as [E _]
  | E : XDA.read_text _ _ = Ok _ |- _ => apply read_text_length in E as (_ & _ & E)
  end.
  lia.
Qed.

Lemma xda_cel_init_header_only_witness :
  exists fp12,
    XDA.xda_cel_init LittleEndian (hopen xda_le_file) 1
    = Ok (XDA.mk_xda_cel (XDA.version xda_le_loaded) (XDA.num_rows xda_le_loaded)
            (XDA.num_cols xda_le_loaded) (XDA.num_cells xda_le_loaded)
            (XDA.n_header xda_le_loaded) (XDA.header xda_le_loaded)
            (XDA.n_algorithm xda_le_loaded) (XDA.algorithm xda_le_loaded)
            (XDA.n_parameters xda_le_loaded) (XDA.parameters xda_le_loaded)
            (XDA.cell_margin xda_le_loaded) (XDA.num_outlier_cells xda_le_loaded)
            (XDA.num_masked_cells xda_le_loaded) (XDA.num_sub_grids xda_le_loaded)
            [] [] [] [] fp12) /\
    Z.of_nat (length (remaining (hopen xda_le_file)))
    = 48 + XDA.n_header xda_le_loaded + XDA.n_algorithm xda_le_loaded
      + XDA.n_parameters xda_le_loaded + Z.of_nat (length (remaining fp12)).
Proof.
  apply (xda_cel_init_header_only LittleEndian (hopen xda_le_file) 1 xda_le_loaded).
  - discriminate.
  - vm_compute. reflexivity.
Defined.

(** ** AGCC parameters: what the header-only flag changes *)

Lemma agcc_read_parameters_flags_spec host fp flags p fp' :
  agcc_read_parameters host fp flags = Ok (p, fp') ->
  exists p0,
    agcc_read_parameters host fp 0 = Ok (p0, fp') /\
    param_type p = param_type p0 /\
    (p = p0 \/
     flags <> 0 /\ p = mk_Param None None None 0 (param_type p0) /\
     exists nm, param_name p0 = Some nm /\
                wcsn_eq nm (wstr "affymetrix-algorithm-param-apt-opt-cel") 38 = true).
Proof.
  unfold agcc_read_parameters. intros H.
  destruct (read_string16 host fp) as [[[n nm] fp1]| | |]; cbn [bind] in H |- *;
    try discriminate H.
  destruct (read_string8 host fp1) as [[[nv vl] fp2]| | |]; cbn [bind] in H |- *;
    try discriminate H.
  destruct (read_string16 host fp2) as [[[nt [mt|]] fp3]| | |]; cbn [bind] in H |- *;
    try discriminate H.
  destruct (mime_lookup mt mime_types) as [type|]; [|discriminate H].
  destruct (Z.eqb_spec flags 0) as [->|Hf]; cbn [negb Z.eqb] in H |- *.
  - injection H as <- <-. eexists. split; [reflexivity|]. split; [reflexivity|].
    now left.
  - destruct nm as [nm|]; [|discriminate H].
    destruct (wcsn_eq nm _ 38) eqn:E; injection H as <- <-;
      eexists; (split; [reflexivity|]); (split; [reflexivity|]).
    + right. split; [assumption|]. split; [reflexivity|].
      exists nm. split; [reflexivity|assumption].
    + now left.
Qed.

(** X7.  With the flag set, [agcc_read_parameters] takes the same bytes from the
    stream and finds the same type as without it; the only parameters it
    returns differently are those whose name begins with
    "affymetrix-algorithm-param-apt-opt-cel", which lose their name, their
    value and their MIME type. *)
Theorem agcc_read_parameters_flags (host : byte_order) (fp : hFILE) (flags : Z)
  (p : Param) (fp' : hFILE) :
  agcc_read_parameters host fp flags = Ok (p, fp') ->
  exists p0,
    agcc_read_parameters host fp 0 = Ok (p0, fp') /\
    param_type p = param_type p0 /\
    (p = p0 \/
     flags <> 0 /\ p = mk_Param None None None 0 (param_type p0) /\
     exists nm, param_name p0 = Some nm /\
                wcsn_eq nm (wstr "affymetrix-algorithm-param-apt-opt-cel") 38 = true).
Proof. apply agcc_read_parameters_flags_spec. Qed.

Lemma agcc_read_parameters_flags_witness :
  exists p0,
    agcc_read_parameters BigEndian (hopen apt_opt_parameter) 0
    = Ok (p0, mk_hFILE apt_opt_parameter 117) /\
    param_type (mk_Param None None None 0 STRING) = param_type p0 /\
    (mk_Param None None None 0 STRING = p0 \/
     1 <> 0 /\ mk_Param None None None 0 STRING
               = mk_Param None None None 0 (param_type p0) /\
     exists nm, param_name p0 = Some nm /\
                wcsn_eq nm (wstr "affymetrix-algorithm-param-apt-opt-cel") 38 = true).
Proof.
  apply (agcc_read_parameters_flags BigEndian (hopen apt_opt_parameter) 1).
  vm_compute. reflexivity.
Defined.

Lemma read_parameters_flags host n : forall fp flags ps fp',
  read_parameters host n fp flags = Ok (ps, fp') ->
  exists ps0,
    read_parameters host n fp 0 = Ok (ps0, fp') /\
    map param_type ps = map param_type ps0.
Proof.
  induction n as [|n IH]; intros fp flags ps fp' H; simpl in H |- *.
  - injection H as <- <-. exists []. split; reflexivity.
  - destruct (agcc_read_parameters host fp flags) as [[p fp1]| | |] eqn:E;
      simpl in H; try discriminate H.
    destruct (read_parameters host n fp1 flags) as [[l fp2]| | |] eqn:E2;
      simpl in H; try discriminate H.
    injection H as <- <-.
    apply agcc_read_parameters_flags_spec in E as (p0 & E0 & T & _).
    apply IH in E2 as (l0 & E20 & M).
    exists (p0 :: l0). rewrite E0. simpl. rewrite E20. simpl.
    split; [reflexivity|]. now rewrite T, M.
Qed.

(** X8.  With the flag set, [agcc_read_data_set] returns the data set that it
    returns without it, apart from the strings of the parameters: the same
    columns, offsets, row width and row count, and the same stream position. *)
Theorem agcc_read_data_set_flags (host : byte_order) (fp0 : hFILE) (flags : Z)
  (ds : DataSet) :
  agcc_read_data_set host fp0 flags = Ok ds ->
  exists ps0,
    agcc_read_data_set host fp0 0
    = Ok (mk_DataSet (pos_first_element ds) (pos_next_data_set ds) (name ds)
            (n_parameters ds) ps0 (n_cols ds) (col_headers ds) (n_rows ds)
            (fp ds) (n_buffer ds) (col_offsets ds) (buffer ds)) /\
    map param_type (parameters ds) = map param_type ps0.
Proof.
  unfold agcc_read_data_set. intros H.
  destruct (read_long host fp0) as [[a fp1]| | |]; cbn [bind] in H |- *;
    try discriminate H.
  destruct (read_long host fp1) as [[b fp2]| | |]; cbn [bind] in H |- *;
    try discriminate H.
  destruct (read_string16 host fp2) as [[[l nm] fp3]| | |]; cbn [bind] in H |- *;
    try discriminate H.
  destruct (read_long host fp3) as [[np fp4]| | |]; cbn [bind] in H |- *;
    try discriminate H.
  destruct (read_parameters host _ fp4 flags) as [[ps fp5]| | |] eqn:E;
    cbn [bind] in H |- *; try discriminate H.
  apply read_parameters_flags in E as (ps0 & E0 & M).
  rewrite E0. cbn [bind].
  destruct (read_long host fp5) as [[nc fp6]| | |]; cbn [bind] in H |- *;
    try discriminate H.
  destruct (read_col_headers host _ fp6) as [[cs fp7]| | |]; cbn [bind] in H |- *;
    try discriminate H.
  destruct (read_long host fp7) as [[nr fp8]| | |]; cbn [bind] in H |- *;
    try discriminate H.
  destruct (col_layout cs 0) as [offs total].
  injection H as <-. exists ps0. split; [reflexivity|exact M].
Qed.

Lemma agcc_read_data_set_flags_witness :
  exists ps0,
    agcc_read_data_set BigEndian (hopen two_column_data_set) 0
    = Ok (mk_DataSet (pos_first_element two_column_decoded)
            (pos_next_data_set two_column_decoded) (name two_column_decoded)
            (n_parameters two_column_decoded) ps0 (n_cols two_column_decoded)
            (col_headers two_column_decoded) (n_rows two_column_decoded)
            (fp two_column_decoded) (n_buffer two_column_decoded)
            (col_offsets two_column_decoded) (buffer two_column_decoded)) /\
    map param_type (parameters two_column_decoded) = map param_type ps0.
Proof.
  apply (agcc_read_data_set_flags BigEndian (hopen two_column_data_set) 1).
  vm_compute. reflexivity.
Defined.

(** ** AGCC files *)

Lemma read_long_length host fp v fp' :
  read_long host fp = Ok (v, fp') ->
  length (remaining fp) = (4 + length (remaining fp'))%nat.
Proof.
  unfold read_long. intros H.
  destruct (read_native32 host fp) as [[u fp1]| | |] eqn:E; simpl in H;
    try discriminate H.
  injection H as _ <-. now apply read_native32_length in E.
Qed.

Lemma read_short_length host fp v fp' :
  read_short host fp = Ok (v, fp') ->
  length (remaining fp) = (2 + length (remaining fp'))%nat.
Proof.
  unfold read_short. intros H.
  destruct (read_bytes fp 2) as [[bs fp1]| | |] eqn:E; simpl in H;
    try discriminate H.
  apply read_bytes_length in E as [E _].
  destruct bs as [|b0 [|b1 [|]]]; try discriminate H.
  now injection H as _ <-.
Qed.

Lemma read_wchars_length host n : forall fp cs fp',
  read_wchars host n fp = Ok (cs, fp') ->
  length (remaining fp) = (2 * n + length (remaining fp'))%nat.
Proof.
  induction n as [|n IH]; intros fp cs fp' H; simpl in H.
  - now injection H as _ <-.
  - destruct (read_short host fp) as [[c fp1]| | |] eqn:E; simpl in H;
      try discriminate H.
    destruct (read_wchars host n fp1) as [[l fp2]| | |] eqn:E2; simpl in H;
      try discriminate H.
    injection H as _ <-. apply read_short_length in E. apply IH in E2. lia.
Qed.

Lemma read_string8_length host fp n s fp' :
  read_string8 host fp = Ok (n, s, fp') ->
  (4 + length (remaining fp') <= length (remaining fp))%nat.
Proof.
  unfold read_string8. intros H.
  destruct (read_long host fp) as [[u fp1]| | |] eqn:E; simpl in H;
    try discriminate H.
  apply read_long_length in E.
  destruct (to_int32 u =? 0); [injection H as _ _ <-; lia|].
  destruct (to_int32 u <? 0); [discriminate H|].
  destruct (read_bytes fp1 _) as [[bs fp2]| | |] eqn:E2; simpl in H;
    try discriminate H.
  injection H as _ _ <-. apply read_bytes_length in E2 as [E2 _]. lia.
Qed.

Lemma read_string16_length host fp n s fp' :
  read_string16 host fp = Ok (n, s, fp') ->
  (4 + length (remaining fp') <= length (remaining fp))%nat.
Proof.
  unfold read_string16. intros H.
  destruct (read_long host fp) as [[u fp1]| | |] eqn:E; simpl in H;
    try discriminate H.
  apply read_long_length in E.
  destruct (to_int32 u =? 0); [injection H as _ _ <-; lia|].
  destruct (to_int32 u <? 0); [discriminate H|].
  destruct (read_wchars host _ fp1) as [[cs fp2]| | |] eqn:E2; simpl in H;
    try discriminate H.
  injection H as _ _ <-. apply read_wchars_length in E2. lia.
Qed.

Lemma agcc_read_parameters_length host fp flags p fp' :
  agcc_read_parameters host fp flags = Ok (p, fp') ->
  (length (remaining fp') <= length (remaining fp))%nat.
Proof.
  unfold agcc_read_parameters. intros H.
  destruct (read_string16 host fp) as [[[n nm] fp1]| | |] eqn:E1;
    cbn [bind] in H; try discriminate H.
  destruct (read_string8 host fp1) as [[[nv vl] fp2]| | |] eqn:E2;
    cbn [bind] in H; try discriminate H.
  destruct (read_string16 host fp2) as [[[nt mt] fp3]| | |] eqn:E3;
    cbn [bind] in H; try discriminate H.
  apply read_string16_length in E1, E3. apply read_string8_length in E2.
  assert (fp' = fp3) as ->; [|lia].
  destruct mt as [mt|]; [|discriminate H].
  destruct (mime_lookup mt mime_types); [|discriminate H].
  destruct (negb (flags =? 0)); [|now injection H].
  destruct nm as [nm|]; [|discriminate H].
  destruct (wcsn_eq nm _ 38); now injection H.
Qed.

Lemma read_parameters_length host n : forall fp flags ps fp',
  read_parameters host n fp flags = Ok (ps, fp') ->
  (length (remaining fp') <= length (remaining fp))%nat.
Proof.
  induction n as [|n IH]; intros fp flags ps fp' H; simpl in H.
  - injection H as _ <-. lia.
  - destruct (agcc_read_parameters host fp flags) as [[p fp1]| | |] eqn:E;
      simpl in H; try discriminate H.
    destruct (read_parameters host n fp1 flags) as [[l fp2]| | |] eqn:E2;
      simpl in H; try discriminate H.
    injection H as _ <-. apply agcc_read_parameters_length in E. apply IH in E2.
    lia.
Qed.

(** A loop over a reader that never moves the stream backwards. *)
Lemma read_many_length {A : Type} (read : hFILE -> result (A * hFILE)) (bound : nat) :
  (forall fp a fp', (length (remaining fp) <= bound)%nat -> read fp = Ok (a, fp') ->
                    (length (remaining fp') <= length (remaining fp))%nat) ->
  forall n fp l fp',
    (length (remaining fp) <= bound)%nat ->
    read_many read n fp = Ok (l, fp') ->
    (length (remaining fp') <= length (remaining fp))%nat.
Proof.
  intros Hread. induction n as [|n IH]; intros fp l fp' Hb H; simpl in H.
  - injection H as _ <-. lia.
  - destruct (read fp) as [[a fp1]| | |] eqn:E; simpl in H; try discriminate H.
    destruct (read_many read n fp1) as [[l' fp2]| | |] eqn:E2; simpl in H;
      try discriminate H.
    injection H as _ <-. apply Hread in E; [|exact Hb].
    apply IH in E2; lia.
Qed.

(** Two readers that agree on the streams with at most [bound] bytes left. *)
Lemma read_many_ext {A : Type} (read read' : hFILE -> result (A * hFILE))
  (bound : nat) :
  (forall fp, (length (remaining fp) <= bound)%nat -> read fp = read' fp) ->
  (forall fp a fp', (length (remaining fp) <= bound)%nat -> read fp = Ok (a, fp') ->
                    (length (remaining fp') <= length (remaining fp))%nat) ->
  forall n fp,
    (length (remaining fp) <= bound)%nat ->
    read_many read n fp = read_many read' n fp.
Proof.
  intros Hext Hread. induction n as [|n IH]; intros fp Hb; simpl; [reflexivity|].
  rewrite <- (Hext fp Hb).
  destruct (read fp) as [[a fp1]| | |] eqn:E; simpl; try reflexivity.
  apply Hread in E; [|exact Hb]. rewrite IH by lia. reflexivity.
Qed.

(** A data header takes at least four bytes from the stream. *)
Lemma agcc_read_data_header_length host fuel : forall fp flags h fp',
  agcc_read_data_header host fuel fp flags = Ok (h, fp') ->
  (length (remaining fp') < length (remaining fp))%nat.
Proof.
  induction fuel as [|fuel IH]; intros fp flags h fp' H; [discriminate H|].
  cbn [agcc_read_data_header] in H.
  destruct (read_string8 host fp) as [[[n1 s1] fp1]| | |] eqn:E1;
    cbn [bind] in H; try discriminate H.
  destruct (read_string8 host fp1) as [[[n2 s2] fp2]| | |] eqn:E2;
    cbn [bind] in H; try discriminate H.
  destruct (read_string16 host fp2) as [[[n3 s3] fp3]| | |] eqn:E3;
    cbn [bind] in H; try discriminate H.
  destruct (read_string16 host fp3) as [[[n4 s4] fp4]| | |] eqn:E4;
    cbn [bind] in H; try discriminate H.
  destruct (read_long host fp4) as [[np fp5]| | |] eqn:E5;
    cbn [bind] in H; try discriminate H.
  destruct (read_parameters host _ fp5 flags) as [[ps fp6]| | |] eqn:E6;
    cbn [bind] in H; try discriminate H.
  destruct (read_long host fp6) as [[npa fp7]| | |] eqn:E7;
    cbn [bind] in H; try discriminate H.
  destruct (read_many _ _ fp7) as [[hs fp8]| | |] eqn:E8;
    cbn [bind] in H; try discriminate H.
  injection H as _ <-.
  apply read_string8_length in E1, E2. apply read_string16_length in E3, E4.
  apply read_long_length in E5, E7. apply read_parameters_length in E6.
  apply (read_many_length _ (length (remaining fp7))) in E8; [lia| |lia].
  intros fq a fq' _ Ha. apply IH in Ha. lia.
Qed.

(** The nesting of the parent headers is bounded by the bytes that are left:
    with more fuel than that, the fuel does not matter. *)
Lemma agcc_read_data_header_fuel host fuel : forall fuel' fp flags,
  (length (remaining fp) < fuel)%nat -> (length (remaining fp) < fuel')%nat ->
  agcc_read_data_header host fuel fp flags
  = agcc_read_data_header host fuel' fp flags.
Proof.
  induction fuel as [|fuel IH]; intros fuel' fp flags Hf Hf'; [lia|].
  destruct fuel' as [|fuel']; [lia|].
  cbn [agcc_read_data_header].
  destruct (read_string8 host fp) as [[[n1 s1] fp1]| | |] eqn:E1;
    cbn [bind]; try reflexivity.
  destruct (read_string8 host fp1) as [[[n2 s2] fp2]| | |] eqn:E2;
    cbn [bind]; try reflexivity.
  destruct (read_string16 host fp2) as [[[n3 s3] fp3]| | |] eqn:E3;
    cbn [bind]; try reflexivity.
  destruct (read_string16 host fp3) as [[[n4 s4] fp4]| | |] eqn:E4;
    cbn [bind]; try reflexivity.
  destruct (read_long host fp4) as [[np fp5]| | |] eqn:E5;
    cbn [bind]; try reflexivity.
  destruct (read_parameters host _ fp5 flags) as [[ps fp6]| | |] eqn:E6;
    cbn [bind]; try reflexivity.
  destruct (read_long host fp6) as [[npa fp7]| | |] eqn:E7;
    cbn [bind]; try reflexivity.
  apply read_string8_length in E1, E2. apply read_string16_length in E3, E4.
  apply read_long_length in E5, E7. apply read_parameters_length in E6.
  rewrite (read_many_ext _ (fun fp => agcc_read_data_header host fuel' fp flags)
             (length (remaining fp7))); [reflexivity| | |lia].
  - intros fq Hb. apply IH; lia.
  - intros fq a fq' _ Ha. apply agcc_read_data_header_length in Ha. lia.
Qed.

(** The reading routines leave the bytes of the file as they are. *)

Lemma read_bytes_contents fp n bs fp' :
  read_bytes fp n = Ok (bs, fp') -> contents fp' = contents fp.
Proof.
  unfold read_bytes. destruct (_ <? _)%nat; [discriminate|].
  intros H. now injection H as _ <-.
Qed.

Lemma read_native32_contents host fp v fp' :
  read_native32 host fp = Ok (v, fp') -> contents fp' = contents fp.
Proof.
  unfold read_native32. intros H.
  destruct (read_bytes fp 4) as [[bs fp1]| | |] eqn:E; cbn [bind] in H;
    try discriminate H.
  apply read_bytes_contents in E.
  destruct bs as [|b0 [|b1 [|b2 [|b3 [|]]]]]; try discriminate H.
  now injection H as _ <-.
Qed.

Lemma read_long_contents host fp v fp' :
  read_long host fp = Ok (v, fp') -> contents fp' = contents fp.
Proof.
  unfold read_long. intros H.
  destruct (read_native32 host fp) as [[u fp1]| | |] eqn:E; cbn [bind] in H;
    try discriminate H.
  injection H as _ <-. now apply read_native32_contents in E.
Qed.

Lemma read_short_contents host fp v fp' :
  read_short host fp = Ok (v, fp') -> contents fp' = contents fp.
Proof.
  unfold read_short. intros H.
  destruct (read_bytes fp 2) as [[bs fp1]| | |] eqn:E; cbn [bind] in H;
    try discriminate H.
  apply read_bytes_contents in E.
  destruct bs as [|b0 [|b1 [|]]]; try discriminate H.
  now injection H as _ <-.
Qed.

Ltac contents_facts :=
  repeat match goal with
  | E : read_bytes _ _ = Ok _ |- _ => apply read_bytes_contents in E
  | E : read_long _ _ = Ok _ |- _ => apply read_long_contents in E
  | E : read_short _ _ = Ok _ |- _ => apply read_short_contents in E
  end.

Lemma read_wchars_contents host n : forall fp cs fp',
  read_wchars host n fp = Ok (cs, fp') -> contents fp' = contents fp.
Proof.
  induction n as [|n IH]; intros fp cs fp' H; simpl in H.
  - now injection H as _ <-.
  - destruct (read_short host fp) as [[c fp1]| | |] eqn:E; cbn [bind] in H;
      try discriminate H.
    destruct (read_wchars host n fp1) as [[l fp2]| | |] eqn:E2; cbn [bind] in H;
      try discriminate H.
    injection H as _ <-. apply IH in E2. contents_facts. congruence.
Qed.

Lemma read_string8_contents host fp n s fp' :
  read_string8 host fp = Ok (n, s, fp') -> contents fp' = contents fp.
Proof.
  unfold read_string8. intros H.
  destruct (read_long host fp) as [[u fp1]| | |] eqn:E; cbn [bind] in H;
    try discriminate H.
  contents_facts.
  destruct (to_int32 u =? 0); [now injection H as _ _ <-|].
  destruct (to_int32 u <? 0); [discriminate H|].
  destruct (read_bytes fp1 _) as [[bs fp2]| | |] eqn:E2; cbn [bind] in H;
    try discriminate H.
  injection H as _ _ <-. contents_facts. congruence.
Qed.

Lemma read_string16_contents host fp n s fp' :
  read_string16 host fp = Ok (n, s, fp') -> contents fp' = contents fp.
Proof.
  unfold read_string16. intros H.
  destruct (read_long host fp) as [[u fp1]| | |] eqn:E; cbn [bind] in H;
    try discriminate H.
  contents_facts.
  destruct (to_int32 u =? 0); [now injection H as _ _ <-|].
  destruct (to_int32 u <? 0); [discriminate H|].
  destruct (read_wchars host _ fp1) as [[cs fp2]| | |] eqn:E2; cbn [bind] in H;
    try discriminate H.
  injection H as _ _ <-. apply read_wchars_contents in E2. congruence.
Qed.

Lemma agcc_read_parameters_contents host fp flags p fp' :
  agcc_read_parameters host fp flags = Ok (p, fp') -> contents fp' = contents fp.
Proof.
  unfold agcc_read_parameters. intros H.
  destruct (read_string16 host fp) as [[[n nm] fp1]| | |] eqn:E1;
    cbn [bind] in H; try discriminate H.
  destruct (read_string8 host fp1) as [[[nv vl] fp2]| | |] eqn:E2;
    cbn [bind] in H; try discriminate H.
  destruct (read_string16 host fp2) as [[[nt mt] fp3]| | |] eqn:E3;
    cbn [bind] in H; try discriminate H.
  apply read_string16_contents in E1, E3. apply read_string8_contents in E2.
  assert (fp' = fp3) as ->; [|congruence].
  destruct mt as [mt|]; [|discriminate H].
  destruct (mime_lookup mt mime_types); [|discriminate H].
  destruct (negb (flags =? 0)); [|now injection H].
  destruct nm as [nm|]; [|discriminate H].
  destruct (wcsn_eq nm _ 38); now injection H.
Qed.

Lemma read_parameters_contents host n : forall fp flags ps fp',
  read_parameters host n fp flags = Ok (ps, fp') -> contents fp' = contents fp.
Proof.
  induction n as [|n IH]; intros fp flags ps fp' H; simpl in H.
  - now injection H as _ <-.
  - destruct (agcc_read_parameters host fp flags) as [[p fp1]| | |] eqn:E;
      cbn [bind] in H; try discriminate H.
    destruct (read_parameters host n fp1 flags) as [[l fp2]| | |] eqn:E2;
      cbn [bind] in H; try discriminate H.
    injection H as _ <-.
    apply agcc_read_parameters_contents in E. apply IH in E2. congruence.
Qed.

Lemma read_col_headers_contents host n : forall fp cs fp',
  read_col_headers host n fp = Ok (cs, fp') -> contents fp' = contents fp.
Proof.
  induction n as [|n IH]; intros fp cs fp' H; simpl in H.
  - now injection H as _ <-.
  - destruct (read_string16 host fp) as [[[l nm] fp1]| | |] eqn:E1;
      cbn [bind] in H; try discriminate H.
    destruct (read_bytes fp1 1) as [[bs fp2]| | |] eqn:E2;
      cbn [bind] in H; try discriminate H.
    destruct (read_long host fp2) as [[sz fp3]| | |] eqn:E3;
      cbn [bind] in H; try discriminate H.
    destruct (read_col_headers host n fp3) as [[cs' fp4]| | |] eqn:E4;
      cbn [bind] in H; try discriminate H.
    injection H as _ <-.
    apply read_string16_contents in E1. apply IH in E4. contents_facts.
    congruence.
Qed.

Lemma agcc_read_data_set_contents host fp0 flags ds :
  agcc_read_data_set host fp0 flags = Ok ds -> contents (fp ds) = contents fp0.
Proof.
  unfold agcc_read_data_set. intros H.
  destruct (read_long host fp0) as [[a fp1]| | |] eqn:E1; cbn [bind] in H;
    try discriminate H.
  destruct (read_long host fp1) as [[b fp2]| | |] eqn:E2; cbn [bind] in H;
    try discriminate H.
  destruct (read_string16 host fp2) as [[[l nm] fp3]| | |] eqn:E3; cbn [bind] in H;
    try discriminate H.
  destruct (read_long host fp3) as [[np fp4]| | |] eqn:E4; cbn [bind] in H;
    try discriminate H.
  destruct (read_parameters host _ fp4 flags) as [[ps fp5]| | |] eqn:E5;
    cbn [bind] in H; try discriminate H.
  destruct (read_long host fp5) as [[nc fp6]| | |] eqn:E6; cbn [bind] in H;
    try discriminate H.
  destruct (read_col_headers host _ fp6) as [[cs fp7]| | |] eqn:E7;
    cbn [bind] in H; try discriminate H.
  destruct (read_long host fp7) as [[nr fp8]| | |] eqn:E8; cbn [bind] in H;
    try discriminate H.
  destruct (col_layout cs 0) as [offs total]. injection H as <-.
  apply read_string16_contents in E3. apply read_parameters_contents in E5.
  apply read_col_headers_contents in E7. contents_facts.
  cbn [fp]. destruct (negb (b =? 0)); cbn [hseek contents]; congruence.
Qed.

Lemma read_many_contents {A : Type} (read : hFILE -> result (A * hFILE)) :
  (forall fp a fp', read fp = Ok (a, fp') -> contents fp' = contents fp) ->
  forall n fp l fp',
    read_many read n fp = Ok (l, fp') ->
    contents fp' = contents fp /\ length l = n.
Proof.
  intros Hread. induction n as [|n IH]; intros fp l fp' H; simpl in H.
  - injection H as <- <-. split; reflexivity.
  - destruct (read fp) as [[a fp1]| | |] eqn:E; cbn [bind] in H;
      try discriminate H.
    destruct (read_many read n fp1) as [[l' fp2]| | |] eqn:E2; cbn [bind] in H;
      try discriminate H.
    injection H as <- <-.
    apply Hread in E. apply IH in E2 as [E2 L]. simpl. split; congruence.
Qed.

Lemma read_data_sets_contents host n : forall fp0 flags l fp',
  read_data_sets host n fp0 flags = Ok (l, fp') ->
  contents fp' = contents fp0 /\ length l = n.
Proof.
  induction n as [|n IH]; intros fp0 flags l fp' H; simpl in H.
  - injection H as <- <-. split; reflexivity.
  - destruct (agcc_read_data_set host fp0 flags) as [ds| | |] eqn:E;
      cbn [bind] in H; try discriminate H.
    destruct (read_data_sets host n (fp ds) flags) as [[l' fp2]| | |] eqn:E2;
      cbn [bind] in H; try discriminate H.
    injection H as <- <-.
    apply agcc_read_data_set_contents in E. apply IH in E2 as [E2 L].
    simpl. split; congruence.
Qed.

Lemma agcc_read_data_group_contents host fp0 flags g fp' :
  agcc_read_data_group host fp0 flags = Ok (g, fp') ->
  contents fp' = contents fp0 /\
  length (Group.data_sets g) = Z.to_nat (Group.num_data_sets g).
Proof.
  unfold agcc_read_data_group. intros H.
  destruct (read_long host fp0) as [[a fp1]| | |] eqn:E1; cbn [bind] in H;
    try discriminate H.
  destruct (read_long host fp1) as [[b fp2]| | |] eqn:E2; cbn [bind] in H;
    try discriminate H.
  destruct (read_long host fp2) as [[c fp3]| | |] eqn:E3; cbn [bind] in H;
    try discriminate H.
  destruct (read_string16 host fp3) as [[[l nm] fp4]| | |] eqn:E4; cbn [bind] in H;
    try discriminate H.
  destruct (read_data_sets host _ _ flags) as [[dss fp6]| | |] eqn:E5;
    cbn [bind] in H; try discriminate H.
  injection H as <- <-.
  apply read_string16_contents in E4.
  apply read_data_sets_contents in E5 as [E5 L]. cbn [hseek contents] in E5.
  contents_facts. split; [|exact L].
  destruct (negb (a =? 0)); cbn [hseek contents]; congruence.
Qed.

Lemma agcc_read_data_header_contents host fuel : forall fp flags h fp',
  agcc_read_data_header host fuel fp flags = Ok (h, fp') ->
  contents fp' = contents fp.
Proof.
  induction fuel as [|fuel IH]; intros fp flags h fp' H; [discriminate H|].
  cbn [agcc_read_data_header] in H.
  destruct (read_string8 host fp) as [[[n1 s1] fp1]| | |] eqn:E1;
    cbn [bind] in H; try discriminate H.
  destruct (read_string8 host fp1) as [[[n2 s2] fp2]| | |] eqn:E2;
    cbn [bind] in H; try discriminate H.
  destruct (read_string16 host fp2) as [[[n3 s3] fp3]| | |] eqn:E3;
    cbn [bind] in H; try discriminate H.
  destruct (read_string16 host fp3) as [[[n4 s4] fp4]| | |] eqn:E4;
    cbn [bind] in H; try discriminate H.
  destruct (read_long host fp4) as [[np fp5]| | |] eqn:E5;
    cbn [bind] in H; try discriminate H.
  destruct (read_parameters host _ fp5 flags) as [[ps fp6]| | |] eqn:E6;
    cbn [bind] in H; try discriminate H.
  destruct (read_long host fp6) as [[npa fp7]| | |] eqn:E7;
    cbn [bind] in H; try discriminate H.
  destruct (read_many _ _ fp7) as [[hs fp8]| | |] eqn:E8;
    cbn [bind] in H; try discriminate H.
  injection H as _ <-.
  apply read_string8_contents in E1, E2. apply read_string16_contents in E3, E4.
  apply read_parameters_contents in E6. contents_facts.
  apply read_many_contents in E8 as [E8 _]; [congruence|].
  intros fq a fq' Ha. now apply IH in Ha.
Qed.

(** A CHP file is refused by its first two bytes alone, whatever follows: the
    first must be 59 and the second 1; a file that ends before them is a
    failed read. *)
Lemma agcc_init_first_bytes (host : byte_order) (fn : list byte) (b0 b1 : byte)
  (rest : list byte) (flags : Z) :
  (u8 b0 <> 59 ->
   agcc_init host fn (hopen (b0 :: rest)) flags = Reject AgccBadMagic) /\
  (u8 b0 = 59 -> u8 b1 <> 1 ->
   agcc_init host fn (hopen (b0 :: b1 :: rest)) flags = Reject AgccBadVersion) /\
  agcc_init host fn (hopen []) flags = Run (Fatal FailedToRead) /\
  (u8 b0 = 59 -> agcc_init host fn (hopen [b0]) flags = Run (Fatal FailedToRead)).
Proof.
  split; [|split; [|split]].
  - intros Hm. unfold agcc_init, hopen, read_bytes, remaining.
    cbn [contents position skipn firstn length Nat.ltb Nat.leb init_bind hd].
    destruct (Z.eqb_spec (u8 b0) 59) as [C|_]; [contradiction|]. reflexivity.
  - intros Hm Hv. unfold agcc_init, hopen, read_bytes, remaining.
    cbn [contents position skipn firstn length Nat.ltb Nat.leb init_bind hd
         Nat.add].
    rewrite Hm. cbn [Z.eqb Pos.eqb negb].
    destruct (Z.eqb_spec (u8 b1) 1) as [C|_]; [contradiction|]. reflexivity.
  - reflexivity.
  - intros Hm. unfold agcc_init, hopen, read_bytes, remaining.
    cbn [contents position skipn firstn length Nat.ltb Nat.leb init_bind hd
         Nat.add].
    rewrite Hm. reflexivity.
Qed.

Lemma read_long_remaining host fp v fp' :
  read_long host fp = Ok (v, fp') -> remaining fp' = skipn 4 (remaining fp).
Proof.
  rewrite read_long_be. unfold read_be32. intros H.
  destruct (read_bytes fp 4) as [[bs fp1]| | |] eqn:E; cbn [bind] in H;
    try discriminate H.
  apply read_bytes_ok in E as (_ & _ & R).
  destruct bs as [|b0 [|b1 [|b2 [|b3 [|]]]]]; try discriminate H.
  now injection H as _ <-.
Qed.

(** X9.  When [agcc_init] returns, the file began with the bytes 59 and 1, there
    are as many data groups as the header announced, the size it records is
    the length of the file, and the end-of-file test was passed: the data
    header was read ten bytes into the file, the data groups from the
    position the file header gives, and the stream as the last data group
    left it had no byte to read. *)
Theorem agcc_init_reaches_end (host : byte_order) (fn : list byte) (fp0 : hFILE)
  (flags : Z) (agcc : Agcc.agcc_t) :
  agcc_init host fn fp0 flags = Run (Ok agcc) ->
  (exists b0 b1 rest,
     remaining fp0 = b0 :: b1 :: rest /\ u8 b0 = 59 /\ u8 b1 = 1) /\
  Agcc.magic agcc = 59 /\ Agcc.version agcc = 1 /\
  length (Agcc.data_groups agcc) = Z.to_nat (Agcc.num_data_groups agcc) /\
  Agcc.size agcc = Z.of_nat (length (contents fp0)) /\
  contents (Agcc.fp agcc) = contents fp0 /\
  heof (Agcc.fp agcc) = true /\
  Agcc.display_name agcc = agcc_display_name fn /\
  exists fp4 fp5 fp7,
    contents fp4 = contents fp0 /\
    remaining fp4 = skipn 10 (remaining fp0) /\
    agcc_read_data_header host (S (length (remaining fp4))) fp4 flags
    = Ok (Agcc.data_header agcc, fp5) /\
    read_many (fun fp => agcc_read_data_group host fp flags)
              (Z.to_nat (Agcc.num_data_groups agcc))
              (hseek fp5 (Agcc.pos_first_data_group agcc))
    = Ok (Agcc.data_groups agcc, fp7) /\
    remaining fp7 = [].
Proof.
  unfold agcc_init. intros H.
  destruct (read_bytes fp0 1) as [[m fp1]| | |] eqn:E1; cbn [init_bind] in H;
    try discriminate H.
  destruct (Z.eqb_spec (u8 (hd "000"%byte m)) 59) as [Hm|_]; cbn [negb] in H;
    [|discriminate H].
  destruct (read_bytes fp1 1) as [[v fp2]| | |] eqn:E2; cbn [init_bind] in H;
    try discriminate H.
  destruct (Z.eqb_spec (u8 (hd "000"%byte v)) 1) as [Hv|_]; cbn [negb] in H;
    [|discriminate H].
  destruct (read_long host fp2) as [[ndg fp3]| | |] eqn:E3; cbn [init_bind] in H;
    try discriminate H.
  destruct (read_long host fp3) as [[pos fp4]| | |] eqn:E4; cbn [init_bind] in H;
    try discriminate H.
  destruct (agcc_read_data_header host _ fp4 flags) as [[dh fp5]| | |] eqn:E5;
    cbn [init_bind] in H; try discriminate H.
  destruct (read_many _ _ (hseek fp5 pos)) as [[dgs fp7]| | |] eqn:E6;
    cbn [init_bind] in H; try discriminate H.
  destruct (heof fp7) eqn:E7; cbn [negb] in H; [|discriminate H].
  injection H as <-. cbn [Agcc.magic Agcc.version Agcc.data_groups
    Agcc.num_data_groups Agcc.size Agcc.fp Agcc.display_name Agcc.data_header
    Agcc.pos_first_data_group].
  pose proof (read_bytes_ok _ _ _ _ E1) as (B1 & L1 & R1).
  pose proof (read_bytes_ok _ _ _ _ E2) as (B2 & L2 & R2).
  pose proof (read_long_remaining _ _ _ _ E3) as R3.
  pose proof (read_long_remaining _ _ _ _ E4) as R4.
  pose proof (agcc_read_data_header_contents _ _ _ _ _ _ E5) as C5.
  pose proof E6 as E6'.
  apply read_many_contents in E6' as [C6 L6];
    [|intros fq a fq' Ha; now apply agcc_read_data_group_contents in Ha].
  cbn [hseek contents] in C6. contents_facts.
  assert (C : contents fp7 = contents fp0) by congruence.
  split; [|split; [exact Hm|]; split; [exact Hv|]; split; [exact L6|]].
  - rewrite R1 in B2.
    destruct (remaining fp0) as [|b0 [|b1 rest]]; subst m v;
      try discriminate L1; try discriminate L2.
    exists b0, b1, rest. split; [reflexivity|]. split; assumption.
  - unfold htell, hseek_end, heof, remaining. cbn [position contents].
    rewrite C, skipn_all. split; [reflexivity|]. split; [reflexivity|].
    split; [reflexivity|]. split; [reflexivity|].
    exists fp4, fp5, fp7.
    split; [congruence|].
    split; [fold (remaining fp4); fold (remaining fp0);
            rewrite R4, R3, R2, R1, !skipn_skipn; reflexivity|].
    split; [exact E5|]. split; [exact E6|].
    apply heof_remaining in E7. fold (remaining fp7).
    now apply length_zero_iff_nil.
Qed.

Lemma agcc_init_reaches_end_witness :
  Agcc.size chp_loaded = Z.of_nat (length (contents (hopen chp_axiom))) /\
  Agcc.display_name chp_loaded = cstr "s1" /\
  exists fp4 fp5 fp7,
    contents fp4 = contents (hopen chp_axiom) /\
    remaining fp4 = skipn 10 (remaining (hopen chp_axiom)) /\
    agcc_read_data_header LittleEndian (S (length (remaining fp4))) fp4 0
    = Ok (Agcc.data_header chp_loaded, fp5) /\
    read_many (fun fp => agcc_read_data_group LittleEndian fp 0)
              (Z.to_nat (Agcc.num_data_groups chp_loaded))
              (hseek fp5 (Agcc.pos_first_data_group chp_loaded))
    = Ok (Agcc.data_groups chp_loaded, fp7) /\
    remaining fp7 = [].
Proof.
  assert (E : agcc_init LittleEndian chp_name (hopen chp_axiom) 0
              = Run (Ok chp_loaded)) by (vm_compute; reflexivity).
  pose proof (agcc_init_reaches_end LittleEndian chp_name (hopen chp_axiom) 0
                chp_loaded E) as (_ & _ & _ & _ & Hs & _ & _ & _ & Hp).
  split; [exact Hs|]. split; [reflexivity|exact Hp].
Defined.

(** ** Names: the last occurrence of a character *)

Lemma byte_eqb_neq (b c : byte) : b <> c -> Byte.eqb b c = false.
Proof.
  intros H. destruct (Byte.eqb b c) eqn:E; [|reflexivity].
  apply Byte.byte_dec_bl in E. contradiction.
Qed.

Lemma strrchr_none s c : ~ In c s -> strrchr s c = None.
Proof.
  induction s as [|b s IH]; intros H; simpl; [reflexivity|].
  rewrite IH by (intros C; apply H; now right).
  rewrite byte_eqb_neq; [reflexivity|]. intros ->. apply H. now left.
Qed.

Lemma strrchr_last s c t :
  ~ In c t -> strrchr (s ++ c :: t) c = Some (length s).
Proof.
  intros H. induction s as [|b s IH]; simpl.
  - now rewrite (strrchr_none t c H), byte_eqb_refl.
  - now rewrite IH.
Qed.

(** Where [strrchr] finds the character, and that nothing after it is one. *)
Lemma strrchr_some s c : forall i,
  strrchr s c = Some i ->
  nth_error s i = Some c /\ ~ In c (skipn (S i) s).
Proof.
  induction s as [|b s IH]; intros i H; simpl in H; [discriminate H|].
  destruct (strrchr s c) as [j|] eqn:E.
  - injection H as <-. apply IH. reflexivity.
  - destruct (Byte.eqb b c) eqn:Eb; [|discriminate H].
    injection H as <-. apply Byte.byte_dec_bl in Eb. subst b. simpl.
    split; [reflexivity|].
    intros C. clear IH. induction s as [|d s IHs]; [exact C|].
    simpl in E. destruct (strrchr s c); [discriminate E|].
    destruct (Byte.eqb d c) eqn:Ed; [discriminate E|].
    destruct C as [->|C]; [now rewrite byte_eqb_refl in Ed|].
    now apply IHs.
Qed.

Lemma strrchr_not_in s c : strrchr s c = None -> ~ In c s.
Proof.
  induction s as [|b s IH]; intros H; simpl in H; [intros []|].
  destruct (strrchr s c); [discriminate H|].
  destruct (Byte.eqb b c) eqn:Eb; [discriminate H|].
  intros [->|C]; [now rewrite byte_eqb_refl in Eb|]. now apply IH.
Qed.

Lemma list_byte_eqb_refl (a : list byte) : list_byte_eqb a a = true.
Proof. unfold list_byte_eqb. destruct (list_eq_dec _ a a); congruence. Qed.

Lemma skipn_length_app {A : Type} (a b : list A) : skipn (length a) (a ++ b) = b.
Proof. now rewrite skipn_app, skipn_all, Nat.sub_diag. Qed.

Lemma skipn_S_app {A : Type} (a : list A) c b : skipn (S (length a)) (a ++ c :: b) = b.
Proof. induction a as [|x a IH]; [reflexivity|exact IH]. Qed.

Lemma firstn_length_app {A : Type} (a b : list A) : firstn (length a) (a ++ b) = a.
Proof. now rewrite firstn_app, firstn_all, Nat.sub_diag, app_nil_r. Qed.

Lemma not_in_firstn {A : Type} (x : A) n (l : list A) : ~ In x l -> ~ In x (firstn n l).
Proof.
  intros H C. apply H. rewrite <- (firstn_skipn n l). apply in_or_app. now left.
Qed.

(** X10.  The name that [agcc_init] displays for a file "dir/base.alg.chp", where
    "alg" is one of the three algorithm names, is "base": the directories,
    ".chp" and the algorithm are taken away. *)
Theorem agcc_display_name_strips (dir base alg : list byte) :
  ~ In SLASH base ->
  In alg [cstr "AxiomGT1"; cstr "birdseed-v2"; cstr "brlmm-p"] ->
  agcc_display_name (dir ++ SLASH :: base ++ DOT :: alg ++ cstr ".chp") = base /\
  agcc_display_name (base ++ DOT :: alg ++ cstr ".chp") = base.
Proof.
  intros Hbase Halg.
  assert (Hdot : ~ In DOT alg /\ ~ In SLASH alg).
  { simpl in Halg.
    destruct Halg as [<-|[<-|[<-|[]]]]; vm_compute; intuition discriminate. }
  destruct Hdot as [Hdot Hslash].
  assert (Hext : list_byte_eqb alg (cstr "AxiomGT1")
                 || list_byte_eqb alg (cstr "birdseed-v2")
                 || list_byte_eqb alg (cstr "brlmm-p") = true).
  { simpl in Halg. destruct Halg as [<-|[<-|[<-|[]]]]; reflexivity. }
  assert (Hname : forall ptr,
            (match strrchr ptr SLASH with
             | Some i => skipn (S i) ptr
             | None => ptr
             end) = base ++ DOT :: alg ++ cstr ".chp" ->
            agcc_display_name ptr = base).
  { intros ptr E. unfold agcc_display_name. rewrite E.
    change (base ++ DOT :: alg ++ cstr ".chp")
      with (base ++ DOT :: alg ++ DOT :: cstr "chp").
    replace (base ++ DOT :: alg ++ DOT :: cstr "chp")
      with ((base ++ DOT :: alg) ++ DOT :: cstr "chp")
      by (now rewrite <- app_assoc).
    rewrite strrchr_last by (vm_compute; intuition discriminate).
    rewrite skipn_S_app, list_byte_eqb_refl, firstn_length_app.
    rewrite strrchr_last by exact Hdot.
    rewrite skipn_S_app, Hext. apply firstn_length_app. }
  assert (Hno : ~ In SLASH (base ++ DOT :: alg ++ cstr ".chp")).
  { intros C. apply in_app_or in C as [C|[C|C]]; [now apply Hbase|discriminate C|].
    apply in_app_or in C as [C|C]; [now apply Hslash|].
    revert C. vm_compute. intuition discriminate. }
  split; apply Hname.
  - rewrite strrchr_last by exact Hno. apply skipn_S_app.
  - now rewrite (strrchr_none _ _ Hno).
Qed.

Lemma agcc_display_name_strips_witness :
  agcc_display_name
    (cstr "/data/plate1" ++ SLASH :: cstr "s1.rep2" ++ DOT :: cstr "brlmm-p"
     ++ cstr ".chp") = cstr "s1.rep2" /\
  agcc_display_name (cstr "s1.rep2" ++ DOT :: cstr "brlmm-p" ++ cstr ".chp")
  = cstr "s1.rep2".
Proof.
  apply (agcc_display_name_strips (cstr "/data/plate1") (cstr "s1.rep2")
           (cstr "brlmm-p")).
  - vm_compute. intuition discriminate.
  - simpl. tauto.
Defined.

(** X11.  The displayed name never holds a directory separator. *)
Theorem agcc_display_name_no_slash (fn : list byte) :
  ~ In SLASH (agcc_display_name fn).
Proof.
  unfold agcc_display_name.
  set (ptr := match strrchr fn SLASH with
              | Some i => skipn (S i) fn
              | None => fn
              end).
  assert (Hptr : ~ In SLASH ptr).
  { subst ptr. destruct (strrchr fn SLASH) as [i|] eqn:E.
    - now apply strrchr_some in E.
    - now apply strrchr_not_in. }
  destruct (strrchr ptr DOT) as [i|]; [|exact Hptr].
  destruct (list_byte_eqb _ (cstr "chp")); [|exact Hptr].
  destruct (strrchr (firstn i ptr) DOT) as [j|]; [|now apply not_in_firstn].
  destruct (_ || _); repeat apply not_in_firstn; exact Hptr.
Qed.

(** ** Printing a call *)

(** X12.  The two letters that [agcc_print_call] writes for a call byte agree with
    the call that [varitr_loop] takes from the same byte: "AA", "AB" and "BB"
    are written exactly for the calls AA, AB and BB, and what is written as
    "NC" is taken as a no-call. *)
Theorem agcc_print_call_matches_gt (call : byte) (rest : list byte) :
  (agcc_print_call (call :: rest) = Ok (cstr "AA")
   <-> nth (Z.to_nat (Z.land (u8 call) 15)) gt (-1) = GT_AA) /\
  (agcc_print_call (call :: rest) = Ok (cstr "AB")
   <-> nth (Z.to_nat (Z.land (u8 call) 15)) gt (-1) = GT_AB) /\
  (agcc_print_call (call :: rest) = Ok (cstr "BB")
   <-> nth (Z.to_nat (Z.land (u8 call) 15)) gt (-1) = GT_BB) /\
  (agcc_print_call (call :: rest) = Ok (cstr "NC")
   -> nth (Z.to_nat (Z.land (u8 call) 15)) gt (-1) = GT_NC).
Proof.
  unfold agcc_print_call.
  destruct call; vm_compute; intuition congruence.
Qed.

(** ** Quoted fields *)

Lemma list_byte_eqb_neq (a b : list byte) : a <> b -> list_byte_eqb a b = false.
Proof. unfold list_byte_eqb. destruct (list_eq_dec _ a b); congruence. Qed.

(** X13.  [unquote] gives back what stands between the quotes of a quoted field,
    quotes inside it included; the quoted "---" is the missing value. *)
Theorem unquote_round_trip (s : list byte) :
  unquote (QUOTE :: s ++ [QUOTE])
  = Ok (if list_byte_eqb s (cstr "---") then None else Some s).
Proof.
  unfold unquote.
  destruct (list_eq_dec Byte.byte_eq_dec s (cstr "---")) as [->|Hs].
  - reflexivity.
  - rewrite (list_byte_eqb_neq s _ Hs).
    rewrite list_byte_eqb_neq.
    + change (QUOTE :: s ++ [QUOTE]) with ((QUOTE :: s) ++ QUOTE :: []).
      rewrite strrchr_last by (intros []).
      cbn [length]. now rewrite firstn_length_app.
    + intros C. injection C as C.
      change ["-"%byte; "-"%byte; "-"%byte; QUOTE] with (cstr "---" ++ [QUOTE]) in C.
      apply app_inv_tail in C. contradiction.
Qed.

(** ** Text files: lines and headers *)

Lemma is_newline_NL : is_newline NL = true.
Proof. reflexivity. Qed.

Lemma is_newline_other c : c <> NL -> is_newline c = false.
Proof. intros H. unfold is_newline. now apply byte_eqb_neq. Qed.

Lemma read_line_line l rest :
  ~ In NL l -> read_line (l ++ NL :: rest) = (l, true, S (length l)).
Proof.
  induction l as [|c l IH]; intros H; simpl; [reflexivity|].
  rewrite is_newline_other by (intros ->; apply H; now left).
  rewrite IH by (intros C; apply H; now right). reflexivity.
Qed.

(** A line that ends with a newline is read up to it. *)
Lemma hts_getline_line bs pos l rest :
  remaining (mk_hFILE bs pos) = l ++ NL :: rest -> ~ In NL l ->
  hts_getline (mk_hFILE bs pos)
  = Some (strip_cr l, mk_hFILE bs (pos + S (length l))).
Proof.
  intros E H. unfold hts_getline. rewrite E.
  pose proof (read_line_line l rest H) as R.
  destruct (l ++ NL :: rest) as [|c s] eqn:El.
  - destruct l; discriminate El.
  - rewrite R. reflexivity.
Qed.

Lemma remaining_after bs pos a b n :
  remaining (mk_hFILE bs pos) = a ++ b -> n = length a ->
  remaining (mk_hFILE bs (pos + n)) = b.
Proof.
  intros E ->. rewrite remaining_advance, E. apply skipn_length_app.
Qed.

(** Taking a carriage return from the end of a line leaves its first
    character, unless the line is the carriage return alone. *)
Lemma strip_cr_hd c l : c <> "013"%byte -> hd_error (strip_cr (c :: l)) = Some c.
Proof.
  intros Hc. unfold strip_cr.
  destruct (rev (c :: l)) as [|x r] eqn:E.
  - apply (f_equal (@length byte)) in E. rewrite length_rev in E. discriminate E.
  - destruct (is_cr x) eqn:Ex; [|reflexivity].
    apply (f_equal (@rev byte)) in E. rewrite rev_involutive in E.
    simpl in E. destruct (rev r) as [|y r'] eqn:Er.
    + simpl in E. injection E as -> _.
      unfold is_cr in Ex. apply Byte.byte_dec_bl in Ex. contradiction.
    + simpl in E. now injection E as ->.
Qed.

Lemma text_lines_cons c cs : text_lines (c :: cs) = c ++ NL :: text_lines cs.
Proof. unfold text_lines. simpl. now rewrite <- app_assoc. Qed.

Lemma text_lines_length cs : (length cs <= length (text_lines cs))%nat.
Proof.
  induction cs as [|c cs IH]; [simpl; lia|].
  rewrite text_lines_cons, length_app. simpl. lia.
Qed.

Lemma skip_header_comments l rest bs comments : forall fuel pos str,
  (length comments < fuel)%nat ->
  hd_error str = Some HASH ->
  Forall comment_line comments ->
  ~ In NL l -> hd_error (strip_cr l) <> Some HASH ->
  remaining (mk_hFILE bs pos) = text_lines comments ++ l ++ NL :: rest ->
  skip_header fuel str (mk_hFILE bs pos)
  = Ok (strip_cr l,
        mk_hFILE bs (pos + length (text_lines comments) + S (length l))).
Proof.
  induction comments as [|c cs IH]; intros fuel pos str Hfuel Hstr Hcs Hl Hhd E.
  - destruct str as [|x str]; [discriminate Hstr|]. injection Hstr as ->.
    destruct fuel as [|fuel]; [simpl in Hfuel; lia|].
    cbn [skip_header]. rewrite byte_eqb_refl.
    rewrite (hts_getline_line bs pos l rest E Hl).
    cbn [text_lines map concat length]. rewrite Nat.add_0_r.
    destruct (strip_cr l) as [|y s]; [destruct fuel; reflexivity|].
    assert (Hy : Byte.eqb y HASH = false).
    { apply byte_eqb_neq. intros ->. apply Hhd. reflexivity. }
    destruct fuel; cbn [skip_header]; now rewrite Hy.
  - destruct str as [|x str]; [discriminate Hstr|]. injection Hstr as ->.
    destruct fuel as [|fuel]; [simpl in Hfuel; lia|].
    inversion Hcs as [|? ? [Hc1 Hc2] Hcs']; subst.
    cbn [skip_header]. rewrite byte_eqb_refl.
    rewrite text_lines_cons, <- app_assoc in E. cbn [app] in E.
    rewrite (hts_getline_line bs pos c _ E Hc2).
    rewrite (IH fuel (pos + S (length c))%nat (strip_cr c)).
    + rewrite text_lines_cons, length_app. cbn [length].
      do 3 f_equal. lia.
    + simpl in Hfuel. lia.
    + destruct c as [|y c]; [discriminate Hc1|]. injection Hc1 as ->.
      apply strip_cr_hd. discriminate.
    + exact Hcs'.
    + exact Hl.
    + exact Hhd.
    + apply (remaining_after bs pos (c ++ [NL])); [|rewrite length_app; simpl; lia].
      now rewrite <- app_assoc.
Qed.

Lemma unheader_spec (comments : list (list byte)) (l rest : list byte) :
  Forall comment_line comments ->
  ~ In NL l ->
  hd_error (strip_cr l) <> Some HASH ->
  (comments = [] -> strip_cr l <> []) ->
  unheader (hopen (text_lines comments ++ l ++ NL :: rest))
  = Run (Ok (strip_cr l,
             mk_hFILE (text_lines comments ++ l ++ NL :: rest)
                      (length (text_lines comments) + S (length l)))).
Proof.
  intros Hcs Hl Hhd Hne. unfold unheader, hopen.
  set (bs := text_lines comments ++ l ++ NL :: rest).
  assert (R0 : remaining (mk_hFILE bs 0) = bs) by reflexivity.
  destruct comments as [|c cs].
  - cbn [text_lines map concat app] in bs, R0 |- *.
    rewrite (hts_getline_line bs 0 l rest R0 Hl).
    destruct (strip_cr l) as [|y s] eqn:Es; [now contradiction Hne|].
    assert (Hy : Byte.eqb y HASH = false).
    { apply byte_eqb_neq. intros ->. apply Hhd. reflexivity. }
    cbn [Nat.add length].
    destruct (length (remaining _)); cbn [skip_header]; now rewrite Hy.
  - inversion Hcs as [|? ? [Hc1 Hc2] Hcs']; subst.
    assert (E : remaining (mk_hFILE bs 0)
                = c ++ NL :: text_lines cs ++ l ++ NL :: rest).
    { rewrite R0. subst bs. rewrite text_lines_cons, <- app_assoc. reflexivity. }
    rewrite (hts_getline_line bs 0 c _ E Hc2).
    assert (E1 : remaining (mk_hFILE bs (0 + S (length c)))
                 = text_lines cs ++ l ++ NL :: rest).
    { apply (remaining_after bs 0 (c ++ [NL])); [|rewrite length_app; simpl; lia].
      now rewrite <- app_assoc. }
    assert (Hc : hd_error (strip_cr c) = Some HASH).
    { destruct c as [|y c]; [discriminate Hc1|]. injection Hc1 as ->.
      apply strip_cr_hd. discriminate. }
    destruct (strip_cr c) as [|y s] eqn:Ec; [discriminate Hc|].
    cbv beta iota.
    assert (Hfuel : (length cs
                     < length (remaining (mk_hFILE bs (0 + S (length c)))))%nat).
    { rewrite E1, !length_app. cbn [length].
      pose proof (text_lines_length cs). lia. }
    rewrite (skip_header_comments l rest bs cs _ _ _ Hfuel Hc Hcs' Hl Hhd E1).
    rewrite text_lines_cons, length_app. cbn [length Nat.add].
    do 4 f_equal. lia.
Qed.

(** X14.  [unheader] skips the lines that start with '#' and returns the first line
    that does not, with the stream after that line. *)
Theorem unheader_skips_comments (comments : list (list byte)) (l rest : list byte) :
  Forall comment_line comments ->
  ~ In NL l ->
  hd_error (strip_cr l) <> Some HASH ->
  (comments = [] -> strip_cr l <> []) ->
  unheader (hopen (text_lines comments ++ l ++ NL :: rest))
  = Run (Ok (strip_cr l,
             mk_hFILE (text_lines comments ++ l ++ NL :: rest)
                      (length (text_lines comments) + S (length l)))).
Proof. apply unheader_spec. Qed.

Lemma unheader_skips_comments_witness :
  unheader (hopen (text_lines [cstr "#%chip_type=Axiom"; cstr "#%lib-set=r1"]
                   ++ cstr "probeset_id" ++ NL :: cstr "AX-1"))
  = Run (Ok (strip_cr (cstr "probeset_id"),
             mk_hFILE (text_lines [cstr "#%chip_type=Axiom"; cstr "#%lib-set=r1"]
                       ++ cstr "probeset_id" ++ NL :: cstr "AX-1")
                      (length (text_lines [cstr "#%chip_type=Axiom";
                                           cstr "#%lib-set=r1"])
                       + S (length (cstr "probeset_id"))))).
Proof.
  apply (unheader_skips_comments [cstr "#%chip_type=Axiom"; cstr "#%lib-set=r1"]
           (cstr "probeset_id") (cstr "AX-1")).
  - repeat constructor; vm_compute; intuition discriminate.
  - vm_compute. intuition discriminate.
  - vm_compute. discriminate.
  - discriminate.
Defined.

(** A file without a byte, and a file whose first line is empty, are refused
    as empty files, whatever follows the empty line. *)
Lemma unheader_empty_file (rest : list byte) :
  unheader (hopen []) = Reject EmptyFile /\
  unheader (hopen (NL :: rest)) = Reject EmptyFile /\
  unheader (hopen ("013"%byte :: NL :: rest)) = Reject EmptyFile.
Proof. split; [reflexivity|]. split; reflexivity. Qed.

(** ** Sample names *)

(** X15.  A sample named "base.CEL" in the header of a table is called "base"; every
    other name is kept as it is. *)
Theorem sample_name_strips_CEL (base s : list byte) :
  sample_name (base ++ cstr ".CEL") = base /\
  ((forall b, s <> b ++ cstr ".CEL") -> sample_name s = s).
Proof.
  split.
  - unfold sample_name.
    change (base ++ cstr ".CEL") with (base ++ DOT :: cstr "CEL").
    rewrite strrchr_last by (vm_compute; intuition discriminate).
    rewrite skipn_S_app, list_byte_eqb_refl. apply firstn_length_app.
  - intros H. unfold sample_name.
    destruct (strrchr s DOT) as [i|] eqn:E; [|reflexivity].
    destruct (list_byte_eqb (skipn (S i) s) (cstr "CEL")) eqn:Ec; [|reflexivity].
    exfalso. apply list_byte_eqb_eq in Ec.
    apply strrchr_some in E as [E _].
    apply nth_error_split in E as (l1 & l2 & -> & <-).
    rewrite skipn_S_app in Ec. subst l2. now apply (H l1).
Qed.

(** ** The iterator after its initialisation *)

Section InitFacts.

Context {FA : FloatArith}.

Lemma varitr_init_common_allocated (v : varitr_t) :
  arrays_allocated (varitr_init_common v) /\
  nsmpl (varitr_init_common v) = nsmpl v.
Proof.
  unfold arrays_allocated, varitr_init_common. cbn.
  rewrite !repeat_length. repeat split; reflexivity.
Qed.

Lemma txt_table_samples fp fp1 names :
  txt_table fp = Run (Ok (fp1, names)) ->
  exists str fp0 off cols,
    unheader fp = Run (Ok (str, fp0)) /\
    ksplit_core str TAB = (off, cstr "probeset_id") :: cols /\
    names = map (fun c => sample_name (snd c)) cols /\ fp1 = fp0.
Proof.
  unfold txt_table. intros H.
  destruct (unheader fp) as [e|[[str fp0]| | |]] eqn:Eu; cbn [init_bind] in H;
    try discriminate H.
  destruct (ksplit_core str TAB) as [|[off f0] cols] eqn:Ek; [discriminate H|].
  destruct (list_byte_eqb f0 (cstr "probeset_id")) eqn:Ef; cbn [negb] in H;
    [|discriminate H].
  apply list_byte_eqb_eq in Ef. subst f0. injection H as <- <-.
  exists str, fp0, off, cols.
  split; [reflexivity|]. split; [exact Ek|]. split; reflexivity.
Qed.

Lemma varitr_init_txt_spec (calls confidences summary : option hFILE)
  (v : varitr_t) (samples : list (list byte)) :
  varitr_init_txt calls confidences summary = Run (Ok (v, samples)) ->
  nsmpl v = length samples /\ arrays_allocated v /\
  data_sets v = None /\ nrow v = 0 /\ probe_set_id v = [] /\
  (calls_fp v = None <-> calls = None) /\
  (confidences_fp v = None <-> confidences = None) /\
  (summary_fp v = None <-> summary = None) /\
  (forall first,
     (calls = Some first \/
      calls = None /\ confidences = Some first \/
      calls = None /\ confidences = None /\ summary = Some first) ->
     exists fp1, txt_table first = Run (Ok (fp1, samples))).
Proof.
  unfold varitr_init_txt. intros H.
  destruct calls as [fc|].
  - destruct (txt_table fc) as [e|[[fc1 names1]| | |]] eqn:Ec;
      cbn [init_bind] in H; try discriminate H.
    destruct confidences as [fq|].
    + destruct (txt_table fq) as [e|[[fq1 names2]| | |]] eqn:Eq;
        cbn [init_bind] in H; try discriminate H.
      destruct summary as [fs|].
      * destruct (txt_table fs) as [e|[[fs1 names3]| | |]] eqn:Es;
          cbn [init_bind] in H; try discriminate H.
        injection H as <- <-.
        pose proof (varitr_init_common_allocated
          (mk_varitr (length names1) 0 None [] (Some fc1) (Some fq1) (Some fs1)
                     [] [] [] [] [] [] [])) as [A N].
        split; [exact N|]. split; [exact A|]. cbn.
        repeat (split; [first [reflexivity | split; discriminate]|]).
        intros first [E|[[E _]|[E _]]]; try discriminate E.
        injection E as <-. now exists fc1.
      * cbn [init_bind] in H. injection H as <- <-.
        pose proof (varitr_init_common_allocated
          (mk_varitr (length names1) 0 None [] (Some fc1) (Some fq1) None
                     [] [] [] [] [] [] [])) as [A N].
        split; [exact N|]. split; [exact A|]. cbn.
        repeat (split; [first [reflexivity | split; discriminate
                              | split; reflexivity]|]).
        intros first [E|[[E _]|[E _]]]; try discriminate E.
        injection E as <-. now exists fc1.
    + cbn [init_bind] in H. destruct summary as [fs|].
      * destruct (txt_table fs) as [e|[[fs1 names3]| | |]] eqn:Es;
          cbn [init_bind] in H; try discriminate H.
        injection H as <- <-.
        pose proof (varitr_init_common_allocated
          (mk_varitr (length names1) 0 None [] (Some fc1) None (Some fs1)
                     [] [] [] [] [] [] [])) as [A N].
        split; [exact N|]. split; [exact A|]. cbn.
        repeat (split; [first [reflexivity | split; discriminate
                              | split; reflexivity]|]).
        intros first [E|[[E _]|[E _]]]; try discriminate E.
        injection E as <-. now exists fc1.
      * cbn [init_bind] in H. injection H as <- <-.
        pose proof (varitr_init_common_allocated
          (mk_varitr (length names1) 0 None [] (Some fc1) None None
                     [] [] [] [] [] [] [])) as [A N].
        split; [exact N|]. split; [exact A|]. cbn.
        repeat (split; [first [reflexivity | split; discriminate
                              | split; reflexivity]|]).
        intros first [E|[[E _]|[E _]]]; try discriminate E.
        injection E as <-. now exists fc1.
  - cbn [init_bind] in H. destruct confidences as [fq|].
    + destruct (txt_table fq) as [e|[[fq1 names2]| | |]] eqn:Eq;
        cbn [init_bind] in H; try discriminate H.
      destruct summary as [fs|].
      * destruct (txt_table fs) as [e|[[fs1 names3]| | |]] eqn:Es;
          cbn [init_bind] in H; try discriminate H.
        injection H as <- <-.
        pose proof (varitr_init_common_allocated
          (mk_varitr (length names2) 0 None [] None (Some fq1) (Some fs1)
                     [] [] [] [] [] [] [])) as [A N].
        split; [exact N|]. split; [exact A|]. cbn.
        repeat (split; [first [reflexivity | split; discriminate
                              | split; reflexivity]|]).
        intros first [E|[[_ E]|[_ [E _]]]]; try discriminate E.
        injection E as <-. now exists fq1.
      * cbn [init_bind] in H. injection H as <- <-.
        pose proof (varitr_init_common_allocated
          (mk_varitr (length names2) 0 None [] None (Some fq1) None
                     [] [] [] [] [] [] [])) as [A N].
        split; [exact N|]. split; [exact A|]. cbn.
        repeat (split; [first [reflexivity | split; discriminate
                              | split; reflexivity]|]).
        intros first [E|[[_ E]|[_ [E _]]]]; try discriminate E.
        injection E as <-. now exists fq1.
    + cbn [init_bind] in H. destruct summary as [fs|].
      * destruct (txt_table fs) as [e|[[fs1 names3]| | |]] eqn:Es;
          cbn [init_bind] in H; try discriminate H.
        injection H as <- <-.
        pose proof (varitr_init_common_allocated
          (mk_varitr (length names3) 0 None [] None None (Some fs1)
                     [] [] [] [] [] [] [])) as [A N].
        split; [exact N|]. split; [exact A|]. cbn.
        repeat (split; [first [reflexivity | split; discriminate
                              | split; reflexivity]|]).
        intros first [E|[[_ E]|[_ [_ E]]]]; try discriminate E.
        injection E as <-. now exists fs1.
      * cbn [init_bind] in H. injection H as <- <-.
        pose proof (varitr_init_common_allocated
          (mk_varitr 0 0 None [] None None None [] [] [] [] [] [] [])) as [A N].
        split; [exact N|]. split; [exact A|]. cbn.
        repeat (split; [first [reflexivity | split; discriminate
                              | split; reflexivity]|]).
        intros first [E|[[_ E]|[_ [_ E]]]]; discriminate E.
Qed.

(** X16.  When [varitr_init_txt] returns, the iterator is in text mode at row 0
    with no probe set name, each of its arrays holds one entry for each
    sample added to the header, a table is open exactly when its file was
    given, and the samples are those of the header line of the first table
    that was given. *)
Theorem varitr_init_txt_invariants (calls confidences summary : option hFILE)
  (v : varitr_t) (samples : list (list byte)) :
  varitr_init_txt calls confidences summary = Run (Ok (v, samples)) ->
  nsmpl v = length samples /\ arrays_allocated v /\
  data_sets v = None /\ nrow v = 0 /\ probe_set_id v = [] /\
  (calls_fp v = None <-> calls = None) /\
  (confidences_fp v = None <-> confidences = None) /\
  (summary_fp v = None <-> summary = None) /\
  (forall first,
     (calls = Some first \/
      calls = None /\ confidences = Some first \/
      calls = None /\ confidences = None /\ summary = Some first) ->
     exists fp1, txt_table first = Run (Ok (fp1, samples))).
Proof. apply varitr_init_txt_spec. Qed.

Lemma col_name_is_some data_set i s b :
  col_name_is data_set i s = Ok b -> (i < length (col_headers data_set))%nat.
Proof.
  unfold col_name_is.
  destruct (nth_error (col_headers data_set) i) eqn:E; [|discriminate].
  intros _. apply nth_error_Some. congruence.
Qed.

Lemma varitr_init_cc_file_spec agcc data_set axiom :
  varitr_init_cc_file agcc = Run (Ok (data_set, axiom)) ->
  (axiom = 0 \/ axiom = 1) /\
  position (fp data_set) = Z.to_nat (pos_first_element data_set) /\
  (6 <= length (col_headers data_set))%nat /\
  (exists group set0 rest groups,
     Agcc.data_groups agcc = group :: groups /\
     Group.data_sets group = set0 :: rest /\
     col_headers data_set = col_headers set0 /\
     col_offsets data_set = col_offsets set0 /\
     n_buffer data_set = n_buffer set0 /\
     n_rows data_set = n_rows set0 /\
     contents (fp data_set) = contents (fp set0)).
Proof.
  unfold varitr_init_cc_file. intros H.
  destruct (Header.data_type_identifier _) as [id|]; [|discriminate H].
  destruct (negb (list_byte_eqb (c_string id) _)); [discriminate H|].
  destruct (Agcc.num_data_groups agcc =? 0); [discriminate H|].
  destruct (Agcc.data_groups agcc) as [|group groups]; [discriminate H|].
  destruct (Group.name group) as [gname|]; [|discriminate H].
  destruct (negb (wcs_eq gname _)); [discriminate H|].
  destruct (Group.num_data_sets group =? 0); [discriminate H|].
  destruct (Group.data_sets group) as [|set0 rest] eqn:Eds; [discriminate H|].
  destruct (name set0) as [sname|]; [|discriminate H].
  destruct (negb (wcs_eq sname _)); [discriminate H|].
  destruct (names_differ set0 _) as [differ| | |] eqn:En; cbn [init_bind] in H;
    try discriminate H.
  destruct differ; [discriminate H|].
  assert (L : (6 <= length (col_headers set0))%nat).
  { cbn [names_differ] in En.
    destruct (col_name_is set0 0 _) as [[|]| | |]; cbn [bind] in En;
      try discriminate En.
    destruct (col_name_is set0 1 _) as [[|]| | |]; cbn [bind] in En;
      try discriminate En.
    destruct (col_name_is set0 2 _) as [[|]| | |]; cbn [bind] in En;
      try discriminate En.
    destruct (col_name_is set0 5 _) as [[|]| | |] eqn:E5; cbn [bind] in En;
      try discriminate En.
    apply col_name_is_some in E5. lia. }
  destruct (either_name set0 3 _ 4 _) as [axiom0| | |]; cbn [init_bind] in H;
    try discriminate H.
  assert (G : exists a, (a = 0 \/ a = 1) /\
            Run (Ok (mk_DataSet (pos_first_element set0) (pos_next_data_set set0)
                       (Some sname) (n_parameters set0) (parameters set0)
                       (n_cols set0) (col_headers set0) (n_rows set0)
                       (hseek (fp set0) (pos_first_element set0))
                       (n_buffer set0) (col_offsets set0) (buffer set0), a))
            = Run (Ok (data_set, axiom))).
  { destruct axiom0.
    - cbn [init_bind] in H. exists 1. split; [now right|exact H].
    - destruct (either_name set0 3 _ 4 _) as [[|]| | |]; cbn [init_bind] in H;
        try discriminate H.
      exists 0. split; [now left|exact H]. }
  destruct G as (a & Ha & Heq). injection Heq as <- <-. cbn.
  split; [exact Ha|]. split; [reflexivity|]. split; [exact L|].
  exists group, set0, rest, groups.
  split; [reflexivity|]. split; [exact Eds|]. repeat split; reflexivity.
Qed.

Lemma varitr_init_cc_files_spec agcc : forall dss axioms names,
  varitr_init_cc_files agcc = Run (Ok (dss, axioms, names)) ->
  length dss = length agcc /\ length axioms = length agcc /\
  names = map Agcc.display_name agcc /\
  Forall (fun a => a = 0 \/ a = 1) axioms /\
  Forall (fun data_set =>
            position (fp data_set) = Z.to_nat (pos_first_element data_set) /\
            (6 <= length (col_headers data_set))%nat) dss.
Proof.
  induction agcc as [|a agcc IH]; intros dss axioms names H;
    cbn [varitr_init_cc_files] in H.
  - injection H as <- <- <-. repeat split; constructor.
  - destruct (varitr_init_cc_file a) as [e|[[ds ax]| | |]] eqn:Ea;
      cbn [init_bind] in H; try discriminate H.
    destruct (varitr_init_cc_files agcc) as [e|[[[dss' axs'] names']| | |]] eqn:Er;
      cbn [init_bind] in H; try discriminate H.
    injection H as <- <- <-.
    apply varitr_init_cc_file_spec in Ea as (Hax & Hpos & Hcols & _).
    destruct (IH _ _ _ eq_refl) as (L1 & L2 & N & F1 & F2).
    cbn [length map]. split; [congruence|]. split; [congruence|].
    split; [congruence|]. split; constructor; auto.
Qed.

Lemma varitr_init_cc_spec (agcc : list Agcc.agcc_t) (v : varitr_t)
  (names : list (list byte)) :
  varitr_init_cc agcc = Run (Ok (v, names)) ->
  nsmpl v = length agcc /\ arrays_allocated v /\ nrow v = 0 /\
  probe_set_id v = [] /\
  names = map Agcc.display_name agcc /\
  length (is_axiom v) = length agcc /\
  Forall (fun a => a = 0 \/ a = 1) (is_axiom v) /\
  exists dss,
    data_sets v = Some dss /\ length dss = length agcc /\
    Forall (fun data_set =>
              position (fp data_set) = Z.to_nat (pos_first_element data_set) /\
              (6 <= length (col_headers data_set))%nat) dss.
Proof.
  unfold varitr_init_cc. intros H.
  destruct (varitr_init_cc_files agcc) as [e|[[[dss axioms] names']| | |]] eqn:E;
    cbn [init_bind] in H; try discriminate H.
  injection H as <- <-.
  apply varitr_init_cc_files_spec in E as (L1 & L2 & N & F1 & F2).
  pose proof (varitr_init_common_allocated
    (mk_varitr (length agcc) 0 (Some dss) axioms None None None []
               [] [] [] [] [] [])) as [A Hn].
  split; [exact Hn|]. split; [exact A|]. cbn.
  split; [reflexivity|]. split; [reflexivity|]. split; [exact N|].
  split; [exact L2|]. split; [exact F1|].
  exists dss. split; [reflexivity|]. split; [exact L1|exact F2].
Qed.

(** X17.  When [varitr_init_cc] returns, the iterator is at row 0 with no probe set
    name, it has one sample, one data set and one entry of each array for
    each file, every [is_axiom] is 0 or 1, every data set has at least six
    columns and its stream stands at its first row, and the samples added to
    the header are the display names of the files, in their order. *)
Theorem varitr_init_cc_invariants (agcc : list Agcc.agcc_t) (v : varitr_t)
  (names : list (list byte)) :
  varitr_init_cc agcc = Run (Ok (v, names)) ->
  nsmpl v = length agcc /\ arrays_allocated v /\ nrow v = 0 /\
  probe_set_id v = [] /\
  names = map Agcc.display_name agcc /\
  length (is_axiom v) = length agcc /\
  Forall (fun a => a = 0 \/ a = 1) (is_axiom v) /\
  exists dss,
    data_sets v = Some dss /\ length dss = length agcc /\
    Forall (fun data_set =>
              position (fp data_set) = Z.to_nat (pos_first_element data_set) /\
              (6 <= length (col_headers data_set))%nat) dss.
Proof. apply varitr_init_cc_spec. Qed.

End InitFacts.

Section InitExamples.

Context {FA : FloatArith} {FL : FloatLibc FA}.

Lemma txt_initialised_eq :
  varitr_init_txt (Some (hopen calls_table)) None (Some (hopen summary_table))
  = Run (Ok (txt_initialised, [cstr "s1"; cstr "s2"])).
Proof. vm_compute. reflexivity. Qed.

Lemma cc_initialised_eq :
  varitr_init_cc [chp_loaded] = Run (Ok (cc_initialised, [cstr "s1"])).
Proof. vm_compute. reflexivity. Qed.

Lemma txt_first_row_eq host : varitr_loop host txt_initialised = Ok txt_first_row.
Proof. destruct host; vm_compute; reflexivity. Qed.

Lemma cc_first_row_eq host : varitr_loop host cc_initialised = Ok cc_first_row.
Proof. destruct host; vm_compute; reflexivity. Qed.

Lemma first_row_facts :
  probe_set_id cc_first_row = cstr "AX-1" /\ gts cc_first_row = [GT_AA] /\
  probe_set_id txt_first_row = cstr "AX-1" /\ gts txt_first_row = [0; 1].
Proof. repeat split; reflexivity. Qed.

End InitExamples.

Lemma varitr_init_txt_invariants_witness :
  nsmpl (FA := exact_real) txt_initialised = length [cstr "s1"; cstr "s2"] /\
  arrays_allocated (FA := exact_real) txt_initialised.
Proof.
  pose proof (varitr_init_txt_invariants (FA := exact_real)
                (Some (hopen calls_table)) None (Some (hopen summary_table))
                txt_initialised [cstr "s1"; cstr "s2"] txt_initialised_eq) as H.
  exact (conj (proj1 H) (proj1 (proj2 H))).
Defined.

Lemma varitr_init_cc_invariants_witness :
  nsmpl (FA := exact_real) cc_initialised = length [chp_loaded] /\
  arrays_allocated (FA := exact_real) cc_initialised.
Proof.
  pose proof (varitr_init_cc_invariants (FA := exact_real)
                [chp_loaded] cc_initialised [cstr "s1"] cc_initialised_eq) as H.
  exact (conj (proj1 H) (proj1 (proj2 H))).
Defined.

Section InitThenLoop.

Variable host : byte_order.
Context {FA : FloatArith} {FL : FloatLibc FA}.

Lemma allocated_long_enough (v : varitr_t) j :
  arrays_allocated v -> (j < nsmpl v)%nat -> long_enough v j.
Proof.
  unfold arrays_allocated, long_enough.
  intros (A1 & A2 & A3 & A4 & A5 & A6) Hj. rewrite A1, A3, A4, A5, A6.
  repeat split; exact Hj.
Qed.

End InitThenLoop.

(** ** The summary table: pairs of lines *)

Lemma last_two_inv off0 f0 c2 c1 :
  last_two off0 f0 = Ok (c2, c1) -> c2 <> TAB ->
  exists p, f0 = p ++ [c2; c1].
Proof.
  unfold last_two. intros H Hc.
  destruct (rev f0) as [|a [|b r]] eqn:E; [discriminate H| |].
  - destruct (off0 =? 0)%nat; [discriminate H|].
    injection H as <- _. contradiction.
  - injection H as <- <-. exists (rev r).
    apply (f_equal (@rev byte)) in E. rewrite rev_involutive in E.
    rewrite E. simpl. now rewrite <- app_assoc.
Qed.

Section SummaryPairs.

Context {FA : FloatArith} {FL : FloatLibc FA}.

Lemma summary_seek_paired_spec fuel : forall fp0 n cols fp1,
  summary_seek fuel fp0 n = Ok (cols, fp1) ->
  exists fpa str off0 prefix rest,
    hts_getline fpa = Some (str, fp1) /\
    ksplit_core str TAB = cols /\
    cols = (off0, prefix ++ cstr "-A") :: rest /\ length rest = n /\
    (length prefix <= 15)%nat /\
    hpeek fp1 (length prefix + 2) = prefix ++ cstr "-B".
Proof.
  induction fuel as [|fuel IH]; intros fp0 n cols fp1 H; [discriminate H|].
  cbn [summary_seek] in H.
  destruct (hts_getline fp0) as [[str fpn]|] eqn:Eg; [|discriminate H].
  destruct (Nat.eqb_spec (length (ksplit_core str TAB)) (1 + n)) as [Hn|_];
    cbn [negb] in H; [|discriminate H].
  destruct (ksplit_core str TAB) as [|[off0 f0] rest] eqn:Ek; [discriminate H|].
  destruct (last_two off0 f0) as [[c2 c1]| | |] eqn:El; cbn [bind] in H;
    try discriminate H.
  destruct (Byte.eqb c2 "-"%byte) eqn:E2; cbn [negb orb] in H; [|discriminate H].
  destruct (Byte.eqb c1 "A"%byte) eqn:E1; cbn [negb] in H; [|discriminate H].
  apply byte_dec_bl in E1, E2. subst c1 c2.
  apply last_two_inv in El as [prefix ->]; [|discriminate].
  rewrite firstn_prefix, length_app in H. cbn [length] in H.
  unfold MAX_LENGTH_PROBE_SET_ID in H.
  destruct (Z.gtb_spec (Z.of_nat (length prefix + 2) - 2) 17) as [|_];
    [discriminate H|].
  set (len := (length prefix + 2)%nat) in *.
  destruct (Z.gtb_spec (Z.of_nat (length (hpeek fpn len))) 17) as [|Hret];
    [discriminate H|].
  destruct (Nat.ltb_spec (length (hpeek fpn len)) len) as [|Hge];
    [now apply IH in H|].
  replace (len - 2)%nat with (length prefix) in H by (unfold len; lia).
  replace (len - 1)%nat with (length prefix + 1)%nat in H by (unfold len; lia).
  destruct (strncmp_full prefix (hpeek fpn len) ltac:(unfold len in *; lia))
    as (b & Hb & Hf).
  rewrite Hb in H. destruct b; [|now apply IH in H].
  destruct (Byte.eqb (nth (length prefix) (hpeek fpn len) "000"%byte) "-"%byte)
    eqn:B1; cbn [negb orb] in H; [|now apply IH in H].
  destruct (Byte.eqb (nth (length prefix + 1) (hpeek fpn len) "000"%byte) "B"%byte)
    eqn:B2; cbn [negb] in H; [|now apply IH in H].
  injection H as <- <-. apply byte_dec_bl in B1, B2.
  exists fp0, str, off0, prefix, rest.
  split; [exact Eg|]. split; [exact Ek|]. split; [reflexivity|].
  split; [simpl in Hn; lia|]. split; [unfold len in *; lia|].
  pose proof (firstn_le_length len (remaining fpn)) as Hle.
  fold (hpeek fpn len) in Hle. unfold len in *.
  apply two_more; [lia | apply Hf; reflexivity | assumption..].
Qed.

(** X20.  The line that the search in the summary table stops at is always one of
    a pair: its first field is a name of at most 15 bytes followed by "-A",
    it has one more column than there are samples, and the bytes that follow
    the line are that name followed by "-B". *)
Theorem summary_seek_paired (fuel : nat) (fp0 : hFILE) (n : nat)
  (cols : list (nat * list byte)) (fp1 : hFILE) :
  summary_seek fuel fp0 n = Ok (cols, fp1) ->
  exists fpa str off0 prefix rest,
    hts_getline fpa = Some (str, fp1) /\
    ksplit_core str TAB = cols /\
    cols = (off0, prefix ++ cstr "-A") :: rest /\ length rest = n /\
    (length prefix <= 15)%nat /\
    hpeek fp1 (length prefix + 2) = prefix ++ cstr "-B".
Proof. apply summary_seek_paired_spec. Qed.

End SummaryPairs.

Lemma summary_seek_paired_witness :
  exists fpa str off0 prefix rest,
    hts_getline fpa = Some (str, mk_hFILE summary_100_25 9) /\
    ksplit_core str TAB = [(0%nat, cstr "p1-A"); (5%nat, cstr "100")] /\
    [(0%nat, cstr "p1-A"); (5%nat, cstr "100")]
    = (off0, prefix ++ cstr "-A") :: rest /\ length rest = 1%nat /\
    (length prefix <= 15)%nat /\
    hpeek (mk_hFILE summary_100_25 9) (length prefix + 2) = prefix ++ cstr "-B".
Proof.
  apply (summary_seek_paired 3 (hopen summary_100_25) 1).
  vm_compute. reflexivity.
Defined.

(** ** The text tables: one probe set per step *)

Lemma ksplit_aux_nonempty d s : forall i cur,
  match cur with Some (_, f) => f <> [] | None => True end ->
  Forall (fun c => snd c <> []) (ksplit_aux s i cur d).
Proof.
  assert (Hclose : forall (cur : option (nat * list byte)) rest,
            match cur with Some (_, f) => f <> [] | None => True end ->
            Forall (fun c : nat * list byte => snd c <> []) rest ->
            Forall (fun c : nat * list byte => snd c <> [])
                   match cur with
                   | Some (start, field) => (start, rev field) :: rest
                   | None => rest
                   end).
  { intros [[start f]|] rest Hc Hr; [|exact Hr].
    constructor; [|exact Hr]. simpl. intros C.
    apply (f_equal (@rev byte)) in C. rewrite rev_involutive in C.
    now apply Hc. }
  induction s as [|c s IH]; intros i cur Hcur; cbn [ksplit_aux].
  - apply Hclose; [exact Hcur|constructor].
  - destruct (is_nul c); [apply Hclose; [exact Hcur|constructor]|].
    destruct (Byte.eqb c d).
    + apply Hclose; [exact Hcur|]. apply IH. exact I.
    + destruct cur as [[start f]|]; apply IH; discriminate.
Qed.

(** The fields of a split line are not empty. *)
Lemma ksplit_core_nonempty s d : Forall (fun c => snd c <> []) (ksplit_core s d).
Proof. apply ksplit_aux_nonempty. exact I. Qed.

Lemma field_nonempty s d i :
  (i < length (ksplit_core s d))%nat -> field (ksplit_core s d) i <> [].
Proof.
  intros Hi. unfold field.
  pose proof (ksplit_core_nonempty s d) as F.
  rewrite Forall_forall in F. apply F. now apply nth_In.
Qed.

Lemma check_probe_set_id_inv dest src id :
  check_probe_set_id dest src = Ok id ->
  id = src /\ (dest <> [] -> dest = src).
Proof.
  unfold check_probe_set_id. destruct dest as [|c dest].
  - destruct (_ >? _); [discriminate|]. intros H. injection H as <-.
    split; [reflexivity|]. intros C. now contradiction C.
  - destruct (list_byte_eqb (c :: dest) src) eqn:E; [|discriminate].
    apply list_byte_eqb_eq in E. intros H. injection H as <-.
    split; [exact E|]. intros _. exact E.
Qed.

Section OneProbeSet.

Variable host : byte_order.
Context {FA : FloatArith} {FL : FloatLibc FA}.

(** A line of the calls or confidences table that is accepted: the name the
    iterator holds afterwards is the first field of the line, and it is the
    name it held before, if it held one. *)
Lemma read_table_line_id {A : Type} fp0 (parse : list byte -> A) arr (v : varitr_t)
  fp1 arr' id str fpn :
  read_table_line fp0 parse arr v = Ok (fp1, arr', id) ->
  hts_getline fp0 = Some (str, fpn) ->
  id = field (ksplit_core str TAB) 0 /\ id <> [] /\
  (probe_set_id v <> [] -> probe_set_id v = id).
Proof.
  unfold read_table_line. intros H Hg. rewrite Hg in H.
  destruct (Nat.eqb_spec (length (ksplit_core str TAB)) (1 + nsmpl v)) as [L|_];
    cbn [negb] in H; [|discriminate H].
  destruct (check_probe_set_id _ _) as [id'| | |] eqn:E; cbn [bind] in H;
    try discriminate H.
  injection H as _ _ <-. apply check_probe_set_id_inv in E as [-> Hd].
  split; [reflexivity|]. split; [apply field_nonempty; lia|exact Hd].
Qed.

Lemma read_summary_id fp0 (v v' : varitr_t) :
  read_summary fp0 v = Ok v' -> probe_set_id v <> [] ->
  probe_set_id v' = probe_set_id v.
Proof.
  unfold read_summary. intros H Hne.
  destruct (summary_seek _ fp0 (nsmpl v)) as [[cols fp1]| | |]; cbn [bind] in H;
    try discriminate H.
  destruct (hts_getline fp1) as [[[|c str] fp2]|]; try discriminate H.
  destruct (negb _); [discriminate H|].
  destruct (ksplit_core (c :: str) TAB) as [|[off0 f0] rest]; [discriminate H|].
  destruct (_ && _); [discriminate H|].
  destruct (summary_b_loop _ _ _ _ _ _ _) as [[ny d] s].
  destruct (check_probe_set_id (probe_set_id v) _) as [id| | |] eqn:E;
    cbn [bind] in H; try discriminate H.
  injection H as <-. cbn.
  apply check_probe_set_id_inv in E as [-> Hd]. symmetry. now apply Hd.
Qed.

(** X21.  In text mode, a step that returns a row has read the same probe set name
    from the calls and from the confidences table, and that is the name the
    iterator holds, whether or not a summary table is read as well. *)
Theorem text_tables_same_probe_set (v v' : varitr_t) (fc fq fc1 fq1 : hFILE)
  (l1 l2 : list byte) :
  data_sets v = None ->
  calls_fp v = Some fc -> confidences_fp v = Some fq ->
  hts_getline fc = Some (l1, fc1) -> hts_getline fq = Some (l2, fq1) ->
  varitr_loop host v = Ok v' ->
  field (ksplit_core l1 TAB) 0 = field (ksplit_core l2 TAB) 0 /\
  probe_set_id v' = field (ksplit_core l1 TAB) 0.
Proof.
  intros Hd Hc Hq G1 G2 H. unfold varitr_loop in H.
  cbn [data_sets set_probe_set_id] in H. rewrite Hd in H.
  destruct (read_calls _) as [v1| | |] eqn:E1; cbn [bind] in H;
    try discriminate H.
  destruct (read_confidences v1) as [v2| | |] eqn:E2; cbn [bind] in H;
    try discriminate H.
  unfold read_calls in E1. cbn [calls_fp set_probe_set_id] in E1.
  rewrite Hc in E1.
  destruct (read_table_line fc strtol _ _) as [[[fc' arr1] id1]| | |] eqn:T1;
    cbn [bind] in E1; try discriminate E1.
  injection E1 as <-.
  pose proof (read_table_line_id _ _ _ _ _ _ _ _ _ T1 G1) as (I1 & N1 & _).
  unfold read_confidences in E2. cbn [confidences_fp set_probe_set_id set_calls_fp
    set_gts] in E2. rewrite Hq in E2.
  destruct (read_table_line fq strtof _ _) as [[[fq' arr2] id2]| | |] eqn:T2;
    cbn [bind] in E2; try discriminate E2.
  injection E2 as <-.
  pose proof (read_table_line_id _ _ _ _ _ _ _ _ _ T2 G2) as (I2 & _ & D2).
  cbn [probe_set_id set_probe_set_id set_calls_fp set_gts] in D2.
  specialize (D2 N1).
  split; [congruence|].
  unfold read_intensities in H.
  cbn [summary_fp set_probe_set_id set_confidences_fp set_conf_arr set_calls_fp
       set_gts] in H.
  destruct (summary_fp v) as [fs|].
  - apply read_summary_id in H; cbn [probe_set_id set_probe_set_id] in H |- *.
    + congruence.
    + congruence.
  - injection H as <-. cbn. congruence.
Qed.

End OneProbeSet.

Lemma calls_confidences_first_row_eq {FA : FloatArith} {FL : FloatLibc FA} host :
  varitr_loop host calls_confidences_initialised = Ok calls_confidences_first_row.
Proof. destruct host; vm_compute; reflexivity. Qed.

Lemma text_tables_same_probe_set_witness :
  field (ksplit_core (tab_separated ["AX-1"; "0"; "1"]%string) TAB) 0
  = field (ksplit_core (tab_separated ["AX-1"; "0.01"; "0.02"]%string) TAB) 0 /\
  probe_set_id (FA := exact_real) calls_confidences_first_row
  = field (ksplit_core (tab_separated ["AX-1"; "0"; "1"]%string) TAB) 0.
Proof.
  apply (text_tables_same_probe_set LittleEndian (FA := exact_real)
           calls_confidences_initialised calls_confidences_first_row
           (mk_hFILE calls_table 44) (mk_hFILE confidences_table 26)
           (mk_hFILE calls_table 53) (mk_hFILE confidences_table 41)).
  - reflexivity.
  - reflexivity.
  - reflexivity.
  - vm_compute. reflexivity.
  - vm_compute. reflexivity.
  - apply calls_confidences_first_row_eq.
Defined.

(** ** The end of the iteration *)

Lemma nth_error_upd_other {A : Type} (l : list A) : forall i k x,
  k <> i -> nth_error (upd i x l) k = nth_error l k.
Proof.
  induction l as [|a l IH]; intros i k x Hk; [destruct i; reflexivity|].
  destruct i as [|i], k as [|k]; simpl; try reflexivity; try congruence.
  apply IH. congruence.
Qed.

Section EndOfIteration.

Variable host : byte_order.
Context {FA : FloatArith} {FL : FloatLibc FA}.

Lemma cc_sample_rows i dss (v v' : varitr_t) :
  cc_sample host i dss v = Ok v' ->
  nrow v' = nrow v /\
  exists data_set data_set',
    nth_error dss i = Some data_set /\
    data_sets v' = Some (upd i data_set' dss) /\
    n_rows data_set' = n_rows data_set.
Proof.
  unfold cc_sample. intros H.
  destruct (nth_error dss i) as [data_set|] eqn:Eds; [|discriminate H].
  destruct (n_rows data_set <? nrow v)%Z; [discriminate H|].
  destruct (read_bytes (fp data_set) _) as [[buffer fp']| | |]; cbn [bind] in H;
    try discriminate H.
  repeat match type of H with
         | bind ?c _ = Ok _ => destruct c; cbn [bind] in H; try discriminate H
         end.
  destruct (nth_error (is_axiom v) i) as [axiom|]; [|discriminate H].
  repeat match type of H with
         | bind ?c _ = Ok _ => destruct c; cbn [bind] in H; try discriminate H
         end.
  destruct (negb (axiom =? 0)%Z); injection H as <-; cbn;
    (split; [reflexivity|]); eexists; eexists;
    (split; [reflexivity|]); (split; [reflexivity|]); reflexivity.
Qed.

Lemma cc_loop_exhausted todo : forall k (w : varitr_t) dss i data_set,
  data_sets w = Some dss -> (k <= i < k + todo)%nat ->
  nth_error dss i = Some data_set -> n_rows data_set < nrow w ->
  (forall w', cc_loop host todo k w <> Ok w') /\
  (i = k -> cc_loop host todo k w = Stop).
Proof.
  induction todo as [|todo IH]; intros k w dss i data_set Hd Hi Hn Hr; [lia|].
  cbn [cc_loop]. rewrite Hd.
  destruct (Nat.eq_dec i k) as [->|Hne].
  - assert (E : cc_sample host k dss w = Stop).
    { unfold cc_sample. rewrite Hn.
      destruct (Z.ltb_spec (n_rows data_set) (nrow w)) as [_|C]; [reflexivity|lia]. }
    rewrite E. cbn [bind]. split; [discriminate|reflexivity].
  - split; [|intros C; contradiction].
    destruct (cc_sample host k dss w) as [w1| | |] eqn:E; cbn [bind];
      try discriminate.
    apply cc_sample_rows in E as (Hrow & ds & ds' & _ & Hd1 & _).
    apply (IH (S k) w1 _ i data_set Hd1); [lia| |lia].
    rewrite nth_error_upd_other by exact Hne. exact Hn.
Qed.

(** X22.  From CHP files, a step returns no row once the rows of one of the files
    are used up: it ends the iteration or stops with an error, and when the
    first file is the one, it ends the iteration. *)
Theorem varitr_loop_rows_exhausted (v : varitr_t) (dss : list DataSet) (i : nat)
  (data_set : DataSet) :
  data_sets v = Some dss -> (i < nsmpl v)%nat ->
  nth_error dss i = Some data_set -> n_rows data_set <= nrow v ->
  (forall v', varitr_loop host v <> Ok v') /\
  (i = 0%nat -> varitr_loop host v = Stop).
Proof.
  intros Hd Hi Hn Hr. unfold varitr_loop.
  cbn [data_sets set_probe_set_id nsmpl nrow]. rewrite Hd.
  apply (cc_loop_exhausted (nsmpl v) 0 _ dss i data_set).
  - exact Hd.
  - lia.
  - exact Hn.
  - cbn. lia.
Qed.

(** X23.  In text mode, a step returns no row once one of the open tables is at its
    end: it ends the iteration or stops with an error, and when the calls
    table is the one, it ends the iteration. *)
Theorem varitr_loop_end_of_table (v : varitr_t) (fp : hFILE) :
  data_sets v = None ->
  calls_fp v = Some fp \/ confidences_fp v = Some fp \/ summary_fp v = Some fp ->
  remaining fp = [] ->
  (forall v', varitr_loop host v <> Ok v') /\
  (calls_fp v = Some fp -> varitr_loop host v = Stop).
Proof.
  intros Hd Hfp Heof. apply hts_getline_eof in Heof.
  unfold varitr_loop. cbn [data_sets set_probe_set_id]. rewrite Hd.
  assert (Hcalls : calls_fp v = Some fp ->
                   read_calls (set_probe_set_id [] v) = Stop).
  { intros Hc. unfold read_calls. cbn [calls_fp set_probe_set_id]. rewrite Hc.
    unfold read_table_line. now rewrite Heof. }
  split; [|intros Hc; now rewrite (Hcalls Hc)].
  intros v'.
  destruct (read_calls (set_probe_set_id [] v)) as [v1| | |] eqn:E1; cbn [bind];
    try discriminate.
  destruct Hfp as [Hc|Hfp]; [discriminate (Hcalls Hc)|].
  pose proof (read_calls_ok _ _ E1) as (_ & S1 & Q1 & _).
  cbn [summary_fp confidences_fp set_probe_set_id] in S1, Q1.
  destruct (read_confidences v1) as [v2| | |] eqn:E2; cbn [bind];
    try discriminate.
  destruct Hfp as [Hq|Hs].
  - exfalso. unfold read_confidences in E2. rewrite Q1, Hq in E2.
    unfold read_table_line in E2. rewrite Heof in E2. discriminate E2.
  - pose proof (read_confidences_ok _ _ E2) as (_ & S2 & _).
    unfold read_intensities. rewrite S2, S1, Hs.
    unfold read_summary. cbn [summary_seek]. rewrite Heof. cbn [bind].
    discriminate.
Qed.

End EndOfIteration.

Section EndExamples.

Context {FA : FloatArith} {FL : FloatLibc FA}.

Lemma cc_first_row_last :
  exists dss data_set,
    data_sets cc_first_row = Some dss /\ (0 < nsmpl cc_first_row)%nat /\
    nth_error dss 0 = Some data_set /\ n_rows data_set <= nrow cc_first_row.
Proof.
  eexists. eexists. split; [reflexivity|]. split; [cbn; lia|].
  split; [reflexivity|]. cbn. lia.
Qed.

Lemma txt_first_row_last :
  exists fp, calls_fp txt_first_row = Some fp /\ remaining fp = [] /\
             data_sets txt_first_row = None.
Proof. eexists. split; [reflexivity|]. split; reflexivity. Qed.

End EndExamples.

Lemma varitr_loop_rows_exhausted_witness :
  varitr_loop (FA := exact_real) LittleEndian cc_first_row = Stop.
Proof.
  destruct (cc_first_row_last (FA := exact_real)) as (dss & ds & Hd & Hi & Hn & Hr).
  exact (proj2 (varitr_loop_rows_exhausted LittleEndian cc_first_row dss 0 ds
                  Hd Hi Hn Hr) eq_refl).
Defined.

Lemma varitr_loop_end_of_table_witness :
  varitr_loop (FA := exact_real) LittleEndian txt_first_row = Stop.
Proof.
  destruct (txt_first_row_last (FA := exact_real)) as (fp & Hs & He & Hd).
  exact (proj2 (varitr_loop_end_of_table LittleEndian txt_first_row fp
                  Hd (or_introl Hs) He) Hs).
Defined.

(** ** Genotypes of a record *)

Lemma bcf_gt_unphased_mono a b : a <= b -> bcf_gt_unphased a <= bcf_gt_unphased b.
Proof. unfold bcf_gt_unphased. rewrite !Z.shiftl_mul_pow2 by lia. lia. Qed.

Lemma genotype_ordered a b g x y : genotype a b g = Ok (x, y) -> x <= y.
Proof.
  unfold genotype, bcf_gt_missing. intros H.
  destruct (g =? GT_NC); [injection H as <- <-; lia|].
  destruct (g =? GT_AA); [injection H as <- <-; lia|].
  destruct (g =? GT_AB); [injection H as <- <-; apply bcf_gt_unphased_mono; lia|].
  destruct (g =? GT_BB); [injection H as <- <-; lia|discriminate H].
Qed.

Lemma genotype_fatal a b g :
  (In g [GT_NC; GT_AA; GT_AB; GT_BB] -> exists x y, genotype a b g = Ok (x, y)) /\
  (~ In g [GT_NC; GT_AA; GT_AB; GT_BB] -> genotype a b g = Fatal GenotypeMalformed).
Proof.
  unfold genotype. split.
  - intros [<-|[<-|[<-|[<-|[]]]]]; cbn; eauto.
  - intros H.
    destruct (Z.eqb_spec g GT_NC) as [->|_]; [exfalso; apply H; simpl; tauto|].
    destruct (Z.eqb_spec g GT_AA) as [->|_]; [exfalso; apply H; simpl; tauto|].
    destruct (Z.eqb_spec g GT_AB) as [->|_]; [exfalso; apply H; simpl; tauto|].
    destruct (Z.eqb_spec g GT_BB) as [->|_]; [exfalso; apply H; simpl; tauto|].
    reflexivity.
Qed.

Lemma genotypes_loop_spec a b gts todo : forall i arr out,
  genotypes_loop todo i a b gts arr = Ok out ->
  length out = length arr /\
  (forall j, (i <= j < i + todo)%nat -> (2 * j + 1 < length arr)%nat ->
     genotype a b (nth j gts GT_NC) = Ok (nth (2 * j) out 0, nth (2 * j + 1) out 0)) /\
  (forall k, (k < 2 * i)%nat \/ (2 * (i + todo) <= k)%nat ->
     nth k out 0 = nth k arr 0).
Proof.
  induction todo as [|todo IH]; intros i arr out H; cbn [genotypes_loop] in H.
  - injection H as <-. split; [reflexivity|]. split; [intros j Hj; lia|reflexivity].
  - destruct (genotype a b (nth i gts GT_NC)) as [[g0 g1]| | |] eqn:E;
      cbn [bind] in H; try discriminate H.
    apply IH in H as (L & Hin & Hout). rewrite !length_upd in L, Hin.
    split; [exact L|]. split.
    + intros j Hj Hl. destruct (Nat.eq_dec j i) as [->|Hne].
      * rewrite !Hout by lia.
        rewrite nth_upd_same by (rewrite length_upd; lia).
        rewrite nth_upd_other by lia. rewrite nth_upd_same by lia. exact E.
      * apply Hin; lia.
    + intros k Hk. rewrite Hout by lia. now rewrite !nth_upd_other by lia.
Qed.

Lemma genotypes_loop_fatal a b gts todo : forall i arr,
  (Forall (fun g => In g [GT_NC; GT_AA; GT_AB; GT_BB]) (firstn todo (skipn i gts)) ->
   (i + todo <= length gts)%nat ->
   exists out, genotypes_loop todo i a b gts arr = Ok out) /\
  (~ Forall (fun g => In g [GT_NC; GT_AA; GT_AB; GT_BB]) (firstn todo (skipn i gts)) ->
   (i + todo <= length gts)%nat ->
   genotypes_loop todo i a b gts arr = Fatal GenotypeMalformed).
Proof.
  induction todo as [|todo IH]; intros i arr.
  - split; [intros _ _; now exists arr|]. intros H. exfalso. apply H. constructor.
  - assert (Hs : (i + S todo <= length gts)%nat ->
                 firstn (S todo) (skipn i gts)
                 = nth i gts GT_NC :: firstn todo (skipn (S i) gts)).
    { intros L. rewrite <- (firstn_skipn i gts) at 2.
      assert (Li : length (firstn i gts) = i) by (rewrite length_firstn; lia).
      destruct (skipn i gts) as [|g rest] eqn:Es.
      - apply (f_equal (@length Z)) in Es. rewrite length_skipn in Es.
        simpl in Es. lia.
      - rewrite app_nth2 by lia. rewrite Li, Nat.sub_diag. cbn [nth firstn].
        f_equal. f_equal.
        replace (S i) with (1 + i)%nat by lia.
        rewrite <- skipn_skipn, Es. reflexivity. }
    cbn [genotypes_loop]. split; intros H L; rewrite (Hs L) in H.
    + inversion H as [|? ? Hg Hrest]; subst.
      destruct (proj1 (genotype_fatal a b _) Hg) as (x & y & E).
      rewrite E. cbn [bind]. apply IH; [exact Hrest|lia].
    + destruct (in_dec Z.eq_dec (nth i gts GT_NC) [GT_NC; GT_AA; GT_AB; GT_BB])
        as [Hg|Hg].
      * destruct (proj1 (genotype_fatal a b _) Hg) as (x & y & E).
        rewrite E. cbn [bind]. apply IH; [|lia].
        intros C. apply H. now constructor.
      * now rewrite (proj2 (genotype_fatal a b _) Hg).
Qed.

Section Genotypes.

Context {FA : FloatArith}.

(** X24.  When the calls of a record are written, each sample gets the pair of its
    call, smaller allele index first, the rest of the array is left as it
    was, and the array keeps its length. *)
Theorem process_genotypes_pairs (v : varitr_t) (a b : Z) (gt_arr out : list Z) :
  data_sets v <> None \/ calls_fp v <> None ->
  (2 * nsmpl v <= length gt_arr)%nat ->
  process_genotypes v a b gt_arr = Ok out ->
  length out = length gt_arr /\
  (forall j, (j < nsmpl v)%nat ->
     genotype a b (nth j (gts v) GT_NC)
     = Ok (nth (2 * j) out 0, nth (2 * j + 1) out 0) /\
     nth (2 * j) out 0 <= nth (2 * j + 1) out 0) /\
  (forall k, (2 * nsmpl v <= k)%nat -> nth k out 0 = nth k gt_arr 0).
Proof.
  intros Hmode Hlen H.
  assert (E : genotypes_loop (nsmpl v) 0 a b (gts v) gt_arr = Ok out).
  { unfold process_genotypes in H.
    destruct (data_sets v), (calls_fp v); try exact H.
    destruct Hmode as [C|C]; now contradiction C. }
  apply genotypes_loop_spec in E as (L & Hin & Hout).
  split; [exact L|]. split.
  - intros j Hj. pose proof (Hin j ltac:(lia) ltac:(lia)) as G.
    split; [exact G|]. now apply genotype_ordered in G.
  - intros k Hk. apply Hout. right. lia.
Qed.

(** X25.  A record is written when every call is one of -1, 0, 1 and 2; any other
    call stops the program with "Genotype ... is malformed". *)
Theorem process_genotypes_malformed (v : varitr_t) (a b : Z) (gt_arr : list Z) :
  data_sets v <> None \/ calls_fp v <> None ->
  length (gts v) = nsmpl v ->
  (Forall (fun g => In g [GT_NC; GT_AA; GT_AB; GT_BB]) (gts v) ->
   exists out, process_genotypes v a b gt_arr = Ok out) /\
  (~ Forall (fun g => In g [GT_NC; GT_AA; GT_AB; GT_BB]) (gts v) ->
   process_genotypes v a b gt_arr = Fatal GenotypeMalformed).
Proof.
  intros Hmode Hlen.
  assert (E : process_genotypes v a b gt_arr
              = genotypes_loop (nsmpl v) 0 a b (gts v) gt_arr).
  { unfold process_genotypes.
    destruct (data_sets v), (calls_fp v); try reflexivity.
    destruct Hmode as [C|C]; now contradiction C. }
  rewrite E, <- Hlen.
  pose proof (genotypes_loop_fatal a b (gts v) (length (gts v)) 0 gt_arr)
    as [Hok Hbad].
  cbn [skipn] in Hok, Hbad. rewrite firstn_all in Hok, Hbad.
  split; intros H; [apply Hok|apply Hbad]; solve [exact H | lia].
Qed.

End Genotypes.

Section GenotypeExamples.

Context {FA : FloatArith} {FL : FloatLibc FA}.

Lemma first_row_genotypes :
  (data_sets calls_confidences_first_row <> None
   \/ calls_fp calls_confidences_first_row <> None) /\
  (2 * nsmpl calls_confidences_first_row <= length [0; 0; 0; 0; 7])%nat /\
  process_genotypes calls_confidences_first_row 0 1 [0; 0; 0; 0; 7]
  = Ok [2; 2; 2; 4; 7].
Proof.
  split; [right; discriminate|]. split; [cbn; lia|reflexivity].
Qed.

Lemma call_3_row_facts :
  (data_sets call_3_row <> None \/ calls_fp call_3_row <> None) /\
  length (gts call_3_row) = nsmpl call_3_row /\
  ~ Forall (fun g => In g [GT_NC; GT_AA; GT_AB; GT_BB]) (gts call_3_row).
Proof.
  split; [right; discriminate|]. split; [reflexivity|].
  intros C. inversion C as [|? ? Hg _]; subst.
  simpl in Hg. unfold GT_NC, GT_AA, GT_AB, GT_BB in Hg.
  intuition discriminate.
Qed.

End GenotypeExamples.

Lemma process_genotypes_pairs_witness :
  length [2; 2; 2; 4; 7] = length [0; 0; 0; 0; 7] /\
  nth 2 [2; 2; 2; 4; 7] 0 <= nth 3 [2; 2; 2; 4; 7] 0.
Proof.
  destruct (first_row_genotypes (FA := exact_real)) as (Hm & Hl & E).
  pose proof (process_genotypes_pairs (FA := exact_real)
                calls_confidences_first_row 0 1 [0; 0; 0; 0; 7] [2; 2; 2; 4; 7]
                Hm Hl E) as (L & P & _).
  split; [exact L|]. exact (proj2 (P 1%nat ltac:(cbn; lia))).
Defined.

Lemma process_genotypes_malformed_witness :
  process_genotypes (FA := exact_real) call_3_row 0 1 [0; 0]
  = Fatal GenotypeMalformed.
Proof.
  destruct (call_3_row_facts (FA := exact_real)) as (Hm & Hl & Hbad).
  exact (proj2 (process_genotypes_malformed (FA := exact_real) call_3_row 0 1
                  [0; 0] Hm Hl) Hbad).
Defined.

(** ** The report: a blank line ends it *)

Lemma report_lines_blank rest ls : forall fuel1 fuel2 bs1 pos1 bs2 pos2 report,
  Forall (fun l => ~ In NL l) ls ->
  remaining (mk_hFILE bs1 pos1) = text_lines ls ++ NL :: rest ->
  remaining (mk_hFILE bs2 pos2) = text_lines ls ->
  (length ls < fuel1)%nat -> (length ls < fuel2)%nat ->
  report_lines fuel1 (mk_hFILE bs1 pos1) report
  = report_lines fuel2 (mk_hFILE bs2 pos2) report.
Proof.
  induction ls as [|l ls IH];
    intros fuel1 fuel2 bs1 pos1 bs2 pos2 report Hls E1 E2 F1 F2;
    (destruct fuel1 as [|fuel1]; [simpl in F1; lia|]);
    (destruct fuel2 as [|fuel2]; [simpl in F2; lia|]);
    cbn [report_lines].
  - cbn [text_lines map concat app] in E1, E2.
    rewrite (hts_getline_line bs1 pos1 [] rest E1 (fun C => C)).
    rewrite (hts_getline_eof _ E2). reflexivity.
  - inversion Hls as [|? ? Hl Hls']; subst.
    rewrite text_lines_cons in E1, E2. rewrite <- app_assoc in E1.
    cbn [app] in E1.
    rewrite (hts_getline_line bs1 pos1 l _ E1 Hl).
    rewrite (hts_getline_line bs2 pos2 l _ E2 Hl).
    destruct (strip_cr l) as [|c s]; [reflexivity|].
    destruct (length (ksplit_core (c :: s) TAB) <? 2)%nat; [reflexivity|].
    apply IH.
    + exact Hls'.
    + apply (remaining_after bs1 pos1 (l ++ [NL])); [|rewrite length_app; simpl; lia].
      now rewrite <- app_assoc.
    + apply (remaining_after bs2 pos2 (l ++ [NL])); [|rewrite length_app; simpl; lia].
      now rewrite <- app_assoc.
    + simpl in F1. lia.
    + simpl in F2. lia.
Qed.

(** X26.  A blank line ends the report: [report_init] returns what it returns for
    the file that ends before the blank line, whatever follows it. *)
Theorem report_init_blank_line (header : list byte) (ls : list (list byte))
  (rest : list byte) :
  ~ In NL header -> hd_error (strip_cr header) <> Some HASH ->
  strip_cr header <> [] ->
  Forall (fun l => ~ In NL l) ls ->
  report_init (hopen (header ++ NL :: text_lines ls ++ NL :: rest))
  = report_init (hopen (header ++ NL :: text_lines ls)).
Proof.
  intros Hh Hhash Hne Hls. unfold report_init.
  pose proof (unheader_spec [] header (text_lines ls ++ NL :: rest)
                (Forall_nil _) Hh Hhash (fun _ => Hne)) as U1.
  pose proof (unheader_spec [] header (text_lines ls)
                (Forall_nil _) Hh Hhash (fun _ => Hne)) as U2.
  cbn [text_lines map concat app length Nat.add] in U1, U2.
  rewrite U1, U2. cbn [init_bind].
  destruct (length (ksplit_core (strip_cr header) TAB) <? 2)%nat; [reflexivity|].
  destruct (negb _); [reflexivity|].
  apply report_lines_blank with (rest := rest) (ls := ls).
  - exact Hls.
  - apply (remaining_after _ 0 (header ++ [NL]));
      [|rewrite length_app; simpl; lia].
    now rewrite <- app_assoc.
  - apply (remaining_after _ 0 (header ++ [NL]));
      [|rewrite length_app; simpl; lia].
    now rewrite <- app_assoc.
  - pose proof (text_lines_length ls).
    assert (R : remaining (mk_hFILE (header ++ NL :: text_lines ls ++ NL :: rest)
                                    (S (length header)))
                = text_lines ls ++ NL :: rest).
    { apply (remaining_after _ 0 (header ++ [NL]));
        [|rewrite length_app; simpl; lia].
      now rewrite <- app_assoc. }
    rewrite R, length_app. lia.
  - pose proof (text_lines_length ls).
    assert (R : remaining (mk_hFILE (header ++ NL :: text_lines ls)
                                    (S (length header)))
                = text_lines ls).
    { apply (remaining_after _ 0 (header ++ [NL]));
        [|rewrite length_app; simpl; lia].
      now rewrite <- app_assoc. }
    rewrite R. lia.
Qed.

Lemma report_gender_range s : In (report_gender s) [0; 1; 2].
Proof.
  unfold report_gender.
  destruct (list_byte_eqb s (cstr "male")); [simpl; tauto|].
  destruct (list_byte_eqb s (cstr "female")); simpl; tauto.
Qed.

Lemma report_lines_invariant fuel : forall fp report r,
  report_lines fuel fp report = Run (Ok r) ->
  length (genders report) = length (cel_files report) ->
  Forall (fun g => In g [0; 1; 2]) (genders report) ->
  Forall (fun f => f <> []) (cel_files report) ->
  length (genders r) = length (cel_files r) /\
  Forall (fun g => In g [0; 1; 2]) (genders r) /\
  Forall (fun f => f <> []) (cel_files r).
Proof.
  induction fuel as [|fuel IH]; intros fp report r H L G F; [discriminate H|].
  cbn [report_lines] in H.
  destruct (hts_getline fp) as [[[|c s] fp1]|];
    try (injection H as <-; split; [exact L|]; split; assumption).
  destruct (Nat.ltb_spec (length (ksplit_core (c :: s) TAB)) 2) as [|Hc];
    [discriminate H|].
  apply IH in H; [exact H|..]; cbn [cel_files genders].
  - rewrite !length_app. cbn [length]. lia.
  - apply Forall_app. split; [exact G|].
    constructor; [apply report_gender_range|constructor].
  - apply Forall_app. split; [exact F|].
    constructor; [apply field_nonempty; lia|constructor].
Qed.

(** X27.  The report that [report_init] returns has one gender for each CEL file,
    every gender is 0, 1 or 2, and no file name is empty. *)
Theorem report_init_invariants (fp : hFILE) (r : report_t) :
  report_init fp = Run (Ok r) ->
  length (genders r) = n_samples r /\
  Forall (fun g => In g [0; 1; 2]) (genders r) /\
  Forall (fun f => f <> []) (cel_files r).
Proof.
  unfold report_init, n_samples. intros H.
  destruct (unheader fp) as [e|[[str fp1]| | |]]; cbn [init_bind] in H;
    try discriminate H.
  destruct (length (ksplit_core str TAB) <? 2)%nat; [discriminate H|].
  destruct (negb _); [discriminate H|].
  apply report_lines_invariant in H; [exact H|reflexivity|constructor..].
Qed.

Lemma report_init_blank_line_witness :
  report_init (hopen (report_header ++ NL :: text_lines report_lines_2
                      ++ NL :: report_after_blank))
  = report_init (hopen (report_header ++ NL :: text_lines report_lines_2)) /\
  report_init (hopen (report_header ++ NL :: text_lines report_lines_2))
  = Run (Ok (mk_report [cstr "s1.CEL"; cstr "s2.CEL"] [1; 2])).
Proof.
  split; [|vm_compute; reflexivity].
  apply (report_init_blank_line report_header report_lines_2 report_after_blank).
  - vm_compute. intuition discriminate.
  - vm_compute. discriminate.
  - vm_compute. discriminate.
  - repeat constructor; vm_compute; intuition discriminate.
Defined.

Lemma report_init_invariants_witness :
  length (genders (mk_report [cstr "s1.CEL"; cstr "s2.CEL"] [1; 2]))
  = n_samples (mk_report [cstr "s1.CEL"; cstr "s2.CEL"] [1; 2]).
Proof.
  refine (proj1 (report_init_invariants
                   (hopen (report_header ++ NL :: text_lines report_lines_2))
                   (mk_report [cstr "s1.CEL"; cstr "s2.CEL"] [1; 2]) _)).
  vm_compute. reflexivity.
Defined.

(** ** Splitting a line into its fields *)

Lemma is_nul_other c : c <> "000"%byte -> is_nul c = false.
Proof. intros H. unfold is_nul. now apply byte_eqb_neq. Qed.

Lemma ksplit_aux_field d rest f : forall i start acc,
  ~ In d f -> ~ In "000"%byte f ->
  ksplit_aux (f ++ rest) i (Some (start, acc)) d
  = ksplit_aux rest (i + length f) (Some (start, rev f ++ acc)) d.
Proof.
  induction f as [|c f IH]; intros i start acc Hd Hn.
  - simpl. now rewrite Nat.add_0_r.
  - cbn [app ksplit_aux].
    rewrite is_nul_other by (intros ->; apply Hn; now left).
    rewrite byte_eqb_neq by (intros ->; apply Hd; now left).
    rewrite IH;
      [|intros C; apply Hd; now right|intros C; apply Hn; now right].
    cbn [length rev]. rewrite <- app_assoc. cbn [app]. f_equal. lia.
Qed.

Lemma ksplit_aux_start d rest c f i :
  plain_field d (c :: f) ->
  ksplit_aux ((c :: f) ++ rest) i None d
  = ksplit_aux rest (i + length (c :: f)) (Some (i, rev (c :: f))) d.
Proof.
  intros (_ & Hd & Hn). cbn [app ksplit_aux].
  rewrite is_nul_other by (intros ->; apply Hn; now left).
  rewrite byte_eqb_neq by (intros ->; apply Hd; now left).
  rewrite ksplit_aux_field;
    [|intros C; apply Hd; now right|intros C; apply Hn; now right].
  cbn [length rev]. f_equal. lia.
Qed.

(** A line made of plain fields is split into these fields. *)
Lemma ksplit_join d fs : forall i,
  Forall (plain_field d) fs -> d <> "000"%byte ->
  ksplit_aux (join d fs) i None d = with_offsets i fs.
Proof.
  induction fs as [|f fs IH]; intros i Hfs Hd0; [reflexivity|].
  inversion Hfs as [|? ? Hf Hfs']; subst.
  destruct f as [|c f]; [now destruct Hf as [C _]|].
  destruct fs as [|g fs].
  - cbn [join with_offsets]. rewrite <- (app_nil_r (c :: f)) at 1.
    rewrite ksplit_aux_start by exact Hf.
    cbn [ksplit_aux]. now rewrite rev_involutive.
  - change (join d ((c :: f) :: g :: fs)) with ((c :: f) ++ d :: join d (g :: fs)).
    rewrite ksplit_aux_start by exact Hf.
    cbn [ksplit_aux]. rewrite is_nul_other by exact Hd0.
    rewrite byte_eqb_refl, rev_involutive.
    cbn [with_offsets]. f_equal.
    replace (S (i + length (c :: f))) with (i + length (c :: f) + 1)%nat by lia.
    apply IH; assumption.
Qed.

Lemma ksplit_core_join d fs :
  Forall (plain_field d) fs -> d <> "000"%byte ->
  ksplit_core (join d fs) d = with_offsets 0 fs.
Proof. apply ksplit_join. Qed.

(** ** The models file: which column is which cluster *)

Section ModelsFacts.

Context {FA : FloatArith} {FL : FloatLibc FA}.

Lemma before_last_suffix off0 p c2 c1 sep :
  Models.before_last off0 (p ++ [c2; c1]) sep = Ok c2.
Proof. unfold Models.before_last. rewrite rev_app_distr. reflexivity. Qed.

Lemma skipn_last_one (p : list byte) c2 c1 :
  skipn (length (p ++ [c2; c1]) - 1) (p ++ [c2; c1]) = [c1].
Proof.
  rewrite length_app. cbn [length].
  replace (length p + 2 - 1)%nat with (length (p ++ [c2])) 
    by (rewrite length_app; simpl; lia).
  replace (p ++ [c2; c1]) with ((p ++ [c2]) ++ [c1]) by (now rewrite <- app_assoc).
  apply skipn_length_app.
Qed.

Lemma models_cluster_brlmmp col_str :
  (7 <= length (ksplit_core col_str ","%byte))%nat ->
  Models.models_cluster Models.brlmmp 0 col_str
  = Run (Ok (Models.brlmmp_cluster_init (ksplit_core col_str ","%byte))).
Proof.
  intros H. unfold Models.models_cluster. cbn [Models.sep2 Models.exp_cols Models.brlmmp].
  destruct (Nat.ltb_spec (length (ksplit_core col_str ","%byte)) 7) as [C|_]; [lia|].
  reflexivity.
Qed.

Lemma models_cluster_birdseed col_str :
  (6 <= length (ksplit_core col_str " "%byte))%nat ->
  Models.models_cluster Models.birdseed 1 col_str
  = Run (Ok (Models.birdseed_cluster_init (ksplit_core col_str " "%byte))).
Proof.
  intros H. unfold Models.models_cluster.
  cbn [Models.sep2 Models.exp_cols Models.birdseed].
  destruct (Nat.ltb_spec (length (ksplit_core col_str " "%byte)) 6) as [C|_]; [lia|].
  reflexivity.
Qed.

(** X28.  A line "id BB AB AA CV" of a tab-separated models file, whose name does
    not end in ":" and a character, gives a diploid model: the second field
    is the cluster BB, the third AB and the fourth AA. *)
Theorem models_line_brlmmp (p : list byte) (c2 c1 : byte) (bb ab aa cv : list byte) :
  Forall (plain_field TAB) [p ++ [c2; c1]; bb; ab; aa; cv] ->
  c2 <> ":"%byte ->
  (7 <= length (ksplit_core bb ","%byte))%nat ->
  (7 <= length (ksplit_core ab ","%byte))%nat ->
  (7 <= length (ksplit_core aa ","%byte))%nat ->
  Models.models_line Models.brlmmp 0 (join TAB [p ++ [c2; c1]; bb; ab; aa; cv])
  = Run (Ok (true,
             Clusters.mk_snp (p ++ [c2; c1]) 2
               (Models.brlmmp_cluster_init (ksplit_core aa ","%byte))
               (Models.brlmmp_cluster_init (ksplit_core ab ","%byte))
               (Models.brlmmp_cluster_init (ksplit_core bb ","%byte)))).
Proof.
  intros Hf Hc Hbb Hab Haa. unfold Models.models_line.
  cbn [Models.sep1 Models.sep3 Models.brlmmp].
  rewrite ksplit_core_join by (exact Hf || discriminate).
  cbn [with_offsets]. rewrite before_last_suffix. cbn [init_bind].
  rewrite (byte_eqb_neq _ _ Hc).
  cbn [length Models.column nth_error snd init_bind Z.eqb Pos.eqb Z.of_nat
       Pos.of_succ_nat Pos.succ Z.sub Z.mul Z.ltb Z.compare Pos.compare
       Pos.compare_cont Z.opp Z.add Z.pos_sub negb andb].
  rewrite (models_cluster_brlmmp bb Hbb). cbn [init_bind].
  rewrite (models_cluster_brlmmp ab Hab). cbn [init_bind].
  rewrite (models_cluster_brlmmp aa Haa). cbn [init_bind].
  reflexivity.
Qed.

(** X29.  A line of a semicolon-separated models file.  With a name that ends in
    "-1" it gives a haploid model from three fields: the second is the
    cluster AA, the third is BB, and every field of AB is NAN.  With a name
    that ends in "-2" it gives a diploid model from four fields: AA, AB and
    BB.  The two characters are taken from the name. *)
Theorem models_line_birdseed (id aa ab bb : list byte) :
  (Forall (plain_field ";"%byte) [id ++ cstr "-1"; aa; bb] ->
   (6 <= length (ksplit_core aa " "%byte))%nat ->
   (6 <= length (ksplit_core bb " "%byte))%nat ->
   Models.models_line Models.birdseed 1 (join ";"%byte [id ++ cstr "-1"; aa; bb])
   = Run (Ok (false,
              Clusters.mk_snp id 1
                (Models.birdseed_cluster_init (ksplit_core aa " "%byte))
                Models.nan_cluster
                (Models.birdseed_cluster_init (ksplit_core bb " "%byte))))) /\
  (Forall (plain_field ";"%byte) [id ++ cstr "-2"; aa; ab; bb] ->
   (6 <= length (ksplit_core aa " "%byte))%nat ->
   (6 <= length (ksplit_core ab " "%byte))%nat ->
   (6 <= length (ksplit_core bb " "%byte))%nat ->
   Models.models_line Models.birdseed 1
     (join ";"%byte [id ++ cstr "-2"; aa; ab; bb])
   = Run (Ok (true,
              Clusters.mk_snp id 2
                (Models.birdseed_cluster_init (ksplit_core aa " "%byte))
                (Models.birdseed_cluster_init (ksplit_core ab " "%byte))
                (Models.birdseed_cluster_init (ksplit_core bb " "%byte))))).
Proof.
  split.
  - intros Hf Haa Hbb. unfold Models.models_line.
    cbn [Models.sep1 Models.sep3 Models.birdseed].
    rewrite ksplit_core_join by (exact Hf || discriminate).
    cbn [with_offsets]. change (cstr "-1") with ["-"%byte; "1"%byte].
    rewrite before_last_suffix. cbn [init_bind].
    rewrite byte_eqb_refl, skipn_last_one, firstn_prefix.
    change (strtol ["1"%byte]) with 1.
    cbn [length Models.column nth_error snd init_bind Z.eqb Pos.eqb Z.of_nat
         Pos.of_succ_nat Pos.succ Z.sub Z.mul Z.ltb Z.compare Pos.compare
         Pos.compare_cont Z.opp Z.add Z.pos_sub negb andb].
    rewrite (models_cluster_birdseed aa Haa). cbn [init_bind].
    rewrite (models_cluster_birdseed bb Hbb). cbn [init_bind].
    reflexivity.
  - intros Hf Haa Hab Hbb. unfold Models.models_line.
    cbn [Models.sep1 Models.sep3 Models.birdseed].
    rewrite ksplit_core_join by (exact Hf || discriminate).
    cbn [with_offsets]. change (cstr "-2") with ["-"%byte; "2"%byte].
    rewrite before_last_suffix. cbn [init_bind].
    rewrite byte_eqb_refl, skipn_last_one, firstn_prefix.
    change (strtol ["2"%byte]) with 2.
    cbn [length Models.column nth_error snd init_bind Z.eqb Pos.eqb Z.of_nat
         Pos.of_succ_nat Pos.succ Z.sub Z.mul Z.ltb Z.compare Pos.compare
         Pos.compare_cont Z.opp Z.add Z.pos_sub negb andb].
    rewrite (models_cluster_birdseed aa Haa). cbn [init_bind].
    rewrite (models_cluster_birdseed ab Hab). cbn [init_bind].
    rewrite (models_cluster_birdseed bb Hbb). cbn [init_bind].
    reflexivity.
Qed.

End ModelsFacts.

Section ModelsExamples.

Context {FA : FloatArith} {FL : FloatLibc FA}.

Lemma birdseed_models_read :
  Models.models_init (hopen birdseed_models)
  = Run (Ok (Models.mk_models 1
               [Clusters.mk_snp (cstr "SNP_A-1") 1
                  (Models.birdseed_cluster_init
                     (ksplit_core (cstr "1 2 3 4 5 6") " "%byte))
                  Models.nan_cluster
                  (Models.birdseed_cluster_init
                     (ksplit_core (cstr "7 8 9 10 11 12") " "%byte))]
               [Clusters.mk_snp (cstr "SNP_A-20") 2
                  (Models.birdseed_cluster_init
                     (ksplit_core (cstr "1 2 3 4 5 6") " "%byte))
                  (Models.birdseed_cluster_init
                     (ksplit_core (cstr "2 3 4 5 6 7") " "%byte))
                  (Models.birdseed_cluster_init
                     (ksplit_core (cstr "7 8 9 10 11 12") " "%byte))])).
Proof. vm_compute. reflexivity. Qed.

End ModelsExamples.

Ltac plain_fields :=
  repeat (apply Forall_cons;
          [split; [discriminate|split; vm_compute; intuition discriminate]|]);
  apply Forall_nil.

Lemma models_line_brlmmp_witness :
  Models.models_line (FA := exact_real) Models.brlmmp 0
    (join TAB [cstr "AX" ++ ["-"%byte; "1"%byte]; cstr "1,2,3,4,5,6,7";
               cstr "2,3,4,5,6,7,8"; cstr "3,4,5,6,7,8,9"; cstr "0.5"])
  = Run (Ok (true,
             Clusters.mk_snp (cstr "AX" ++ ["-"%byte; "1"%byte]) 2
               (Models.brlmmp_cluster_init
                  (ksplit_core (cstr "3,4,5,6,7,8,9") ","%byte))
               (Models.brlmmp_cluster_init
                  (ksplit_core (cstr "2,3,4,5,6,7,8") ","%byte))
               (Models.brlmmp_cluster_init
                  (ksplit_core (cstr "1,2,3,4,5,6,7") ","%byte)))).
Proof.
  apply (models_line_brlmmp (FA := exact_real) (cstr "AX") "-"%byte "1"%byte).
  - plain_fields.
  - discriminate.
  - vm_compute. lia.
  - vm_compute. lia.
  - vm_compute. lia.
Defined.

Lemma models_line_birdseed_witness :
  Models.models_line (FA := exact_real) Models.birdseed 1
    (join ";"%byte [cstr "SNP_A-1" ++ cstr "-1"; cstr "1 2 3 4 5 6";
                    cstr "7 8 9 10 11 12"])
  = Run (Ok (false,
             Clusters.mk_snp (cstr "SNP_A-1") 1
               (Models.birdseed_cluster_init
                  (ksplit_core (cstr "1 2 3 4 5 6") " "%byte))
               Models.nan_cluster
               (Models.birdseed_cluster_init
                  (ksplit_core (cstr "7 8 9 10 11 12") " "%byte)))).
Proof.
  apply (proj1 (models_line_birdseed (FA := exact_real) (cstr "SNP_A-1")
                  (cstr "1 2 3 4 5 6") [] (cstr "7 8 9 10 11 12"))).
  - plain_fields.
  - vm_compute. lia.
  - vm_compute. lia.
Defined.

(** X30.  A models file whose first line holds a tab and is not the header
    "id BB AB AA CV" is refused as malformed; a file that ends with that
    header, or has an empty line after it, is refused for its missing
    models. *)
Theorem models_init_rejects {FA : FloatArith} {FL : FloatLibc FA}
  (l rest : list byte) :
  (~ In NL l -> hd_error (strip_cr l) <> Some HASH ->
   In TAB (c_string (strip_cr l)) -> c_string (strip_cr l) <> models_header ->
   Models.models_init (hopen (l ++ NL :: rest)) = Reject ModelsMalformed) /\
  Models.models_init (hopen (models_header ++ [NL])) = Reject ModelsMissing /\
  Models.models_init (hopen (models_header ++ NL :: NL :: rest))
  = Reject ModelsMissing.
Proof.
  split; [|split; reflexivity].
  intros Hl Hh Ht Hne. unfold Models.models_init.
  assert (Hs : strip_cr l <> []).
  { intros C. rewrite C in Ht. exact Ht. }
  pose proof (unheader_spec [] l rest (Forall_nil _) Hl Hh (fun _ => Hs)) as U.
  cbn [text_lines map concat app length Nat.add] in U. rewrite U.
  cbn [init_bind].
  fold models_header. rewrite (list_byte_eqb_neq _ _ Hne).
  assert (E : existsb (Byte.eqb TAB) (c_string (strip_cr l)) = true).
  { apply existsb_exists. exists TAB. split; [exact Ht|apply byte_eqb_refl]. }
  rewrite E. reflexivity.
Qed.

Lemma models_init_rejects_witness :
  Models.models_init (FA := exact_real)
    (hopen (tab_separated ["id"; "AA"; "AB"; "BB"]%string ++ NL :: cstr "AX-1"))
  = Reject ModelsMalformed.
Proof.
  apply (proj1 (models_init_rejects (FA := exact_real)
                  (tab_separated ["id"; "AA"; "AB"; "BB"]%string) (cstr "AX-1"))).
  - vm_compute. intuition discriminate.
  - vm_compute. discriminate.
  - vm_compute. tauto.
  - vm_compute. discriminate.
Defined.

(* ================================================================== *)
(** * Part II, concluded: the samples of a step                        *)
(* ================================================================== *)

(** ** Rows of a CHP file *)

Lemma col_offset_nth data_set c off :
  col_offset data_set c = Ok off -> nth_error (col_offsets data_set) c = Some off.
Proof.
  unfold col_offset. destruct (nth_error _ c); [|discriminate].
  intros H. now injection H as ->.
Qed.

Lemma buffer_long_row host offsets row c off u :
  nth_error offsets c = Some off -> buffer_long host row off = Ok u ->
  row_be32 offsets row c = Some u.
Proof.
  intros Ho. rewrite buffer_long_be. unfold buffer_be32, row_be32. rewrite Ho.
  destruct (skipn (Z.to_nat off) row) as [|b0 [|b1 [|b2 [|b3 l]]]]; try discriminate.
  intros H. now injection H as ->.
Qed.

Lemma buffer_byte_row offsets row c off b :
  nth_error offsets c = Some off -> buffer_byte row off = Ok b ->
  row_byte offsets row c = Some b.
Proof.
  intros Ho. unfold buffer_byte, row_byte. rewrite Ho.
  destruct (nth_error row (Z.to_nat off)); [|discriminate].
  intros H. now injection H as ->.
Qed.

Section RowsOfAStep.

Variable host : byte_order.
Context {FA : FloatArith} {FL : FloatLibc FA}.

Local Open Scope float_scope.

Lemma sample_kept_refl (v : varitr_t) j : sample_kept v v j.
Proof. unfold sample_kept, same_entries. repeat split; reflexivity. Qed.

Lemma sample_kept_trans (v v1 v2 : varitr_t) j :
  sample_kept v v1 j -> sample_kept v1 v2 j -> sample_kept v v2 j.
Proof.
  unfold sample_kept, same_entries.
  intros ((a1 & a2 & a3 & a4 & a5) & a6) ((b1 & b2 & b3 & b4 & b5) & b6).
  repeat split; congruence.
Qed.

Lemma row_call_kept offsets row (v v' : varitr_t) j :
  sample_kept v v' j -> row_call offsets row v j -> row_call offsets row v' j.
Proof.
  intros ((K & _) & _) (call & Hc & Hg). exists call.
  split; [exact Hc|]. now rewrite K.
Qed.

Lemma row_confidence_kept offsets row (v v' : varitr_t) j :
  sample_kept v v' j -> row_confidence offsets row v j ->
  row_confidence offsets row v' j.
Proof.
  intros (_ & K) (conf & Hc & Hg). exists conf.
  split; [exact Hc|]. now rewrite K.
Qed.

Lemma row_intensities_kept offsets row axiom (v v' : varitr_t) j :
  sample_kept v v' j -> row_intensities offsets row axiom v j ->
  row_intensities offsets row axiom v' j.
Proof.
  intros ((_ & Kx & Ky & Kd & Ks) & _) (a & b & Ha & Hb & H0 & H1).
  exists a, b. rewrite Kx, Ky, Kd, Ks. repeat split; try assumption.
  - now apply H0.
  - now apply H0.
  - now apply H0.
  - now apply H0.
  - now apply H1.
  - now apply H1.
  - now apply H1.
  - now apply H1.
Qed.

(** The body of the loop for sample [i]: the entries of the sample come from
    the row that is read from its data set, and the other samples are left
    as they are. *)
Lemma cc_sample_decoded i dss (v v' : varitr_t) :
  cc_sample host i dss v = Ok v' ->
  exists data_set data_set',
    nth_error dss i = Some data_set /\
    data_sets v' = Some (upd i data_set' dss) /\
    nsmpl v' = nsmpl v /\ is_axiom v' = is_axiom v /\
    same_lengths v v' /\ length (conf_arr v') = length (conf_arr v) /\
    (forall j, j <> i -> sample_kept v v' j) /\
    (long_enough v i ->
     row_call (col_offsets data_set) (next_row data_set) v' i /\
     row_intensities (col_offsets data_set) (next_row data_set)
                     (nth i (is_axiom v) 1%Z) v' i) /\
    ((i < length (conf_arr v))%nat ->
     row_confidence (col_offsets data_set) (next_row data_set) v' i).
Proof.
  unfold cc_sample. intros H.
  destruct (nth_error dss i) as [data_set|] eqn:Eds; [|discriminate H].
  destruct (n_rows data_set <? nrow v)%Z; [discriminate H|].
  destruct (read_bytes (fp data_set) (Z.to_nat (n_buffer data_set)))
    as [[buffer fp']| | |] eqn:Erd; cbn [bind] in H; try discriminate H.
  destruct (col_offset data_set 0) as [off0| | |] eqn:E0; cbn [bind] in H;
    try discriminate H.
  destruct (buffer_long host buffer off0) as [n| | |] eqn:En; cbn [bind] in H;
    try discriminate H.
  destruct (check_n_probe_set_id (probe_set_id v)
              (skipn (Z.to_nat (off0 + 4)) buffer) n) as [id| | |] eqn:Eid;
    cbn [bind] in H; try discriminate H.
  destruct (col_offset data_set 1) as [off1| | |] eqn:E1; cbn [bind] in H;
    try discriminate H.
  destruct (buffer_byte buffer off1) as [call| | |] eqn:Ecall; cbn [bind] in H;
    try discriminate H.
  destruct (col_offset data_set 2) as [off2| | |] eqn:E2; cbn [bind] in H;
    try discriminate H.
  destruct (buffer_long host buffer off2) as [conf| | |] eqn:Econf; cbn [bind] in H;
    try discriminate H.
  destruct (nth_error (is_axiom v) i) as [axiom|] eqn:Eax; [|discriminate H].
  destruct (col_offset data_set 3) as [off3| | |] eqn:E3; cbn [bind] in H;
    try discriminate H.
  destruct (buffer_long host buffer off3) as [u3| | |] eqn:Eu3; cbn [bind] in H;
    try discriminate H.
  destruct (col_offset data_set 4) as [off4| | |] eqn:E4; cbn [bind] in H;
    try discriminate H.
  destruct (buffer_long host buffer off4) as [u4| | |] eqn:Eu4; cbn [bind] in H;
    try discriminate H.
  assert (Hax : nth i (is_axiom v) 1%Z = axiom).
  { apply nth_error_nth. exact Eax. }
  apply read_bytes_ok in Erd as (Hbuf & _ & _).
  fold (next_row data_set) in Hbuf. subst buffer.
  apply col_offset_nth in E1, E2, E3, E4.
  pose proof (buffer_byte_row _ _ _ _ _ E1 Ecall) as Rcall.
  pose proof (buffer_long_row _ _ _ _ _ _ E2 Econf) as Rconf.
  pose proof (buffer_long_row _ _ _ _ _ _ E3 Eu3) as R3.
  pose proof (buffer_long_row _ _ _ _ _ _ E4 Eu4) as R4.
  exists data_set. eexists.
  split; [reflexivity|].
  rewrite Hax.
  destruct (Z.eqb_spec axiom 0) as [Hz|Hnz]; cbn [negb] in H; injection H as <-;
    cbn [data_sets nsmpl is_axiom gts conf_arr norm_x_arr norm_y_arr delta_arr
         size_arr];
    (split; [reflexivity|]); (split; [reflexivity|]); (split; [reflexivity|]);
    (split; [unfold same_lengths;
             cbn [gts norm_x_arr norm_y_arr delta_arr size_arr];
             rewrite !length_upd; repeat split; reflexivity|]);
    (split; [apply length_upd|]);
    (split; [intros j Hj; unfold sample_kept, same_entries;
             cbn [gts conf_arr norm_x_arr norm_y_arr delta_arr size_arr];
             rewrite !nth_upd_other by exact Hj; repeat split; reflexivity|]);
    (split; [|intros Hc; exists conf; split; [exact Rconf|];
              cbn [conf_arr]; now rewrite nth_upd_same by exact Hc]);
    intros (Lg & Lx & Ly & Ld & Ls);
    (split; [exists call; split; [exact Rcall|];
             cbn [gts]; now rewrite nth_upd_same by exact Lg|]);
    exists u3, u4; (split; [exact R3|]); (split; [exact R4|]);
    cbn [norm_x_arr norm_y_arr delta_arr size_arr];
    rewrite !nth_upd_same by assumption;
    (split; [intros C|intros C]); try contradiction;
    repeat split; reflexivity.
Qed.

Lemma long_enough_lengths (v v' : varitr_t) j :
  same_lengths v v' -> long_enough v j -> long_enough v' j.
Proof.
  unfold same_lengths, long_enough.
  intros (a1 & a2 & a3 & a4 & a5) H. rewrite a1, a2, a3, a4, a5. exact H.
Qed.

Lemma same_lengths_trans (v v1 v2 : varitr_t) :
  same_lengths v v1 -> same_lengths v1 v2 -> same_lengths v v2.
Proof.
  unfold same_lengths.
  intros (a1 & a2 & a3 & a4 & a5) (b1 & b2 & b3 & b4 & b5).
  repeat split; congruence.
Qed.

(** The loop over the samples [i], ..., [i + todo - 1]. *)
Lemma cc_loop_decoded todo : forall i (v v' : varitr_t) dss,
  cc_loop host todo i v = Ok v' -> data_sets v = Some dss ->
  nsmpl v' = nsmpl v /\ is_axiom v' = is_axiom v /\
  same_lengths v v' /\ length (conf_arr v') = length (conf_arr v) /\
  (forall j, (j < i)%nat -> sample_kept v v' j) /\
  (forall j data_set, (i <= j < i + todo)%nat ->
     nth_error dss j = Some data_set ->
     (long_enough v j ->
      row_call (col_offsets data_set) (next_row data_set) v' j /\
      row_intensities (col_offsets data_set) (next_row data_set)
                      (nth j (is_axiom v) 1%Z) v' j) /\
     ((j < length (conf_arr v))%nat ->
      row_confidence (col_offsets data_set) (next_row data_set) v' j)).
Proof.
  induction todo as [|todo IH]; intros i v v' dss H Hd; cbn [cc_loop] in H.
  - injection H as <-.
    split; [reflexivity|]. split; [reflexivity|].
    split; [unfold same_lengths; repeat split; reflexivity|].
    split; [reflexivity|].
    split; [intros j _; apply sample_kept_refl|]. intros j ds Hj. lia.
  - rewrite Hd in H.
    destruct (cc_sample host i dss v) as [v1| | |] eqn:E1; cbn [bind] in H;
      try discriminate H.
    apply cc_sample_decoded in E1
      as (ds & ds' & Hds & Hd1 & N1 & A1 & L1 & C1 & K1 & D1 & Q1).
    destruct (IH _ _ _ _ H Hd1) as (N2 & A2 & L2 & C2 & K2 & D2).
    split; [congruence|]. split; [congruence|].
    split; [eapply same_lengths_trans; eassumption|].
    split; [congruence|]. split.
    + intros j Hj. apply (sample_kept_trans v v1 v');
        [apply K1; lia|apply K2; lia].
    + intros j data_set Hj Hn.
      destruct (Nat.eq_dec j i) as [->|Hne].
      * rewrite Hds in Hn. injection Hn as <-.
        pose proof (K2 i ltac:(lia)) as K. split.
        -- intros Hl. destruct (D1 Hl) as [Dc Di]. split.
           ++ exact (row_call_kept _ _ _ _ _ K Dc).
           ++ exact (row_intensities_kept _ _ _ _ _ _ K Di).
        -- intros Hc. exact (row_confidence_kept _ _ _ _ _ K (Q1 Hc)).
      * assert (Hn1 : nth_error (upd i ds' dss) j = Some data_set).
        { rewrite nth_error_upd_other by exact Hne. exact Hn. }
        destruct (D2 j data_set ltac:(lia) Hn1) as [Da Db].
        rewrite A1 in Da. rewrite C1 in Db. split; [|exact Db].
        intros Hl. apply Da. eapply long_enough_lengths; eassumption.
Qed.

(** A step over CHP files: every sample holds what the row of its data set
    says. *)
Lemma varitr_loop_rows (v v' : varitr_t) dss j data_set :
  varitr_loop host v = Ok v' -> data_sets v = Some dss ->
  (j < nsmpl v)%nat -> nth_error dss j = Some data_set ->
  (long_enough v j ->
   row_call (col_offsets data_set) (next_row data_set) v' j /\
   row_intensities (col_offsets data_set) (next_row data_set)
                   (nth j (is_axiom v) 1%Z) v' j) /\
  ((j < length (conf_arr v))%nat ->
   row_confidence (col_offsets data_set) (next_row data_set) v' j).
Proof.
  unfold varitr_loop. cbn [data_sets set_probe_set_id nsmpl nrow].
  intros H Hd Hj Hn. rewrite Hd in H.
  apply (cc_loop_decoded _ _ _ _ dss) in H; [|exact Hd].
  destruct H as (_ & _ & _ & _ & _ & D).
  exact (D j data_set ltac:(cbn; lia) Hn).
Qed.

End RowsOfAStep.

(** ** Lines of the summary table *)

Lemma nth_fill {A : Type} (f : nat -> A) d todo : forall i0 arr j,
  nth j (fill todo (S i0) f arr) d
  = if ((i0 <=? j) && (j <? i0 + todo) && (j <? length arr))%nat
    then f (S j) else nth j arr d.
Proof.
  induction todo as [|todo IH]; intros i0 arr j.
  - cbn [fill]. nat_cases; cbn [andb]; try reflexivity; exfalso; lia.
  - cbn [fill Nat.sub]. rewrite Nat.sub_0_r, IH, length_upd, nth_upd.
    nat_cases; subst; cbn [andb]; try reflexivity; exfalso; lia.
Qed.

Section SummaryLines.

Variable host : byte_order.
Context {FA : FloatArith} {FL : FloatLibc FA}.

Local Open Scope float_scope.

Lemma summary_b_loop_signals cols nx todo : forall i0 ny d s,
  let '(ny', d', s') := summary_b_loop todo (S i0) cols nx ny d s in
  forall j, (i0 <= j < i0 + todo)%nat -> (j < length ny)%nat ->
            nth j ny' f_NAN = strtof (field cols (S j)).
Proof.
  induction todo as [|todo IH]; intros i0 ny d s.
  - cbn [summary_b_loop]. intros j Hj. lia.
  - cbn [summary_b_loop Nat.sub]. rewrite !Nat.sub_0_r.
    set (ny1 := upd i0 (strtof (field cols (S i0))) ny).
    set (d1 := upd i0 _ d). set (s1 := upd i0 _ s).
    specialize (IH (S i0) ny1 d1 s1).
    pose proof (summary_b_loop_spec cols nx todo (S i0) ny1 d1 s1) as Sp.
    destruct (summary_b_loop todo (S (S i0)) cols nx ny1 d1 s1) as [[ny' d'] s'].
    destruct Sp as (_ & Hlow & _).
    intros j Hj Hy.
    destruct (Nat.eq_dec j i0) as [->|Hne].
    + destruct (Hlow i0 ltac:(lia)) as (a & _). rewrite a. subst ny1.
      now rewrite nth_upd_same by exact Hy.
    + apply IH; [lia|]. subst ny1. now rewrite length_upd.
Qed.

(** The summary table: the line "-A" that the search stops at gives the
    signals A, the line after it the signals B. *)
Lemma read_summary_decoded fp0 (v v' : varitr_t) :
  read_summary fp0 v = Ok v' ->
  exists colsA fp1 strB fp2,
    summary_seek (S (length (remaining fp0))) fp0 (nsmpl v) = Ok (colsA, fp1) /\
    hts_getline fp1 = Some (strB, fp2) /\
    summary_fp v' = Some fp2 /\
    forall j, (j < nsmpl v)%nat -> long_enough v j ->
              summary_decoded colsA (ksplit_core strB TAB) v' j.
Proof.
  unfold read_summary. intros H.
  destruct (summary_seek _ fp0 (nsmpl v)) as [[colsA fp1]| | |] eqn:Es;
    cbn [bind] in H; try discriminate H.
  destruct (hts_getline fp1) as [[[|c str] fp2]|] eqn:Eg; try discriminate H.
  destruct (negb _); [discriminate H|].
  destruct (ksplit_core (c :: str) TAB) as [|[off0 f0] rest] eqn:Ek;
    [discriminate H|].
  destruct ((length f0 <? 2)%nat && (off0 + length f0 <? 2)%nat);
    [discriminate H|].
  set (nx := fill (nsmpl v) 1 _ (norm_x_arr v)) in H.
  pose proof (summary_b_loop_spec ((off0, f0) :: rest) nx (nsmpl v) 0
                (norm_y_arr v) (delta_arr v) (size_arr v)) as S1.
  pose proof (summary_b_loop_signals ((off0, f0) :: rest) nx (nsmpl v) 0
                (norm_y_arr v) (delta_arr v) (size_arr v)) as S2.
  destruct (summary_b_loop (nsmpl v) 1 ((off0, f0) :: rest) nx (norm_y_arr v)
                           (delta_arr v) (size_arr v)) as [[ny d] s].
  destruct S1 as (_ & _ & Hin).
  destruct (check_probe_set_id (probe_set_id v) _) as [id| | |] eqn:Eid;
    cbn [bind] in H; try discriminate H.
  injection H as <-.
  exists colsA, fp1, (c :: str), fp2.
  split; [reflexivity|]. split; [exact Eg|]. split; [reflexivity|].
  intros j Hj (_ & Lx & Ly & Ld & Ls).
  unfold summary_decoded.
  cbn [norm_x_arr norm_y_arr delta_arr size_arr set_probe_set_id set_summary_fp
       set_intensities].
  rewrite Ek.
  assert (Hx : nth j nx f_NAN = strtof (field colsA (S j))).
  { subst nx. rewrite nth_fill.
    destruct (Nat.leb_spec 0 j); [|lia].
    destruct (Nat.ltb_spec j (0 + nsmpl v)); [|lia].
    destruct (Nat.ltb_spec j (length (norm_x_arr v))); [|lia]. reflexivity. }
  assert (Hy : nth j ny f_NAN = strtof (field ((off0, f0) :: rest) (S j))).
  { apply S2; [lia|exact Ly]. }
  destruct (Hin j ltac:(lia) Ly Ld Ls) as [Hd Hs].
  rewrite Hd, Hs, Hx, Hy. repeat split; reflexivity.
Qed.

(** A step over text tables with a summary table. *)
Lemma varitr_loop_summary (v v' : varitr_t) fp0 :
  varitr_loop host v = Ok v' -> data_sets v = None -> summary_fp v = Some fp0 ->
  exists fpa strA fp1 strB fp2,
    summary_seek (S (length (remaining fp0))) fp0 (nsmpl v)
    = Ok (ksplit_core strA TAB, fp1) /\
    hts_getline fpa = Some (strA, fp1) /\
    hts_getline fp1 = Some (strB, fp2) /\
    summary_fp v' = Some fp2 /\
    forall j, (j < nsmpl v)%nat -> long_enough v j ->
              summary_decoded (ksplit_core strA TAB) (ksplit_core strB TAB) v' j.
Proof.
  unfold varitr_loop. cbn [data_sets set_probe_set_id].
  intros H Hd Hs. rewrite Hd in H.
  destruct (read_calls _) as [v1| | |] eqn:E1; cbn [bind] in H; try discriminate H.
  destruct (read_confidences v1) as [v2| | |] eqn:E2; cbn [bind] in H;
    try discriminate H.
  apply read_calls_ok in E1. destruct E1 as (N1 & S1 & _ & L1 & _).
  apply read_confidences_ok in E2. destruct E2 as (N2 & S2 & L2 & _).
  cbn in N1, S1.
  unfold read_intensities in H.
  assert (Hs2 : summary_fp v2 = Some fp0) by congruence.
  rewrite Hs2 in H.
  apply read_summary_decoded in H as (colsA & fp1 & strB & fp2 & Hk & Hg & Hf & D).
  assert (Hn : nsmpl v2 = nsmpl v) by congruence.
  rewrite Hn in Hk, D.
  pose proof (summary_seek_paired_spec _ _ _ _ _ Hk)
    as (fpa & strA & off0 & prefix & rest & Hga & Hka & _).
  subst colsA.
  exists fpa, strA, fp1, strB, fp2.
  split; [exact Hk|]. split; [exact Hga|]. split; [exact Hg|]. split; [exact Hf|].
  intros j Hj Hl. apply D; [exact Hj|]. apply L2, L1. exact Hl.
Qed.

End SummaryLines.

(** ** The first step after the initialisation *)

Lemma varitr_init_cc_file_row agcc data_set axiom :
  varitr_init_cc_file agcc = Run (Ok (data_set, axiom)) ->
  exists group set0 groups sets,
    Agcc.data_groups agcc = group :: groups /\
    Group.data_sets group = set0 :: sets /\
    data_set = at_first_row set0 /\
    (axiom = 1 <-> either_name set0 3 "Log Ratio" 4 "Strength" = Ok true) /\
    (axiom = 0 -> either_name set0 3 "Signal A" 4 "Signal B" = Ok true).
Proof.
  unfold varitr_init_cc_file. intros H.
  destruct (Header.data_type_identifier _) as [id|]; [|discriminate H].
  destruct (negb (list_byte_eqb (c_string id) _)); [discriminate H|].
  destruct (Agcc.num_data_groups agcc =? 0); [discriminate H|].
  destruct (Agcc.data_groups agcc) as [|group groups]; [discriminate H|].
  destruct (Group.name group) as [gname|]; [|discriminate H].
  destruct (negb (wcs_eq gname _)); [discriminate H|].
  destruct (Group.num_data_sets group =? 0); [discriminate H|].
  destruct (Group.data_sets group) as [|set0 sets] eqn:Eds; [discriminate H|].
  destruct (name set0) as [sname|] eqn:En0; [|discriminate H].
  destruct (negb (wcs_eq sname _)); [discriminate H|].
  destruct (names_differ set0 _) as [differ| | |]; cbn [init_bind] in H;
    try discriminate H.
  destruct differ; [discriminate H|].
  exists group, set0, groups, sets.
  split; [reflexivity|]. split; [exact Eds|].
  destruct (either_name set0 3 "Log Ratio" 4 "Strength") as [axiom0| | |] eqn:Ea;
    cbn [init_bind] in H; try discriminate H.
  destruct axiom0.
  - cbn [init_bind] in H. injection H as <- <-.
    split; [unfold at_first_row; now rewrite En0|].
    split; [split; reflexivity|intros C; discriminate C].
  - destruct (either_name set0 3 "Signal A" 4 "Signal B") as [[|]| | |] eqn:Es;
      cbn [init_bind] in H; try discriminate H.
    injection H as <- <-.
    split; [unfold at_first_row; now rewrite En0|].
    split; [split; intros C; discriminate C|reflexivity].
Qed.

Lemma varitr_init_cc_files_nth agcc : forall dss axioms names j a,
  varitr_init_cc_files agcc = Run (Ok (dss, axioms, names)) ->
  nth_error agcc j = Some a ->
  exists data_set axiom,
    nth_error dss j = Some data_set /\ nth_error axioms j = Some axiom /\
    varitr_init_cc_file a = Run (Ok (data_set, axiom)).
Proof.
  induction agcc as [|a0 agcc IH]; intros dss axioms names j a H Hj;
    [destruct j; discriminate Hj|].
  cbn [varitr_init_cc_files] in H.
  destruct (varitr_init_cc_file a0) as [e|[[ds ax]| | |]] eqn:Ea;
    cbn [init_bind] in H; try discriminate H.
  destruct (varitr_init_cc_files agcc) as [e|[[[dss' axs'] names']| | |]] eqn:Er;
    cbn [init_bind] in H; try discriminate H.
  injection H as <- <- <-.
  destruct j as [|j]; cbn [nth_error] in Hj |- *.
  - injection Hj as <-. exists ds, ax. repeat split. exact Ea.
  - exact (IH _ _ _ _ _ eq_refl Hj).
Qed.

Lemma varitr_init_txt_summary calls confidences fs
  {FA : FloatArith} (v : varitr_t) samples :
  varitr_init_txt calls confidences (Some fs) = Run (Ok (v, samples)) ->
  exists fs1 names, txt_table fs = Run (Ok (fs1, names)) /\ summary_fp v = Some fs1.
Proof.
  unfold varitr_init_txt. intros H.
  destruct calls as [fc|];
    [destruct (txt_table fc) as [e|[[fc1 names1]| | |]];
       cbn [init_bind] in H; try discriminate H|];
    (destruct confidences as [fq|];
     [destruct (txt_table fq) as [e|[[fq1 names2]| | |]];
        cbn [init_bind] in H; try discriminate H|]);
    cbn [init_bind] in H;
    (destruct (txt_table fs) as [e|[[fs1 names3]| | |]];
     cbn [init_bind] in H; try discriminate H);
    injection H as <- _; exists fs1, names3; split; reflexivity.
Qed.

Section FirstStep.

Variable host : byte_order.
Context {FA : FloatArith} {FL : FloatLibc FA}.

(** X18.  After [varitr_init_cc], a step of [varitr_loop] that returns a row has
    decoded, for every file, the row at the first element of its data set
    "Genotype": the call is the entry of the table for the low four bits of
    the byte in column 1, the confidence is the float in column 2, and
    columns 3 and 4 are the signals A and B, with the contrast and the size
    as their transform, when the file names them "Signal A" or "Signal B",
    and the contrast and the size themselves, with the signals computed
    from them, when it names them "Log Ratio" or "Strength". *)
Theorem varitr_init_cc_then_loop (agcc : list Agcc.agcc_t) (v v' : varitr_t)
  (names : list (list byte)) :
  varitr_init_cc agcc = Run (Ok (v, names)) ->
  varitr_loop host v = Ok v' ->
  nsmpl v' = length agcc /\ fits_buffer (probe_set_id v') /\
  forall j a, nth_error agcc j = Some a ->
    exists group set0 groups sets,
      Agcc.data_groups a = group :: groups /\
      Group.data_sets group = set0 :: sets /\
      let row := firstn (Z.to_nat (n_buffer set0))
                   (skipn (Z.to_nat (pos_first_element set0))
                          (contents (fp set0))) in
      let axiom := nth j (is_axiom v) 1 in
      (axiom = 1 <-> either_name set0 3 "Log Ratio" 4 "Strength" = Ok true) /\
      (axiom = 0 -> either_name set0 3 "Signal A" 4 "Signal B" = Ok true) /\
      (axiom = 0 \/ axiom = 1) /\
      row_call (col_offsets set0) row v' j /\
      row_confidence (col_offsets set0) row v' j /\
      row_intensities (col_offsets set0) row axiom v' j.
Proof.
  intros Hinit Hloop.
  pose proof (varitr_init_cc_spec _ _ _ Hinit)
    as (Hn & Ha & _ & _ & _ & _ & Hax01 & _).
  pose proof (varitr_loop_ok _ _ _ Hloop) as (Hn' & Hfit & _ & _).
  split; [congruence|]. split; [exact Hfit|].
  intros j a Hj.
  unfold varitr_init_cc in Hinit.
  destruct (varitr_init_cc_files agcc) as [e|[[[dss axioms] names']| | |]] eqn:E;
    cbn [init_bind] in Hinit; try discriminate Hinit.
  injection Hinit as Hv _.
  assert (Hd : data_sets v = Some dss) by (rewrite <- Hv; reflexivity).
  assert (Hx : is_axiom v = axioms) by (rewrite <- Hv; reflexivity).
  destruct (varitr_init_cc_files_nth _ _ _ _ _ _ E Hj)
    as (data_set & axiom & Hds & Hax & Hfile).
  apply varitr_init_cc_file_row in Hfile
    as (group & set0 & groups & sets & Hg & Hs & -> & Hlog & Hsig).
  exists group, set0, groups, sets.
  split; [exact Hg|]. split; [exact Hs|]. cbn zeta.
  assert (Hnth : nth j (is_axiom v) 1 = axiom).
  { rewrite Hx. apply nth_error_nth. exact Hax. }
  rewrite Hnth.
  assert (Hlt : (j < nsmpl v)%nat).
  { rewrite Hn. apply nth_error_Some. congruence. }
  destruct (varitr_loop_rows host v v' dss j _ Hloop Hd Hlt Hds) as [D Q].
  rewrite Hnth in D.
  destruct (D (allocated_long_enough _ _ Ha Hlt)) as [Dc Di].
  assert (Hc : (j < length (conf_arr v))%nat).
  { destruct Ha as (_ & -> & _). exact Hlt. }
  split; [exact Hlog|]. split; [exact Hsig|].
  split.
  { rewrite Forall_forall in Hax01. apply Hax01. rewrite Hx.
    eapply nth_error_In. exact Hax. }
  split; [exact Dc|]. split; [exact (Q Hc)|exact Di].
Qed.

(** X19.  After [varitr_init_txt] with a summary table, a step of
    [varitr_loop] that returns a row has read a pair of lines of that table
    after its header, a line "-A" and the line that follows it, and has for
    every sample the signal A from the column of the sample in the first
    line, the signal B from that column in the second, and the contrast and
    the size as their transform. *)
Theorem varitr_init_txt_then_loop (calls confidences summary : option hFILE)
  (v v' : varitr_t) (samples : list (list byte)) :
  varitr_init_txt calls confidences summary = Run (Ok (v, samples)) ->
  summary <> None ->
  varitr_loop host v = Ok v' ->
  nsmpl v' = length samples /\ fits_buffer (probe_set_id v') /\
  exists table names fp0 fpa strA fp1 strB fp2,
    summary = Some table /\
    txt_table table = Run (Ok (fp0, names)) /\
    summary_seek (S (length (remaining fp0))) fp0 (length samples)
    = Ok (ksplit_core strA TAB, fp1) /\
    hts_getline fpa = Some (strA, fp1) /\
    hts_getline fp1 = Some (strB, fp2) /\
    summary_fp v' = Some fp2 /\
    forall j, (j < length samples)%nat ->
      summary_decoded (ksplit_core strA TAB) (ksplit_core strB TAB) v' j.
Proof.
  intros Hinit Hsum Hloop.
  pose proof (varitr_init_txt_spec _ _ _ _ _ Hinit)
    as (Hn & Ha & Hd & _ & _ & _ & _ & _ & _).
  pose proof (varitr_loop_ok _ _ _ Hloop) as (Hn' & Hfit & _ & _).
  split; [congruence|]. split; [exact Hfit|].
  destruct summary as [table|]; [|contradiction].
  apply varitr_init_txt_summary in Hinit as (fp0 & names & Ht & Hs).
  destruct (varitr_loop_summary host v v' fp0 Hloop Hd Hs)
    as (fpa & strA & fp1 & strB & fp2 & Hk & Hga & Hgb & Hf & D).
  exists table, names, fp0, fpa, strA, fp1, strB, fp2.
  rewrite Hn in Hk, D.
  split; [reflexivity|]. split; [exact Ht|]. split; [exact Hk|].
  split; [exact Hga|]. split; [exact Hgb|]. split; [exact Hf|].
  intros j Hj. apply D; [exact Hj|].
  apply allocated_long_enough; [exact Ha|lia].
Qed.

End FirstStep.

Section FirstStepExamples.

Context {FA : FloatArith} {FL : FloatLibc FA}.

Lemma signals_initialised_eq :
  varitr_init_cc [chp_signal_1_loaded; chp_signal_2_loaded]
  = Run (Ok (signals_initialised, [cstr "s1"; cstr "s2"])).
Proof. vm_compute. reflexivity. Qed.

Lemma signals_first_row_eq host :
  varitr_loop host signals_initialised = Ok signals_first_row.
Proof. destruct host; vm_compute; reflexivity. Qed.

Lemma signals_first_row_facts :
  is_axiom signals_initialised = [0; 0] /\
  gts signals_first_row = [GT_AA; GT_AB] /\
  norm_x_arr signals_first_row = [of_bits 0x42C80000; of_bits 0x41000000] /\
  norm_y_arr signals_first_row = [of_bits 0x41C80000; of_bits 0x3F800000].
Proof. repeat split; reflexivity. Qed.

Lemma txt_first_row_signals :
  norm_x_arr txt_first_row = [strtof (cstr "100"); strtof (cstr "7")] /\
  norm_y_arr txt_first_row = [strtof (cstr "25"); strtof (cstr "9")].
Proof. split; reflexivity. Qed.

Lemma signal_rows_step host :
  varitr_loop host (cc_iterator [genotype_data_set [signal_row];
                                 genotype_data_set [signal_row_2]] [0; 0])
  = Ok signal_rows_after.
Proof. destruct host; vm_compute; reflexivity. Qed.

Lemma summary_two_samples_step host :
  varitr_loop host (txt_iterator 2 None None (Some summary_two_samples))
  = Ok summary_two_samples_after.
Proof. vm_compute; reflexivity. Qed.

End FirstStepExamples.

Lemma varitr_init_cc_then_loop_witness :
  gts (FA := exact_real) signals_first_row = [GT_AA; GT_AB] /\
  norm_x_arr (FA := exact_real) signals_first_row
  = [of_bits 0x42C80000; of_bits 0x41000000] /\
  exists group set0 groups sets,
    Agcc.data_groups chp_signal_2_loaded = group :: groups /\
    Group.data_sets group = set0 :: sets /\
    either_name set0 3 "Signal A" 4 "Signal B" = Ok true /\
    row_call (FA := exact_real) (col_offsets set0)
      (firstn (Z.to_nat (n_buffer set0))
         (skipn (Z.to_nat (pos_first_element set0)) (contents (fp set0))))
      signals_first_row 1 /\
    row_intensities (FA := exact_real) (col_offsets set0)
      (firstn (Z.to_nat (n_buffer set0))
         (skipn (Z.to_nat (pos_first_element set0)) (contents (fp set0))))
      0 signals_first_row 1.
Proof.
  pose proof (signals_first_row_facts (FA := exact_real)) as (_ & F1 & F2 & _).
  split; [exact F1|]. split; [exact F2|].
  pose proof (varitr_init_cc_then_loop LittleEndian (FA := exact_real)
                [chp_signal_1_loaded; chp_signal_2_loaded]
                signals_initialised signals_first_row [cstr "s1"; cstr "s2"]
                signals_initialised_eq (signals_first_row_eq LittleEndian))
    as (_ & _ & H).
  destruct (H 1%nat chp_signal_2_loaded eq_refl)
    as (group & set0 & groups & sets & Hg & Hs & _ & Hsig & _ & Hc & _ & Hi).
  exists group, set0, groups, sets.
  split; [exact Hg|]. split; [exact Hs|].
  split; [exact (Hsig eq_refl)|]. split; [exact Hc|exact Hi].
Defined.

Lemma varitr_init_txt_then_loop_witness :
  norm_x_arr (FA := exact_real) txt_first_row
  = [strtof (cstr "100"); strtof (cstr "7")] /\
  norm_y_arr (FA := exact_real) txt_first_row
  = [strtof (cstr "25"); strtof (cstr "9")] /\
  exists table names fp0 fpa strA fp1 strB fp2,
    Some (hopen summary_table) = Some table /\
    txt_table table = Run (Ok (fp0, names)) /\
    summary_seek (S (length (remaining fp0))) fp0 2
    = Ok (ksplit_core strA TAB, fp1) /\
    hts_getline fpa = Some (strA, fp1) /\
    hts_getline fp1 = Some (strB, fp2) /\
    summary_fp (FA := exact_real) txt_first_row = Some fp2 /\
    forall j, (j < 2)%nat ->
      summary_decoded (FA := exact_real) (ksplit_core strA TAB)
                      (ksplit_core strB TAB) txt_first_row j.
Proof.
  pose proof (txt_first_row_signals (FA := exact_real)) as (F1 & F2).
  split; [exact F1|]. split; [exact F2|].
  exact (proj2 (proj2
    (varitr_init_txt_then_loop LittleEndian (FA := exact_real)
       (Some (hopen calls_table)) None (Some (hopen summary_table))
       txt_initialised txt_first_row [cstr "s1"; cstr "s2"]
       txt_initialised_eq ltac:(discriminate) (txt_first_row_eq LittleEndian)))).
Defined.

(** ** Signals A and B *)

Local Open Scope R_scope.

Lemma ln_8 : ln 8 = 3 * ln 2.
Proof. replace 8 with (2 * (2 * 2)) by lra. rewrite !ln_mult by lra. lra. Qed.

Lemma delta_8_1 : ln 8 * / ln 2 - ln 1 * / ln 2 = 3.
Proof. pose proof ln2_pos. rewrite ln_8, ln_1. field. lra. Qed.

Lemma size_8_1 : (ln 8 * / ln 2 + ln 1 * / ln 2) * (5 / 10) = 3 / 2.
Proof. pose proof ln2_pos. rewrite ln_8, ln_1. field. lra. Qed.

Lemma R_strtof_8 : R_strtof (cstr "8") = 8.
Proof.
  unfold R_strtof.
  replace (strtof_decimal (cstr "8")) with (8%Z, 0%nat) by (vm_compute; reflexivity).
  simpl. lra.
Qed.

Lemma R_strtof_1 : R_strtof (cstr "1") = 1.
Proof.
  unfold R_strtof.
  replace (strtof_decimal (cstr "1")) with (1%Z, 0%nat) by (vm_compute; reflexivity).
  simpl. lra.
Qed.

Lemma R_of_bits_8 : R_of_bits 0x41000000 = 8.
Proof.
  unfold R_of_bits.
  replace (Z.testbit 0x41000000 31) with false by (vm_compute; reflexivity).
  replace (Z.land (Z.shiftr 0x41000000 23) 255) with 130%Z by (vm_compute; reflexivity).
  replace (Z.land 0x41000000 (2 ^ 23 - 1)) with 0%Z by (vm_compute; reflexivity).
  simpl. lra.
Qed.

Lemma R_of_bits_1 : R_of_bits 0x3F800000 = 1.
Proof.
  unfold R_of_bits.
  replace (Z.testbit 0x3F800000 31) with false by (vm_compute; reflexivity).
  replace (Z.land (Z.shiftr 0x3F800000 23) 255) with 127%Z by (vm_compute; reflexivity).
  replace (Z.land 0x3F800000 (2 ^ 23 - 1)) with 0%Z by (vm_compute; reflexivity).
  simpl. lra.
Qed.

(** The summary table and the CHP rows of two samples, with the signals 100
    and 25 for the first and 8 and 1 for the second, in exact arithmetic. *)
Lemma exact_summary_two_samples :
  exists v' size,
    varitr_loop (FA := exact_real) LittleEndian
      (txt_iterator 2 None None (Some summary_two_samples)) = Ok v' /\
    norm_x_arr v' = [100; 8] /\ norm_y_arr v' = [25; 1] /\
    delta_arr v' = [2; 3] /\ size_arr v' = [size; 3 / 2] /\
    size = ln (100 * 25) / ln 2 / 2 /\ 56438 / 10000 < size < 56441 / 10000.
Proof.
  eexists. exists ((ln 100 * / ln 2 + ln 25 * / ln 2) * (5 / 10)).
  split; [apply summary_two_samples_step|].
  unfold summary_two_samples_after.
  cbn [norm_x_arr norm_y_arr delta_arr size_arr].
  unfold log2f.
  cbn [strtof logf fsub fadd fmul f_0_5 M_LOG2E exact_real exact_real_libc].
  rewrite R_strtof_100, R_strtof_25, R_strtof_8, R_strtof_1.
  rewrite delta_100_25, delta_8_1, size_8_1.
  repeat (split; [reflexivity|]). apply size_100_25.
Qed.

Lemma exact_rows_two_samples :
  exists v' size,
    varitr_loop (FA := exact_real) LittleEndian
      (cc_iterator [genotype_data_set [signal_row];
                    genotype_data_set [signal_row_2]] [0%Z; 0%Z]) = Ok v' /\
    norm_x_arr v' = [100; 8] /\ norm_y_arr v' = [25; 1] /\
    delta_arr v' = [2; 3] /\ size_arr v' = [size; 3 / 2] /\
    size = ln (100 * 25) / ln 2 / 2 /\ 56438 / 10000 < size < 56441 / 10000.
Proof.
  eexists. exists ((ln 100 * / ln 2 + ln 25 * / ln 2) * (5 / 10)).
  split; [apply signal_rows_step|].
  unfold signal_rows_after.
  cbn [norm_x_arr norm_y_arr delta_arr size_arr].
  unfold log2f.
  cbn [of_bits logf fsub fadd fmul f_0_5 M_LOG2E exact_real exact_real_libc].
  rewrite R_of_bits_100, R_of_bits_25, R_of_bits_8, R_of_bits_1.
  rewrite delta_100_25, delta_8_1, size_8_1.
  repeat (split; [reflexivity|]). apply size_100_25.
Qed.

Local Close Scope R_scope.

(** C4 (amended).  For a sample whose source gives the raw signals A and B,
    a step of the iterator that returns a row leaves for the sample the
    signals A and B of the source, the contrast [log2 A - log2 B] and the
    size [(log2 A + log2 B) / 2], [log2 x] being [logf(x) * (float)M_LOG2E].
    From a CHP file in "Signal A/B" mode, A and B of sample [j] are the
    floats whose bits stand, most significant byte first, in columns 3 and 4
    of the row that is read from the data set of the sample.  From the text
    summary table, they are the numbers in column [j + 1] of the line "-A"
    that the search stops at and of the line that follows it.  This holds
    under every interpretation of the float operations, and in exact
    arithmetic [log2 x = ln x / ln 2].  For two samples with the signals
    100 and 25, and 8 and 1, from the summary table as from CHP rows, the
    contrasts are 2 and 3 in exact arithmetic and the sizes are
    [log2 (100 * 25) / 2], which lies between 5.6438 and 5.6441, and 3/2. *)
Theorem signal_transform_computed :
  (forall (FA : FloatArith) (FL : FloatLibc FA) host (v v' : varitr_t) dss j
          data_set,
     varitr_loop host v = Ok v' -> data_sets v = Some dss ->
     (j < nsmpl v)%nat -> long_enough v j ->
     nth_error dss j = Some data_set -> nth j (is_axiom v) 1 = 0 ->
     exists a b,
       row_be32 (col_offsets data_set) (next_row data_set) 3 = Some a /\
       row_be32 (col_offsets data_set) (next_row data_set) 4 = Some b /\
       nth j (norm_x_arr v') f_NAN = of_bits a /\
       nth j (norm_y_arr v') f_NAN = of_bits b /\
       nth j (delta_arr v') f_NAN
       = (log2f (of_bits a) - log2f (of_bits b))%flt /\
       nth j (size_arr v') f_NAN
       = ((log2f (of_bits a) + log2f (of_bits b)) * f_0_5)%flt) /\
  (forall (FA : FloatArith) (FL : FloatLibc FA) host (v v' : varitr_t) fp0 j,
     varitr_loop host v = Ok v' -> data_sets v = None ->
     summary_fp v = Some fp0 ->
     (j < nsmpl v)%nat -> long_enough v j ->
     exists fpa strA fp1 strB fp2,
       summary_seek (S (length (remaining fp0))) fp0 (nsmpl v)
       = Ok (ksplit_core strA TAB, fp1) /\
       hts_getline fpa = Some (strA, fp1) /\
       hts_getline fp1 = Some (strB, fp2) /\
       let A := strtof (field (ksplit_core strA TAB) (S j)) in
       let B := strtof (field (ksplit_core strB TAB) (S j)) in
       nth j (norm_x_arr v') f_NAN = A /\
       nth j (norm_y_arr v') f_NAN = B /\
       nth j (delta_arr v') f_NAN = (log2f A - log2f B)%flt /\
       nth j (size_arr v') f_NAN = ((log2f A + log2f B) * f_0_5)%flt) /\
  (forall x : R, log2f (FL := exact_real_libc) x = (ln x / ln 2)%R) /\
  (exists v' size,
     varitr_loop (FA := exact_real) LittleEndian
       (txt_iterator 2 None None (Some summary_two_samples)) = Ok v' /\
     norm_x_arr v' = [100%R; 8%R] /\ norm_y_arr v' = [25%R; 1%R] /\
     delta_arr v' = [2%R; 3%R] /\ size_arr v' = [size; (3 / 2)%R] /\
     size = (ln (100 * 25) / ln 2 / 2)%R /\
     (56438 / 10000 < size < 56441 / 10000)%R) /\
  (exists v' size,
     varitr_loop (FA := exact_real) LittleEndian
       (cc_iterator [genotype_data_set [signal_row];
                     genotype_data_set [signal_row_2]] [0; 0]) = Ok v' /\
     norm_x_arr v' = [100%R; 8%R] /\ norm_y_arr v' = [25%R; 1%R] /\
     delta_arr v' = [2%R; 3%R] /\ size_arr v' = [size; (3 / 2)%R] /\
     size = (ln (100 * 25) / ln 2 / 2)%R /\
     (56438 / 10000 < size < 56441 / 10000)%R).
Proof.
  split; [|split; [|split; [|split]]].
  - intros FA FL host v v' dss j data_set H Hd Hj Hl Hn Ha.
    destruct (varitr_loop_rows host v v' dss j data_set H Hd Hj Hn) as [D _].
    destruct (D Hl) as (_ & a & b & Ra & Rb & H0 & _).
    destruct (H0 Ha) as (Hx & Hy & Hdl & Hs).
    exists a, b. repeat split; assumption.
  - intros FA FL host v v' fp0 j H Hd Hs Hj Hl.
    destruct (varitr_loop_summary host v v' fp0 H Hd Hs)
      as (fpa & strA & fp1 & strB & fp2 & Hk & Hga & Hgb & _ & D).
    exists fpa, strA, fp1, strB, fp2.
    split; [exact Hk|]. split; [exact Hga|]. split; [exact Hgb|].
    exact (D j Hj Hl).
  - intros x. reflexivity.
  - exact exact_summary_two_samples.
  - exact exact_rows_two_samples.
Qed.

Lemma signal_transform_computed_witness :
  varitr_loop (FA := exact_real) LittleEndian
    (txt_iterator 2 None None (Some summary_two_samples))
  = Ok summary_two_samples_after /\
  nth 1 (norm_x_arr (FA := exact_real) summary_two_samples_after) f_NAN
  = strtof (cstr "8") /\
  exists fpa strA fp1 strB fp2,
    summary_seek (S (length (remaining (hopen summary_two_samples))))
                 (hopen summary_two_samples) 2
    = Ok (ksplit_core strA TAB, fp1) /\
    hts_getline fpa = Some (strA, fp1) /\
    hts_getline fp1 = Some (strB, fp2) /\
    nth 1 (norm_x_arr (FA := exact_real) summary_two_samples_after) f_NAN
    = strtof (field (ksplit_core strA TAB) 2) /\
    nth 1 (norm_y_arr (FA := exact_real) summary_two_samples_after) f_NAN
    = strtof (field (ksplit_core strB TAB) 2).
Proof.
  assert (E : varitr_loop (FA := exact_real) LittleEndian
                (txt_iterator 2 None None (Some summary_two_samples))
              = Ok summary_two_samples_after) by apply summary_two_samples_step.
  assert (L : long_enough (FA := exact_real)
                (txt_iterator 2 None None (Some summary_two_samples)) 1).
  { unfold long_enough, txt_iterator.
    cbn [gts norm_x_arr norm_y_arr delta_arr size_arr repeat length]. lia. }
  split; [exact E|]. split; [reflexivity|].
  destruct (proj1 (proj2 signal_transform_computed) exact_real exact_real_libc
              LittleEndian _ _ (hopen summary_two_samples) 1%nat E eq_refl eq_refl
              ltac:(cbn [nsmpl txt_iterator]; lia) L)
    as (fpa & strA & fp1 & strB & fp2 & Hk & Hga & Hgb & Hx & Hy & _).
  exists fpa, strA, fp1, strB, fp2.
  split; [exact Hk|]. split; [exact Hga|]. split; [exact Hgb|].
  split; [exact Hx|exact Hy].
Defined.
